(** * GBA emulator drafts: memory bus, processor core, video timing, keypad

    A shallow embedding of the Python sources
      - [0.py]            : the two [MemoryManager] buses (lines 73-199 and
                            lines 412-475),
      - [flamesgbav2.py]  : [Memory], [ARM7TDMI], [PPU] and [Keypad]
                            (the module the other drafts import under the
                            name [gba_emu_enhanced]),
    and the properties of them that the specification states.

    Python integers are unbounded, so they are [Z] and every mask the code
    applies is written out.  A [bytearray] is a [list byte]; an operation
    that can raise in Python returns in the [res] type, so that "does not
    raise" is a theorem and not an assumption. *)

From Stdlib Require Import ZArith Lia ZifyBool String Ascii List Bool.
From coqutil Require Import Byte Z.bitblast Word.LittleEndianList.
From stdpp Require Import base gmap list strings.

Local Open Scope Z_scope.

(** ** Python: exceptions, state, bytearrays *)

Module Py.

Inductive exn : Set :=
| IndexError | KeyError | ValueError | OverflowError | AttributeError.

Inductive res (A : Type) : Type :=
| Ok (a : A)
| Raise (e : exn).
Arguments Ok {A} a.
Arguments Raise {A} e.

(** A method of an object with state [S]: it returns a value and the new
    state, or raises. *)
Definition M (S A : Type) : Type := S -> res (A * S).

Definition ret {S A} (a : A) : M S A := fun s => Ok (a, s).

Definition bind {S A B} (c : M S A) (k : A -> M S B) : M S B :=
  fun s => match c s with
           | Ok (a, s') => k a s'
           | Raise e => Raise e
           end.

Definition raise {S A} (e : exn) : M S A := fun _ => Raise e.

Definition lift {S A} (r : res A) : M S A :=
  fun s => match r with Ok a => Ok (a, s) | Raise e => Raise e end.

Definition gets {S A} (f : S -> A) : M S A := fun s => Ok (f s, s).

Definition modify {S} (f : S -> S) : M S unit := fun s => Ok (tt, f s).

Definition raises {A} (r : res A) : Prop :=
  match r with Ok _ => False | Raise _ => True end.

(** [len(b)] *)
Definition len {A} (l : list A) : Z := Z.of_nat (length l).

(** Python's index normalisation: a negative index counts from the end. *)
Definition norm_index (n i : Z) : Z := if i <? 0 then i + n else i.

(** [l[i]] and [l[i] = v] on a Python list. *)
Definition list_getitem {A} (l : list A) (i : Z) : res A :=
  let j := norm_index (len l) i in
  if (0 <=? j) && (j <? len l) then
    match l !! Z.to_nat j with
    | Some x => Ok x
    | None => Raise IndexError
    end
  else Raise IndexError.

Definition list_setitem {A} (l : list A) (i : Z) (v : A) : res (list A) :=
  let j := norm_index (len l) i in
  if (0 <=? j) && (j <? len l) then Ok (<[Z.to_nat j := v]> l)
  else Raise IndexError.

(** An [array.array('L')] holds unsigned machine words: a store of a
    negative value or of one that does not fit raises [OverflowError].
    The item size is that of the platform's unsigned long, at least 32
    bits; every store of the sources is masked to 32 bits first, so the
    bound taken here is the guaranteed one. *)
Definition array_setitem (l : list Z) (i v : Z) : res (list Z) :=
  if (0 <=? v) && (v <? 2 ^ 32) then list_setitem l i v
  else Raise OverflowError.

(** [range(n)] *)
Definition range (n : Z) : list Z := Z.of_nat <$> seq 0 (Z.to_nat n).

(** [b[i]] on a bytearray: an int in [range(256)], or [IndexError]. *)
Definition getitem (b : list byte) (i : Z) : res Z :=
  let j := norm_index (len b) i in
  if (0 <=? j) && (j <? len b) then
    match b !! Z.to_nat j with
    | Some x => Ok (byte.unsigned x)
    | None => Raise IndexError
    end
  else Raise IndexError.

(** [b[i] = v] on a bytearray: [ValueError] unless [v] is in [range(256)],
    [IndexError] when the index is out of range. *)
Definition setitem (b : list byte) (i v : Z) : res (list byte) :=
  let j := norm_index (len b) i in
  if (0 <=? j) && (j <? len b) then
    if (0 <=? v) && (v <? 256) then Ok (<[Z.to_nat j := byte.of_Z v]> b)
    else Raise ValueError
  else Raise IndexError.

(** Slice bounds as [slice.indices] computes them for step 1. *)
Definition clamp (n i : Z) : Z :=
  if i <? 0 then Z.max 0 (i + n) else Z.min i n.

(** [b[lo:hi]] *)
Definition getslice {A} (b : list A) (lo hi : Z) : list A :=
  let lo' := clamp (len b) lo in
  let hi' := clamp (len b) hi in
  take (Z.to_nat (hi' - lo')) (drop (Z.to_nat lo') b).

(** [b[:hi]] *)
Definition prefix {A} (b : list A) (hi : Z) : list A := getslice b 0 hi.

(** [b[lo:hi] = data]: the slice is replaced by [data], whatever its
    length (a bytearray grows or shrinks). *)
Definition setslice {A} (b : list A) (lo hi : Z) (data : list A) : list A :=
  let lo' := clamp (len b) lo in
  let hi' := Z.max lo' (clamp (len b) hi) in
  take (Z.to_nat lo') b ++ data ++ drop (Z.to_nat hi') b.

(** [int.from_bytes(bs, 'little')] *)
Definition from_bytes (bs : list byte) : Z := le_combine bs.

(** [v.to_bytes(size, 'little')]: unsigned, so [OverflowError] for a
    negative [v] or one that does not fit, [ValueError] for a negative
    size. *)
Definition to_bytes (v size : Z) : res (list byte) :=
  if size <? 0 then Raise ValueError
  else if v <? 0 then Raise OverflowError
  else if 256 ^ size <=? v then Raise OverflowError
  else Ok (le_split (Z.to_nat size) v).

(** [for x in xs: body], with the local variables the body updates
    threaded through as [acc]. *)
Fixpoint for_each {S A} (xs : list Z) (acc : A) (body : Z -> A -> M S A)
  : M S A :=
  match xs with
  | [] => ret acc
  | x :: rest => bind (body x acc) (fun acc' => for_each rest acc' body)
  end.

(** The digits of [f"{n:x}"] for [n >= 0], least significant first in the
    recursion; [fuel] bounds the number of digits. *)
Definition hex_digit (d : Z) : ascii :=
  nth (Z.to_nat d) (list_ascii_of_string "0123456789abcdef") "0"%char.

Fixpoint hex_digits (fuel : nat) (n : Z) (acc : string) : string :=
  match fuel with
  | O => acc
  | S fuel' =>
      let acc' := String (hex_digit (n mod 16)) acc in
      if n / 16 =? 0 then acc' else hex_digits fuel' (n / 16) acc'
  end.

(** [f"{n:02x}"] for [n >= 0]: lower-case hexadecimal, zero-padded to two
    characters. *)
Definition fmt_02x (n : Z) : string :=
  let s := hex_digits (S (Z.to_nat (Z.log2 n))) n EmptyString in
  if (String.length s <? 2)%nat then String "0" s else s.

(** [s.lower()] on an ASCII string. *)
Definition lower_ascii (c : ascii) : ascii :=
  let n := nat_of_ascii c in
  if ((65 <=? n) && (n <=? 90))%nat then ascii_of_nat (n + 32) else c.

Fixpoint lower (s : string) : string :=
  match s with
  | EmptyString => EmptyString
  | String c r => String (lower_ascii c) (lower r)
  end.

(** [bytearray(n)]: [n] zero bytes. *)
Definition zeros (n : Z) : list byte := replicate (Z.to_nat n) Byte.x00.

End Py.

Import Py.

Declare Scope py_scope.
Delimit Scope py_scope with py.
Notation "'let*' x ':=' c 'in' k" := (bind c (fun x => k))
  (at level 10, x pattern, c at level 100, k at level 200) : py_scope.
Notation "c ';;' k" := (bind c (fun _ => k))
  (at level 100, k at level 200, right associativity) : py_scope.
Local Open Scope py_scope.

(** ** The 32-bit rotation the bus documents for misaligned word reads

    [rotr32 v r] is [v] rotated right by [r] bits inside a 32-bit word,
    stated by arithmetic: the low [r] bits of [v] move to the top. *)
Definition rotr32 (v r : Z) : Z := v / 2 ^ r + (v mod 2 ^ r) * 2 ^ (32 - r).

(** ** [0.py], lines 73-199: the byte/halfword/word bus *)

Module MemoryManager.

Inductive Region : Set :=
| bios | ewram | iwram | io_regs | palette | vram | oam | rom | sram
| invalid.

#[global] Instance Region_eq_dec : EqDecision Region.
Proof. solve_decision. Defined.

(** The texts appended to [self.warnings]; each constructor stands for one
    f-string of the source and carries the values it formats. *)
Inductive Warning : Type :=
| BiosTooLarge (n : Z)
| Unmapped (addr : Z)
| OutOfBoundsRead (r : Region) (offset : Z)
| UnalignedHalfwordRead (addr : Z)
| UnalignedWordRead (addr : Z)
| WriteInvalid (addr : Z)
| WriteRom (addr : Z)
| WriteBios (addr : Z)
| OutOfBoundsWrite (r : Region) (offset : Z)
| UnalignedHalfwordWrite (addr : Z)
| UnalignedWordWrite (addr : Z).

Record t : Type := mk {
  m_bios : list byte;
  m_ewram : list byte;
  m_iwram : list byte;
  m_io_regs : list byte;
  m_palette : list byte;
  m_vram : list byte;
  m_oam : list byte;
  m_rom : list byte;
  m_sram : list byte;
  last_read_addr : Z;
  last_write_addr : Z;
  warnings : list Warning
}.

(** [__init__] *)
Definition init : t :=
  {| m_bios := zeros (16 * 1024);
     m_ewram := zeros (256 * 1024);
     m_iwram := zeros (32 * 1024);
     m_io_regs := zeros 1024;
     m_palette := zeros 1024;
     m_vram := zeros (96 * 1024);
     m_oam := zeros 1024;
     m_rom := [];
     m_sram := zeros (64 * 1024);
     last_read_addr := 0;
     last_write_addr := 0;
     warnings := [] |}.

Definition set_last_read_addr (a : Z) (m : t) : t :=
  mk (m_bios m) (m_ewram m) (m_iwram m) (m_io_regs m) (m_palette m)
     (m_vram m) (m_oam m) (m_rom m) (m_sram m)
     a (last_write_addr m) (warnings m).

Definition set_last_write_addr (a : Z) (m : t) : t :=
  mk (m_bios m) (m_ewram m) (m_iwram m) (m_io_regs m) (m_palette m)
     (m_vram m) (m_oam m) (m_rom m) (m_sram m)
     (last_read_addr m) a (warnings m).

Definition set_warnings (ws : list Warning) (m : t) : t :=
  mk (m_bios m) (m_ewram m) (m_iwram m) (m_io_regs m) (m_palette m)
     (m_vram m) (m_oam m) (m_rom m) (m_sram m)
     (last_read_addr m) (last_write_addr m) ws.

(** The same byte regions with other bookkeeping fields. *)
Definition with_meta (lr lw : Z) (ws : list Warning) (m : t) : t :=
  mk (m_bios m) (m_ewram m) (m_iwram m) (m_io_regs m) (m_palette m)
     (m_vram m) (m_oam m) (m_rom m) (m_sram m) lr lw ws.

(** [self.warnings.append(w)] *)
Definition warn (w : Warning) : M t unit :=
  modify (fun m => set_warnings (warnings m ++ [w]) m).

(** [getattr(self, region)]; there is no attribute called "invalid". *)
Definition region_of (r : Region) (m : t) : option (list byte) :=
  match r with
  | bios => Some (m_bios m) | ewram => Some (m_ewram m)
  | iwram => Some (m_iwram m) | io_regs => Some (m_io_regs m)
  | palette => Some (m_palette m) | vram => Some (m_vram m)
  | oam => Some (m_oam m) | rom => Some (m_rom m) | sram => Some (m_sram m)
  | invalid => None
  end.

Definition getattr (r : Region) : M t (list byte) :=
  fun m => match region_of r m with
           | Some b => Ok (b, m)
           | None => Raise AttributeError
           end.

(** The bytearray behind [getattr(self, region)] is the object itself, so a
    store through it is a store into the field. *)
Definition set_region (r : Region) (b : list byte) (m : t) : t :=
  match r with
  | bios => mk b (m_ewram m) (m_iwram m) (m_io_regs m) (m_palette m) (m_vram m) (m_oam m) (m_rom m) (m_sram m) (last_read_addr m) (last_write_addr m) (warnings m)
  | ewram => mk (m_bios m) b (m_iwram m) (m_io_regs m) (m_palette m) (m_vram m) (m_oam m) (m_rom m) (m_sram m) (last_read_addr m) (last_write_addr m) (warnings m)
  | iwram => mk (m_bios m) (m_ewram m) b (m_io_regs m) (m_palette m) (m_vram m) (m_oam m) (m_rom m) (m_sram m) (last_read_addr m) (last_write_addr m) (warnings m)
  | io_regs => mk (m_bios m) (m_ewram m) (m_iwram m) b (m_palette m) (m_vram m) (m_oam m) (m_rom m) (m_sram m) (last_read_addr m) (last_write_addr m) (warnings m)
  | palette => mk (m_bios m) (m_ewram m) (m_iwram m) (m_io_regs m) b (m_vram m) (m_oam m) (m_rom m) (m_sram m) (last_read_addr m) (last_write_addr m) (warnings m)
  | vram => mk (m_bios m) (m_ewram m) (m_iwram m) (m_io_regs m) (m_palette m) b (m_oam m) (m_rom m) (m_sram m) (last_read_addr m) (last_write_addr m) (warnings m)
  | oam => mk (m_bios m) (m_ewram m) (m_iwram m) (m_io_regs m) (m_palette m) (m_vram m) b (m_rom m) (m_sram m) (last_read_addr m) (last_write_addr m) (warnings m)
  | rom => mk (m_bios m) (m_ewram m) (m_iwram m) (m_io_regs m) (m_palette m) (m_vram m) (m_oam m) b (m_sram m) (last_read_addr m) (last_write_addr m) (warnings m)
  | sram => mk (m_bios m) (m_ewram m) (m_iwram m) (m_io_regs m) (m_palette m) (m_vram m) (m_oam m) (m_rom m) b (last_read_addr m) (last_write_addr m) (warnings m)
  | invalid => m
  end.

(** [load_bios], lines 89-95 (the [print] is not modelled). *)
Definition load_bios (data : list byte) : M t unit :=
  let* b := gets m_bios in
  if len data <=? len b then
    modify (set_region bios (setslice b 0 (len data) data))
  else
    warn (BiosTooLarge (len data)) ;;
    let* b := gets m_bios in
    modify (set_region bios (setslice b 0 (len b) (prefix data (len b)))).

(** [load_rom], lines 97-99 *)
Definition load_rom (data : list byte) : M t unit :=
  modify (set_region rom data).

(** [map_address], lines 101-123 *)
Definition map_address (addr : Z) : M t (Region * Z) :=
  let addr := Z.land addr 0xFFFFFFFF in
  let* romlen := gets (fun m => len (m_rom m)) in
  if (0x00000000 <=? addr) && (addr <? 0x00004000) then ret (bios, addr)
  else if (0x02000000 <=? addr) && (addr <? 0x02040000) then ret (ewram, addr - 0x02000000)
  else if (0x03000000 <=? addr) && (addr <? 0x03008000) then ret (iwram, addr - 0x03000000)
  else if (0x04000000 <=? addr) && (addr <? 0x04000400) then ret (io_regs, addr - 0x04000000)
  else if (0x05000000 <=? addr) && (addr <? 0x05000400) then ret (palette, addr - 0x05000000)
  else if (0x06000000 <=? addr) && (addr <? 0x06018000) then ret (vram, addr - 0x06000000)
  else if (0x07000000 <=? addr) && (addr <? 0x07000400) then ret (oam, addr - 0x07000000)
  else if (0x08000000 <=? addr) && (addr <? 0x08000000 + romlen) then ret (rom, addr - 0x08000000)
  else if (0x0E000000 <=? addr) && (addr <? 0x0E010000) then ret (sram, addr - 0x0E000000)
  else warn (Unmapped addr) ;; ret (invalid, 0).

(** [read_byte], lines 125-134 *)
Definition read_byte (addr : Z) : M t Z :=
  modify (set_last_read_addr addr) ;;
  let* (region, offset) := map_address addr in
  if decide (region = invalid) then ret (Z.land (Z.shiftr addr 24) 0xFF)
  else
    let* mem := getattr region in
    if offset <? len mem then lift (getitem mem offset)
    else warn (OutOfBoundsRead region offset) ;; ret 0.

(** [read_halfword], lines 136-143 *)
Definition read_halfword (addr : Z) : M t Z :=
  modify (set_last_read_addr addr) ;;
  let* addr :=
    if Z.land addr 1 =? 0 then ret addr
    else warn (UnalignedHalfwordRead addr) ;; ret (Z.land addr (Z.lnot 1)) in
  let* lo := read_byte addr in
  let* hi := read_byte (addr + 1) in
  ret (Z.lor (Z.shiftl hi 8) lo).

(** [read_word], lines 145-160 *)
Definition read_word (addr : Z) : M t Z :=
  modify (set_last_read_addr addr) ;;
  if Z.land addr 3 =? 0 then
    let* b0 := read_byte addr in
    let* b1 := read_byte (addr + 1) in
    let* b2 := read_byte (addr + 2) in
    let* b3 := read_byte (addr + 3) in
    ret (Z.lor (Z.lor (Z.lor (Z.shiftl b3 24) (Z.shiftl b2 16)) (Z.shiftl b1 8)) b0)
  else
    warn (UnalignedWordRead addr) ;;
    let rot := Z.land addr 3 * 8 in
    let aligned_addr := Z.land addr (Z.lnot 3) in
    let* b0 := read_byte aligned_addr in
    let* b1 := read_byte (aligned_addr + 1) in
    let* b2 := read_byte (aligned_addr + 2) in
    let* b3 := read_byte (aligned_addr + 3) in
    let val := Z.lor (Z.lor (Z.lor b0 (Z.shiftl b1 8)) (Z.shiftl b2 16)) (Z.shiftl b3 24) in
    ret (Z.land (Z.lor (Z.shiftr val rot) (Z.shiftl val (32 - rot))) 0xFFFFFFFF).

(** [write_byte], lines 162-179 *)
Definition write_byte (addr value : Z) : M t unit :=
  modify (set_last_write_addr addr) ;;
  let value := Z.land value 0xFF in
  let* (region, offset) := map_address addr in
  if decide (region = invalid) then warn (WriteInvalid addr)
  else if decide (region = rom) then warn (WriteRom addr)
  else if decide (region = bios) then warn (WriteBios addr)
  else
    let* mem := getattr region in
    if offset <? len mem then
      let* mem' := lift (setitem mem offset value) in
      modify (set_region region mem')
    else warn (OutOfBoundsWrite region offset).

(** [write_halfword], lines 181-188 *)
Definition write_halfword (addr value : Z) : M t unit :=
  modify (set_last_write_addr addr) ;;
  let value := Z.land value 0xFFFF in
  let* addr :=
    if Z.land addr 1 =? 0 then ret addr
    else warn (UnalignedHalfwordWrite addr) ;; ret (Z.land addr (Z.lnot 1)) in
  write_byte addr (Z.land value 0xFF) ;;
  write_byte (addr + 1) (Z.land (Z.shiftr value 8) 0xFF).

(** [write_word], lines 190-199 *)
Definition write_word (addr value : Z) : M t unit :=
  modify (set_last_write_addr addr) ;;
  let value := Z.land value 0xFFFFFFFF in
  let* addr :=
    if Z.land addr 3 =? 0 then ret addr
    else warn (UnalignedWordWrite addr) ;; ret (Z.land addr (Z.lnot 3)) in
  write_byte addr (Z.land value 0xFF) ;;
  write_byte (addr + 1) (Z.land (Z.shiftr value 8) 0xFF) ;;
  write_byte (addr + 2) (Z.land (Z.shiftr value 16) 0xFF) ;;
  write_byte (addr + 3) (Z.land (Z.shiftr value 24) 0xFF).

End MemoryManager.


(** ** [0.py], lines 412-475: the [read]/[write] bus with a region table *)

Module MemoryManager2.

Export MemoryManager (Region, bios, ewram, iwram, io_regs, palette, vram,
                      oam, rom, sram, invalid).

Inductive Warning : Type :=
| BiosTruncated (n : Z)
| Unmapped (addr : Z)
| OutOfBoundsRead (r : Region) (offset : Z)
| IllegalWrite (r : Region) (addr : Z)
| OutOfBoundsWrite (r : Region) (offset : Z).

Record t : Type := mk {
  m_bios : list byte;
  m_ewram : list byte;
  m_iwram : list byte;
  m_io_regs : list byte;
  m_palette : list byte;
  m_vram : list byte;
  m_oam : list byte;
  m_sram : list byte;
  m_rom : list byte;
  warnings : list Warning
}.

(** [REGION_MAP]: start, end ([None] for the cartridge) and name. *)
Definition REGION_MAP : list (Z * option Z * Region) :=
  [ (0x00000000, Some 0x00004000, bios);
    (0x02000000, Some 0x02040000, ewram);
    (0x03000000, Some 0x03008000, iwram);
    (0x04000000, Some 0x04000400, io_regs);
    (0x05000000, Some 0x05000400, palette);
    (0x06000000, Some 0x06018000, vram);
    (0x07000000, Some 0x07000400, oam);
    (0x08000000, None, rom);
    (0x0E000000, Some 0x0E010000, sram) ].

(** [__init__] *)
Definition init : t :=
  {| m_bios := zeros (16 * 1024);
     m_ewram := zeros (256 * 1024);
     m_iwram := zeros (32 * 1024);
     m_io_regs := zeros 1024;
     m_palette := zeros 1024;
     m_vram := zeros (96 * 1024);
     m_oam := zeros 1024;
     m_sram := zeros (64 * 1024);
     m_rom := [];
     warnings := [] |}.

Definition set_warnings (ws : list Warning) (m : t) : t :=
  mk (m_bios m) (m_ewram m) (m_iwram m) (m_io_regs m) (m_palette m)
     (m_vram m) (m_oam m) (m_sram m) (m_rom m) ws.

Definition warn (w : Warning) : M t unit :=
  modify (fun m => set_warnings (warnings m ++ [w]) m).

Definition region_of (r : Region) (m : t) : option (list byte) :=
  match r with
  | bios => Some (m_bios m) | ewram => Some (m_ewram m)
  | iwram => Some (m_iwram m) | io_regs => Some (m_io_regs m)
  | palette => Some (m_palette m) | vram => Some (m_vram m)
  | oam => Some (m_oam m) | rom => Some (m_rom m) | sram => Some (m_sram m)
  | invalid => None
  end.

(** [getattr(self, region)] *)
Definition getattr (r : Region) : M t (list byte) :=
  fun m => match region_of r m with
           | Some b => Ok (b, m)
           | None => Raise AttributeError
           end.

Definition set_region (r : Region) (b : list byte) (m : t) : t :=
  match r with
  | bios => mk b (m_ewram m) (m_iwram m) (m_io_regs m) (m_palette m) (m_vram m) (m_oam m) (m_sram m) (m_rom m) (warnings m)
  | ewram => mk (m_bios m) b (m_iwram m) (m_io_regs m) (m_palette m) (m_vram m) (m_oam m) (m_sram m) (m_rom m) (warnings m)
  | iwram => mk (m_bios m) (m_ewram m) b (m_io_regs m) (m_palette m) (m_vram m) (m_oam m) (m_sram m) (m_rom m) (warnings m)
  | io_regs => mk (m_bios m) (m_ewram m) (m_iwram m) b (m_palette m) (m_vram m) (m_oam m) (m_sram m) (m_rom m) (warnings m)
  | palette => mk (m_bios m) (m_ewram m) (m_iwram m) (m_io_regs m) b (m_vram m) (m_oam m) (m_sram m) (m_rom m) (warnings m)
  | vram => mk (m_bios m) (m_ewram m) (m_iwram m) (m_io_regs m) (m_palette m) b (m_oam m) (m_sram m) (m_rom m) (warnings m)
  | oam => mk (m_bios m) (m_ewram m) (m_iwram m) (m_io_regs m) (m_palette m) (m_vram m) b (m_sram m) (m_rom m) (warnings m)
  | sram => mk (m_bios m) (m_ewram m) (m_iwram m) (m_io_regs m) (m_palette m) (m_vram m) (m_oam m) b (m_rom m) (warnings m)
  | rom => mk (m_bios m) (m_ewram m) (m_iwram m) (m_io_regs m) (m_palette m) (m_vram m) (m_oam m) (m_sram m) b (warnings m)
  | invalid => m
  end.

(** [load_bios], lines 437-441 *)
Definition load_bios (data : list byte) : M t unit :=
  let* b := gets m_bios in
  let size := Z.min (len data) (len b) in
  modify (set_region bios (setslice b 0 size (prefix data size))) ;;
  let* b := gets m_bios in
  if len b <? len data then warn (BiosTruncated (len b)) else ret tt.

(** [load_rom], lines 443-445 *)
Definition load_rom (data : list byte) : M t unit :=
  modify (set_region rom data).

(** The loop of [map_address]: the first entry whose range holds [addr];
    [end or (start + len(self.rom))] takes the cartridge length when the
    end is [None] (or zero). *)
Fixpoint find_region (romlen addr : Z) (table : list (Z * option Z * Region))
  : option (Region * Z) :=
  match table with
  | [] => None
  | (start, end_, name) :: rest =>
      let end_ := match end_ with
                  | Some e => if e =? 0 then start + romlen else e
                  | None => start + romlen
                  end in
      if (start <=? addr) && (addr <? end_) then Some (name, addr - start)
      else find_region romlen addr rest
  end.

(** [map_address], lines 447-454 *)
Definition map_address (addr : Z) : M t (Region * Z) :=
  let* romlen := gets (fun m => len (m_rom m)) in
  match find_region romlen addr REGION_MAP with
  | Some hit => ret hit
  | None => warn (Unmapped addr) ;; ret (invalid, 0)
  end.

(** [read], lines 456-464 *)
Definition read (addr size : Z) : M t Z :=
  let* (region, offset) := map_address addr in
  if decide (region = invalid) then ret 0
  else
    let* mem := getattr region in
    if offset + size <=? len mem then
      ret (from_bytes (getslice mem offset (offset + size)))
    else warn (OutOfBoundsRead region offset) ;; ret 0.

(** [write], lines 466-475 *)
Definition write (addr value size : Z) : M t unit :=
  let* (region, offset) := map_address addr in
  if bool_decide (region = invalid) || bool_decide (region = rom) || bool_decide (region = bios)
  then warn (IllegalWrite region addr)
  else
    let* mem := getattr region in
    if offset + size <=? len mem then
      let* data := lift (to_bytes value size) in
      modify (set_region region (setslice mem offset (offset + size) data))
    else warn (OutOfBoundsWrite region offset).

(** The regions [write] stores into. *)
Definition writable (r : Region) : Prop :=
  r <> invalid /\ r <> rom /\ r <> bios.

End MemoryManager2.

(** ** [flamesgbav2.py] ([gba_emu_enhanced]): memory, processor, video, keypad *)

Module Flames.

Definition SCREEN_WIDTH : Z := 240.
Definition SCREEN_HEIGHT : Z := 160.

Definition BIOS_START : Z := 0x00000000.
Definition BIOS_SIZE : Z := 0x4000.
Definition EWRAM_START : Z := 0x02000000.
Definition EWRAM_SIZE : Z := 0x40000.
Definition IWRAM_START : Z := 0x03000000.
Definition IWRAM_SIZE : Z := 0x8000.
Definition IO_REG_START : Z := 0x04000000.
Definition IO_REG_SIZE : Z := 0x400.
Definition PALETTE_RAM_START : Z := 0x05000000.
Definition PALETTE_RAM_SIZE : Z := 0x400.
Definition VRAM_START : Z := 0x06000000.
Definition VRAM_SIZE : Z := 0x18000.
Definition OAM_START : Z := 0x07000000.
Definition OAM_SIZE : Z := 0x400.
Definition GAMEPAK_ROM_START : Z := 0x08000000.

Definition MODE_USER : Z := 0x10.
Definition MODE_FIQ : Z := 0x11.
Definition MODE_IRQ : Z := 0x12.
Definition MODE_SUPERVISOR : Z := 0x13.
Definition MODE_ABORT : Z := 0x17.
Definition MODE_UNDEFINED : Z := 0x1B.
Definition MODE_SYSTEM : Z := 0x1F.

(** *** The objects *)

(** The buffer a region lookup returns is one of the bytearrays the
    [Memory] object owns; the tag names which, so that [is] comparisons of
    the source are comparisons of tags. *)
Inductive Region : Set :=
| Bios | Ewram | Iwram | Io_regs | Palette_ram | Vram | Oam | Gamepak_rom
| Sram | Dummy_unmapped.

#[global] Instance Region_eq_dec : EqDecision Region.
Proof. solve_decision. Defined.

(** [Memory]: [sram] and [dummy_unmapped] are attributes created on first
    use ([hasattr]); [has_ppu] and [has_keypad] say whether [self.ppu] and
    [self.keypad] refer to the machine's PPU and keypad or are [None]. *)
Record Memory : Type := mkMemory {
  bios : list byte;
  ewram : list byte;
  iwram : list byte;
  gamepak_rom : list byte;
  io_regs : list byte;
  palette_ram : list byte;
  vram : list byte;
  oam : list byte;
  sram : option (list byte);
  dummy_unmapped : option (list byte);
  has_ppu : bool;
  has_keypad : bool
}.

Record ARM7TDMI : Type := mkCPU {
  R : list Z;
  R_banked : gmap Z (list Z);
  CPSR : Z;
  SPSR : gmap Z Z;
  cycles : Z
}.

Record PPU : Type := mkPPU {
  frame_buffer : list string;
  current_scanline : Z;
  cycles_scanline : Z;
  color_cache : gmap Z string
}.

Record Keypad : Type := mkKeypad {
  key_state : Z
}.

(** The objects refer to one another ([cpu.memory], [ppu.memory],
    [memory.ppu], ...), so methods run on the store that holds them all. *)
Record GBA : Type := mkGBA {
  memory : Memory;
  cpu : ARM7TDMI;
  ppu : PPU;
  keypad : Keypad
}.

Definition upd_memory (f : Memory -> Memory) (g : GBA) : GBA :=
  mkGBA (f (memory g)) (cpu g) (ppu g) (keypad g).
Definition upd_cpu (f : ARM7TDMI -> ARM7TDMI) (g : GBA) : GBA :=
  mkGBA (memory g) (f (cpu g)) (ppu g) (keypad g).
Definition upd_ppu (f : PPU -> PPU) (g : GBA) : GBA :=
  mkGBA (memory g) (cpu g) (f (ppu g)) (keypad g).
Definition upd_keypad (f : Keypad -> Keypad) (g : GBA) : GBA :=
  mkGBA (memory g) (cpu g) (ppu g) (f (keypad g)).

Definition set_sram (b : option (list byte)) (m : Memory) : Memory :=
  mkMemory (bios m) (ewram m) (iwram m) (gamepak_rom m) (io_regs m)
    (palette_ram m) (vram m) (oam m) b (dummy_unmapped m)
    (has_ppu m) (has_keypad m).
Definition set_dummy_unmapped (b : option (list byte)) (m : Memory) : Memory :=
  mkMemory (bios m) (ewram m) (iwram m) (gamepak_rom m) (io_regs m)
    (palette_ram m) (vram m) (oam m) (sram m) b
    (has_ppu m) (has_keypad m).
Definition set_has_ppu (b : bool) (m : Memory) : Memory :=
  mkMemory (bios m) (ewram m) (iwram m) (gamepak_rom m) (io_regs m)
    (palette_ram m) (vram m) (oam m) (sram m) (dummy_unmapped m)
    b (has_keypad m).
Definition set_has_keypad (b : bool) (m : Memory) : Memory :=
  mkMemory (bios m) (ewram m) (iwram m) (gamepak_rom m) (io_regs m)
    (palette_ram m) (vram m) (oam m) (sram m) (dummy_unmapped m)
    (has_ppu m) b.

(** The bytearray a tag stands for; [None] while the attribute does not
    exist. *)
Definition region_bytes (r : Region) (m : Memory) : option (list byte) :=
  match r with
  | Bios => Some (bios m) | Ewram => Some (ewram m) | Iwram => Some (iwram m)
  | Gamepak_rom => Some (gamepak_rom m) | Io_regs => Some (io_regs m)
  | Palette_ram => Some (palette_ram m) | Vram => Some (vram m)
  | Oam => Some (oam m) | Sram => sram m
  | Dummy_unmapped => dummy_unmapped m
  end.

(** A store through the buffer is a store into the object's bytearray. *)
Definition set_region_bytes (r : Region) (b : list byte) (m : Memory) : Memory :=
  match r with
  | Bios => mkMemory b (ewram m) (iwram m) (gamepak_rom m) (io_regs m) (palette_ram m) (vram m) (oam m) (sram m) (dummy_unmapped m) (has_ppu m) (has_keypad m)
  | Ewram => mkMemory (bios m) b (iwram m) (gamepak_rom m) (io_regs m) (palette_ram m) (vram m) (oam m) (sram m) (dummy_unmapped m) (has_ppu m) (has_keypad m)
  | Iwram => mkMemory (bios m) (ewram m) b (gamepak_rom m) (io_regs m) (palette_ram m) (vram m) (oam m) (sram m) (dummy_unmapped m) (has_ppu m) (has_keypad m)
  | Gamepak_rom => mkMemory (bios m) (ewram m) (iwram m) b (io_regs m) (palette_ram m) (vram m) (oam m) (sram m) (dummy_unmapped m) (has_ppu m) (has_keypad m)
  | Io_regs => mkMemory (bios m) (ewram m) (iwram m) (gamepak_rom m) b (palette_ram m) (vram m) (oam m) (sram m) (dummy_unmapped m) (has_ppu m) (has_keypad m)
  | Palette_ram => mkMemory (bios m) (ewram m) (iwram m) (gamepak_rom m) (io_regs m) b (vram m) (oam m) (sram m) (dummy_unmapped m) (has_ppu m) (has_keypad m)
  | Vram => mkMemory (bios m) (ewram m) (iwram m) (gamepak_rom m) (io_regs m) (palette_ram m) b (oam m) (sram m) (dummy_unmapped m) (has_ppu m) (has_keypad m)
  | Oam => mkMemory (bios m) (ewram m) (iwram m) (gamepak_rom m) (io_regs m) (palette_ram m) (vram m) b (sram m) (dummy_unmapped m) (has_ppu m) (has_keypad m)
  | Sram => set_sram (Some b) m
  | Dummy_unmapped => set_dummy_unmapped (Some b) m
  end.

(** [len(mem_region)], [mem_region[i]] and [mem_region[i] = v] for the
    buffer a tag stands for. *)
Definition region_get (r : Region) : M GBA (list byte) :=
  fun g => match region_bytes r (memory g) with
           | Some b => Ok (b, g)
           | None => Raise AttributeError
           end.

Definition region_store (r : Region) (i v : Z) : M GBA unit :=
  let* b := region_get r in
  let* b' := lift (setitem b i v) in
  modify (upd_memory (set_region_bytes r b')).

(** *** [Memory] *)

(** [Memory.__init__] *)
Definition Memory_init : Memory :=
  {| bios := zeros BIOS_SIZE;
     ewram := zeros EWRAM_SIZE;
     iwram := zeros IWRAM_SIZE;
     gamepak_rom := [];
     io_regs := zeros IO_REG_SIZE;
     palette_ram := zeros PALETTE_RAM_SIZE;
     vram := zeros VRAM_SIZE;
     oam := zeros OAM_SIZE;
     sram := None;
     dummy_unmapped := None;
     has_ppu := false;
     has_keypad := false |}.

Definition connect_ppu : M GBA unit := modify (upd_memory (set_has_ppu true)).
Definition connect_keypad : M GBA unit :=
  modify (upd_memory (set_has_keypad true)).

(** [load_bios], lines 302-306 *)
Definition load_bios (data : list byte) : M GBA unit :=
  if BIOS_SIZE <? len data then raise ValueError
  else
    let* b := gets (fun g => bios (memory g)) in
    modify (upd_memory (set_region_bytes Bios (setslice b 0 (len data) data))).

(** [load_rom], lines 308-310 *)
Definition load_rom (data : list byte) : M GBA unit :=
  modify (upd_memory (set_region_bytes Gamepak_rom data)).

(** [_get_memory_region_and_offset], lines 312-335 *)
Definition _get_memory_region_and_offset (addr : Z) : M GBA (Region * Z) :=
  let addr := Z.land addr 0xFFFFFFFF in
  let* romlen := gets (fun g => len (gamepak_rom (memory g))) in
  if addr <? BIOS_START + BIOS_SIZE then ret (Bios, addr)
  else if (EWRAM_START <=? addr) && (addr <? EWRAM_START + 0xFFFFFF) then
    ret (Ewram, (addr - EWRAM_START) mod EWRAM_SIZE)
  else if (IWRAM_START <=? addr) && (addr <? IWRAM_START + 0xFFFFFF) then
    ret (Iwram, (addr - IWRAM_START) mod IWRAM_SIZE)
  else if (IO_REG_START <=? addr) && (addr <? IO_REG_START + 0xFFFFFF) then
    let offset := (addr - IO_REG_START) mod IO_REG_SIZE in
    ret (Io_regs, offset)
  else if (PALETTE_RAM_START <=? addr) && (addr <? PALETTE_RAM_START + 0xFFFFFF) then
    ret (Palette_ram, (addr - PALETTE_RAM_START) mod PALETTE_RAM_SIZE)
  else if (VRAM_START <=? addr) && (addr <? VRAM_START + 0xFFFFFF) then
    ret (Vram, (addr - VRAM_START) mod VRAM_SIZE)
  else if (OAM_START <=? addr) && (addr <? OAM_START + 0xFFFFFF) then
    ret (Oam, (addr - OAM_START) mod OAM_SIZE)
  else if (GAMEPAK_ROM_START <=? addr) && (addr <? GAMEPAK_ROM_START + romlen) then
    ret (Gamepak_rom, addr - GAMEPAK_ROM_START)
  else if (0x0E000000 <=? addr) && (addr <? 0x0E010000) then
    let* s := gets (fun g => sram (memory g)) in
    (match s with
     | None => modify (upd_memory (set_sram (Some (zeros 0x10000))))
     | Some _ => ret tt
     end) ;;
    ret (Sram, addr - 0x0E000000)
  else
    let* d := gets (fun g => dummy_unmapped (memory g)) in
    (match d with
     | None => modify (upd_memory (set_dummy_unmapped (Some (zeros 4))))
     | Some _ => ret tt
     end) ;;
    ret (Dummy_unmapped, 0).

(** [Keypad.get_keyinput_reg], lines 559-560 *)
Definition get_keyinput_reg : M GBA Z := gets (fun g => key_state (keypad g)).

(** [read_byte], lines 337-343 *)
Definition read_byte (addr : Z) : M GBA Z :=
  let* (mem_region, offset) := _get_memory_region_and_offset addr in
  if bool_decide (mem_region = Io_regs) && (addr =? 0x04000130) then
    let* k := gets (fun g => has_keypad (memory g)) in
    if k then get_keyinput_reg else ret 0xFF
  else
    let* b := region_get mem_region in
    if len b <=? offset then ret 0xFF
    else lift (getitem b offset).

(** [read_halfword], lines 345-351 *)
Definition read_halfword (addr : Z) : M GBA Z :=
  let addr := if Z.land addr 1 =? 0 then addr else Z.land addr (Z.lnot 1) in
  let* (mem_region, offset) := _get_memory_region_and_offset addr in
  let* b := region_get mem_region in
  if len b <=? offset + 1 then ret 0xFFFF
  else
    let* b0 := lift (getitem b offset) in
    let* b1 := lift (getitem b (offset + 1)) in
    ret (Z.lor b0 (Z.shiftl b1 8)).

(** [read_word], lines 353-360 *)
Definition read_word (addr : Z) : M GBA Z :=
  let addr := if Z.land addr 3 =? 0 then addr else Z.land addr (Z.lnot 3) in
  let* (mem_region, offset) := _get_memory_region_and_offset addr in
  let* b := region_get mem_region in
  if len b <=? offset + 3 then ret 0xFFFFFFFF
  else
    let* b0 := lift (getitem b offset) in
    let* b1 := lift (getitem b (offset + 1)) in
    let* b2 := lift (getitem b (offset + 2)) in
    let* b3 := lift (getitem b (offset + 3)) in
    ret (Z.lor (Z.lor (Z.lor b0 (Z.shiftl b1 8)) (Z.shiftl b2 16)) (Z.shiftl b3 24)).

(** [PPU.is_ppu_register], lines 415-417 *)
Definition is_ppu_register (addr : Z) : bool :=
  let offset := addr - IO_REG_START in
  (0x00 <=? offset) && (offset <=? 0x5F).

(** [PPU.write_register_byte], lines 419-421 *)
Definition write_register_byte (addr value : Z) : M GBA unit :=
  let offset := addr - IO_REG_START in
  region_store Io_regs offset value.

(** [PPU.write_register_halfword], lines 423-428 *)
Definition write_register_halfword (addr value : Z) : M GBA unit :=
  let offset := addr - IO_REG_START in
  region_store Io_regs offset (Z.land value 0xFF) ;;
  region_store Io_regs (offset + 1) (Z.land (Z.shiftr value 8) 0xFF).

(** [PPU.write_register_word], lines 430-432 *)
Definition write_register_word (addr value : Z) : M GBA unit :=
  write_register_halfword addr (Z.land value 0xFFFF) ;;
  write_register_halfword (addr + 2) (Z.land (Z.shiftr value 16) 0xFFFF).

(** [mem_region is self.bios or mem_region is self.gamepak_rom] *)
Definition is_rom_like (r : Region) : bool :=
  bool_decide (r = Bios) || bool_decide (r = Gamepak_rom).

(** [mem_region is self.io_regs and self.ppu and
    self.ppu.is_ppu_register(addr)] *)
Definition to_ppu (r : Region) (addr : Z) : M GBA bool :=
  let* p := gets (fun g => has_ppu (memory g)) in
  ret (bool_decide (r = Io_regs) && p && is_ppu_register addr).

(** [write_byte], lines 362-371 *)
Definition write_byte (addr val : Z) : M GBA unit :=
  let val := Z.land val 0xFF in
  let* (mem_region, offset) := _get_memory_region_and_offset addr in
  if is_rom_like mem_region then ret tt
  else
    let* fwd := to_ppu mem_region addr in
    (if fwd then write_register_byte addr val else ret tt) ;;
    let* b := region_get mem_region in
    if len b <=? offset then ret tt
    else region_store mem_region offset val.

(** [write_halfword], lines 373-385 *)
Definition write_halfword (addr val : Z) : M GBA unit :=
  let val := Z.land val 0xFFFF in
  let addr := if Z.land addr 1 =? 0 then addr else Z.land addr (Z.lnot 1) in
  let* (mem_region, offset) := _get_memory_region_and_offset addr in
  if is_rom_like mem_region then ret tt
  else
    let* fwd := to_ppu mem_region addr in
    (if fwd then write_register_halfword addr val else ret tt) ;;
    let* b := region_get mem_region in
    if len b <=? offset + 1 then ret tt
    else
      region_store mem_region offset (Z.land val 0xFF) ;;
      region_store mem_region (offset + 1) (Z.land (Z.shiftr val 8) 0xFF).

(** [write_word], lines 387-401 *)
Definition write_word (addr val : Z) : M GBA unit :=
  let val := Z.land val 0xFFFFFFFF in
  let addr := if Z.land addr 3 =? 0 then addr else Z.land addr (Z.lnot 3) in
  let* (mem_region, offset) := _get_memory_region_and_offset addr in
  if is_rom_like mem_region then ret tt
  else
    let* fwd := to_ppu mem_region addr in
    (if fwd then write_register_word addr val else ret tt) ;;
    let* b := region_get mem_region in
    if len b <=? offset + 3 then ret tt
    else
      region_store mem_region offset (Z.land val 0xFF) ;;
      region_store mem_region (offset + 1) (Z.land (Z.shiftr val 8) 0xFF) ;;
      region_store mem_region (offset + 2) (Z.land (Z.shiftr val 16) 0xFF) ;;
      region_store mem_region (offset + 3) (Z.land (Z.shiftr val 24) 0xFF).

(** *** [ARM7TDMI] *)

(** [d[k]] on a dict. *)
Definition dict_getitem {A} (d : gmap Z A) (k : Z) : res A :=
  match d !! k with
  | Some v => Ok v
  | None => Raise KeyError
  end.

Definition set_R (r : list Z) (c : ARM7TDMI) : ARM7TDMI :=
  mkCPU r (R_banked c) (CPSR c) (SPSR c) (cycles c).
Definition set_R_banked (b : gmap Z (list Z)) (c : ARM7TDMI) : ARM7TDMI :=
  mkCPU (R c) b (CPSR c) (SPSR c) (cycles c).
Definition set_CPSR (p : Z) (c : ARM7TDMI) : ARM7TDMI :=
  mkCPU (R c) (R_banked c) p (SPSR c) (cycles c).
Definition set_cycles (n : Z) (c : ARM7TDMI) : ARM7TDMI :=
  mkCPU (R c) (R_banked c) (CPSR c) (SPSR c) n.

(** [self.R[i]] and [self.R[i] = v] *)
Definition R_get (i : Z) : M GBA Z :=
  let* r := gets (fun g => R (cpu g)) in
  lift (list_getitem r i).

Definition R_set (i v : Z) : M GBA unit :=
  let* r := gets (fun g => R (cpu g)) in
  let* r' := lift (array_setitem r i v) in
  modify (upd_cpu (set_R r')).

(** [self.R_banked[mode][i]] and [self.R_banked[mode][i] = v] *)
Definition banked_get (mode i : Z) : M GBA Z :=
  let* b := gets (fun g => R_banked (cpu g)) in
  let* regs := lift (dict_getitem b mode) in
  lift (list_getitem regs i).

Definition banked_set (mode i v : Z) : M GBA unit :=
  let* b := gets (fun g => R_banked (cpu g)) in
  let* regs := lift (dict_getitem b mode) in
  let* regs' := lift (array_setitem regs i v) in
  modify (upd_cpu (set_R_banked (<[mode := regs']> b))).

(** [current_mode in [MODE_IRQ, MODE_SUPERVISOR, MODE_ABORT,
    MODE_UNDEFINED]] *)
Definition in_r13_r14_banks (mode : Z) : bool :=
  (mode =? MODE_IRQ) || (mode =? MODE_SUPERVISOR) || (mode =? MODE_ABORT)
  || (mode =? MODE_UNDEFINED).

(** [get_reg], lines 79-92 *)
Definition get_reg (r_idx : Z) : M GBA Z :=
  let* cpsr := gets (fun g => CPSR (cpu g)) in
  let current_mode := Z.land cpsr 0x1F in
  if r_idx <? 8 then R_get r_idx
  else if (current_mode =? MODE_FIQ) && ((8 <=? r_idx) && (r_idx <=? 14)) then
    banked_get MODE_FIQ (r_idx - 8)
  else if (r_idx =? 13) && in_r13_r14_banks current_mode then
    banked_get current_mode 0
  else if (r_idx =? 14) && in_r13_r14_banks current_mode then
    banked_get current_mode 1
  else R_get r_idx.

(** [set_reg], lines 94-106 *)
Definition set_reg (r_idx val : Z) : M GBA unit :=
  let val := Z.land val 0xFFFFFFFF in
  let* cpsr := gets (fun g => CPSR (cpu g)) in
  let current_mode := Z.land cpsr 0x1F in
  if r_idx <? 8 then R_set r_idx val
  else if (current_mode =? MODE_FIQ) && ((8 <=? r_idx) && (r_idx <=? 14)) then
    banked_set MODE_FIQ (r_idx - 8) val
  else if (r_idx =? 13) && in_r13_r14_banks current_mode then
    banked_set current_mode 0 val
  else if (r_idx =? 14) && in_r13_r14_banks current_mode then
    banked_set current_mode 1 val
  else R_set r_idx val.

(** [get_pc], [set_pc], lines 108-109 *)
Definition get_pc : M GBA Z := R_get 15.
Definition set_pc (val : Z) : M GBA unit := R_set 15 (Z.land val 0xFFFFFFFF).

(** Flag accessors, lines 111-115 *)
Definition get_flag_N (c : ARM7TDMI) : Z := Z.land (Z.shiftr (CPSR c) 31) 1.
Definition get_flag_Z (c : ARM7TDMI) : Z := Z.land (Z.shiftr (CPSR c) 30) 1.
Definition get_flag_C (c : ARM7TDMI) : Z := Z.land (Z.shiftr (CPSR c) 29) 1.
Definition get_flag_V (c : ARM7TDMI) : Z := Z.land (Z.shiftr (CPSR c) 28) 1.
Definition get_flag_T (c : ARM7TDMI) : Z := Z.land (Z.shiftr (CPSR c) 5) 1.

(** Flag mutators, lines 117-120 *)
Definition set_flag (pos bit : Z) (c : ARM7TDMI) : ARM7TDMI :=
  set_CPSR (Z.lor (Z.land (CPSR c) (Z.lnot (Z.shiftl 1 pos))) (Z.shiftl bit pos)) c.
Definition set_flag_N := set_flag 31.
Definition set_flag_Z := set_flag 30.
Definition set_flag_C := set_flag 29.
Definition set_flag_V := set_flag 28.

(** [set_thumb_mode], lines 122-124; [active] is the truth value of the
    argument. *)
Definition set_thumb_mode (active : bool) : M GBA unit :=
  modify (upd_cpu (fun c =>
    if active then set_CPSR (Z.lor (CPSR c) (Z.shiftl 1 5)) c
    else set_CPSR (Z.land (CPSR c) (Z.lnot (Z.shiftl 1 5))) c)).

(** [check_cond], lines 126-143 *)
Definition check_cond (c : ARM7TDMI) (cond : Z) : bool :=
  if cond =? 0x0 then get_flag_Z c =? 1
  else if cond =? 0x1 then get_flag_Z c =? 0
  else if cond =? 0x2 then get_flag_C c =? 1
  else if cond =? 0x3 then get_flag_C c =? 0
  else if cond =? 0x4 then get_flag_N c =? 1
  else if cond =? 0x5 then get_flag_N c =? 0
  else if cond =? 0x6 then get_flag_V c =? 1
  else if cond =? 0x7 then get_flag_V c =? 0
  else if cond =? 0x8 then (get_flag_C c =? 1) && (get_flag_Z c =? 0)
  else if cond =? 0x9 then (get_flag_C c =? 0) || (get_flag_Z c =? 1)
  else if cond =? 0xA then get_flag_N c =? get_flag_V c
  else if cond =? 0xB then negb (get_flag_N c =? get_flag_V c)
  else if cond =? 0xC then
    (get_flag_Z c =? 0) && (get_flag_N c =? get_flag_V c)
  else if cond =? 0xD then
    (get_flag_Z c =? 1) || negb (get_flag_N c =? get_flag_V c)
  else if cond =? 0xE then true
  else if cond =? 0xF then false
  else false.

(** [arm_data_processing], lines 196-202 *)
Definition arm_data_processing (opcode : Z) : M GBA unit :=
  if opcode =? 0xE1A00000 then ret tt
  else if Z.land opcode 0x0FFF0FFF =? 0x01A00000 then
    if (Z.land (Z.shiftr opcode 12) 0xF =? 15) && (Z.land opcode 0xF =? 14) then
      let* lr := get_reg 14 in set_pc lr
    else ret tt
  else ret tt.

(** [arm_load_store], lines 204-219 *)
Definition arm_load_store (opcode : Z) : M GBA unit :=
  let is_ldr := Z.land (Z.shiftr opcode 20) 1 in
  let is_byte := Z.land (Z.shiftr opcode 22) 1 in
  let rn_idx := Z.land (Z.shiftr opcode 16) 0xF in
  let rd_idx := Z.land (Z.shiftr opcode 12) 0xF in
  let* base_addr := get_reg rn_idx in
  if negb (is_ldr =? 0) && (rn_idx =? 15) then
    let offset := Z.land opcode 0xFFF in
    let* pc := get_pc in
    let addr := Z.land pc (Z.lnot 2) + offset in
    let* val := if negb (is_byte =? 0) then read_byte addr else read_word addr in
    set_reg rd_idx val
  else ret tt.

(** [arm_load_store_multiple], [arm_multiply], [arm_swp]: [pass] *)
Definition arm_load_store_multiple (opcode : Z) : M GBA unit := ret tt.
Definition arm_multiply (opcode : Z) : M GBA unit := ret tt.
Definition arm_swp (opcode : Z) : M GBA unit := ret tt.

(** [arm_branch], lines 224-232 *)
Definition arm_branch (opcode : Z) : M GBA unit :=
  let offset := Z.land opcode 0x00FFFFFF in
  let offset :=
    if Z.land offset 0x00800000 =? 0 then offset
    else Z.lor offset 0xFF000000 in
  let offset := Z.shiftl offset 2 in
  let* current_pc := get_pc in
  (if Z.land (Z.shiftr opcode 24) 1 =? 0 then ret tt
   else set_reg 14 (current_pc - 4)) ;;
  set_pc (current_pc + offset).

(** [arm_bx_blx], lines 234-240 *)
Definition arm_bx_blx (opcode : Z) : M GBA unit :=
  let rn_idx := Z.land opcode 0xF in
  let* target_addr := get_reg rn_idx in
  (if Z.land opcode 0x0FFFFFF0 =? 0x012FFF30 then
     let* pc := get_pc in set_reg 14 (pc - 4)
   else ret tt) ;;
  set_thumb_mode (negb (Z.land target_addr 1 =? 0)) ;;
  set_pc (Z.land target_addr (Z.lnot 1)).

(** [arm_swi], lines 242-249 *)
Definition arm_swi (opcode : Z) : M GBA unit :=
  let swi_num := Z.land opcode 0xFFFFFF in
  if swi_num =? 0x00 then let* lr := get_reg 14 in set_pc lr
  else if swi_num =? 0x01 then let* lr := get_reg 14 in set_pc lr
  else if swi_num =? 0x02 then let* lr := get_reg 14 in set_pc lr
  else ret tt.

(** [execute_arm], lines 161-194 *)
Definition execute_arm (opcode : Z) : M GBA unit :=
  let cond := Z.land (Z.shiftr opcode 28) 0xF in
  let* c := gets cpu in
  if negb (check_cond c cond) then ret tt
  else
    let instr_type := Z.land (Z.shiftr opcode 25) 0x7 in
    if (instr_type =? 0) || (instr_type =? 1) then
      if Z.land opcode 0x0FC000F0 =? 0x00000090 then arm_multiply opcode
      else if Z.land opcode 0x0FB00FF0 =? 0x01000090 then arm_swp opcode
      else if Z.land opcode 0x0FBF0FFF =? 0x012FFF10 then arm_bx_blx opcode
      else if (Z.land (Z.shiftr opcode 22) 0x3F =? 8)
              && (Z.land (Z.shiftr opcode 4) 0xF =? 0) then ret tt
      else arm_data_processing opcode
    else if (instr_type =? 2) || (instr_type =? 3) then arm_load_store opcode
    else if instr_type =? 4 then arm_load_store_multiple opcode
    else if instr_type =? 5 then arm_branch opcode
    else if instr_type =? 6 then ret tt
    else if instr_type =? 7 then
      if Z.land (Z.shiftr opcode 24) 0xF =? 0xF then arm_swi opcode
      else ret tt
    else ret tt.

(** [execute_thumb], lines 257-275 *)
Definition execute_thumb (opcode : Z) : M GBA unit :=
  if Z.shiftr opcode 8 =? 208 then
    let cond := Z.land (Z.shiftr opcode 8) 0xF in
    let* c := gets cpu in
    if check_cond c cond then
      let offset := Z.land opcode 0xFF in
      let offset :=
        if Z.land offset 0x80 =? 0 then offset
        else Z.lor offset (Z.lnot 0xFF) in
      let offset := Z.shiftl offset 1 in
      let* pc := get_pc in set_pc (pc + offset)
    else ret tt
  else if Z.shiftr opcode 11 =? 28 then
    let offset := Z.land opcode 0x7FF in
    let offset :=
      if Z.land offset 0x400 =? 0 then offset
      else Z.lor offset (Z.lnot 0x7FF) in
    let offset := Z.shiftl offset 1 in
    let* pc := get_pc in set_pc (pc + offset)
  else if Z.shiftr opcode 8 =? 71 then
    let rm_idx := Z.land (Z.shiftr opcode 3) 0xF in
    let* target_addr := get_reg rm_idx in
    set_thumb_mode (negb (Z.land target_addr 1 =? 0)) ;;
    set_pc (Z.land target_addr (Z.lnot 1))
  else ret tt.

(** [self.cycles += 1] *)
Definition tick : M GBA unit :=
  modify (upd_cpu (fun c => set_cycles (cycles c + 1) c)).

(** [step], lines 145-159 *)
Definition step : M GBA unit :=
  let* pc := get_pc in
  let* c := gets cpu in
  if negb (get_flag_T c =? 0) then
    let* opcode := read_halfword pc in
    set_pc (pc + 2) ;;
    execute_thumb opcode ;;
    tick
  else
    let* opcode := read_word pc in
    set_pc (pc + 4) ;;
    execute_arm opcode ;;
    tick.

(** [reset], lines 69-77 (the [print] is not modelled) *)
Definition reset : M GBA unit :=
  modify (upd_cpu (set_R (replicate 16 0))) ;;
  modify (upd_cpu (fun c =>
    set_R_banked ((fun regs => replicate (length regs) 0) <$> R_banked c) c)) ;;
  modify (upd_cpu (set_CPSR (Z.lor MODE_SYSTEM 0xC0))) ;;
  R_set 15 BIOS_START ;;
  set_thumb_mode false.

(** The fields [ARM7TDMI.__init__] creates, lines 44-58. *)
Definition ARM7TDMI_fields : ARM7TDMI :=
  {| R := replicate 16 0;
     R_banked :=
       <[MODE_FIQ := replicate 7 0]>
       (<[MODE_IRQ := replicate 2 0]>
       (<[MODE_SUPERVISOR := replicate 2 0]>
       (<[MODE_ABORT := replicate 2 0]>
       (<[MODE_UNDEFINED := replicate 2 0]> ∅))));
     CPSR := MODE_SYSTEM;
     SPSR :=
       <[MODE_FIQ := 0]> (<[MODE_IRQ := 0]> (<[MODE_SUPERVISOR := 0]>
       (<[MODE_ABORT := 0]> (<[MODE_UNDEFINED := 0]> ∅))));
     cycles := 0 |}.

(** [dummy_bios], line 65: [MOV R0, R0] repeated. *)
Definition dummy_bios : list byte :=
  mjoin (replicate (Z.to_nat (BIOS_SIZE / 4))
           [Byte.x00; Byte.x00; Byte.xa0; Byte.xe1]).

(** The rest of [ARM7TDMI.__init__], lines 65-67. *)
Definition ARM7TDMI_init : M GBA unit :=
  load_bios dummy_bios ;; reset.

(** *** [PPU] *)

Definition DISPCNT : Z := 0x00.
Definition DISPSTAT : Z := 0x04.
Definition VCOUNT : Z := 0x06.

Definition set_frame_buffer (fb : list string) (p : PPU) : PPU :=
  mkPPU fb (current_scanline p) (cycles_scanline p) (color_cache p).
Definition set_current_scanline (n : Z) (p : PPU) : PPU :=
  mkPPU (frame_buffer p) n (cycles_scanline p) (color_cache p).
Definition set_cycles_scanline (n : Z) (p : PPU) : PPU :=
  mkPPU (frame_buffer p) (current_scanline p) n (color_cache p).
Definition set_color_cache (c : gmap Z string) (p : PPU) : PPU :=
  mkPPU (frame_buffer p) (current_scanline p) (cycles_scanline p) c.

(** [PPU.__init__], lines 405-413 *)
Definition PPU_init : PPU :=
  {| frame_buffer :=
       replicate (Z.to_nat (SCREEN_WIDTH * SCREEN_HEIGHT)) "#000000"%string;
     current_scanline := 0;
     cycles_scanline := 0;
     color_cache := ∅ |}.

(** [self.frame_buffer[i] = c] *)
Definition fb_set (i : Z) (c : string) : M GBA unit :=
  let* fb := gets (fun g => frame_buffer (ppu g)) in
  let* fb' := lift (list_setitem fb i c) in
  modify (upd_ppu (set_frame_buffer fb')).

(** [for x in range(SCREEN_WIDTH): self.frame_buffer[y * SCREEN_WIDTH + x]
    = c] *)
Definition fill_line (y : Z) (c : string) : M GBA unit :=
  for_each (range SCREEN_WIDTH) tt
    (fun x _ => fb_set (y * SCREEN_WIDTH + x) c).

(** The 8-bit-per-channel colour text of a 5-5-5 value, lines 477-483. *)
Definition tk_color (color_15bit : Z) : string :=
  let r5 := Z.land color_15bit 0x1F in
  let g5 := Z.land (Z.shiftr color_15bit 5) 0x1F in
  let b5 := Z.land (Z.shiftr color_15bit 10) 0x1F in
  let r8 := (r5 * 255) / 31 in
  let g8 := (g5 * 255) / 31 in
  let b8 := (b5 * 255) / 31 in
  (String "#" (fmt_02x r8 +:+ fmt_02x g8 +:+ fmt_02x b8))%string.

(** The cached conversion, lines 474-484 (repeated at lines 502-508). *)
Definition cached_color (color_15bit : Z) : M GBA string :=
  let* cache := gets (fun g => color_cache (ppu g)) in
  match cache !! color_15bit with
  | Some c => ret c
  | None =>
      let c := tk_color color_15bit in
      modify (upd_ppu (fun p =>
        set_color_cache (<[color_15bit := c]> (color_cache p)) p)) ;;
      ret c
  end.

(** [self.memory.vram[i]] and [self.memory.palette_ram[i]] *)
Definition vram_get (i : Z) : M GBA Z :=
  let* b := gets (fun g => vram (memory g)) in lift (getitem b i).
Definition palette_get (i : Z) : M GBA Z :=
  let* b := gets (fun g => palette_ram (memory g)) in lift (getitem b i).

(** [render_scanline], lines 462-517 *)
Definition render_scanline (y : Z) : M GBA unit :=
  let* dispcnt := read_halfword (IO_REG_START + DISPCNT) in
  let mode := Z.land dispcnt 0x7 in
  if mode =? 3 then
    if negb (Z.land (Z.shiftr dispcnt 7) 1 =? 0) then fill_line y "#000000"
    else
      let vram_offset := y * SCREEN_WIDTH * 2 in
      for_each (range SCREEN_WIDTH) vram_offset
        (fun x vram_offset =>
           (if vram_offset + 1 <? VRAM_SIZE then
              let* lo := vram_get vram_offset in
              let* hi := vram_get (vram_offset + 1) in
              let color_15bit := Z.lor lo (Z.shiftl hi 8) in
              let* c := cached_color color_15bit in
              fb_set (y * SCREEN_WIDTH + x) c
            else fb_set (y * SCREEN_WIDTH + x) "#FF00FF") ;;
           ret (vram_offset + 2)) ;;
      ret tt
  else if mode =? 4 then
    if negb (Z.land (Z.shiftr dispcnt 7) 1 =? 0) then fill_line y "#000000"
    else
      let page_offset :=
        if negb (Z.land (Z.shiftr dispcnt 4) 1 =? 0) then 0xA000 else 0 in
      let vram_base := page_offset + y * SCREEN_WIDTH in
      for_each (range SCREEN_WIDTH) vram_base
        (fun x vram_base =>
           (if vram_base <? VRAM_SIZE then
              let* palette_idx := vram_get vram_base in
              let pal_addr := palette_idx * 2 in
              if pal_addr + 1 <? PALETTE_RAM_SIZE then
                let* lo := palette_get pal_addr in
                let* hi := palette_get (pal_addr + 1) in
                let color_15bit := Z.lor lo (Z.shiftl hi 8) in
                let* c := cached_color color_15bit in
                fb_set (y * SCREEN_WIDTH + x) c
              else fb_set (y * SCREEN_WIDTH + x) "#00FF00"
            else fb_set (y * SCREEN_WIDTH + x) "#0000FF") ;;
           ret (vram_base + 1)) ;;
      ret tt
  else fill_line y "#111111".

(** [self.memory.io_regs[i]] *)
Definition io_get (i : Z) : M GBA Z :=
  let* b := gets (fun g => io_regs (memory g)) in lift (getitem b i).

(** [PPU.step], lines 443-460.  The method returns nothing; the value
    returned here is the trace of this call: the scanlines handed to
    [render_scanline], in order. *)
Definition PPU_step (cycles : Z) : M GBA (list Z) :=
  modify (upd_ppu (fun p => set_cycles_scanline (cycles_scanline p + cycles) p)) ;;
  let* acc := gets (fun g => cycles_scanline (ppu g)) in
  if 1232 <=? acc then
    modify (upd_ppu (fun p => set_cycles_scanline (cycles_scanline p - 1232) p)) ;;
    let* y := gets (fun g => current_scanline (ppu g)) in
    let* trace :=
      if y <? SCREEN_HEIGHT then render_scanline y ;; ret [y] else ret [] in
    modify (upd_ppu (fun p => set_current_scanline (current_scanline p + 1) p)) ;;
    let* y1 := gets (fun g => current_scanline (ppu g)) in
    (if y1 =? 160 then
       let* d := io_get DISPSTAT in
       if negb (Z.land (Z.shiftr d 3) 1 =? 0) then ret tt else ret tt
     else ret tt) ;;
    (if y1 =? 228 then modify (upd_ppu (set_current_scanline 0)) else ret tt) ;;
    let* y2 := gets (fun g => current_scanline (ppu g)) in
    write_byte (IO_REG_START + VCOUNT) y2 ;;
    let* dispstat_val := read_halfword (IO_REG_START + DISPSTAT) in
    ret trace
  else ret [].

(** A driver calling [PPU.step] once per entry of [cs], as the emulation
    loop does after every processor step; the traces are concatenated. *)
Fixpoint PPU_run (cs : list Z) : M GBA (list Z) :=
  match cs with
  | [] => ret []
  | c :: rest =>
      let* t1 := PPU_step c in
      let* t2 := PPU_run rest in
      ret (t1 ++ t2)
  end.

(** [get_frame], lines 519-520 *)
Definition get_frame : M GBA (list string) :=
  gets (fun g => frame_buffer (ppu g)).

(** *** [Keypad] *)

(** [Keypad.__init__], lines 524-539 *)
Definition Keypad_init : Keypad := {| key_state := 0xFFFF |}.

Definition key_map : gmap string Z :=
  list_to_map
    [ ("z", 0); ("x", 1); ("return", 3); ("shift_r", 2); ("up", 6);
      ("down", 7); ("left", 5); ("right", 4); ("a", 9); ("s", 8) ]%string.

(** [update_keyinput_reg], lines 555-557 *)
Definition update_keyinput_reg : M GBA unit :=
  let* ks := gets (fun g => key_state (keypad g)) in
  region_store Io_regs 0x130 (Z.land ks 0xFF) ;;
  let* ks := gets (fun g => key_state (keypad g)) in
  region_store Io_regs 0x131 (Z.land (Z.shiftr ks 8) 0xFF).

(** [key_down], lines 541-546 *)
Definition key_down (key_name : string) : M GBA unit :=
  let key_name := lower key_name in
  (match key_map !! key_name with
   | Some bit =>
       modify (upd_keypad (fun k =>
         mkKeypad (Z.land (key_state k) (Z.lnot (Z.shiftl 1 bit)))))
   | None => ret tt
   end) ;;
  update_keyinput_reg.

(** [key_up], lines 548-553 *)
Definition key_up (key_name : string) : M GBA unit :=
  let key_name := lower key_name in
  (match key_map !! key_name with
   | Some bit =>
       modify (upd_keypad (fun k =>
         mkKeypad (Z.lor (key_state k) (Z.shiftl 1 bit))))
   | None => ret tt
   end) ;;
  update_keyinput_reg.

(** *** The machine *)

(** The objects as their constructors first create them: a fresh
    [Memory], the fields of a processor, a video unit and a keypad. *)
Definition GBA_fields : GBA :=
  {| memory := Memory_init;
     cpu := ARM7TDMI_fields;
     ppu := PPU_init;
     keypad := Keypad_init |}.

(** *** State invariants the constructors establish *)

(** The register arrays have the sizes [ARM7TDMI.__init__] gives them. *)
Definition cpu_wf (c : ARM7TDMI) : Prop :=
  length (R c) = 16%nat /\
  (exists l, R_banked c !! MODE_FIQ = Some l /\ length l = 7%nat) /\
  (forall mode, in_r13_r14_banks mode = true ->
     exists l, R_banked c !! mode = Some l /\ length l = 2%nat).

(** The modes whose R13 lives in a bank of [R_banked] rather than in
    [R]. *)
Definition own_bank (mode : Z) : bool :=
  (mode =? MODE_FIQ) || in_r13_r14_banks mode.

(** The fixed-size buffers have the sizes [Memory.__init__] gives them. *)
Definition mem_wf (m : Memory) : Prop :=
  len (bios m) = BIOS_SIZE /\ len (ewram m) = EWRAM_SIZE /\
  len (iwram m) = IWRAM_SIZE /\ len (io_regs m) = IO_REG_SIZE /\
  len (palette_ram m) = PALETTE_RAM_SIZE /\ len (vram m) = VRAM_SIZE /\
  len (oam m) = OAM_SIZE.

(** The frame buffer has one cell per pixel. *)
Definition ppu_wf (p : PPU) : Prop :=
  len (frame_buffer p) = SCREEN_WIDTH * SCREEN_HEIGHT.

(** Every cached colour is the conversion of its key (the cache is only
    filled by the renderer). *)
Definition cache_ok (p : PPU) : Prop :=
  forall k c, color_cache p !! k = Some c -> c = tk_color k.

(** [m1] is [m] up to the attributes a region lookup creates on first use:
    the fixed buffers and the connections are the same, and [sram] and
    [dummy_unmapped] are either the same or newly created, zero-filled. *)
Definition mem_lazy (m m1 : Memory) : Prop :=
  bios m1 = bios m /\ ewram m1 = ewram m /\ iwram m1 = iwram m /\
  gamepak_rom m1 = gamepak_rom m /\ io_regs m1 = io_regs m /\
  palette_ram m1 = palette_ram m /\ vram m1 = vram m /\ oam m1 = oam m /\
  has_ppu m1 = has_ppu m /\ has_keypad m1 = has_keypad m /\
  (sram m1 = sram m \/ (sram m = None /\ sram m1 = Some (zeros 0x10000))) /\
  (dummy_unmapped m1 = dummy_unmapped m \/
   (dummy_unmapped m = None /\ dummy_unmapped m1 = Some (zeros 4))).

Definition lazy_alloc (g g1 : GBA) : Prop :=
  cpu g1 = cpu g /\ ppu g1 = ppu g /\ keypad g1 = keypad g /\
  mem_lazy (memory g) (memory g1).

(** What holds of the machine between two calls of [PPU.step]. *)
Definition ppu_inv (g : GBA) : Prop :=
  mem_wf (memory g) /\ ppu_wf (ppu g) /\
  0 <= current_scanline (ppu g) <= 227.

(** [s] is [g] after drawing into row [y] of the frame buffer only: the
    other objects, the video counters and every cell outside the row are
    the same, and the colour cache is still sound if it was. *)
Definition row_frame (g : GBA) (y : Z) (s : GBA) : Prop :=
  memory s = memory g /\ cpu s = cpu g /\ keypad s = keypad g /\
  current_scanline (ppu s) = current_scanline (ppu g) /\
  cycles_scanline (ppu s) = cycles_scanline (ppu g) /\
  len (frame_buffer (ppu s)) = len (frame_buffer (ppu g)) /\
  (cache_ok (ppu g) -> cache_ok (ppu s)) /\
  (forall i : nat,
     Z.of_nat i < y * SCREEN_WIDTH \/ y * SCREEN_WIDTH + SCREEN_WIDTH <= Z.of_nat i ->
     frame_buffer (ppu s) !! i = frame_buffer (ppu g) !! i).

(** The scanlines rendered from reset up to the moment the scanline index
    is [s] in frame number [f] (counting from 0): [f] whole passes over
    the visible lines 0..159, then the visible lines below [s]. *)
Definition rendered_after (f : nat) (s : Z) : list Z :=
  mjoin (replicate f (range SCREEN_HEIGHT)) ++ range (Z.min s SCREEN_HEIGHT).

(** The 5-5-5 value of pixel [x] of row [y] in the mode-3 bitmap. *)
Definition mode3_pixel (m : Memory) (y x : Z) : option Z :=
  match vram m !! Z.to_nat (y * SCREEN_WIDTH * 2 + 2 * x),
        vram m !! Z.to_nat (y * SCREEN_WIDTH * 2 + 2 * x + 1) with
  | Some lo, Some hi => Some (Z.lor (byte.unsigned lo) (Z.shiftl (byte.unsigned hi) 8))
  | _, _ => None
  end.

(** The display-control halfword the renderer reads. *)
Definition dispcnt_of (m : Memory) : option Z :=
  match io_regs m !! 0%nat, io_regs m !! 1%nat with
  | Some lo, Some hi => Some (Z.lor (byte.unsigned lo) (Z.shiftl (byte.unsigned hi) 8))
  | _, _ => None
  end.

(** [m'] is [m] except, at most, for the VCOUNT byte of the register
    block. *)
Definition vcount_only (m m' : Memory) : Prop :=
  bios m' = bios m /\ ewram m' = ewram m /\ iwram m' = iwram m /\
  gamepak_rom m' = gamepak_rom m /\ palette_ram m' = palette_ram m /\
  vram m' = vram m /\ oam m' = oam m /\ sram m' = sram m /\
  dummy_unmapped m' = dummy_unmapped m /\
  has_ppu m' = has_ppu m /\ has_keypad m' = has_keypad m /\
  len (io_regs m') = len (io_regs m) /\
  (forall i : nat, i <> 6%nat -> io_regs m' !! i = io_regs m !! i).

(** The machine is set up for Scenario C: video invariants, a sound colour
    cache, display control in mode 3 without forced blank, and the 5-5-5
    value 0x7FFF in VRAM at pixel 0 of scanline 0. *)
Definition white_setup (g : GBA) : Prop :=
  ppu_inv g /\ cache_ok (ppu g) /\
  (exists d, dispcnt_of (memory g) = Some d /\
             Z.land d 0x7 = 3 /\ Z.land (Z.shiftr d 7) 1 = 0) /\
  mode3_pixel (memory g) 0 0 = Some 0x7FFF.

(** The machine as constructed, with display control set to mode 3. *)
Definition GBA_mode3 : GBA :=
  upd_memory (set_region_bytes Io_regs (<[0%nat := Byte.x03]> (zeros IO_REG_SIZE)))
    GBA_fields.

(** The scratch buffer for unmapped addresses, once created, has the four
    bytes the region lookup gives it. *)
Definition scratch_ok (m : Memory) : Prop :=
  match dummy_unmapped m with
  | None => True
  | Some b => len b = 4
  end.

(** An address (masked to 32 bits) above the save RAM and outside the
    loaded cartridge. *)
Definition above_map (m : Memory) (a : Z) : Prop :=
  0x0E010000 <= Z.land a 0xFFFFFFFF /\
  GAMEPAK_ROM_START + len (gamepak_rom m) <= Z.land a 0xFFFFFFFF.

(** An address (masked to 32 bits) in the work-RAM window the region lookup
    folds onto the 256 KiB buffer. *)
Definition in_ewram_window (a : Z) : Prop :=
  EWRAM_START <= Z.land a 0xFFFFFFFF < EWRAM_START + 0xFFFFFF.

(** *** Where a register lives *)

(** The storage cell a register index names in a mode: an entry of [R] or
    an entry of one of the banks of [R_banked], by the tests of [get_reg]
    and [set_reg] (lines 79-106). *)
Inductive Cell : Set :=
| Shared (i : nat)
| Banked (mode : Z) (i : nat).

Definition reg_cell (mode r_idx : Z) : Cell :=
  if r_idx <? 8 then Shared (Z.to_nat r_idx)
  else if (mode =? MODE_FIQ) && ((8 <=? r_idx) && (r_idx <=? 14)) then
    Banked MODE_FIQ (Z.to_nat (r_idx - 8))
  else if (r_idx =? 13) && in_r13_r14_banks mode then Banked mode 0
  else if (r_idx =? 14) && in_r13_r14_banks mode then Banked mode 1
  else Shared (Z.to_nat r_idx).

Definition cell_get (x : Cell) (c : ARM7TDMI) : option Z :=
  match x with
  | Shared i => R c !! i
  | Banked mode i =>
      match R_banked c !! mode with
      | Some l => l !! i
      | None => None
      end
  end.

Definition cell_set (x : Cell) (v : Z) (c : ARM7TDMI) : ARM7TDMI :=
  match x with
  | Shared i => set_R (<[i := v]> (R c)) c
  | Banked mode i =>
      match R_banked c !! mode with
      | Some l => set_R_banked (<[mode := <[i := v]> l]> (R_banked c)) c
      | None => c
      end
  end.

(** The value [get_reg] returns for register [r_idx] in the current mode. *)
Definition reg_value (c : ARM7TDMI) (r_idx : Z) : option Z :=
  cell_get (reg_cell (Z.land (CPSR c) 0x1F) r_idx) c.

(** [n] calls of [step] in a row. *)
Fixpoint steps (n : nat) : M GBA unit :=
  match n with
  | O => ret tt
  | S k => step ;; steps k
  end.

(** [s] is [g] after the processor alone has run: the video unit and the
    keypad are the same and memory is the same up to the buffers a region
    lookup creates. *)
Definition cpu_only (g s : GBA) : Prop :=
  ppu s = ppu g /\ keypad s = keypad g /\ mem_lazy (memory g) (memory s).

(** The 24-bit branch displacement of an ARM opcode, as a signed number of
    words. *)
Definition branch_displacement (opcode : Z) : Z :=
  let imm := Z.land opcode 0x00FFFFFF in
  if imm <? 0x00800000 then imm else imm - 0x01000000.

(** [ror], lines 277-280.  [1 << bits] raises for a negative width and
    [shift %= bits] for the width 0. *)
Inductive ror_error : Set := NegativeShiftCount | ModuloByZero.

Definition ror (val shift bits : Z) : ror_error + Z :=
  if bits <? 0 then inl NegativeShiftCount
  else
    let mask := Z.shiftl 1 bits - 1 in
    if bits =? 0 then inl ModuloByZero
    else
      let shift := shift mod bits in
      inr (Z.land (Z.lor (Z.shiftr val shift) (Z.shiftl val (bits - shift))) mask).

(** [get_dispstat], lines 434-441 *)
Definition get_dispstat : M GBA Z :=
  let* hi := io_get (DISPSTAT + 1) in
  let* lo := io_get DISPSTAT in
  let vcount_setting := Z.lor (Z.shiftl hi 8) lo in
  let lyc_val := Z.shiftr vcount_setting 8 in
  let stat := 0 in
  let* y := gets (fun g => current_scanline (ppu g)) in
  let stat := if (160 <=? y) && (y <? 228) then Z.lor stat 1 else stat in
  let stat := if y =? lyc_val then Z.lor stat (Z.shiftl 1 2) else stat in
  let* io := gets (fun g => io_regs (memory g)) in
  let* io' := lift (setitem io VCOUNT (Z.land y 0xFF)) in
  modify (upd_memory (set_region_bytes Io_regs io')) ;;
  ret (Z.lor stat (Z.land vcount_setting 0xFFF8)).

(** One pass of the [while] loop of [emulation_loop], lines 662-667: a
    processor step, then the video unit advanced by the cycles that step
    took.  The value returned is that number of cycles. *)
Definition emulation_iteration : M GBA Z :=
  let* cycles_before_step := gets (fun g => cycles (cpu g)) in
  step ;;
  let* cycles_after := gets (fun g => cycles (cpu g)) in
  let executed_this_step := cycles_after - cycles_before_step in
  PPU_step executed_this_step ;;
  ret executed_this_step.

(** The position of the video clock within a frame, in cycles. *)
Definition video_clock (p : PPU) : Z :=
  current_scanline p * 1232 + cycles_scanline p.

(** Lines 12-13 *)
Definition CPU_FREQ : Z := 16777216.
Definition CYCLES_PER_FRAME : Z := CPU_FREQ / 60.

(** The [while] loop of [emulation_loop], lines 660-667, from the running
    total [executed_cycles_total]; the value is the total at exit, or
    [None] when [fuel] passes did not reach the exit. *)
Fixpoint emulation_while (fuel : nat) (executed_cycles_total : Z)
  : M GBA (option Z) :=
  if executed_cycles_total <? CYCLES_PER_FRAME then
    match fuel with
    | O => ret None
    | S k =>
        let* executed_this_step := emulation_iteration in
        emulation_while k (executed_cycles_total + executed_this_step)
    end
  else ret (Some executed_cycles_total).

(** What an instruction of this core can do to the machine: the register
    arrays keep their shape, CPSR changes in the T bit at most, SPSR and
    the cycle counter are not touched, and nothing outside the processor
    changes (up to the buffers a region lookup creates). *)
Definition cpu_effect (g s : GBA) : Prop :=
  cpu_wf (cpu s) /\ cpu_only g s /\
  SPSR (cpu s) = SPSR (cpu g) /\ cycles (cpu s) = cycles (cpu g) /\
  Z.land (CPSR (cpu s)) (Z.lnot 0x20) = Z.land (CPSR (cpu g)) (Z.lnot 0x20).

(** The same, with CPSR not changed at all. *)
Definition cpu_keeps (g s : GBA) : Prop :=
  cpu_effect g s /\ CPSR (cpu s) = CPSR (cpu g).

(** A computation that, from well-formed registers, returns without
    raising and relates the state before to the state after by [E]. *)
Definition safe_with (E : GBA -> GBA -> Prop) {A} (c : M GBA A) : Prop :=
  forall g, cpu_wf (cpu g) -> exists a s, c g = Ok (a, s) /\ E g s.

(** What holds of the machine between two passes of the emulation loop. *)
Definition machine_inv (g : GBA) : Prop :=
  cpu_wf (cpu g) /\ ppu_inv g /\ 0 <= cycles_scanline (ppu g) < 1232.

(** The 5-5-5 value the mode-4 renderer looks up for pixel [x] of row [y]
    in the page that starts at [page_offset]: the palette entry selected
    by the byte of the bitmap. *)
Definition mode4_pixel (m : Memory) (page_offset y x : Z) : option Z :=
  match vram m !! Z.to_nat (page_offset + y * SCREEN_WIDTH + x) with
  | Some idx =>
      match palette_ram m !! Z.to_nat (byte.unsigned idx * 2),
            palette_ram m !! Z.to_nat (byte.unsigned idx * 2 + 1) with
      | Some lo, Some hi =>
          Some (Z.lor (byte.unsigned lo) (Z.shiftl (byte.unsigned hi) 8))
      | _, _ => None
      end
  | None => None
  end.

(** The colour [render_scanline] (lines 462-517) leaves in pixel [x] of
    row [y], read off memory [m]: black under forced blank in modes 3 and
    4, else the conversion of the bitmap value (mode 3) or of the palette
    entry (mode 4, in the page bit 4 of the display control selects), and
    [#111111] in every other mode. *)
Definition scanline_pixel (m : Memory) (y x : Z) : option string :=
  match dispcnt_of m with
  | None => None
  | Some dispcnt =>
      let mode := Z.land dispcnt 0x7 in
      if mode =? 3 then
        if negb (Z.land (Z.shiftr dispcnt 7) 1 =? 0) then Some "#000000"%string
        else option_map tk_color (mode3_pixel m y x)
      else if mode =? 4 then
        if negb (Z.land (Z.shiftr dispcnt 7) 1 =? 0) then Some "#000000"%string
        else
          option_map tk_color
            (mode4_pixel m
               (if negb (Z.land (Z.shiftr dispcnt 4) 1 =? 0) then 0xA000 else 0) y x)
      else Some "#111111"%string
  end.

(** How many of the [PPU.step] calls with the cycle counts [cs] reach the
    threshold, from the accumulator [acc]: line 444 adds the count, line
    445 compares with 1232 and line 446 subtracts 1232, once per call. *)
Fixpoint crossings (acc : Z) (cs : list Z) : Z :=
  match cs with
  | [] => 0
  | c :: rest =>
      if 1232 <=? acc + c then 1 + crossings (acc + c - 1232) rest
      else crossings (acc + c) rest
  end.

(** [sum(cs)] *)
Definition sum (cs : list Z) : Z := foldr Z.add 0 cs.

(** [s] is [g] after stores through the bus: the processor, the video
    unit and the keypad are the same, the boot code and the cartridge are
    the same, and every buffer that existed still exists with the same
    length. *)
Definition store_frame (g s : GBA) : Prop :=
  cpu s = cpu g /\ ppu s = ppu g /\ keypad s = keypad g /\
  has_ppu (memory s) = has_ppu (memory g) /\
  has_keypad (memory s) = has_keypad (memory g) /\
  bios (memory s) = bios (memory g) /\
  gamepak_rom (memory s) = gamepak_rom (memory g) /\
  (forall r b, region_bytes r (memory g) = Some b ->
     exists b', region_bytes r (memory s) = Some b' /\ len b' = len b).


End Flames.

(** ** [0.py], lines 19-66: the stand-in processor of the test window *)

Module StubCPU.

Definition GAMEPAK_ROM_START : Z := 0x08000000.

Record t : Type := mk {
  registers : list Z;
  pc : Z;
  CPSR : Z;
  cycle_count : Z
}.

Definition set_registers (r : list Z) (c : t) : t :=
  mk r (pc c) (CPSR c) (cycle_count c).
Definition set_pc_field (p : Z) (c : t) : t :=
  mk (registers c) p (CPSR c) (cycle_count c).
Definition set_cycle_count (n : Z) (c : t) : t :=
  mk (registers c) (pc c) (CPSR c) n.

(** [__init__], lines 20-25 *)
Definition init : t :=
  {| registers := replicate 16 0;
     pc := GAMEPAK_ROM_START;
     CPSR := 0x0000001F;
     cycle_count := 0 |}.

(** [reset], lines 27-30 *)
Definition reset : M t unit :=
  modify (fun c => mk (replicate 16 0) GAMEPAK_ROM_START 0x0000001F (cycle_count c)).

(** [step], lines 32-38 *)
Definition step : M t unit :=
  let* r := gets registers in
  let* r0 := lift (list_getitem r 0) in
  let* r' := lift (list_setitem r 0 (r0 + 1)) in
  modify (set_registers r') ;;
  modify (fun c => set_pc_field (pc c + 4) c) ;;
  let* p := gets pc in
  (if GAMEPAK_ROM_START + 12 <=? p then
     modify (set_pc_field (GAMEPAK_ROM_START + 4))
   else ret tt) ;;
  modify (fun c => set_cycle_count (cycle_count c + 1) c).

(** [get_reg], [get_pc], lines 40-44 *)
Definition get_reg (n : Z) : M t Z :=
  let* r := gets registers in lift (list_getitem r n).
Definition get_pc : M t Z := gets pc.

(** [n] calls of [step] in a row. *)
Fixpoint steps (n : nat) : M t unit :=
  match n with
  | O => ret tt
  | S k => step ;; steps k
  end.

End StubCPU.

(** * Properties *)

(** ** Sequencing *)

Lemma bind_ok {S A B} (c : M S A) (k : A -> M S B) (s s' : S) (a : A) :
  c s = Ok (a, s') -> bind c k s = k a s'.
Proof. intros H. unfold bind. rewrite H. reflexivity. Qed.

(** ** Arithmetic of the 32-bit rotation *)

Lemma land_ones32 (v : Z) : Z.land v 0xFFFFFFFF = v mod 2 ^ 32.
Proof. change 0xFFFFFFFF with (Z.ones 32). apply Z.land_ones. lia. Qed.

Lemma testbit_small (a k i : Z) :
  0 <= a < 2 ^ k -> k <= i -> Z.testbit a i = false.
Proof.
  intros Ha Hi.
  destruct (Z.eq_dec a 0) as [->|Hne]; [apply Z.bits_0|].
  assert (0 <= k) by (destruct (Z.lt_ge_cases k 0); [rewrite Z.pow_neg_r in Ha|]; lia).
  apply Z.bits_above_log2; [lia|].
  apply Z.lt_le_trans with k; [apply Z.log2_lt_pow2|]; lia.
Qed.

Lemma lor_disjoint_add (a b k : Z) :
  0 <= k -> 0 <= a < 2 ^ k -> Z.lor a (b * 2 ^ k) = a + b * 2 ^ k.
Proof.
  intros Hk Ha.
  rewrite <- Z.shiftl_mul_pow2 by lia.
  assert (Hd : Z.land a (Z.shiftl b k) = 0).
  { apply Z.bits_inj'; intros i Hi. rewrite Z.land_spec, Z.bits_0.
    destruct (Z.lt_ge_cases i k).
    - rewrite Z.shiftl_spec_low by lia. apply andb_false_r.
    - rewrite (testbit_small a k i) by lia. reflexivity. }
  rewrite Z.add_nocarry_lxor, Z.lxor_lor by exact Hd. reflexivity.
Qed.

(** The expression of [read_word] is the rotation. *)
Lemma rotate_expr_rotr32 (v r : Z) :
  0 <= v < 2 ^ 32 -> 0 <= r <= 32 ->
  Z.land (Z.lor (Z.shiftr v r) (Z.shiftl v (32 - r))) 0xFFFFFFFF = rotr32 v r.
Proof.
  intros Hv Hr. unfold rotr32.
  assert (Hp : 2 ^ 32 = 2 ^ r * 2 ^ (32 - r))
    by (rewrite <- Z.pow_add_r by lia; f_equal; lia).
  assert (Hr0 : 0 < 2 ^ r) by (apply Z.pow_pos_nonneg; lia).
  assert (Hs0 : 0 < 2 ^ (32 - r)) by (apply Z.pow_pos_nonneg; lia).
  rewrite Z.land_lor_distr_l, !land_ones32.
  rewrite Z.shiftr_div_pow2, Z.shiftl_mul_pow2 by lia.
  assert (Hq : 0 <= v / 2 ^ r < 2 ^ (32 - r)).
  { split; [apply Z.div_pos; lia|]. apply Z.div_lt_upper_bound; lia. }
  rewrite (Z.mod_small (v / 2 ^ r)) by nia.
  rewrite Hp, Z.mul_mod_distr_r by lia.
  apply lor_disjoint_add; lia.
Qed.

(** [rotr32] moves bit [(i + r) mod 32] of the word to bit [i]. *)
Lemma rotr32_testbit (v r i : Z) :
  0 <= v < 2 ^ 32 -> 0 <= r < 32 -> 0 <= i < 32 ->
  Z.testbit (rotr32 v r) i = Z.testbit v ((i + r) mod 32).
Proof.
  intros Hv Hr Hi.
  rewrite <- rotate_expr_rotr32 by lia.
  change 0xFFFFFFFF with (Z.ones 32).
  rewrite Z.land_spec, Z.lor_spec, Z.ones_spec_low, andb_true_r by lia.
  rewrite Z.shiftr_spec by lia.
  destruct (Z.lt_ge_cases (i + r) 32) as [Hlt|Hge].
  - rewrite Z.shiftl_spec_low by lia. rewrite Z.mod_small by lia.
    apply orb_false_r.
  - rewrite Z.shiftl_spec by lia.
    replace ((i + r) mod 32) with (i + r - 32)
      by (apply Z.mod_unique with 1; lia).
    replace (i - (32 - r)) with (i + r - 32) by lia.
    rewrite (testbit_small v 32 (i + r)) by lia. reflexivity.
Qed.

(** ** [0.py], first bus: reads are total and only touch the bookkeeping *)

Lemma getitem_in_range (b : list byte) (i : Z) :
  0 <= i < len b -> exists v, getitem b i = Ok v /\ 0 <= v < 256.
Proof.
  intros Hi. unfold getitem, norm_index.
  destruct (i <? 0) eqn:E; [lia|].
  replace ((0 <=? i) && (i <? len b)) with true by (symmetry; apply andb_true_iff; lia).
  destruct (lookup_lt_is_Some_2 b (Z.to_nat i)) as [x Hx]; [unfold len in Hi; lia|].
  rewrite Hx. exists (byte.unsigned x). split; [reflexivity|].
  pose proof (byte.unsigned_range x). lia.
Qed.

Lemma with_meta_id (m : MemoryManager.t) :
  MemoryManager.with_meta (MemoryManager.last_read_addr m)
    (MemoryManager.last_write_addr m) (MemoryManager.warnings m) m = m.
Proof. destruct m; reflexivity. Qed.

Lemma mm_map_address_frame (a : Z) (m : MemoryManager.t) :
  exists r off ws, 0 <= off /\
    forall lr lw ws0,
      MemoryManager.map_address a (MemoryManager.with_meta lr lw ws0 m)
      = Ok ((r, off), MemoryManager.with_meta lr lw (ws0 ++ ws) m).
Proof.
  destruct m as [b e i io p v o r s lr0 lw0 w0].
  unfold MemoryManager.map_address.
  cbv [bind modify gets ret MemoryManager.warn MemoryManager.with_meta
       MemoryManager.set_warnings MemoryManager.m_rom MemoryManager.m_bios
       MemoryManager.m_ewram MemoryManager.m_iwram MemoryManager.m_io_regs
       MemoryManager.m_palette MemoryManager.m_vram MemoryManager.m_oam
       MemoryManager.m_sram MemoryManager.last_read_addr
       MemoryManager.warnings MemoryManager.last_write_addr].
  repeat match goal with
         | |- context [if ?c then _ else _] => destruct c eqn:?
         end;
    first [ eexists _, _, []; split;
            [|intros; rewrite app_nil_r; reflexivity]; lia
          | eexists _, _, _; split; [|intros; reflexivity]; lia ].
Qed.

Lemma mm_region_of_with_meta r lr lw ws (m : MemoryManager.t) :
  MemoryManager.region_of r (MemoryManager.with_meta lr lw ws m)
  = MemoryManager.region_of r m.
Proof. destruct r; reflexivity. Qed.

Lemma byte_of_shift_range (a : Z) : 0 <= Z.land (Z.shiftr a 24) 0xFF < 256.
Proof.
  change 0xFF with (Z.ones 8). rewrite Z.land_ones by lia.
  apply Z.mod_pos_bound. lia.
Qed.

Lemma mm_read_byte_frame (a : Z) (m : MemoryManager.t) :
  exists v ws, 0 <= v < 256 /\
    forall lr lw ws0,
      MemoryManager.read_byte a (MemoryManager.with_meta lr lw ws0 m)
      = Ok (v, MemoryManager.with_meta a lw (ws0 ++ ws) m).
Proof.
  destruct (mm_map_address_frame a m) as (r & off & ws1 & Hoff & Hmap).
  unfold MemoryManager.read_byte, bind, modify.
  change (fun s' => MemoryManager.set_last_read_addr a s') with
    (MemoryManager.set_last_read_addr a).
  destruct (decide (r = MemoryManager.invalid)) as [Hr|Hr].
  - exists (Z.land (Z.shiftr a 24) 0xFF), ws1.
    split; [apply byte_of_shift_range|]. intros lr lw ws0.
    change (MemoryManager.set_last_read_addr a (MemoryManager.with_meta lr lw ws0 m))
      with (MemoryManager.with_meta a lw ws0 m).
    rewrite Hmap. destruct (decide (r = MemoryManager.invalid)); [reflexivity|done].
  - destruct (MemoryManager.region_of r m) as [mem|] eqn:Hreg;
      [|destruct r; discriminate || done].
    destruct (off <? len mem) eqn:Hlt.
    + destruct (getitem_in_range mem off) as (x & Hx & Hrange); [lia|].
      exists x, ws1. split; [exact Hrange|]. intros lr lw ws0.
      change (MemoryManager.set_last_read_addr a (MemoryManager.with_meta lr lw ws0 m))
        with (MemoryManager.with_meta a lw ws0 m).
      rewrite Hmap. destruct (decide (r = MemoryManager.invalid)); [done|].
      unfold MemoryManager.getattr. rewrite mm_region_of_with_meta, Hreg, Hlt.
      unfold lift. rewrite Hx. reflexivity.
    + exists 0, (ws1 ++ [MemoryManager.OutOfBoundsRead r off]).
      split; [lia|]. intros lr lw ws0.
      change (MemoryManager.set_last_read_addr a (MemoryManager.with_meta lr lw ws0 m))
        with (MemoryManager.with_meta a lw ws0 m).
      rewrite Hmap. destruct (decide (r = MemoryManager.invalid)); [done|].
      unfold MemoryManager.getattr. rewrite mm_region_of_with_meta, Hreg, Hlt.
      unfold MemoryManager.warn, modify, ret. cbn [MemoryManager.warnings MemoryManager.with_meta].
      rewrite app_assoc. reflexivity.
Qed.

Lemma land_3_mod (a : Z) : Z.land a 3 = a mod 4.
Proof. change 3 with (Z.ones 2). rewrite Z.land_ones by lia. reflexivity. Qed.

Lemma land_lnot3_aligned (a : Z) : Z.land (Z.land a (Z.lnot 3)) 3 = 0.
Proof.
  rewrite <- Z.land_assoc. change (Z.land (Z.lnot 3) 3) with 0.
  apply Z.land_0_r.
Qed.

Lemma le_word_value (b0 b1 b2 b3 : Z) :
  0 <= b0 < 256 -> 0 <= b1 < 256 -> 0 <= b2 < 256 -> 0 <= b3 < 256 ->
  Z.lor (Z.lor (Z.lor b0 (Z.shiftl b1 8)) (Z.shiftl b2 16)) (Z.shiftl b3 24)
  = b0 + b1 * 2 ^ 8 + b2 * 2 ^ 16 + b3 * 2 ^ 24.
Proof.
  intros. rewrite !Z.shiftl_mul_pow2 by lia.
  rewrite (lor_disjoint_add b0 b1 8) by lia.
  rewrite (lor_disjoint_add _ b2 16) by lia.
  rewrite (lor_disjoint_add _ b3 24) by lia.
  reflexivity.
Qed.

Lemma le_word_value_rev (b0 b1 b2 b3 : Z) :
  Z.lor (Z.lor (Z.lor (Z.shiftl b3 24) (Z.shiftl b2 16)) (Z.shiftl b1 8)) b0
  = Z.lor (Z.lor (Z.lor b0 (Z.shiftl b1 8)) (Z.shiftl b2 16)) (Z.shiftl b3 24).
Proof.
  rewrite (Z.lor_comm _ b0), (Z.lor_comm _ (Z.shiftl b1 8)),
    (Z.lor_comm (Z.shiftl b3 24)), !Z.lor_assoc.
  reflexivity.
Qed.

(** The first bus of [0.py], [MemoryManager.read_word], lines 145-160.
    For an address [a] with [a % 4 <> 0] and any bus state [m]: the aligned
    word read at [a & ~3] returns some 32-bit [v] without raising, and
    [read_word a] returns [v] rotated right by [(a % 4) * 8] bits, without
    raising, in the state of the aligned read plus one recorded
    misalignment warning for [a]. *)
Lemma mm_read_word_misaligned (m : MemoryManager.t) (a : Z) :
  a mod 4 <> 0 ->
  exists v ws lr,
    0 <= v < 2 ^ 32 /\
    MemoryManager.read_word (Z.land a (Z.lnot 3)) m
    = Ok (v, MemoryManager.with_meta lr (MemoryManager.last_write_addr m)
               (MemoryManager.warnings m ++ ws) m) /\
    MemoryManager.read_word a m
    = Ok (rotr32 v ((a mod 4) * 8),
          MemoryManager.with_meta lr (MemoryManager.last_write_addr m)
            (MemoryManager.warnings m
               ++ MemoryManager.UnalignedWordRead a :: ws) m).
Proof.
  intros Hmis.
  set (al := Z.land a (Z.lnot 3)).
  destruct (mm_read_byte_frame al m) as (b0 & w0 & R0 & H0).
  destruct (mm_read_byte_frame (al + 1) m) as (b1 & w1 & R1 & H1).
  destruct (mm_read_byte_frame (al + 2) m) as (b2 & w2 & R2 & H2).
  destruct (mm_read_byte_frame (al + 3) m) as (b3 & w3 & R3 & H3).
  pose proof (le_word_value b0 b1 b2 b3 R0 R1 R2 R3) as Hv.
  exists (Z.lor (Z.lor (Z.lor b0 (Z.shiftl b1 8)) (Z.shiftl b2 16)) (Z.shiftl b3 24)),
    (w0 ++ w1 ++ w2 ++ w3), (al + 3).
  split; [rewrite Hv; lia|].
  unfold MemoryManager.read_word, bind, modify. cbv beta iota.
  split.
  - fold al.
    change (MemoryManager.set_last_read_addr al m)
      with (MemoryManager.with_meta al (MemoryManager.last_write_addr m)
              (MemoryManager.warnings m) m).
    unfold al at 1. rewrite land_lnot3_aligned.
    change (0 =? 0) with true. cbv beta iota.
    rewrite H0; cbv beta iota; rewrite H1; cbv beta iota;
    rewrite H2; cbv beta iota; rewrite H3; cbv beta iota. unfold ret.
    rewrite le_word_value_rev, <- !app_assoc. reflexivity.
  - rewrite land_3_mod. destruct (a mod 4 =? 0) eqn:E; [lia|].
    unfold MemoryManager.warn, modify. cbv beta iota. fold al.
    change (MemoryManager.set_warnings
              (MemoryManager.warnings (MemoryManager.set_last_read_addr a m)
                 ++ [MemoryManager.UnalignedWordRead a])
              (MemoryManager.set_last_read_addr a m))
      with (MemoryManager.with_meta a (MemoryManager.last_write_addr m)
              (MemoryManager.warnings m ++ [MemoryManager.UnalignedWordRead a]) m).
    rewrite H0; cbv beta iota; rewrite H1; cbv beta iota;
    rewrite H2; cbv beta iota; rewrite H3; cbv beta iota. unfold ret.
    rewrite rotate_expr_rotr32.
    + rewrite <- !app_assoc. reflexivity.
    + rewrite Hv; lia.
    + pose proof (Z.mod_pos_bound a 4). lia.
Qed.

(** ** Python lists: in-range accesses succeed *)

Lemma list_getitem_in_range {A} (l : list A) (i : Z) :
  0 <= i < len l ->
  exists x, l !! Z.to_nat i = Some x /\ list_getitem l i = Ok x.
Proof.
  intros Hi. unfold list_getitem, norm_index.
  destruct (i <? 0) eqn:E; [lia|].
  replace ((0 <=? i) && (i <? len l)) with true by lia.
  destruct (lookup_lt_is_Some_2 l (Z.to_nat i)) as [x Hx]; [unfold len in Hi; lia|].
  exists x. rewrite Hx. split; reflexivity.
Qed.

Lemma list_setitem_in_range {A} (l : list A) (i : Z) (v : A) :
  0 <= i < len l -> list_setitem l i v = Ok (<[Z.to_nat i := v]> l).
Proof.
  intros Hi. unfold list_setitem, norm_index.
  destruct (i <? 0) eqn:E; [lia|].
  replace ((0 <=? i) && (i <? len l)) with true by lia.
  reflexivity.
Qed.

Lemma array_setitem_in_range (l : list Z) (i v : Z) :
  0 <= i < len l -> 0 <= v < 2 ^ 32 ->
  array_setitem l i v = Ok (<[Z.to_nat i := v]> l).
Proof.
  intros Hi Hv. unfold array_setitem.
  replace ((0 <=? v) && (v <? 2 ^ 32)) with true by lia.
  apply list_setitem_in_range, Hi.
Qed.

Lemma setitem_in_range (b : list byte) (i v : Z) :
  0 <= i < len b -> 0 <= v < 256 ->
  setitem b i v = Ok (<[Z.to_nat i := byte.of_Z v]> b).
Proof.
  intros Hi Hv. unfold setitem, norm_index.
  destruct (i <? 0) eqn:E; [lia|].
  replace ((0 <=? i) && (i <? len b)) with true by lia.
  replace ((0 <=? v) && (v <? 256)) with true by lia.
  reflexivity.
Qed.

Lemma len_insert {A} (l : list A) (i : nat) (x : A) : len (<[i := x]> l) = len l.
Proof. unfold len. rewrite length_insert. reflexivity. Qed.

Lemma mask32_range (v : Z) : 0 <= Z.land v 0xFFFFFFFF < 2 ^ 32.
Proof. rewrite land_ones32. apply Z.mod_pos_bound. lia. Qed.

(** ** [flamesgbav2.py]: the register file *)

Section Registers.
Import Flames.

Lemma R_get_ok (g : GBA) (i : Z) :
  0 <= i < len (R (cpu g)) ->
  exists x, R (cpu g) !! Z.to_nat i = Some x /\ R_get i g = Ok (x, g).
Proof.
  intros Hi. destruct (list_getitem_in_range (R (cpu g)) i Hi) as (x & Hx & Hg).
  exists x. split; [exact Hx|].
  unfold R_get, bind, gets, lift. rewrite Hg. reflexivity.
Qed.

Lemma R_set_ok (g : GBA) (i v : Z) :
  0 <= i < len (R (cpu g)) -> 0 <= v < 2 ^ 32 ->
  R_set i v g = Ok (tt, upd_cpu (set_R (<[Z.to_nat i := v]> (R (cpu g)))) g).
Proof.
  intros Hi Hv. unfold R_set, bind, gets, lift, modify.
  rewrite array_setitem_in_range by assumption. reflexivity.
Qed.

Lemma banked_get_ok (g : GBA) (mode i : Z) (l : list Z) :
  R_banked (cpu g) !! mode = Some l -> 0 <= i < len l ->
  exists x, l !! Z.to_nat i = Some x /\ banked_get mode i g = Ok (x, g).
Proof.
  intros Hl Hi. destruct (list_getitem_in_range l i Hi) as (x & Hx & Hg).
  exists x. split; [exact Hx|].
  unfold banked_get, bind, gets, lift, dict_getitem. rewrite Hl, Hg. reflexivity.
Qed.

Lemma banked_set_ok (g : GBA) (mode i v : Z) (l : list Z) :
  R_banked (cpu g) !! mode = Some l -> 0 <= i < len l -> 0 <= v < 2 ^ 32 ->
  banked_set mode i v g
  = Ok (tt, upd_cpu (set_R_banked
              (<[mode := <[Z.to_nat i := v]> l]> (R_banked (cpu g)))) g).
Proof.
  intros Hl Hi Hv. unfold banked_set, bind, gets, lift, modify, dict_getitem.
  rewrite Hl, array_setitem_in_range by assumption. reflexivity.
Qed.

Lemma upd_cpu_CPSR_fields (g : GBA) (p : Z) :
  R (cpu (upd_cpu (set_CPSR p) g)) = R (cpu g) /\
  R_banked (cpu (upd_cpu (set_CPSR p) g)) = R_banked (cpu g) /\
  CPSR (cpu (upd_cpu (set_CPSR p) g)) = p.
Proof. repeat split. Qed.

(** What [get_reg 13] reads in a state whose mode field is [m]: a cell of
    a bank when [m] owns one, [R[13]] otherwise. *)
Lemma get_reg_13_cases (g : GBA) :
  cpu_wf (cpu g) ->
  let m := Z.land (CPSR (cpu g)) 0x1F in
  (m = MODE_FIQ /\ exists l x, R_banked (cpu g) !! MODE_FIQ = Some l /\
      l !! 5%nat = Some x /\ get_reg 13 g = Ok (x, g)) \/
  (in_r13_r14_banks m = true /\ exists l x, R_banked (cpu g) !! m = Some l /\
      l !! 0%nat = Some x /\ get_reg 13 g = Ok (x, g)) \/
  (own_bank m = false /\ exists x, R (cpu g) !! 13%nat = Some x /\
      get_reg 13 g = Ok (x, g)).
Proof.
  intros (HR & (lf & Hlf & Hlenf) & Hb). cbv zeta.
  unfold get_reg, bind, gets. cbv beta iota.
  change (13 <? 8) with false. change (13 =? 13) with true.
  change (13 =? 14) with false. change ((8 <=? 13) && (13 <=? 14)) with true.
  rewrite andb_true_r, andb_true_l, andb_false_l. cbv beta iota.
  destruct (Z.land (CPSR (cpu g)) 31 =? MODE_FIQ) eqn:Ef.
  - left. split; [lia|].
    destruct (banked_get_ok g MODE_FIQ (13 - 8) lf Hlf) as (x & Hx & Hg);
      [unfold len; lia|].
    exists lf, x. auto.
  - destruct (in_r13_r14_banks (Z.land (CPSR (cpu g)) 31)) eqn:Eb.
    + right; left. split; [reflexivity|].
      destruct (Hb _ Eb) as (l & Hl & Hlen).
      destruct (banked_get_ok g _ 0 l Hl) as (x & Hx & Hg); [unfold len; lia|].
      exists l, x. auto.
    + right; right. split; [unfold own_bank; rewrite Ef, Eb; reflexivity|].
      destruct (R_get_ok g 13) as (x & Hx & Hg); [unfold len; lia|].
      exists x. auto.
Qed.

(** What [set_reg 13] writes, by the same three cases. *)
Lemma set_reg_13_cases (g : GBA) (v : Z) :
  cpu_wf (cpu g) ->
  let m := Z.land (CPSR (cpu g)) 0x1F in
  let w := Z.land v 0xFFFFFFFF in
  (m = MODE_FIQ /\ exists l, R_banked (cpu g) !! MODE_FIQ = Some l /\
      set_reg 13 v g
      = Ok (tt, upd_cpu (set_R_banked
                  (<[MODE_FIQ := <[5%nat := w]> l]> (R_banked (cpu g)))) g)) \/
  (m <> MODE_FIQ /\ in_r13_r14_banks m = true /\
      exists l, R_banked (cpu g) !! m = Some l /\
      set_reg 13 v g
      = Ok (tt, upd_cpu (set_R_banked
                  (<[m := <[0%nat := w]> l]> (R_banked (cpu g)))) g)) \/
  (own_bank m = false /\
      set_reg 13 v g
      = Ok (tt, upd_cpu (set_R (<[13%nat := w]> (R (cpu g)))) g)).
Proof.
  intros (HR & (lf & Hlf & Hlenf) & Hb). cbv zeta.
  pose proof (mask32_range v) as Hv.
  unfold set_reg, bind, gets. cbv beta iota.
  change (13 <? 8) with false. change (13 =? 13) with true.
  change (13 =? 14) with false. change ((8 <=? 13) && (13 <=? 14)) with true.
  rewrite andb_true_r, andb_true_l, andb_false_l. cbv beta iota.
  destruct (Z.land (CPSR (cpu g)) 31 =? MODE_FIQ) eqn:Ef.
  - left. split; [lia|]. exists lf. split; [exact Hlf|].
    rewrite (banked_set_ok g MODE_FIQ (13 - 8) _ lf Hlf); [reflexivity| |exact Hv].
    unfold len; lia.
  - destruct (in_r13_r14_banks (Z.land (CPSR (cpu g)) 31)) eqn:Eb.
    + right; left. split; [lia|]. split; [reflexivity|].
      destruct (Hb _ Eb) as (l & Hl & Hlen). exists l. split; [exact Hl|].
      rewrite (banked_set_ok g _ 0 _ l Hl); [reflexivity| |exact Hv].
      unfold len; lia.
    + right; right. split; [unfold own_bank; rewrite Ef, Eb; reflexivity|].
      rewrite R_set_ok; [reflexivity| |exact Hv]. unfold len; lia.
Qed.

Lemma cpu_wf_set_CPSR (g : GBA) (p : Z) :
  cpu_wf (cpu g) -> cpu_wf (cpu (upd_cpu (set_CPSR p) g)).
Proof. intros H. exact H. Qed.

Lemma fiq_not_in_r13_r14_banks : in_r13_r14_banks MODE_FIQ = false.
Proof. reflexivity. Qed.

Lemma cpu_wf_insert_R (c : ARM7TDMI) (i : nat) (v : Z) :
  cpu_wf c -> cpu_wf (set_R (<[i := v]> (R c)) c).
Proof.
  intros (HR & Hf & Hb). split; [|split]; [|exact Hf|exact Hb].
  cbn [R set_R]. rewrite length_insert. exact HR.
Qed.

Lemma cpu_wf_insert_bank (c : ARM7TDMI) (mode : Z) (l : list Z) (i : nat) (v : Z) :
  cpu_wf c -> R_banked c !! mode = Some l ->
  cpu_wf (set_R_banked (<[mode := <[i := v]> l]> (R_banked c)) c).
Proof.
  intros (HR & (lf & Hlf & Hlenf) & Hb) Hl. split; [exact HR|]. split.
  - cbn [R_banked set_R_banked].
    destruct (decide (mode = MODE_FIQ)) as [->|Hne].
    + rewrite lookup_insert_eq. eexists; split; [reflexivity|].
      rewrite length_insert. congruence.
    + rewrite lookup_insert_ne by exact Hne. eauto.
  - intros m Hm. cbn [R_banked set_R_banked].
    destruct (decide (mode = m)) as [->|Hne].
    + rewrite lookup_insert_eq. eexists; split; [reflexivity|].
      rewrite length_insert. destruct (Hb _ Hm) as (l' & Hl' & Hlen'). congruence.
    + rewrite lookup_insert_ne by exact Hne. eauto.
Qed.

(** The register file [ARM7TDMI.__init__] creates is well formed, in any
    mode. *)
Lemma cpu_wf_fields (p : Z) :
  cpu_wf (cpu (upd_cpu (set_CPSR p) GBA_fields)).
Proof.
  split; [reflexivity|]. split; [eexists; split; reflexivity|].
  intros mode Hm. unfold in_r13_r14_banks in Hm.
  assert (mode = MODE_IRQ \/ mode = MODE_SUPERVISOR \/
          mode = MODE_ABORT \/ mode = MODE_UNDEFINED) as Hc by lia.
  destruct Hc as [ -> | [ -> | [ -> | -> ] ] ]; eexists; split; reflexivity.
Qed.

End Registers.

(** C4 ([ARM7TDMI.get_reg] / [set_reg], lines 79-106).  For two different
    modes of which at least one keeps its R13 in a bank of its own (so the
    two modes resolve R13 to distinct storage; this covers any two of FIQ,
    IRQ, Supervisor, Abort and Undefined), [set_reg 13 v] performed in mode
    [m1] succeeds and leaves unchanged the value [get_reg 13] returns once
    the mode field of CPSR is [m2].  Swapping [m1] and [m2] gives the
    converse. *)
Theorem r13_banked_per_mode (g : Flames.GBA) (m1 m2 v p2 : Z) :
  Flames.cpu_wf (Flames.cpu g) ->
  Z.land (Flames.CPSR (Flames.cpu g)) 0x1F = m1 ->
  Z.land p2 0x1F = m2 ->
  m1 <> m2 ->
  Flames.own_bank m1 || Flames.own_bank m2 = true ->
  exists g' x,
    Flames.set_reg 13 v g = Ok (tt, g') /\
    Flames.get_reg 13 (Flames.upd_cpu (Flames.set_CPSR p2) g)
    = Ok (x, Flames.upd_cpu (Flames.set_CPSR p2) g) /\
    Flames.get_reg 13 (Flames.upd_cpu (Flames.set_CPSR p2) g')
    = Ok (x, Flames.upd_cpu (Flames.set_CPSR p2) g').
Proof.
  intros Hwf Hm1 Hm2 Hne Hown.
  assert (Hfiq : Flames.own_bank Flames.MODE_FIQ = true) by reflexivity.
  assert (Hbank : forall m, Flames.in_r13_r14_banks m = true ->
                            Flames.own_bank m = true /\ m <> Flames.MODE_FIQ).
  { intros m Hm. split; [unfold Flames.own_bank; rewrite Hm; apply orb_true_r|].
    intros ->. discriminate Hm. }
  pose proof (set_reg_13_cases g v Hwf) as Hset. cbv zeta in Hset.
  rewrite Hm1 in Hset.
  destruct Hset as [(E1 & l1 & Hl1 & Hs) | [(N1 & B1 & l1 & Hl1 & Hs) | (O1 & Hs)]];
    rewrite Hs;
    match goal with
    | |- exists _ _, Ok (tt, ?g1) = _ /\ _ =>
        assert (Hwf' : Flames.cpu_wf (Flames.cpu g1))
          by (first [ apply cpu_wf_insert_bank; assumption
                    | apply cpu_wf_insert_R; assumption ]);
        pose proof (get_reg_13_cases (Flames.upd_cpu (Flames.set_CPSR p2) g1)
                      (cpu_wf_set_CPSR g1 p2 Hwf')) as Hget'
    end;
    pose proof (get_reg_13_cases (Flames.upd_cpu (Flames.set_CPSR p2) g)
                  (cpu_wf_set_CPSR g p2 Hwf)) as Hget;
    cbv zeta in Hget, Hget';
    cbn [Flames.cpu Flames.upd_cpu Flames.CPSR Flames.set_CPSR Flames.R
         Flames.R_banked Flames.set_R Flames.set_R_banked] in Hget, Hget';
    rewrite Hm2 in Hget, Hget';
    destruct Hget as [(E2 & l2 & x & Hl2 & Hx & Hg) | [(B2 & l2 & x & Hl2 & Hx & Hg) | (O2 & x & Hx & Hg)]];
    destruct Hget' as [(E2' & l2' & x' & Hl2' & Hx' & Hg') | [(B2' & l2' & x' & Hl2' & Hx' & Hg') | (O2' & x' & Hx' & Hg')]];
    try (exfalso; first
           [ congruence
           | subst; destruct (Hbank _ ltac:(eassumption)); congruence
           | rewrite O1 in Hown; simpl in Hown; congruence
           | rewrite E1, Hfiq in *; congruence ]);
    try rewrite lookup_insert_ne in Hl2' by congruence;
    try (destruct (Hbank _ B1); rewrite lookup_insert_ne in Hl2' by congruence);
    try (destruct (Hbank _ B2); rewrite lookup_insert_ne in Hl2' by congruence);
    (assert (x' = x) as -> by congruence);
    eexists _, x; rewrite Hg, Hg'; repeat split.
Qed.

Lemma r13_banked_per_mode_witness :
  Flames.cpu_wf (Flames.cpu (Flames.upd_cpu (Flames.set_CPSR 0x13) Flames.GBA_fields)) /\
  exists g' x,
    Flames.set_reg 13 0x03007FE0 (Flames.upd_cpu (Flames.set_CPSR 0x13) Flames.GBA_fields)
    = Ok (tt, g') /\
    Flames.get_reg 13 (Flames.upd_cpu (Flames.set_CPSR 0x12)
                         (Flames.upd_cpu (Flames.set_CPSR 0x13) Flames.GBA_fields))
    = Ok (x, Flames.upd_cpu (Flames.set_CPSR 0x12)
               (Flames.upd_cpu (Flames.set_CPSR 0x13) Flames.GBA_fields)) /\
    Flames.get_reg 13 (Flames.upd_cpu (Flames.set_CPSR 0x12) g')
    = Ok (x, Flames.upd_cpu (Flames.set_CPSR 0x12) g').
Proof.
  split; [apply cpu_wf_fields|].
  apply (r13_banked_per_mode _ 0x13 0x12 0x03007FE0 0x12 (cpu_wf_fields 0x13));
    [reflexivity | reflexivity | discriminate | reflexivity].
Defined.

(** ** [flamesgbav2.py]: region lookup and reads are total *)

Section FlamesMemory.
Import Flames.

Lemma mem_lazy_refl (m : Memory) : mem_lazy m m.
Proof. unfold mem_lazy. intuition. Qed.

Lemma lazy_alloc_refl (g : GBA) : lazy_alloc g g.
Proof. unfold lazy_alloc. auto using mem_lazy_refl. Qed.

Lemma get_region_total (a : Z) (g : GBA) :
  exists r off g1 b,
    _get_memory_region_and_offset a g = Ok ((r, off), g1) /\
    0 <= off /\ lazy_alloc g g1 /\
    region_bytes r (memory g1) = Some b /\
    (r = Io_regs -> off = (Z.land a 0xFFFFFFFF - IO_REG_START) mod IO_REG_SIZE).
Proof.
  pose proof (mask32_range a) as Ha.
  unfold _get_memory_region_and_offset, bind, gets, ret, modify.
  cbv beta iota.
  cbv [BIOS_START BIOS_SIZE EWRAM_START EWRAM_SIZE IWRAM_START IWRAM_SIZE
       IO_REG_START IO_REG_SIZE PALETTE_RAM_START PALETTE_RAM_SIZE VRAM_START
       VRAM_SIZE OAM_START OAM_SIZE GAMEPAK_ROM_START].
  repeat match goal with
         | |- context [if ?c then _ else _] => destruct c eqn:?
         end;
    (eexists _, _, _, _; split; [reflexivity|];
     split; [first [lia | apply Z.mod_pos_bound; lia]|];
     split; [first [ apply lazy_alloc_refl
                   | unfold lazy_alloc, mem_lazy; cbn; intuition auto ]|];
     split; [first [reflexivity | cbn; eassumption]
            | first [discriminate | intros _; reflexivity]]).
Qed.

Lemma flames_read_word_total (a : Z) (g : GBA) :
  exists v g1, read_word a g = Ok (v, g1) /\ lazy_alloc g g1 /\ 0 <= v < 2 ^ 32.
Proof.
  unfold read_word.
  set (addr := if Z.land a 3 =? 0 then a else Z.land a (Z.lnot 3)).
  destruct (get_region_total addr g) as (r & off & g1 & b & Hget & Hoff & Hlazy & Hb & _).
  unfold bind. rewrite Hget. cbv beta iota.
  unfold region_get. rewrite Hb.
  destruct (len b <=? off + 3) eqn:Hlen.
  - exists 0xFFFFFFFF, g1. split; [reflexivity|]. split; [exact Hlazy|lia].
  - destruct (getitem_in_range b off) as (b0 & H0 & R0); [lia|].
    destruct (getitem_in_range b (off + 1)) as (b1 & H1 & R1); [lia|].
    destruct (getitem_in_range b (off + 2)) as (b2 & H2 & R2); [lia|].
    destruct (getitem_in_range b (off + 3)) as (b3 & H3 & R3); [lia|].
    unfold lift. rewrite H0, H1, H2, H3. unfold ret.
    eexists _, g1. split; [reflexivity|]. split; [exact Hlazy|].
    rewrite le_word_value by assumption. lia.
Qed.

Lemma land_lnot3_id (a : Z) : Z.land a 3 = 0 -> Z.land a (Z.lnot 3) = a.
Proof.
  intros H. apply Z.bits_inj'. intros i Hi.
  rewrite Z.land_spec.
  destruct (Z.lt_ge_cases i 2) as [Hlt|Hge].
  - assert (Z.testbit a i = false) as ->; [|reflexivity].
    apply (f_equal (fun x => Z.testbit x i)) in H.
    rewrite Z.land_spec, Z.bits_0 in H.
    change 3 with (Z.ones 2) in H. rewrite Z.ones_spec_low in H by lia.
    rewrite andb_true_r in H. exact H.
  - rewrite Z.lnot_spec by lia. change 3 with (Z.ones 2).
    rewrite Z.ones_spec_high by lia. apply andb_true_r.
Qed.

(** [Memory.read_word] of [flamesgbav2.py] (lines 353-360) only masks the
    address: a misaligned read returns the aligned word as it is, not
    rotated, and the object keeps no warning list. *)
Lemma flames_read_word_masks_only (a : Z) (g : GBA) :
  read_word a g = read_word (Z.land a (Z.lnot 3)) g.
Proof.
  unfold read_word. rewrite land_lnot3_aligned. change (0 =? 0) with true.
  cbv beta iota.
  destruct (Z.land a 3 =? 0) eqn:E; [|reflexivity].
  rewrite land_lnot3_id by lia. reflexivity.
Qed.

Lemma check_cond_CPSR (c c' : ARM7TDMI) (cond : Z) :
  CPSR c' = CPSR c -> check_cond c' cond = check_cond c cond.
Proof.
  intros H. unfold check_cond, get_flag_N, get_flag_Z, get_flag_C, get_flag_V.
  rewrite H. reflexivity.
Qed.

End FlamesMemory.

(** C1 ([MemoryManager.read_word], [0.py] lines 145-160, and
    [Memory.read_word], [flamesgbav2.py] lines 353-360).  For
    an address [a] with [a % 4 <> 0] neither bus raises.  On the bus of
    [0.py] the aligned word read at [a & ~3] returns some 32-bit [v] and
    [read_word a] returns [v] rotated right by [(a % 4) * 8] bits, in the
    state of the aligned read plus one recorded misalignment warning for
    [a].  On the bus of [flamesgbav2.py], which keeps no warnings,
    [read_word a] is the aligned read itself: the same 32-bit value, not
    rotated, and the same state, changed at most by the buffer a region
    lookup creates. *)
Theorem misaligned_word_read_rotates_or_masks
        (m : MemoryManager.t) (g : Flames.GBA) (a : Z) :
  a mod 4 <> 0 ->
  (exists v ws lr,
     0 <= v < 2 ^ 32 /\
     MemoryManager.read_word (Z.land a (Z.lnot 3)) m
     = Ok (v, MemoryManager.with_meta lr (MemoryManager.last_write_addr m)
                (MemoryManager.warnings m ++ ws) m) /\
     MemoryManager.read_word a m
     = Ok (rotr32 v ((a mod 4) * 8),
           MemoryManager.with_meta lr (MemoryManager.last_write_addr m)
             (MemoryManager.warnings m
                ++ MemoryManager.UnalignedWordRead a :: ws) m)) /\
  (exists v g1,
     0 <= v < 2 ^ 32 /\
     Flames.read_word (Z.land a (Z.lnot 3)) g = Ok (v, g1) /\
     Flames.read_word a g = Ok (v, g1) /\
     Flames.lazy_alloc g g1).
Proof.
  intros Hmis. split; [exact (mm_read_word_misaligned m a Hmis)|].
  destruct (flames_read_word_total (Z.land a (Z.lnot 3)) g) as (v & g1 & Hr & Hl & Hv).
  exists v, g1. split; [exact Hv|]. split; [exact Hr|].
  split; [rewrite flames_read_word_masks_only; exact Hr|exact Hl].
Qed.

Lemma misaligned_word_read_rotates_or_masks_witness :
  (exists v ws lr,
     0 <= v < 2 ^ 32 /\
     MemoryManager.read_word (Z.land 0x02000001 (Z.lnot 3))
       (MemoryManager.set_region MemoryManager.ewram
          ([Byte.x78; Byte.x56; Byte.x34; Byte.x12] ++ zeros (256 * 1024 - 4))
          MemoryManager.init)
     = Ok (v, MemoryManager.with_meta lr
                (MemoryManager.last_write_addr
                   (MemoryManager.set_region MemoryManager.ewram
                      ([Byte.x78; Byte.x56; Byte.x34; Byte.x12] ++ zeros (256 * 1024 - 4))
                      MemoryManager.init))
                (MemoryManager.warnings
                   (MemoryManager.set_region MemoryManager.ewram
                      ([Byte.x78; Byte.x56; Byte.x34; Byte.x12] ++ zeros (256 * 1024 - 4))
                      MemoryManager.init) ++ ws)
                (MemoryManager.set_region MemoryManager.ewram
                   ([Byte.x78; Byte.x56; Byte.x34; Byte.x12] ++ zeros (256 * 1024 - 4))
                   MemoryManager.init)) /\
     MemoryManager.read_word 0x02000001
       (MemoryManager.set_region MemoryManager.ewram
          ([Byte.x78; Byte.x56; Byte.x34; Byte.x12] ++ zeros (256 * 1024 - 4))
          MemoryManager.init)
     = Ok (rotr32 v ((0x02000001 mod 4) * 8),
           MemoryManager.with_meta lr
             (MemoryManager.last_write_addr
                (MemoryManager.set_region MemoryManager.ewram
                   ([Byte.x78; Byte.x56; Byte.x34; Byte.x12] ++ zeros (256 * 1024 - 4))
                   MemoryManager.init))
             (MemoryManager.warnings
                (MemoryManager.set_region MemoryManager.ewram
                   ([Byte.x78; Byte.x56; Byte.x34; Byte.x12] ++ zeros (256 * 1024 - 4))
                   MemoryManager.init)
                ++ MemoryManager.UnalignedWordRead 0x02000001 :: ws)
             (MemoryManager.set_region MemoryManager.ewram
                ([Byte.x78; Byte.x56; Byte.x34; Byte.x12] ++ zeros (256 * 1024 - 4))
                MemoryManager.init))) /\
  (exists v g1,
     0 <= v < 2 ^ 32 /\
     Flames.read_word (Z.land 0x02000001 (Z.lnot 3))
       (Flames.upd_memory
          (Flames.set_region_bytes Flames.Ewram
             ([Byte.x78; Byte.x56; Byte.x34; Byte.x12] ++ zeros (Flames.EWRAM_SIZE - 4)))
          Flames.GBA_fields)
     = Ok (v, g1) /\
     Flames.read_word 0x02000001
       (Flames.upd_memory
          (Flames.set_region_bytes Flames.Ewram
             ([Byte.x78; Byte.x56; Byte.x34; Byte.x12] ++ zeros (Flames.EWRAM_SIZE - 4)))
          Flames.GBA_fields)
     = Ok (v, g1) /\
     Flames.lazy_alloc
       (Flames.upd_memory
          (Flames.set_region_bytes Flames.Ewram
             ([Byte.x78; Byte.x56; Byte.x34; Byte.x12] ++ zeros (Flames.EWRAM_SIZE - 4)))
          Flames.GBA_fields) g1).
Proof.
  apply (misaligned_word_read_rotates_or_masks
           (MemoryManager.set_region MemoryManager.ewram
              ([Byte.x78; Byte.x56; Byte.x34; Byte.x12] ++ zeros (256 * 1024 - 4))
              MemoryManager.init)
           (Flames.upd_memory
              (Flames.set_region_bytes Flames.Ewram
                 ([Byte.x78; Byte.x56; Byte.x34; Byte.x12] ++ zeros (Flames.EWRAM_SIZE - 4)))
              Flames.GBA_fields)
           0x02000001).
  vm_compute; discriminate.
Defined.

(** [Memory.read_word] of [flamesgbav2.py] does not rotate a misaligned
    read: with the bytes 78 56 34 12 at the start of the boot region, the
    aligned read at 0 returns 0x12345678 and the read at 1 returns
    0x12345678 too, where the rotation by 8 bits would give 0x78123456;
    the state is unchanged, no warning is kept anywhere. *)
Lemma flames_misaligned_word_read_not_rotated :
  Flames.read_word (Z.land 1 (Z.lnot 3))
    (Flames.upd_memory
       (Flames.set_region_bytes Flames.Bios
          ([Byte.x78; Byte.x56; Byte.x34; Byte.x12] ++ zeros (Flames.BIOS_SIZE - 4)))
       Flames.GBA_fields)
  = Ok (0x12345678,
        Flames.upd_memory
          (Flames.set_region_bytes Flames.Bios
             ([Byte.x78; Byte.x56; Byte.x34; Byte.x12] ++ zeros (Flames.BIOS_SIZE - 4)))
          Flames.GBA_fields) /\
  Flames.read_word 1
    (Flames.upd_memory
       (Flames.set_region_bytes Flames.Bios
          ([Byte.x78; Byte.x56; Byte.x34; Byte.x12] ++ zeros (Flames.BIOS_SIZE - 4)))
       Flames.GBA_fields)
  = Ok (0x12345678,
        Flames.upd_memory
          (Flames.set_region_bytes Flames.Bios
             ([Byte.x78; Byte.x56; Byte.x34; Byte.x12] ++ zeros (Flames.BIOS_SIZE - 4)))
          Flames.GBA_fields) /\
  rotr32 0x12345678 ((1 mod 4) * 8) = 0x78123456 /\
  0x12345678 <> rotr32 0x12345678 ((1 mod 4) * 8).
Proof.
  split; [reflexivity|]. split; [reflexivity|].
  split; [reflexivity|]. vm_compute. discriminate.
Qed.

(** C5 ([ARM7TDMI.step], [execute_arm], [check_cond], lines 126-164).
    In ARM state (T flag clear), the fetch at the program counter returns
    an opcode without raising and leaves every object as it was (at most an
    absent [sram] or [dummy_unmapped] buffer is created, zero-filled, by
    the region lookup); and when the opcode's condition field evaluates
    false against the flags, [step] does nothing more than set R15 to
    [(pc + 4) & 0xFFFFFFFF] and add 1 to the cycle counter: R0-R14, the
    banked registers, CPSR, SPSR, memory, video unit and keypad are those
    after the fetch. *)
Theorem arm_condition_false_only_fetches (g : Flames.GBA) (pc : Z) :
  Flames.cpu_wf (Flames.cpu g) ->
  Flames.R (Flames.cpu g) !! 15%nat = Some pc ->
  Flames.get_flag_T (Flames.cpu g) = 0 ->
  exists opcode g1,
    Flames.read_word pc g = Ok (opcode, g1) /\
    Flames.lazy_alloc g g1 /\
    (Flames.check_cond (Flames.cpu g) (Z.land (Z.shiftr opcode 28) 0xF) = false ->
     Flames.step g
     = Ok (tt, Flames.mkGBA (Flames.memory g1)
                 (Flames.mkCPU
                    (<[15%nat := Z.land (pc + 4) 0xFFFFFFFF]> (Flames.R (Flames.cpu g)))
                    (Flames.R_banked (Flames.cpu g))
                    (Flames.CPSR (Flames.cpu g))
                    (Flames.SPSR (Flames.cpu g))
                    (Flames.cycles (Flames.cpu g) + 1))
                 (Flames.ppu g) (Flames.keypad g))).
Proof.
  intros Hwf Hpc HT.
  destruct (flames_read_word_total pc g) as (opcode & g1 & Hrd & Hlazy & _).
  exists opcode, g1. split; [exact Hrd|]. split; [exact Hlazy|].
  intros Hcond.
  destruct Hlazy as (Hcpu & Hppu & Hkp & _).
  destruct g1 as [m1 c1 p1 k1]. cbn in Hcpu, Hppu, Hkp. subst c1 p1 k1.
  destruct Hwf as (HR & _).
  destruct (R_get_ok g 15) as (x & Hx & Hget); [unfold len; lia|].
  change (Z.to_nat 15) with 15%nat in Hx. rewrite Hpc in Hx. injection Hx as <-.
  unfold Flames.step, Flames.get_pc, bind. rewrite Hget. cbv beta iota.
  unfold gets at 1. cbv beta iota. rewrite HT. change (negb (0 =? 0)) with false.
  cbv beta iota. rewrite Hrd. cbv beta iota.
  unfold Flames.set_pc.
  rewrite R_set_ok; [| cbn; unfold len; lia | apply mask32_range].
  cbv beta iota. unfold Flames.execute_arm, bind, gets. cbv beta iota.
  rewrite (check_cond_CPSR (Flames.cpu g)); [|reflexivity].
  rewrite Hcond. cbn [negb]. unfold ret, Flames.tick, modify.
  reflexivity.
Qed.

Lemma arm_condition_false_only_fetches_witness :
  Flames.cpu_wf (Flames.cpu (Flames.upd_cpu (Flames.set_CPSR 0x1F) Flames.GBA_fields)) /\
  Flames.R (Flames.cpu (Flames.upd_cpu (Flames.set_CPSR 0x1F) Flames.GBA_fields)) !! 15%nat
  = Some 0 /\
  Flames.get_flag_T (Flames.cpu (Flames.upd_cpu (Flames.set_CPSR 0x1F) Flames.GBA_fields)) = 0 /\
  exists opcode g1,
    Flames.read_word 0 (Flames.upd_cpu (Flames.set_CPSR 0x1F) Flames.GBA_fields)
    = Ok (opcode, g1) /\
    Flames.lazy_alloc (Flames.upd_cpu (Flames.set_CPSR 0x1F) Flames.GBA_fields) g1 /\
    (Flames.check_cond
       (Flames.cpu (Flames.upd_cpu (Flames.set_CPSR 0x1F) Flames.GBA_fields))
       (Z.land (Z.shiftr opcode 28) 0xF) = false ->
     Flames.step (Flames.upd_cpu (Flames.set_CPSR 0x1F) Flames.GBA_fields)
     = Ok (tt, Flames.mkGBA (Flames.memory g1)
                 (Flames.mkCPU
                    (<[15%nat := Z.land (0 + 4) 0xFFFFFFFF]>
                       (Flames.R (Flames.cpu (Flames.upd_cpu (Flames.set_CPSR 0x1F) Flames.GBA_fields))))
                    (Flames.R_banked (Flames.cpu (Flames.upd_cpu (Flames.set_CPSR 0x1F) Flames.GBA_fields)))
                    (Flames.CPSR (Flames.cpu (Flames.upd_cpu (Flames.set_CPSR 0x1F) Flames.GBA_fields)))
                    (Flames.SPSR (Flames.cpu (Flames.upd_cpu (Flames.set_CPSR 0x1F) Flames.GBA_fields)))
                    (Flames.cycles (Flames.cpu (Flames.upd_cpu (Flames.set_CPSR 0x1F) Flames.GBA_fields)) + 1))
                 (Flames.ppu (Flames.upd_cpu (Flames.set_CPSR 0x1F) Flames.GBA_fields))
                 (Flames.keypad (Flames.upd_cpu (Flames.set_CPSR 0x1F) Flames.GBA_fields)))).
Proof.
  split; [apply cpu_wf_fields|]. split; [reflexivity|]. split; [reflexivity|].
  apply (arm_condition_false_only_fetches _ 0 (cpu_wf_fields 0x1F));
    reflexivity.
Defined.

(** ** [flamesgbav2.py]: the key-input register *)

Section KeyInput.
Import Flames.

Lemma get_region_keyinput (g : GBA) :
  _get_memory_region_and_offset 0x04000130 g = Ok ((Io_regs, 0x130), g).
Proof. reflexivity. Qed.

Lemma flames_read_byte_keyinput (g : GBA) :
  has_keypad (memory g) = true ->
  read_byte 0x04000130 g = Ok (key_state (keypad g), g).
Proof.
  intros Hk. unfold read_byte, bind. rewrite get_region_keyinput.
  cbv beta iota. change (bool_decide (Io_regs = Io_regs) && (67109168 =? 67109168)) with true.
  cbv beta iota. unfold gets at 1. rewrite Hk. reflexivity.
Qed.

Lemma flames_read_byte_other (a : Z) (g : GBA) :
  a <> 0x04000130 ->
  exists v g1, read_byte a g = Ok (v, g1) /\ lazy_alloc g g1 /\ 0 <= v <= 255.
Proof.
  intros Ha.
  destruct (get_region_total a g) as (r & off & g1 & b & Hget & Hoff & Hlazy & Hb & _).
  unfold read_byte, bind. rewrite Hget. cbv beta iota.
  replace (a =? 0x04000130) with false by lia. rewrite andb_false_r.
  unfold region_get. rewrite Hb.
  destruct (len b <=? off) eqn:Hlen.
  - exists 0xFF, g1. split; [reflexivity|]. split; [exact Hlazy|lia].
  - destruct (getitem_in_range b off) as (x & Hx & Rx); [lia|].
    unfold lift. rewrite Hx. exists x, g1.
    split; [reflexivity|]. split; [exact Hlazy|lia].
Qed.

End KeyInput.

(** C10 ([Memory.read_byte], lines 337-343; [Keypad.get_keyinput_reg],
    [Keypad.__init__]).  With the keypad connected, a byte read of
    0x04000130 returns the keypad's whole [key_state], not its low byte:
    0xFFFF, which is not a byte, when [key_state] has its initial
    all-released value; whereas a byte read of any other address returns a
    value in 0..255 (and neither read raises). *)
Theorem keyinput_byte_read_returns_full_state (g : Flames.GBA) :
  Flames.has_keypad (Flames.memory g) = true ->
  Flames.read_byte 0x04000130 g = Ok (Flames.key_state (Flames.keypad g), g) /\
  Flames.key_state Flames.Keypad_init = 0xFFFF /\
  (Flames.key_state (Flames.keypad g) = Flames.key_state Flames.Keypad_init ->
   Flames.read_byte 0x04000130 g = Ok (0xFFFF, g) /\ ~ (0 <= 0xFFFF <= 255)) /\
  (forall a, a <> 0x04000130 ->
     exists v g1, Flames.read_byte a g = Ok (v, g1) /\ 0 <= v <= 255).
Proof.
  intros Hk. split; [exact (flames_read_byte_keyinput g Hk)|].
  split; [reflexivity|]. split.
  - intros Hinit. rewrite (flames_read_byte_keyinput g Hk), Hinit.
    split; [reflexivity|lia].
  - intros a Ha. destruct (flames_read_byte_other a g Ha) as (v & g1 & H & _ & Hv).
    exists v, g1. auto.
Qed.

Lemma keyinput_byte_read_returns_full_state_witness :
  Flames.has_keypad
    (Flames.memory (Flames.upd_memory (Flames.set_has_keypad true) Flames.GBA_fields))
  = true /\
  Flames.read_byte 0x04000130
    (Flames.upd_memory (Flames.set_has_keypad true) Flames.GBA_fields)
  = Ok (0xFFFF, Flames.upd_memory (Flames.set_has_keypad true) Flames.GBA_fields).
Proof.
  split; [reflexivity|].
  apply (keyinput_byte_read_returns_full_state
           (Flames.upd_memory (Flames.set_has_keypad true) Flames.GBA_fields));
    reflexivity.
Defined.

Section KeyPress.
Import Flames.

Lemma region_store_ok (g : GBA) (r : Region) (b : list byte) (i v : Z) :
  region_bytes r (memory g) = Some b -> 0 <= i < len b -> 0 <= v < 256 ->
  region_store r i v g
  = Ok (tt, upd_memory (set_region_bytes r (<[Z.to_nat i := byte.of_Z v]> b)) g).
Proof.
  intros Hb Hi Hv. unfold region_store, bind, region_get, lift, modify.
  rewrite Hb, setitem_in_range by assumption. reflexivity.
Qed.

Lemma land_FF_range (v : Z) : 0 <= Z.land v 0xFF < 256.
Proof.
  change 0xFF with (Z.ones 8). rewrite Z.land_ones by lia.
  apply Z.mod_pos_bound. lia.
Qed.

Lemma key_map_z : key_map !! "z"%string = Some 0.
Proof. reflexivity. Qed.

(** [key_down] of the key bound to button A: the new latch value and the
    two mirrored register bytes. *)
Lemma key_down_z (g : GBA) (key_name : string) :
  lower key_name = "z"%string ->
  len (io_regs (memory g)) = IO_REG_SIZE ->
  let ks := Z.land (key_state (keypad g)) (Z.lnot (Z.shiftl 1 0)) in
  key_down key_name g
  = Ok (tt, mkGBA
              (set_region_bytes Io_regs
                 (<[0x131%nat := byte.of_Z (Z.land (Z.shiftr ks 8) 0xFF)]>
                    (<[0x130%nat := byte.of_Z (Z.land ks 0xFF)]> (io_regs (memory g))))
                 (memory g))
              (cpu g) (ppu g) (mkKeypad ks)).
Proof.
  intros Hname Hlen. cbv zeta.
  unfold key_down. rewrite Hname, key_map_z.
  unfold bind at 1. unfold modify at 1. cbv beta iota.
  unfold update_keyinput_reg, bind, gets. cbv beta iota.
  erewrite region_store_ok;
    [ | reflexivity | cbn; unfold IO_REG_SIZE in Hlen; lia | apply land_FF_range ].
  cbv beta iota.
  erewrite region_store_ok;
    [ | reflexivity | cbn; rewrite len_insert; unfold IO_REG_SIZE in Hlen; lia
      | apply land_FF_range ].
  reflexivity.
Qed.

Lemma getitem_lookup (b : list byte) (i : Z) (x : byte) :
  0 <= i -> b !! Z.to_nat i = Some x -> getitem b i = Ok (byte.unsigned x).
Proof.
  intros Hi Hx. pose proof (lookup_lt_Some _ _ _ Hx) as Hlt.
  unfold getitem, norm_index. destruct (i <? 0) eqn:E; [lia|].
  replace ((0 <=? i) && (i <? len b)) with true by (unfold len; lia).
  rewrite Hx. reflexivity.
Qed.

Lemma get_region_keyinput_hw (g : GBA) :
  _get_memory_region_and_offset
    (if Z.land 0x04000130 1 =? 0 then 0x04000130 else Z.land 0x04000130 (Z.lnot 1)) g
  = Ok ((Io_regs, 0x130), g).
Proof. reflexivity. Qed.

Lemma lnot1_bits (k i : Z) :
  0 <= i ->
  Z.testbit (Z.land k (Z.lnot 1)) i = if i =? 0 then false else Z.testbit k i.
Proof.
  intros Hi. rewrite Z.land_spec, Z.lnot_spec by lia.
  destruct (i =? 0) eqn:E.
  - assert (i = 0) as -> by lia. cbn. apply andb_false_r.
  - change 1 with (Z.ones 1). rewrite Z.ones_spec_high by lia. apply andb_true_r.
Qed.

End KeyPress.

(** C8 ([Keypad.key_down], [update_keyinput_reg], [Memory.read_byte]).
    Pressing the key bound to button A (bit 0 of the key map) succeeds,
    and the input register read at 0x04000130 then shows bit 0 cleared and
    every other bit as the latch held it; from the initial all-released
    latch 0xFFFF the register reads 0xFFFE, by the byte read as well as by
    the halfword read of the two mirrored register bytes. *)
Theorem press_A_reads_bit0_low (g : Flames.GBA) (key_name : string) :
  lower key_name = "z"%string ->
  Flames.has_keypad (Flames.memory g) = true ->
  len (Flames.io_regs (Flames.memory g)) = Flames.IO_REG_SIZE ->
  exists g1 v,
    Flames.key_down key_name g = Ok (tt, g1) /\
    Flames.read_byte 0x04000130 g1 = Ok (v, g1) /\
    Z.testbit v 0 = false /\
    (forall i, 0 < i -> Z.testbit v i = Z.testbit (Flames.key_state (Flames.keypad g)) i) /\
    (Flames.key_state (Flames.keypad g) = 0xFFFF ->
     v = 0xFFFE /\ Flames.read_halfword 0x04000130 g1 = Ok (0xFFFE, g1)).
Proof.
  intros Hname Hk Hlen.
  pose proof (key_down_z g key_name Hname Hlen) as Hdown. cbv zeta in Hdown.
  change (Z.shiftl 1 0) with 1 in Hdown.
  eexists _, (Z.land (Flames.key_state (Flames.keypad g)) (Z.lnot 1)).
  split; [exact Hdown|].
  split; [apply flames_read_byte_keyinput; exact Hk|].
  split; [rewrite lnot1_bits by lia; reflexivity|].
  split.
  - intros i Hi. rewrite lnot1_bits by lia.
    destruct (i =? 0) eqn:E; [lia|reflexivity].
  - intros Hinit. rewrite Hinit. split; [reflexivity|].
    unfold Flames.read_halfword, bind. rewrite get_region_keyinput_hw.
    cbv beta iota. unfold Flames.region_get.
    cbn [Flames.memory Flames.region_bytes Flames.set_region_bytes Flames.io_regs].
    rewrite !len_insert.
    replace (len (Flames.io_regs (Flames.memory g)) <=? 304 + 1) with false
      by (unfold Flames.IO_REG_SIZE in Hlen; lia).
    unfold lift.
    erewrite (getitem_lookup _ 304); [| lia |].
    2:{ change (Z.to_nat 304) with 304%nat.
        rewrite list_lookup_insert_ne by lia.
        apply list_lookup_insert_eq.
        unfold len, Flames.IO_REG_SIZE in Hlen. lia. }
    erewrite (getitem_lookup _ (304 + 1)); [| lia |].
    2:{ change (Z.to_nat (304 + 1)) with 305%nat.
        apply list_lookup_insert_eq. rewrite length_insert.
        unfold len, Flames.IO_REG_SIZE in Hlen. lia. }
    reflexivity.
Qed.

Lemma press_A_reads_bit0_low_witness :
  lower "Z" = "z"%string /\
  Flames.has_keypad
    (Flames.memory (Flames.upd_memory (Flames.set_has_keypad true) Flames.GBA_fields))
  = true /\
  len (Flames.io_regs
         (Flames.memory (Flames.upd_memory (Flames.set_has_keypad true) Flames.GBA_fields)))
  = Flames.IO_REG_SIZE /\
  exists g1 v,
    Flames.key_down "Z" (Flames.upd_memory (Flames.set_has_keypad true) Flames.GBA_fields)
    = Ok (tt, g1) /\
    Flames.read_byte 0x04000130 g1 = Ok (v, g1) /\
    Z.testbit v 0 = false.
Proof.
  split; [reflexivity|]. split; [reflexivity|]. split; [reflexivity|].
  destruct (press_A_reads_bit0_low
              (Flames.upd_memory (Flames.set_has_keypad true) Flames.GBA_fields)
              "Z" eq_refl eq_refl eq_refl)
    as (g1 & v & H1 & H2 & H3 & _).
  exists g1, v. auto.
Defined.

(** ** Slices of a bytearray *)

Lemma clamp_in_range (n i : Z) : 0 <= i <= n -> clamp n i = i.
Proof. intros H. unfold clamp. destruct (i <? 0) eqn:E; lia. Qed.

Lemma len_nonneg {A} (l : list A) : 0 <= len l.
Proof. unfold len. lia. Qed.

Lemma len_app {A} (l k : list A) : len (l ++ k) = len l + len k.
Proof. unfold len. rewrite length_app. lia. Qed.

Lemma len_take {A} (l : list A) (n : Z) :
  0 <= n <= len l -> len (take (Z.to_nat n) l) = n.
Proof. unfold len. intros H. rewrite length_take. lia. Qed.

Lemma len_drop {A} (l : list A) (n : Z) :
  0 <= n <= len l -> len (drop (Z.to_nat n) l) = len l - n.
Proof. unfold len. intros H. rewrite length_drop. lia. Qed.

Lemma len_zeros (n : Z) : 0 <= n -> len (zeros n) = n.
Proof. intros H. unfold len, zeros. rewrite length_replicate. lia. Qed.


Lemma setslice_in_range {A} (b data : list A) (lo hi : Z) :
  0 <= lo <= hi -> hi <= len b ->
  setslice b lo hi data
  = take (Z.to_nat lo) b ++ data ++ drop (Z.to_nat hi) b.
Proof.
  intros H1 H2. unfold setslice. rewrite !clamp_in_range by lia.
  rewrite Z.max_r by lia. reflexivity.
Qed.

Lemma getslice_in_range {A} (b : list A) (lo hi : Z) :
  0 <= lo <= hi -> hi <= len b ->
  getslice b lo hi = take (Z.to_nat (hi - lo)) (drop (Z.to_nat lo) b).
Proof.
  intros H1 H2. unfold getslice. rewrite !clamp_in_range by lia. reflexivity.
Qed.

Lemma len_setslice_same {A} (b data : list A) (lo hi : Z) :
  0 <= lo <= hi -> hi <= len b -> len data = hi - lo ->
  len (setslice b lo hi data) = len b.
Proof.
  intros H1 H2 H3. rewrite setslice_in_range by assumption.
  rewrite !len_app, len_take, len_drop by lia. lia.
Qed.

Lemma getslice_setslice {A} (b data : list A) (lo hi : Z) :
  0 <= lo <= hi -> hi <= len b -> len data = hi - lo ->
  getslice (setslice b lo hi data) lo hi = data.
Proof.
  intros H1 H2 H3.
  rewrite getslice_in_range by (rewrite ?len_setslice_same; assumption).
  rewrite setslice_in_range by assumption.
  rewrite drop_app_length'.
  - rewrite take_app_length'; [reflexivity|]. unfold len in H3. lia.
  - rewrite length_take. unfold len in H2. lia.
Qed.

(** ** [0.py], first bus: [load_bios] *)


(** Scenario A on the same method: a boot image that fits is copied over
    the start of the region, the rest of the region stays, and no warning
    is recorded. *)
Lemma load_bios_fits (m : MemoryManager.t) (data : list byte) :
  len data <= len (MemoryManager.m_bios m) ->
  MemoryManager.load_bios data m
  = Ok (tt, MemoryManager.set_region MemoryManager.bios
              (data ++ drop (length data) (MemoryManager.m_bios m)) m).
Proof.
  intros Hfit. pose proof (len_nonneg data) as Hn.
  unfold MemoryManager.load_bios, bind, gets.
  replace (len data <=? len (MemoryManager.m_bios m)) with true by lia.
  unfold modify. rewrite setslice_in_range by lia.
  change (Z.to_nat 0) with 0%nat. rewrite take_0.
  unfold len. rewrite Nat2Z.id. reflexivity.
Qed.





(** ** [0.py], second bus: [read] and [write] *)

Section RegionTable.
Import MemoryManager2.

Lemma find_region_offset (romlen a : Z) table r off :
  find_region romlen a table = Some (r, off) -> 0 <= off.
Proof.
  induction table as [|[[start e] name] rest IH]; [discriminate|].
  cbn [find_region].
  destruct ((start <=? a) && (a <? _)) eqn:E; [|exact IH].
  intros [= <- <-]. lia.
Qed.

Lemma mm2_map_address_hit (m : t) (a : Z) r off :
  find_region (len (m_rom m)) a REGION_MAP = Some (r, off) ->
  map_address a m = Ok ((r, off), m).
Proof.
  intros H. unfold map_address, bind, gets. rewrite H. reflexivity.
Qed.

Lemma mm2_write_in_bounds (m : t) (a v size : Z) r off mem :
  find_region (len (m_rom m)) a REGION_MAP = Some (r, off) ->
  writable r -> region_of r m = Some mem -> off + size <= len mem ->
  write a v size m
  = match to_bytes v size with
    | Ok data => Ok (tt, set_region r (setslice mem off (off + size) data) m)
    | Raise e => Raise e
    end.
Proof.
  intros Hf (H1 & H2 & H3) Hr Hb.
  unfold write, bind. rewrite (mm2_map_address_hit m a r off Hf).
  cbv beta iota.
  rewrite !bool_decide_eq_false_2 by assumption. cbn [orb].
  unfold getattr. rewrite Hr.
  replace (off + size <=? len mem) with true by lia.
  unfold lift, modify. destruct (to_bytes v size); reflexivity.
Qed.

Lemma mm2_read_in_bounds (m : t) (a size : Z) r off mem :
  find_region (len (m_rom m)) a REGION_MAP = Some (r, off) ->
  r <> invalid -> region_of r m = Some mem -> off + size <= len mem ->
  read a size m = Ok (from_bytes (getslice mem off (off + size)), m).
Proof.
  intros Hf Hr Hreg Hb.
  unfold read, bind. rewrite (mm2_map_address_hit m a r off Hf).
  cbv beta iota. destruct (decide (r = invalid)); [contradiction|].
  unfold getattr. rewrite Hreg.
  replace (off + size <=? len mem) with true by lia. reflexivity.
Qed.

Lemma to_bytes_in_range (v size : Z) :
  0 <= size -> 0 <= v < 256 ^ size ->
  to_bytes v size = Ok (le_split (Z.to_nat size) v).
Proof.
  intros Hs Hv. unfold to_bytes.
  destruct (size <? 0) eqn:E1; [lia|].
  destruct (v <? 0) eqn:E2; [lia|].
  destruct (256 ^ size <=? v) eqn:E3; [lia|]. reflexivity.
Qed.

Lemma to_bytes_too_big (v size : Z) :
  0 <= size -> 256 ^ size <= v -> to_bytes v size = Raise OverflowError.
Proof.
  intros Hs Hv. unfold to_bytes.
  assert (0 < 256 ^ size) by (apply Z.pow_pos_nonneg; lia).
  destruct (size <? 0) eqn:E1; [lia|].
  destruct (v <? 0) eqn:E2; [lia|].
  destruct (256 ^ size <=? v) eqn:E3; [reflexivity|lia].
Qed.

Lemma from_bytes_le_split (v size : Z) :
  0 <= size -> 0 <= v < 256 ^ size ->
  from_bytes (le_split (Z.to_nat size) v) = v.
Proof.
  intros Hs Hv. unfold from_bytes. rewrite le_combine_split.
  apply Z.mod_small.
  replace (Z.of_nat (Z.to_nat size) * 8) with (8 * size) by lia.
  rewrite Z.pow_mul_r by lia. exact Hv.
Qed.

Lemma region_of_set_region (m : t) r b :
  r <> invalid -> region_of r (set_region r b m) = Some b.
Proof. destruct r; intros H; try reflexivity. contradiction. Qed.

Lemma m_rom_set_region (m : t) r b :
  r <> rom -> m_rom (set_region r b m) = m_rom m.
Proof. destruct r; intros H; try reflexivity. contradiction. Qed.

(** The round trip, for a value that fits the width: [write] succeeds and
    the following [read] returns the value, which is then also the value
    truncated to the width. *)
Lemma mm2_write_read_roundtrip (m : t) (a v size : Z) r off mem :
  find_region (len (m_rom m)) a REGION_MAP = Some (r, off) ->
  writable r -> region_of r m = Some mem -> off + size <= len mem ->
  0 <= size -> 0 <= v < 256 ^ size ->
  exists m1,
    write a v size m = Ok (tt, m1) /\
    read a size m1 = Ok (v, m1) /\
    v = v mod 256 ^ size.
Proof.
  intros Hf Hw Hreg Hb Hs Hv.
  pose proof (find_region_offset _ _ _ _ _ Hf) as Hoff.
  destruct Hw as (W1 & W2 & W3).
  rewrite (mm2_write_in_bounds m a v size r off mem Hf (conj W1 (conj W2 W3)) Hreg Hb).
  rewrite to_bytes_in_range by assumption.
  eexists. split; [reflexivity|].
  assert (Hlen : len (le_split (Z.to_nat size) v) = off + size - off).
  { unfold len. rewrite length_le_split. lia. }
  split; [|symmetry; apply Z.mod_small; exact Hv].
  erewrite mm2_read_in_bounds;
    [ | rewrite m_rom_set_region by exact W2; exact Hf
      | exact W1
      | apply region_of_set_region; exact W1
      | rewrite len_setslice_same by (lia || exact Hlen); exact Hb ].
  rewrite getslice_setslice by (lia || exact Hlen).
  rewrite from_bytes_le_split by assumption. reflexivity.
Qed.

(** A value that does not fit the width makes [write] raise:
    [value.to_bytes] is not preceded by a mask. *)
Lemma mm2_write_too_big_raises (m : t) (a v size : Z) r off mem :
  find_region (len (m_rom m)) a REGION_MAP = Some (r, off) ->
  writable r -> region_of r m = Some mem -> off + size <= len mem ->
  0 <= size -> 256 ^ size <= v ->
  write a v size m = Raise OverflowError.
Proof.
  intros Hf Hw Hreg Hb Hs Hv.
  rewrite (mm2_write_in_bounds m a v size r off mem Hf Hw Hreg Hb).
  rewrite to_bytes_too_big by assumption. reflexivity.
Qed.

Lemma writable_ewram : writable ewram.
Proof. repeat split; discriminate. Qed.

Lemma writable_io_regs : writable io_regs.
Proof. repeat split; discriminate. Qed.

End RegionTable.

(** C2, at a failing input ([MemoryManager.write], [0.py] lines 466-475):
    on the freshly constructed bus, [write(0x02000000, 0x1FF, 1)] into work
    RAM raises [OverflowError] instead of storing the low byte 0xFF, so no
    [read] follows. *)
Theorem write_wide_value_byte_raises :
  MemoryManager2.write 0x02000000 0x1FF 1 MemoryManager2.init
  = Raise OverflowError.
Proof.
  apply (mm2_write_too_big_raises MemoryManager2.init 0x02000000 0x1FF 1
           MemoryManager.ewram 0 (zeros (256 * 1024))).
  - reflexivity.
  - exact writable_ewram.
  - reflexivity.
  - rewrite len_zeros; lia.
  - lia.
  - lia.
Qed.

(** C3, at a failing input ([MemoryManager.write], [0.py] lines 466-475):
    on the freshly constructed bus, [write(0x04000000, 0x10000, 2)] into
    the peripheral registers raises [OverflowError]; no warning is
    recorded and no best-effort store takes place. *)
Theorem write_wide_value_halfword_raises :
  MemoryManager2.write 0x04000000 0x10000 2 MemoryManager2.init
  = Raise OverflowError.
Proof.
  apply (mm2_write_too_big_raises MemoryManager2.init 0x04000000 0x10000 2
           MemoryManager.io_regs 0 (zeros 1024)).
  - reflexivity.
  - exact writable_io_regs.
  - reflexivity.
  - rewrite len_zeros; lia.
  - lia.
  - lia.
Qed.

(** ** Loops *)

Lemma for_each_seq_inv {S A} (J : Z -> A -> S -> Prop)
      (body : Z -> A -> M S A) (n : nat) :
  (forall k acc s, 0 <= k < Z.of_nat n -> J k acc s ->
     exists acc' s', body k acc s = Ok (acc', s') /\ J (k + 1) acc' s') ->
  forall (m a : nat) acc s,
    (a + m = n)%nat -> J (Z.of_nat a) acc s ->
    exists acc' s',
      for_each (Z.of_nat <$> seq a m) acc body s = Ok (acc', s') /\
      J (Z.of_nat n) acc' s'.
Proof.
  intros Hbody m. induction m as [|m IH]; intros a acc s Ha HJ.
  - exists acc, s. split; [reflexivity|].
    replace n with a by lia. exact HJ.
  - cbn [seq fmap list_fmap for_each].
    destruct (Hbody (Z.of_nat a) acc s) as (acc1 & s1 & Hb & HJ1); [lia|exact HJ|].
    unfold bind. rewrite Hb.
    destruct (IH (Datatypes.S a) acc1 s1) as (acc2 & s2 & Hf & HJ2);
      [lia | replace (Z.of_nat (Datatypes.S a)) with (Z.of_nat a + 1) by lia; exact HJ1 |].
    exists acc2, s2. split; [exact Hf|exact HJ2].
Qed.

Lemma for_each_range_inv {S A} (J : Z -> A -> S -> Prop)
      (body : Z -> A -> M S A) (n : Z) acc s :
  0 <= n ->
  (forall k acc s, 0 <= k < n -> J k acc s ->
     exists acc' s', body k acc s = Ok (acc', s') /\ J (k + 1) acc' s') ->
  J 0 acc s ->
  exists acc' s', for_each (range n) acc body s = Ok (acc', s') /\ J n acc' s'.
Proof.
  intros Hn Hbody HJ. unfold range.
  destruct (for_each_seq_inv J body (Z.to_nat n)) with (m := Z.to_nat n) (a := 0%nat)
    (acc := acc) (s := s) as (acc' & s' & Hf & HJ').
  - intros k a0 s0 Hk. apply Hbody. lia.
  - lia.
  - exact HJ.
  - exists acc', s'. split; [exact Hf|]. rewrite Z2Nat.id in HJ' by lia. exact HJ'.
Qed.

(** ** [flamesgbav2.py]: the renderer *)

Section Renderer.
Import Flames.

Lemma row_frame_refl (g : GBA) (y : Z) : row_frame g y g.
Proof. unfold row_frame. intuition. Qed.

Lemma fb_set_row (g : GBA) (y : Z) (s : GBA) (x : Z) (c : string) :
  row_frame g y s -> ppu_wf (ppu g) ->
  0 <= y < SCREEN_HEIGHT -> 0 <= x < SCREEN_WIDTH ->
  exists s',
    fb_set (y * SCREEN_WIDTH + x) c s = Ok (tt, s') /\
    row_frame g y s' /\
    frame_buffer (ppu s')
    = <[Z.to_nat (y * SCREEN_WIDTH + x) := c]> (frame_buffer (ppu s)).
Proof.
  intros (Hm & Hc & Hk & Hsl & Hcy & Hlen & Hcache & Hout) Hwf Hy Hx.
  unfold ppu_wf in Hwf. unfold SCREEN_HEIGHT, SCREEN_WIDTH in *.
  unfold fb_set, bind, gets, lift, modify.
  rewrite list_setitem_in_range by lia.
  eexists. split; [reflexivity|]. split; [|reflexivity].
  unfold row_frame. cbn [memory cpu keypad ppu upd_ppu set_frame_buffer
    current_scanline cycles_scanline frame_buffer color_cache].
  rewrite len_insert.
  repeat (split; [assumption|]).
  intros i Hi. unfold SCREEN_WIDTH in Hi.
  rewrite list_lookup_insert_ne by lia. apply Hout. exact Hi.
Qed.

Lemma cached_color_row (g : GBA) (y : Z) (s : GBA) (k : Z) :
  row_frame g y s ->
  exists c s',
    cached_color k s = Ok (c, s') /\
    row_frame g y s' /\
    frame_buffer (ppu s') = frame_buffer (ppu s) /\
    (cache_ok (ppu s) -> c = tk_color k).
Proof.
  intros (Hm & Hc & Hk & Hsl & Hcy & Hlen & Hcache & Hout).
  unfold cached_color, bind, gets.
  destruct (color_cache (ppu s) !! k) as [c|] eqn:E.
  - exists c, s. split; [reflexivity|].
    split; [unfold row_frame; intuition|]. split; [reflexivity|].
    intros Hok. exact (Hok k c E).
  - eexists _, _. split; [reflexivity|]. split; [|split; [reflexivity|reflexivity]].
    unfold row_frame. cbn [memory cpu keypad ppu upd_ppu set_color_cache
      current_scanline cycles_scanline frame_buffer color_cache].
    repeat (split; [assumption|]). split; [|exact Hout].
    intros Hg k' c' Hl. specialize (Hcache Hg).
    cbn [color_cache ppu upd_ppu set_color_cache] in Hl.
    destruct (decide (k = k')) as [->|Hne].
    + rewrite lookup_insert_eq in Hl. congruence.
    + rewrite lookup_insert_ne in Hl by exact Hne. exact (Hcache k' c' Hl).
Qed.

Lemma vram_get_ok (s : GBA) (i : Z) :
  0 <= i < len (vram (memory s)) ->
  exists x, vram (memory s) !! Z.to_nat i = Some x /\
            vram_get i s = Ok (byte.unsigned x, s).
Proof.
  intros Hi.
  destruct (lookup_lt_is_Some_2 (vram (memory s)) (Z.to_nat i)) as [x Hx];
    [unfold len in Hi; lia|].
  exists x. split; [exact Hx|].
  unfold vram_get, bind, gets, lift. rewrite (getitem_lookup _ i x); [reflexivity|lia|exact Hx].
Qed.

Lemma palette_get_ok (s : GBA) (i : Z) :
  0 <= i < len (palette_ram (memory s)) ->
  exists x, palette_ram (memory s) !! Z.to_nat i = Some x /\
            palette_get i s = Ok (byte.unsigned x, s).
Proof.
  intros Hi.
  destruct (lookup_lt_is_Some_2 (palette_ram (memory s)) (Z.to_nat i)) as [x Hx];
    [unfold len in Hi; lia|].
  exists x. split; [exact Hx|].
  unfold palette_get, bind, gets, lift.
  rewrite (getitem_lookup _ i x); [reflexivity|lia|exact Hx].
Qed.

Lemma io_get_ok (s : GBA) (i : Z) :
  0 <= i < len (io_regs (memory s)) ->
  exists x, io_regs (memory s) !! Z.to_nat i = Some x /\
            io_get i s = Ok (byte.unsigned x, s).
Proof.
  intros Hi.
  destruct (lookup_lt_is_Some_2 (io_regs (memory s)) (Z.to_nat i)) as [x Hx];
    [unfold len in Hi; lia|].
  exists x. split; [exact Hx|].
  unfold io_get, bind, gets, lift.
  rewrite (getitem_lookup _ i x); [reflexivity|lia|exact Hx].
Qed.

(** [fill_line] draws the whole row in one colour. *)
Lemma fill_line_row (g : GBA) (y : Z) (c : string) :
  ppu_wf (ppu g) -> 0 <= y < SCREEN_HEIGHT ->
  exists s, fill_line y c g = Ok (tt, s) /\ row_frame g y s.
Proof.
  intros Hwf Hy. unfold fill_line.
  destruct (for_each_range_inv (fun _ (_ : unit) s => row_frame g y s)
              (fun x (_ : unit) => fb_set (y * SCREEN_WIDTH + x) c)
              SCREEN_WIDTH tt g) as ([] & s & Hf & Hs).
  - unfold SCREEN_WIDTH; lia.
  - intros k [] s0 Hk Hrow.
    destruct (fb_set_row g y s0 k c Hrow Hwf Hy Hk) as (s' & H1 & H2 & _).
    exists tt, s'. auto.
  - apply row_frame_refl.
  - exists s. auto.
Qed.

Lemma get_region_io0 (g : GBA) :
  _get_memory_region_and_offset
    (if Z.land (IO_REG_START + DISPCNT) 1 =? 0 then IO_REG_START + DISPCNT
     else Z.land (IO_REG_START + DISPCNT) (Z.lnot 1)) g
  = Ok ((Io_regs, 0), g).
Proof. reflexivity. Qed.

(** The renderer's read of the display-control register. *)
Lemma read_dispcnt (g : GBA) :
  mem_wf (memory g) ->
  exists d, dispcnt_of (memory g) = Some d /\
            read_halfword (IO_REG_START + DISPCNT) g = Ok (d, g).
Proof.
  intros (_ & _ & _ & Hio & _). unfold IO_REG_SIZE in Hio.
  destruct (lookup_lt_is_Some_2 (io_regs (memory g)) 0) as [lo Hlo];
    [unfold len in Hio; lia|].
  destruct (lookup_lt_is_Some_2 (io_regs (memory g)) 1) as [hi Hhi];
    [unfold len in Hio; lia|].
  unfold dispcnt_of. rewrite Hlo, Hhi. eexists. split; [reflexivity|].
  unfold read_halfword, bind. rewrite get_region_io0. cbv beta iota.
  unfold region_get. cbn [region_bytes].
  replace (len (io_regs (memory g)) <=? 0 + 1) with false by lia.
  unfold lift.
  rewrite (getitem_lookup _ 0 lo) by (lia || exact Hlo).
  rewrite (getitem_lookup _ (0 + 1) hi) by (lia || exact Hhi).
  reflexivity.
Qed.

(** The mode-3 loop: every pixel of the row becomes the conversion of
    its 5-5-5 value in VRAM. *)
Lemma mode3_loop_row (g : GBA) (y : Z) :
  mem_wf (memory g) -> ppu_wf (ppu g) -> 0 <= y < SCREEN_HEIGHT ->
  exists off s,
    for_each (range SCREEN_WIDTH) (y * SCREEN_WIDTH * 2)
      (fun x vram_offset =>
         bind (if vram_offset + 1 <? VRAM_SIZE then
                 bind (vram_get vram_offset) (fun lo =>
                 bind (vram_get (vram_offset + 1)) (fun hi =>
                 bind (cached_color (Z.lor lo (Z.shiftl hi 8))) (fun c =>
                 fb_set (y * SCREEN_WIDTH + x) c)))
               else fb_set (y * SCREEN_WIDTH + x) "#FF00FF")
              (fun _ => ret (vram_offset + 2))) g
    = Ok (off, s) /\
    row_frame g y s /\
    (cache_ok (ppu g) ->
     forall x, 0 <= x < SCREEN_WIDTH ->
       exists p, mode3_pixel (memory g) y x = Some p /\
                 frame_buffer (ppu s) !! Z.to_nat (y * SCREEN_WIDTH + x)
                 = Some (tk_color p)).
Proof.
  intros Hmem Hwf Hy.
  pose (J := fun (k off : Z) (s : GBA) =>
    off = y * SCREEN_WIDTH * 2 + 2 * k /\ row_frame g y s /\
    (cache_ok (ppu g) ->
     forall x, 0 <= x < k ->
       exists p, mode3_pixel (memory g) y x = Some p /\
                 frame_buffer (ppu s) !! Z.to_nat (y * SCREEN_WIDTH + x)
                 = Some (tk_color p))).
  match goal with
  | |- exists off s, for_each _ _ ?body g = _ /\ _ =>
      destruct (for_each_range_inv J body SCREEN_WIDTH (y * SCREEN_WIDTH * 2) g)
        as (off & s & Hf & Hoff & Hrow & Hpix)
  end.
  - unfold SCREEN_WIDTH; lia.
  - intros k off s0 Hk (Hoff & Hrow & Hpix).
    pose proof Hrow as (Hm & _ & _ & _ & _ & Hlen & Hcache & _).
    destruct Hmem as (_ & _ & _ & _ & _ & Hv & _).
    unfold SCREEN_WIDTH, SCREEN_HEIGHT, VRAM_SIZE in *.
    replace (off + 1 <? 98304) with true by lia.
    destruct (vram_get_ok s0 off) as (lo & Hlo & Hglo); [rewrite Hm; lia|].
    destruct (vram_get_ok s0 (off + 1)) as (hi & Hhi & Hghi); [rewrite Hm; lia|].
    unfold bind at 1 2. rewrite Hglo. cbv beta iota.
    unfold bind at 1. rewrite Hghi. cbv beta iota.
    destruct (cached_color_row g y s0
                (Z.lor (byte.unsigned lo) (Z.shiftl (byte.unsigned hi) 8)) Hrow)
      as (c & s1 & Hcc & Hrow1 & Hfb1 & Hc).
    unfold bind at 1. rewrite Hcc. cbv beta iota.
    destruct (fb_set_row g y s1 k c Hrow1 Hwf) as (s2 & Hset & Hrow2 & Hfb2);
      [unfold SCREEN_HEIGHT; lia | unfold SCREEN_WIDTH; lia |].
    unfold SCREEN_WIDTH in Hset, Hfb2. rewrite Hset. unfold ret.
    exists (off + 2), s2. split; [reflexivity|].
    split; [lia|]. split; [exact Hrow2|].
    intros Hok x Hx. rewrite Hfb2, Hfb1.
    destruct (decide (x = k)) as [->|Hne].
    + exists (Z.lor (byte.unsigned lo) (Z.shiftl (byte.unsigned hi) 8)).
      split.
      * unfold mode3_pixel, SCREEN_WIDTH. rewrite Hm in Hlo, Hhi.
        replace (y * 240 * 2 + 2 * k) with off by lia.
        rewrite Hlo, Hhi. reflexivity.
      * rewrite list_lookup_insert_eq.
        -- rewrite (Hc (Hcache Hok)). reflexivity.
        -- rewrite <- Hfb1. unfold ppu_wf, SCREEN_WIDTH, SCREEN_HEIGHT in Hwf.
           destruct Hrow1 as (_ & _ & _ & _ & _ & Hl1 & _).
           unfold len in Hl1, Hwf. lia.
    + destruct (Hpix Hok x) as (p & Hp & Hfb); [lia|].
      exists p. split; [exact Hp|].
      rewrite list_lookup_insert_ne by lia. exact Hfb.
  - unfold J. split; [lia|]. split; [apply row_frame_refl|].
    intros _ x Hx. lia.
  - exists off, s. split; [exact Hf|]. split; [exact Hrow|exact Hpix].
Qed.

(** The mode-4 loop stays inside the row. *)
Lemma mode4_loop_row (g : GBA) (y page_offset : Z) :
  mem_wf (memory g) -> ppu_wf (ppu g) -> 0 <= y < SCREEN_HEIGHT ->
  0 <= page_offset ->
  exists base s,
    for_each (range SCREEN_WIDTH) (page_offset + y * SCREEN_WIDTH)
      (fun x vram_base =>
         bind (if vram_base <? VRAM_SIZE then
                 bind (vram_get vram_base) (fun palette_idx =>
                 if palette_idx * 2 + 1 <? PALETTE_RAM_SIZE then
                   bind (palette_get (palette_idx * 2)) (fun lo =>
                   bind (palette_get (palette_idx * 2 + 1)) (fun hi =>
                   bind (cached_color (Z.lor lo (Z.shiftl hi 8))) (fun c =>
                   fb_set (y * SCREEN_WIDTH + x) c)))
                 else fb_set (y * SCREEN_WIDTH + x) "#00FF00")
               else fb_set (y * SCREEN_WIDTH + x) "#0000FF")
              (fun _ => ret (vram_base + 1))) g
    = Ok (base, s) /\
    row_frame g y s.
Proof.
  intros Hmem Hwf Hy Hpage.
  pose (J := fun (k base : Z) (s : GBA) =>
    base = page_offset + y * SCREEN_WIDTH + k /\ row_frame g y s).
  match goal with
  | |- exists base s, for_each _ _ ?body g = _ /\ _ =>
      destruct (for_each_range_inv J body SCREEN_WIDTH (page_offset + y * SCREEN_WIDTH) g)
        as (base & s & Hf & Hbase & Hrow)
  end.
  - unfold SCREEN_WIDTH; lia.
  - intros k base s0 Hk (Hbase & Hrow).
    pose proof Hrow as (Hm & _).
    destruct Hmem as (_ & _ & _ & _ & Hpal & Hv & _).
    assert (Hfin : forall c, exists s2,
               fb_set (y * SCREEN_WIDTH + k) c s0 = Ok (tt, s2) /\ row_frame g y s2).
    { intros c. destruct (fb_set_row g y s0 k c Hrow Hwf Hy Hk) as (s2 & H1 & H2 & _).
      exists s2. auto. }
    destruct (base <? VRAM_SIZE) eqn:Hin.
    + destruct (vram_get_ok s0 base) as (idx & Hidx & Hgidx);
        [rewrite Hm; unfold SCREEN_WIDTH in *; lia|].
      unfold bind at 1 2. rewrite Hgidx. cbv beta iota.
      pose proof (byte.unsigned_range idx) as Hr.
      unfold PALETTE_RAM_SIZE in *.
      replace (byte.unsigned idx * 2 + 1 <? 1024) with true by lia.
      destruct (palette_get_ok s0 (byte.unsigned idx * 2)) as (lo & Hlo & Hglo);
        [rewrite Hm; lia|].
      destruct (palette_get_ok s0 (byte.unsigned idx * 2 + 1)) as (hi & Hhi & Hghi);
        [rewrite Hm; lia|].
      unfold bind at 1. rewrite Hglo. cbv beta iota.
      unfold bind at 1. rewrite Hghi. cbv beta iota.
      destruct (cached_color_row g y s0
                  (Z.lor (byte.unsigned lo) (Z.shiftl (byte.unsigned hi) 8)) Hrow)
        as (c & s1 & Hcc & Hrow1 & _).
      unfold bind at 1. rewrite Hcc. cbv beta iota.
      destruct (fb_set_row g y s1 k c Hrow1 Hwf Hy Hk) as (s2 & Hset & Hrow2 & _).
      rewrite Hset. unfold ret.
      exists (base + 1), s2. split; [reflexivity|]. split; [lia|exact Hrow2].
    + destruct (Hfin "#0000FF"%string) as (s2 & Hset & Hrow2).
      unfold bind. rewrite Hset. unfold ret.
      exists (base + 1), s2. split; [reflexivity|]. split; [lia|exact Hrow2].
  - unfold J. split; [lia|apply row_frame_refl].
  - exists base, s. split; [exact Hf|exact Hrow].
Qed.

(** [render_scanline] on a visible line never raises and draws into that
    row only; in mode 3 without forced blank every pixel of the row is the
    conversion of its VRAM value. *)
Lemma render_scanline_row (g : GBA) (y : Z) :
  mem_wf (memory g) -> ppu_wf (ppu g) -> 0 <= y < SCREEN_HEIGHT ->
  exists s,
    render_scanline y g = Ok (tt, s) /\
    row_frame g y s /\
    (forall d, dispcnt_of (memory g) = Some d ->
       Z.land d 0x7 = 3 -> Z.land (Z.shiftr d 7) 1 = 0 ->
       cache_ok (ppu g) ->
       forall x, 0 <= x < SCREEN_WIDTH ->
         exists p, mode3_pixel (memory g) y x = Some p /\
                   frame_buffer (ppu s) !! Z.to_nat (y * SCREEN_WIDTH + x)
                   = Some (tk_color p)).
Proof.
  intros Hmem Hwf Hy.
  destruct (read_dispcnt g Hmem) as (d & Hd & Hrd).
  unfold render_scanline. unfold bind at 1. rewrite Hrd. cbv beta iota zeta.
  destruct (Z.land d 7 =? 3) eqn:E3.
  - destruct (Z.land (Z.shiftr d 7) 1 =? 0) eqn:Eb; cbn [negb].
    + destruct (mode3_loop_row g y Hmem Hwf Hy) as (off & s & Hloop & Hrow & Hpix).
      unfold bind at 1. rewrite Hloop. unfold ret.
      exists s. split; [reflexivity|]. split; [exact Hrow|].
      intros d' Hd' _ _ Hok. exact (Hpix Hok).
    + destruct (fill_line_row g y "#000000" Hwf Hy) as (s & Hf & Hrow).
      exists s. split; [exact Hf|]. split; [exact Hrow|].
      intros d' Hd' _ Hb. rewrite Hd in Hd'. injection Hd' as <-. lia.
  - destruct (Z.land d 7 =? 4) eqn:E4.
    + destruct (Z.land (Z.shiftr d 7) 1 =? 0) eqn:Eb; cbn [negb].
      * destruct (mode4_loop_row g y
                    (if negb (Z.land (Z.shiftr d 4) 1 =? 0) then 0xA000 else 0)
                    Hmem Hwf Hy) as (base & s & Hloop & Hrow).
        { destruct (negb _); lia. }
        unfold bind at 1. rewrite Hloop. unfold ret.
        exists s. split; [reflexivity|]. split; [exact Hrow|].
        intros d' Hd' H3. rewrite Hd in Hd'. injection Hd' as <-. lia.
      * destruct (fill_line_row g y "#000000" Hwf Hy) as (s & Hf & Hrow).
        exists s. split; [exact Hf|]. split; [exact Hrow|].
        intros d' Hd' H3. rewrite Hd in Hd'. injection Hd' as <-. lia.
    + destruct (fill_line_row g y "#111111" Hwf Hy) as (s & Hf & Hrow).
      exists s. split; [exact Hf|]. split; [exact Hrow|].
      intros d' Hd' H3. rewrite Hd in Hd'. injection Hd' as <-. lia.
Qed.

End Renderer.

(** ** [flamesgbav2.py]: what the renderer draws *)

Section RendererPixels.
Import Flames.

(** [fill_line] with the colour of every cell it has drawn. *)
Lemma fill_line_pixels (g : GBA) (y : Z) (c : string) :
  ppu_wf (ppu g) -> 0 <= y < SCREEN_HEIGHT ->
  exists s,
    fill_line y c g = Ok (tt, s) /\ row_frame g y s /\
    forall x, 0 <= x < SCREEN_WIDTH ->
      frame_buffer (ppu s) !! Z.to_nat (y * SCREEN_WIDTH + x) = Some c.
Proof.
  intros Hwf Hy. unfold fill_line.
  destruct (for_each_range_inv
              (fun k (_ : unit) s =>
                 row_frame g y s /\
                 forall x, 0 <= x < k ->
                   frame_buffer (ppu s) !! Z.to_nat (y * SCREEN_WIDTH + x) = Some c)
              (fun x (_ : unit) => fb_set (y * SCREEN_WIDTH + x) c)
              SCREEN_WIDTH tt g) as ([] & s & Hf & Hs & Hpix).
  - unfold SCREEN_WIDTH; lia.
  - intros k [] s0 Hk (Hrow & Hpix).
    destruct (fb_set_row g y s0 k c Hrow Hwf Hy Hk) as (s' & H1 & H2 & H3).
    exists tt, s'. split; [exact H1|]. split; [exact H2|].
    intros x Hx. rewrite H3.
    unfold SCREEN_WIDTH, SCREEN_HEIGHT in *.
    destruct (decide (x = k)) as [->|Hne].
    + apply list_lookup_insert_eq.
      destruct Hrow as (_ & _ & _ & _ & _ & Hl & _).
      unfold ppu_wf, SCREEN_WIDTH, SCREEN_HEIGHT in Hwf. unfold len in Hl, Hwf. lia.
    + rewrite list_lookup_insert_ne by lia. apply Hpix. lia.
  - split; [apply row_frame_refl|]. intros x Hx. lia.
  - exists s. auto.
Qed.

(** The mode-4 loop with the colour of every cell it has drawn. *)
Lemma mode4_loop_pixels (g : GBA) (y page_offset : Z) :
  mem_wf (memory g) -> ppu_wf (ppu g) -> 0 <= y < SCREEN_HEIGHT ->
  0 <= page_offset <= 0xA000 ->
  exists base s,
    for_each (range SCREEN_WIDTH) (page_offset + y * SCREEN_WIDTH)
      (fun x vram_base =>
         bind (if vram_base <? VRAM_SIZE then
                 bind (vram_get vram_base) (fun palette_idx =>
                 if palette_idx * 2 + 1 <? PALETTE_RAM_SIZE then
                   bind (palette_get (palette_idx * 2)) (fun lo =>
                   bind (palette_get (palette_idx * 2 + 1)) (fun hi =>
                   bind (cached_color (Z.lor lo (Z.shiftl hi 8))) (fun c =>
                   fb_set (y * SCREEN_WIDTH + x) c)))
                 else fb_set (y * SCREEN_WIDTH + x) "#00FF00")
               else fb_set (y * SCREEN_WIDTH + x) "#0000FF")
              (fun _ => ret (vram_base + 1))) g
    = Ok (base, s) /\
    row_frame g y s /\
    (cache_ok (ppu g) ->
     forall x, 0 <= x < SCREEN_WIDTH ->
       exists p, mode4_pixel (memory g) page_offset y x = Some p /\
                 frame_buffer (ppu s) !! Z.to_nat (y * SCREEN_WIDTH + x)
                 = Some (tk_color p)).
Proof.
  intros Hmem Hwf Hy Hpage.
  pose (J := fun (k base : Z) (s : GBA) =>
    base = page_offset + y * SCREEN_WIDTH + k /\ row_frame g y s /\
    (cache_ok (ppu g) ->
     forall x, 0 <= x < k ->
       exists p, mode4_pixel (memory g) page_offset y x = Some p /\
                 frame_buffer (ppu s) !! Z.to_nat (y * SCREEN_WIDTH + x)
                 = Some (tk_color p))).
  match goal with
  | |- exists base s, for_each _ _ ?body g = _ /\ _ =>
      destruct (for_each_range_inv J body SCREEN_WIDTH (page_offset + y * SCREEN_WIDTH) g)
        as (base & s & Hf & Hbase & Hrow & Hpix)
  end.
  - unfold SCREEN_WIDTH; lia.
  - intros k base s0 Hk (Hbase & Hrow & Hpix).
    pose proof Hrow as (Hm & _ & _ & _ & _ & Hlen & Hcache & _).
    destruct Hmem as (_ & _ & _ & _ & Hpal & Hv & _).
    unfold SCREEN_WIDTH, SCREEN_HEIGHT, VRAM_SIZE, PALETTE_RAM_SIZE in *.
    replace (base <? 98304) with true by lia.
    destruct (vram_get_ok s0 base) as (idx & Hidx & Hgidx); [rewrite Hm; lia|].
    unfold bind at 1 2. rewrite Hgidx. cbv beta iota.
    pose proof (byte.unsigned_range idx) as Hr.
    replace (byte.unsigned idx * 2 + 1 <? 1024) with true by lia.
    destruct (palette_get_ok s0 (byte.unsigned idx * 2)) as (lo & Hlo & Hglo);
      [rewrite Hm; lia|].
    destruct (palette_get_ok s0 (byte.unsigned idx * 2 + 1)) as (hi & Hhi & Hghi);
      [rewrite Hm; lia|].
    unfold bind at 1. rewrite Hglo. cbv beta iota.
    unfold bind at 1. rewrite Hghi. cbv beta iota.
    destruct (cached_color_row g y s0
                (Z.lor (byte.unsigned lo) (Z.shiftl (byte.unsigned hi) 8)) Hrow)
      as (c & s1 & Hcc & Hrow1 & Hfb1 & Hc).
    unfold bind at 1. rewrite Hcc. cbv beta iota.
    destruct (fb_set_row g y s1 k c Hrow1 Hwf) as (s2 & Hset & Hrow2 & Hfb2);
      [unfold SCREEN_HEIGHT; lia | unfold SCREEN_WIDTH; lia |].
    unfold SCREEN_WIDTH in Hset, Hfb2. rewrite Hset. unfold ret.
    exists (base + 1), s2. split; [reflexivity|].
    split; [lia|]. split; [exact Hrow2|].
    intros Hok x Hx. rewrite Hfb2, Hfb1.
    destruct (decide (x = k)) as [->|Hne].
    + exists (Z.lor (byte.unsigned lo) (Z.shiftl (byte.unsigned hi) 8)).
      split.
      * unfold mode4_pixel, SCREEN_WIDTH. rewrite Hm in Hidx, Hlo, Hhi.
        replace (page_offset + y * 240 + k) with base by lia.
        rewrite Hidx, Hlo, Hhi. reflexivity.
      * rewrite list_lookup_insert_eq.
        -- rewrite (Hc (Hcache Hok)). reflexivity.
        -- rewrite <- Hfb1. unfold ppu_wf, SCREEN_WIDTH, SCREEN_HEIGHT in Hwf.
           destruct Hrow1 as (_ & _ & _ & _ & _ & Hl1 & _).
           unfold len in Hl1, Hwf. lia.
    + destruct (Hpix Hok x) as (p & Hp & Hfb); [lia|].
      exists p. split; [exact Hp|].
      rewrite list_lookup_insert_ne by lia. exact Hfb.
  - unfold J. split; [lia|]. split; [apply row_frame_refl|].
    intros _ x Hx. lia.
  - exists base, s. split; [exact Hf|]. split; [exact Hrow|exact Hpix].
Qed.

(** [render_scanline] on a visible line never raises, draws into that row
    only and leaves in every pixel of the row the colour [scanline_pixel]
    reads off memory. *)
Lemma render_scanline_pixels (g : GBA) (y : Z) :
  mem_wf (memory g) -> ppu_wf (ppu g) -> 0 <= y < SCREEN_HEIGHT ->
  exists s,
    render_scanline y g = Ok (tt, s) /\
    row_frame g y s /\
    (cache_ok (ppu g) ->
     forall x, 0 <= x < SCREEN_WIDTH ->
       exists c, scanline_pixel (memory g) y x = Some c /\
                 frame_buffer (ppu s) !! Z.to_nat (y * SCREEN_WIDTH + x) = Some c).
Proof.
  intros Hmem Hwf Hy.
  destruct (read_dispcnt g Hmem) as (d & Hd & Hrd).
  unfold render_scanline. rewrite (bind_ok _ _ _ _ _ Hrd). cbv zeta.
  unfold scanline_pixel. rewrite Hd. cbv zeta.
  destruct (Z.land d 7 =? 3) eqn:E3; [|destruct (Z.land d 7 =? 4) eqn:E4].
  - destruct (negb (Z.land (Z.shiftr d 7) 1 =? 0)).
    + destruct (fill_line_pixels g y "#000000" Hwf Hy) as (s & Hf & Hrow & Hpix).
      exists s. split; [exact Hf|]. split; [exact Hrow|].
      intros _ x Hx. eexists. split; [reflexivity|exact (Hpix x Hx)].
    + destruct (mode3_loop_row g y Hmem Hwf Hy) as (off & s & Hloop & Hrow & Hpix).
      rewrite (bind_ok _ _ _ _ _ Hloop). unfold ret.
      exists s. split; [reflexivity|]. split; [exact Hrow|].
      intros Hok x Hx. destruct (Hpix Hok x Hx) as (p & Hp & Hfb).
      exists (tk_color p). rewrite Hp. split; [reflexivity|exact Hfb].
  - destruct (negb (Z.land (Z.shiftr d 7) 1 =? 0)).
    + destruct (fill_line_pixels g y "#000000" Hwf Hy) as (s & Hf & Hrow & Hpix).
      exists s. split; [exact Hf|]. split; [exact Hrow|].
      intros _ x Hx. eexists. split; [reflexivity|exact (Hpix x Hx)].
    + destruct (mode4_loop_pixels g y
                  (if negb (Z.land (Z.shiftr d 4) 1 =? 0) then 0xA000 else 0)
                  Hmem Hwf Hy) as (base & s & Hloop & Hrow & Hpix).
      { destruct (negb _); lia. }
      rewrite (bind_ok _ _ _ _ _ Hloop). unfold ret.
      exists s. split; [reflexivity|]. split; [exact Hrow|].
      intros Hok x Hx. destruct (Hpix Hok x Hx) as (p & Hp & Hfb).
      exists (tk_color p). rewrite Hp. split; [reflexivity|exact Hfb].
  - destruct (fill_line_pixels g y "#111111" Hwf Hy) as (s & Hf & Hrow & Hpix).
    exists s. split; [exact Hf|]. split; [exact Hrow|].
    intros _ x Hx. eexists. split; [reflexivity|exact (Hpix x Hx)].
Qed.

End RendererPixels.

(** ** [flamesgbav2.py]: the scanline clock *)

Section ScanlineClock.
Import Flames.

Lemma get_region_vcount (g : GBA) :
  _get_memory_region_and_offset (IO_REG_START + VCOUNT) g = Ok ((Io_regs, 6), g).
Proof. reflexivity. Qed.

Lemma get_region_dispstat (g : GBA) :
  _get_memory_region_and_offset
    (if Z.land (IO_REG_START + DISPSTAT) 1 =? 0 then IO_REG_START + DISPSTAT
     else Z.land (IO_REG_START + DISPSTAT) (Z.lnot 1)) g
  = Ok ((Io_regs, 4), g).
Proof. reflexivity. Qed.

Lemma vcount_only_refl (m : Memory) : vcount_only m m.
Proof. unfold vcount_only. intuition. Qed.

(** The write of the scanline index into VCOUNT: it goes through the PPU
    register handler when the PPU is connected and through the generic
    store in any case; both store the same byte at offset 6. *)
Lemma write_byte_vcount (s : GBA) (v : Z) :
  len (io_regs (memory s)) = IO_REG_SIZE ->
  exists s',
    write_byte (IO_REG_START + VCOUNT) v s = Ok (tt, s') /\
    cpu s' = cpu s /\ ppu s' = ppu s /\ keypad s' = keypad s /\
    vcount_only (memory s) (memory s').
Proof.
  intros Hlen. unfold IO_REG_SIZE in Hlen.
  pose proof (land_FF_range v) as Hv.
  unfold write_byte. unfold bind at 1. rewrite get_region_vcount.
  cbv beta iota. change (is_rom_like Io_regs) with false. cbv beta iota.
  unfold to_ppu, bind, gets, ret. cbv beta iota.
  change (bool_decide (Io_regs = Io_regs)) with true.
  change (is_ppu_register (IO_REG_START + VCOUNT)) with true.
  rewrite andb_true_l, andb_true_r.
  assert (Hfin : forall s0, len (io_regs (memory s0)) = 1024 ->
            cpu s0 = cpu s -> ppu s0 = ppu s -> keypad s0 = keypad s ->
            vcount_only (memory s) (memory s0) ->
            exists s',
              match region_get Io_regs s0 with
              | Ok (b, s'0) =>
                  (if len b <=? 6 then fun s1 => Ok (tt, s1)
                   else region_store Io_regs 6 (Z.land v 255)) s'0
              | Raise e => Raise e
              end = Ok (tt, s') /\
              cpu s' = cpu s /\ ppu s' = ppu s /\ keypad s' = keypad s /\
              vcount_only (memory s) (memory s')).
  { intros s0 Hl0 Hc0 Hp0 Hk0 Hv0. unfold region_get. cbn [region_bytes].
    replace (len (io_regs (memory s0)) <=? 6) with false by lia.
    erewrite region_store_ok; [|reflexivity|lia|exact Hv].
    eexists. split; [reflexivity|].
    cbn [cpu ppu keypad memory upd_memory].
    repeat (split; [assumption|]).
    destruct Hv0 as (V1 & V2 & V3 & V4 & V5 & V6 & V7 & V8 & V9 & V10 & V11 & V12 & V13).
    unfold vcount_only. cbn [set_region_bytes bios ewram iwram gamepak_rom
      palette_ram vram oam sram dummy_unmapped has_ppu has_keypad io_regs].
    rewrite len_insert.
    repeat (split; [assumption|]).
    intros i Hi. change (Z.to_nat 6) with 6%nat.
    rewrite list_lookup_insert_ne by congruence. apply V13. exact Hi. }
  destruct (has_ppu (memory s)) eqn:Hp.
  - unfold write_register_byte.
    change (IO_REG_START + VCOUNT - IO_REG_START) with 6.
    erewrite region_store_ok; [|reflexivity|lia|exact Hv].
    cbv beta iota.
    apply Hfin; try reflexivity.
    + cbn [memory upd_memory set_region_bytes io_regs]. rewrite len_insert. exact Hlen.
    + unfold vcount_only. cbn [memory upd_memory set_region_bytes bios ewram iwram
        gamepak_rom palette_ram vram oam sram dummy_unmapped has_ppu has_keypad io_regs].
      rewrite len_insert. repeat (split; [reflexivity|]).
      intros i Hi. change (Z.to_nat 6) with 6%nat.
      apply list_lookup_insert_ne. congruence.
  - cbv beta iota. apply Hfin; try reflexivity; [exact Hlen|apply vcount_only_refl].
Qed.

Lemma read_halfword_dispstat (s : GBA) :
  len (io_regs (memory s)) = IO_REG_SIZE ->
  exists d, read_halfword (IO_REG_START + DISPSTAT) s = Ok (d, s).
Proof.
  intros Hlen. unfold IO_REG_SIZE in Hlen.
  unfold read_halfword, bind. rewrite get_region_dispstat. cbv beta iota.
  unfold region_get. cbn [region_bytes].
  replace (len (io_regs (memory s)) <=? 4 + 1) with false by lia.
  destruct (getitem_in_range (io_regs (memory s)) 4) as (b0 & H0 & _); [lia|].
  destruct (getitem_in_range (io_regs (memory s)) (4 + 1)) as (b1 & H1 & _); [lia|].
  unfold lift. rewrite H0, H1. eexists. reflexivity.
Qed.

End ScanlineClock.
Section StepCross.
Import Flames.

Lemma PPU_step_below (g : GBA) (c : Z) :
  cycles_scanline (ppu g) + c < 1232 ->
  PPU_step c g
  = Ok ([], upd_ppu (fun p => set_cycles_scanline (cycles_scanline p + c) p) g).
Proof.
  intros Hc. unfold PPU_step.
  unfold bind at 1. unfold modify at 1. cbv beta iota.
  unfold bind at 1. unfold gets at 1. cbv beta iota.
  cbn [cycles_scanline ppu upd_ppu set_cycles_scanline].
  replace (1232 <=? cycles_scanline (ppu g) + c) with false by lia.
  reflexivity.
Qed.

Lemma vcount_only_mem_wf (m m' : Memory) :
  vcount_only m m' -> mem_wf m -> mem_wf m'.
Proof.
  intros (V1 & V2 & V3 & V4 & V5 & V6 & V7 & V8 & V9 & V10 & V11 & V12 & V13)
         (W1 & W2 & W3 & W4 & W5 & W6 & W7).
  unfold mem_wf. rewrite V1, V2, V3, V5, V6, V7, V12. auto 10.
Qed.

Lemma vcount_only_dispcnt (m m' : Memory) :
  vcount_only m m' -> dispcnt_of m' = dispcnt_of m.
Proof.
  intros V. unfold dispcnt_of.
  destruct V as (_ & _ & _ & _ & _ & _ & _ & _ & _ & _ & _ & _ & V13).
  rewrite !V13 by lia. reflexivity.
Qed.

Lemma vcount_only_mode3_pixel (m m' : Memory) (y x : Z) :
  vcount_only m m' -> mode3_pixel m' y x = mode3_pixel m y x.
Proof.
  intros V. unfold mode3_pixel.
  destruct V as (_ & _ & _ & _ & _ & V6 & _). rewrite V6. reflexivity.
Qed.

Lemma vcount_only_mode4_pixel (m m' : Memory) (page y x : Z) :
  vcount_only m m' -> mode4_pixel m' page y x = mode4_pixel m page y x.
Proof.
  intros (_ & _ & _ & _ & Hp & Hv & _). unfold mode4_pixel. rewrite Hp, Hv.
  reflexivity.
Qed.

Lemma vcount_only_scanline_pixel (m m' : Memory) (y x : Z) :
  vcount_only m m' -> scanline_pixel m' y x = scanline_pixel m y x.
Proof.
  intros H. unfold scanline_pixel.
  rewrite (vcount_only_dispcnt _ _ H).
  destruct (dispcnt_of m) as [d|]; [|reflexivity]. cbv zeta.
  rewrite (vcount_only_mode3_pixel _ _ y x H).
  rewrite (vcount_only_mode4_pixel _ _ _ y x H). reflexivity.
Qed.

Lemma vcount_only_trans (m1 m2 m3 : Memory) :
  vcount_only m1 m2 -> vcount_only m2 m3 -> vcount_only m1 m3.
Proof.
  intros (V1 & V2 & V3 & V4 & V5 & V6 & V7 & V8 & V9 & V10 & V11 & V12 & V13)
         (U1 & U2 & U3 & U4 & U5 & U6 & U7 & U8 & U9 & U10 & U11 & U12 & U13).
  unfold vcount_only.
  repeat (split; [congruence|]).
  intros i Hi. rewrite U13, V13 by exact Hi. reflexivity.
Qed.

(** One call of [PPU.step] that reaches the threshold: it never raises,
    renders the current scanline if it is visible, advances the scanline
    index modulo 228 and keeps the rest. *)
Lemma PPU_step_cross (g : GBA) (c : Z) :
  ppu_inv g -> 1232 <= cycles_scanline (ppu g) + c ->
  let y := current_scanline (ppu g) in
  exists g',
    PPU_step c g = Ok ((if y <? SCREEN_HEIGHT then [y] else []), g') /\
    ppu_inv g' /\
    current_scanline (ppu g') = (y + 1) mod 228 /\
    cycles_scanline (ppu g') = cycles_scanline (ppu g) + c - 1232 /\
    cpu g' = cpu g /\ keypad g' = keypad g /\
    vcount_only (memory g) (memory g') /\
    (cache_ok (ppu g) -> cache_ok (ppu g')) /\
    (forall i : nat,
       SCREEN_HEIGHT <= y \/ Z.of_nat i < y * SCREEN_WIDTH
       \/ y * SCREEN_WIDTH + SCREEN_WIDTH <= Z.of_nat i ->
       frame_buffer (ppu g') !! i = frame_buffer (ppu g) !! i) /\
    (y < SCREEN_HEIGHT ->
     forall d, dispcnt_of (memory g) = Some d ->
       Z.land d 0x7 = 3 -> Z.land (Z.shiftr d 7) 1 = 0 ->
       cache_ok (ppu g) ->
       forall x, 0 <= x < SCREEN_WIDTH ->
         exists p, mode3_pixel (memory g) y x = Some p /\
                   frame_buffer (ppu g') !! Z.to_nat (y * SCREEN_WIDTH + x)
                   = Some (tk_color p)) /\
    (y < SCREEN_HEIGHT -> cache_ok (ppu g) ->
     forall x, 0 <= x < SCREEN_WIDTH ->
       exists col, scanline_pixel (memory g) y x = Some col /\
                   frame_buffer (ppu g') !! Z.to_nat (y * SCREEN_WIDTH + x)
                   = Some col).
Proof.
  intros (Hmem & Hwf & Hy) Hc. cbv zeta.
  unfold PPU_step.
  unfold bind at 1. unfold modify at 1. cbv beta iota.
  unfold bind at 1. unfold gets at 1. cbv beta iota.
  cbn [cycles_scanline ppu upd_ppu set_cycles_scanline].
  replace (1232 <=? cycles_scanline (ppu g) + c) with true by lia.
  unfold bind at 1. unfold modify at 1. cbv beta iota.
  unfold bind at 1. unfold gets at 1. cbv beta iota.
  cbn [current_scanline ppu upd_ppu set_cycles_scanline cycles_scanline].
  set (y := current_scanline (ppu g)) in *.
  set (s0 := upd_ppu (fun p => set_cycles_scanline (cycles_scanline p - 1232) p)
               (upd_ppu (fun p => set_cycles_scanline (cycles_scanline p + c) p) g)).
  set (t := if y <? SCREEN_HEIGHT then [y] else []).
  assert (H1 : exists s1,
    (if y <? SCREEN_HEIGHT then bind (render_scanline y) (fun _ => ret [y])
     else ret []) s0 = Ok (t, s1) /\
    row_frame s0 y s1 /\
    (SCREEN_HEIGHT <= y -> s1 = s0) /\
    (y < SCREEN_HEIGHT ->
     forall d, dispcnt_of (memory g) = Some d ->
       Z.land d 0x7 = 3 -> Z.land (Z.shiftr d 7) 1 = 0 ->
       cache_ok (ppu g) ->
       forall x, 0 <= x < SCREEN_WIDTH ->
         exists p, mode3_pixel (memory g) y x = Some p /\
                   frame_buffer (ppu s1) !! Z.to_nat (y * SCREEN_WIDTH + x)
                   = Some (tk_color p)) /\
    (y < SCREEN_HEIGHT -> cache_ok (ppu g) ->
     forall x, 0 <= x < SCREEN_WIDTH ->
       exists col, scanline_pixel (memory g) y x = Some col /\
                   frame_buffer (ppu s1) !! Z.to_nat (y * SCREEN_WIDTH + x)
                   = Some col)).
  { subst t. destruct (y <? SCREEN_HEIGHT) eqn:Ey.
    - destruct (render_scanline_row s0 y) as (s1 & Hr & Hrow & Hpix);
        [exact Hmem | exact Hwf | unfold SCREEN_HEIGHT in *; lia |].
      destruct (render_scanline_pixels s0 y) as (s1' & Hr' & _ & Hcol);
        [exact Hmem | exact Hwf | unfold SCREEN_HEIGHT in *; lia |].
      rewrite Hr in Hr'. injection Hr' as <-.
      exists s1. split; [unfold bind; rewrite Hr; reflexivity|].
      split; [exact Hrow|]. split; [unfold SCREEN_HEIGHT in *; lia|].
      split; [intros _; exact Hpix|intros _; exact Hcol].
    - exists s0. split; [reflexivity|]. split; [apply row_frame_refl|].
      split; [reflexivity|]. unfold SCREEN_HEIGHT in *. split; lia. }
  destruct H1 as (s1 & Ht & Hrow & Hsame & Hpix & Hcol).
  unfold bind at 1. rewrite Ht. cbv beta iota.
  destruct Hrow as (Hm1 & Hc1 & Hk1 & Hsl1 & Hcy1 & Hlen1 & Hcache1 & Hout1).
  change (memory s0) with (memory g) in Hm1.
  change (cpu s0) with (cpu g) in Hc1.
  change (keypad s0) with (keypad g) in Hk1.
  change (current_scanline (ppu s0)) with y in Hsl1.
  change (cycles_scanline (ppu s0)) with (cycles_scanline (ppu g) + c - 1232) in Hcy1.
  change (frame_buffer (ppu s0)) with (frame_buffer (ppu g)) in Hlen1, Hout1.
  change (cache_ok (ppu s0)) with (cache_ok (ppu g)) in Hcache1.
  assert (Hio : len (io_regs (memory g)) = IO_REG_SIZE) by (destruct Hmem as (_ & _ & _ & H & _); exact H).
  unfold bind at 1. unfold modify at 1. cbv beta iota.
  unfold bind at 1. unfold gets at 1. cbv beta iota.
  cbn [current_scanline ppu upd_ppu set_current_scanline].
  rewrite Hsl1.
  set (s2 := upd_ppu (fun p => set_current_scanline (current_scanline p + 1) p) s1).
  assert (H160 : (if y + 1 =? 160
                  then bind (io_get DISPSTAT)
                         (fun d => if negb (Z.land (Z.shiftr d 3) 1 =? 0) then ret tt else ret tt)
                  else ret tt) s2 = Ok (tt, s2)).
  { destruct (y + 1 =? 160); [|reflexivity].
    destruct (io_get_ok s2 DISPSTAT) as (x & _ & Hx).
    { change (memory s2) with (memory s1). rewrite Hm1, Hio. unfold DISPSTAT, IO_REG_SIZE. lia. }
    unfold bind. rewrite Hx. destruct (negb _); reflexivity. }
  unfold bind at 1. rewrite H160. cbv beta iota.
  set (s3 := if y + 1 =? 228 then upd_ppu (set_current_scanline 0) s2 else s2).
  assert (H228 : (if y + 1 =? 228 then modify (upd_ppu (set_current_scanline 0)) else ret tt) s2
                 = Ok (tt, s3)).
  { subst s3. destruct (y + 1 =? 228); reflexivity. }
  unfold bind at 1. rewrite H228. cbv beta iota.
  unfold bind at 1. unfold gets at 1. cbv beta iota.
  assert (Hm3 : memory s3 = memory g).
  { subst s3. destruct (y + 1 =? 228); exact Hm1. }
  assert (Hsl3 : current_scanline (ppu s3) = (y + 1) mod 228).
  { subst s3. destruct (y + 1 =? 228) eqn:E; cbn [current_scanline ppu upd_ppu set_current_scanline].
    - replace (y + 1) with 228 by lia. reflexivity.
    - subst s2. cbn [current_scanline ppu upd_ppu set_current_scanline].
      rewrite Hsl1. symmetry. apply Z.mod_small. lia. }
  assert (Hrest3 : cpu s3 = cpu g /\ keypad s3 = keypad g /\
                   cycles_scanline (ppu s3) = cycles_scanline (ppu g) + c - 1232 /\
                   frame_buffer (ppu s3) = frame_buffer (ppu s1) /\
                   color_cache (ppu s3) = color_cache (ppu s1)).
  { subst s3. destruct (y + 1 =? 228); subst s2;
      cbn [cpu keypad ppu upd_ppu set_current_scanline cycles_scanline frame_buffer color_cache];
      auto. }
  destruct Hrest3 as (Hc3 & Hk3 & Hcy3 & Hfb3 & Hcc3).
  destruct (write_byte_vcount s3 (current_scanline (ppu s3))) as (s4 & Hw & Hc4 & Hp4 & Hk4 & Hv4);
    [rewrite Hm3; exact Hio|].
  unfold bind at 1. rewrite Hw. cbv beta iota.
  rewrite Hm3 in Hv4.
  destruct (read_halfword_dispstat s4) as (d4 & Hd4).
  { destruct Hv4 as (_ & _ & _ & _ & _ & _ & _ & _ & _ & _ & _ & V12 & _). rewrite V12. exact Hio. }
  unfold bind at 1. rewrite Hd4. cbv beta iota. unfold ret.
  exists s4. split; [reflexivity|].
  split.
  { split; [exact (vcount_only_mem_wf _ _ Hv4 Hmem)|].
    split.
    - unfold ppu_wf. rewrite Hp4, Hfb3, Hlen1. exact Hwf.
    - rewrite Hp4, Hsl3. pose proof (Z.mod_pos_bound (y + 1) 228). lia. }
  split; [rewrite Hp4; exact Hsl3|].
  split; [rewrite Hp4; exact Hcy3|].
  split; [congruence|]. split; [congruence|]. split; [exact Hv4|].
  split.
  { intros Hok. specialize (Hcache1 Hok). intros k col Hl.
    rewrite Hp4, Hcc3 in Hl. exact (Hcache1 k col Hl). }
  split.
  { intros i Hi. rewrite Hp4, Hfb3.
    destruct (Z_le_gt_dec SCREEN_HEIGHT y) as [Hge|Hlt].
    - rewrite (Hsame Hge). reflexivity.
    - apply Hout1. lia. }
  split.
  { intros Hlt d Hd H3 H7 Hok x Hx. rewrite Hp4, Hfb3.
    exact (Hpix Hlt d Hd H3 H7 Hok x Hx). }
  intros Hlt Hok x Hx. rewrite Hp4, Hfb3. exact (Hcol Hlt Hok x Hx).
Qed.

End StepCross.

Section ScanlineRuns.
Import Flames.

Lemma range_snoc (n : Z) : 0 <= n -> range (n + 1) = range n ++ [n].
Proof.
  intros Hn. unfold range.
  replace (Z.to_nat (n + 1)) with (Datatypes.S (Z.to_nat n)) by lia.
  rewrite seq_S, fmap_app. cbn. rewrite Z2Nat.id by lia. reflexivity.
Qed.

Lemma mjoin_replicate_snoc {A} (f : nat) (l : list A) :
  mjoin (replicate (Datatypes.S f) l) = mjoin (replicate f l) ++ l.
Proof.
  induction f as [|f IH]; cbn [replicate mjoin list_join] in *;
    [rewrite app_nil_r; reflexivity|].
  rewrite <- app_assoc. f_equal. exact IH.
Qed.

Lemma rendered_after_step (f : nat) (y : Z) :
  0 <= y <= 227 ->
  rendered_after f y ++ (if y <? SCREEN_HEIGHT then [y] else [])
  = rendered_after (if y + 1 =? 228 then Datatypes.S f else f) ((y + 1) mod 228).
Proof.
  intros Hy. unfold rendered_after, SCREEN_HEIGHT.
  destruct (y + 1 =? 228) eqn:E.
  - assert (y = 227) as -> by lia. cbn [Z.ltb Z.compare Pos.compare Pos.compare_cont].
    change ((227 + 1) mod 228) with 0. change (Z.min 0 160) with 0.
    change (Z.min 227 160) with 160. change (range 0) with (@nil Z).
    rewrite mjoin_replicate_snoc, !app_nil_r. reflexivity.
  - rewrite Z.mod_small by lia. rewrite <- app_assoc. f_equal.
    destruct (y <? 160) eqn:Ey.
    + rewrite Z.min_l by lia. replace (Z.min (y + 1) 160) with (y + 1) by lia.
      symmetry. apply range_snoc. lia.
    + rewrite !Z.min_r by lia. apply app_nil_r.
Qed.

Lemma ppu_inv_add_cycles (g : GBA) (c : Z) :
  ppu_inv g ->
  ppu_inv (upd_ppu (fun p => set_cycles_scanline (cycles_scanline p + c) p) g).
Proof. intros H. exact H. Qed.

Lemma count_occ_range (n y : Z) :
  0 <= n ->
  count_occ Z.eq_dec (range n) y = if (0 <=? y) && (y <? n) then 1%nat else 0%nat.
Proof.
  intros Hn. rewrite <- (Z2Nat.id n) by lia.
  induction (Z.to_nat n) as [|k IH].
  - change (Z.of_nat 0) with 0.
    replace ((0 <=? y) && (y <? 0)) with false by lia. reflexivity.
  - replace (Z.of_nat (Datatypes.S k)) with (Z.of_nat k + 1) by lia.
    rewrite range_snoc by lia. rewrite count_occ_app, IH. cbn [count_occ].
    destruct (Z.eq_dec (Z.of_nat k) y) as [<-|Hne].
    + replace ((0 <=? Z.of_nat k) && (Z.of_nat k <? Z.of_nat k)) with false by lia.
      replace ((0 <=? Z.of_nat k) && (Z.of_nat k <? Z.of_nat k + 1)) with true by lia.
      reflexivity.
    + destruct ((0 <=? y) && (y <? Z.of_nat k)) eqn:E1;
        destruct ((0 <=? y) && (y <? Z.of_nat k + 1)) eqn:E2; lia.
Qed.

(** In [rendered_after f s] a visible scanline occurs once per completed
    pass, and once more if the current pass is beyond it. *)
Lemma rendered_after_count (f : nat) (s y : Z) :
  0 <= s -> 0 <= y < SCREEN_HEIGHT ->
  count_occ Z.eq_dec (rendered_after f s) y
  = (f + (if (y <? s)%Z then 1 else 0))%nat.
Proof.
  intros Hs Hy. unfold rendered_after, SCREEN_HEIGHT in *.
  rewrite count_occ_app, count_occ_range by lia.
  replace ((0 <=? y) && (y <? Z.min s 160)) with (y <? s) by lia.
  f_equal. induction f as [|f IH]; [reflexivity|].
  rewrite mjoin_replicate_snoc, count_occ_app, IH, count_occ_range by lia.
  replace ((0 <=? y) && (y <? 160)) with true by lia. lia.
Qed.

End ScanlineRuns.

Section ScanlineFrames.
Import Flames.

Lemma crossings_nonneg (cs : list Z) : forall acc, 0 <= crossings acc cs.
Proof.
  induction cs as [|c cs IH]; intros acc; cbn [crossings]; [lia|].
  destruct (1232 <=? acc + c).
  - specialize (IH (acc + c - 1232)). lia.
  - apply IH.
Qed.

(** With no call adding more than one scanline's worth of cycles the
    accumulator stays below the threshold, and the calls that reach it
    are counted by the cycle total. *)
Lemma crossings_bounded (cs : list Z) :
  forall acc, 0 <= acc < 1232 -> Forall (fun c => 0 <= c <= 1232) cs ->
    crossings acc cs = (acc + sum cs) / 1232.
Proof.
  induction cs as [|c cs IH]; intros acc Hacc Hall.
  - cbn [crossings sum foldr]. rewrite Z.add_0_r. symmetry. apply Z.div_small. exact Hacc.
  - apply Forall_cons in Hall as [Hc Hall].
    cbn [crossings]. change (sum (c :: cs)) with (c + sum cs).
    destruct (1232 <=? acc + c) eqn:E.
    + rewrite IH by (first [lia | exact Hall]).
      replace (acc + (c + sum cs)) with (acc + c - 1232 + sum cs + 1 * 1232) by lia.
      rewrite Z.div_add by lia. lia.
    + rewrite IH by (first [lia | exact Hall]). f_equal. lia.
Qed.

Lemma frame_count_step (k : Z) :
  0 <= k ->
  (k + 1) mod 228 = (k mod 228 + 1) mod 228 /\
  Z.to_nat ((k + 1) / 228)
  = (if k mod 228 + 1 =? 228 then Datatypes.S (Z.to_nat (k / 228))
     else Z.to_nat (k / 228)).
Proof.
  intros Hk.
  pose proof (Z.div_mod k 228 ltac:(lia)) as Hdm.
  pose proof (Z.mod_pos_bound k 228 ltac:(lia)) as Hm.
  assert (0 <= k / 228) by (apply Z.div_pos; lia).
  destruct (k mod 228 + 1 =? 228) eqn:E.
  - assert (Hq : (k + 1) / 228 = k / 228 + 1).
    { symmetry. apply (Z.div_unique (k + 1) 228 (k / 228 + 1) 0); lia. }
    split.
    + replace (k mod 228 + 1) with 228 by lia. rewrite Z.mod_same by lia.
      symmetry. apply (Z.mod_unique (k + 1) 228 (k / 228 + 1) 0); lia.
    + rewrite Hq. lia.
  - assert (Hq : (k + 1) / 228 = k / 228).
    { symmetry. apply (Z.div_unique (k + 1) 228 (k / 228) (k mod 228 + 1)); lia. }
    split.
    + rewrite (Z.mod_small (k mod 228 + 1)) by lia.
      symmetry. apply (Z.mod_unique (k + 1) 228 (k / 228) (k mod 228 + 1)); lia.
    + rewrite Hq. reflexivity.
Qed.

(** Any sequence of [PPU.step] calls, [k0] threshold crossings after the
    state [g0] with scanline 0: no call raises; the scanline index is the
    number of crossings modulo 228; the accumulator has lost 1232 per
    crossing; and in the frame buffer exactly the visible rows whose
    index is below the number of crossings hold what [render_scanline]
    draws, the others what they held in [g0]. *)
Lemma PPU_run_frames (cs : list Z) :
  forall (g0 g : GBA) (k0 : Z),
    ppu_inv g -> cache_ok (ppu g) -> vcount_only (memory g0) (memory g) ->
    0 <= k0 -> current_scanline (ppu g) = k0 mod 228 ->
    (forall y x, 0 <= y < SCREEN_HEIGHT -> 0 <= x < SCREEN_WIDTH ->
       frame_buffer (ppu g) !! Z.to_nat (y * SCREEN_WIDTH + x)
       = if y <? k0 then scanline_pixel (memory g0) y x
         else frame_buffer (ppu g0) !! Z.to_nat (y * SCREEN_WIDTH + x)) ->
    exists t g',
      PPU_run cs g = Ok (t, g') /\ ppu_inv g' /\
      current_scanline (ppu g')
      = (k0 + crossings (cycles_scanline (ppu g)) cs) mod 228 /\
      cycles_scanline (ppu g')
      = cycles_scanline (ppu g) + sum cs
        - 1232 * crossings (cycles_scanline (ppu g)) cs /\
      rendered_after (Z.to_nat (k0 / 228)) (k0 mod 228) ++ t
      = rendered_after
          (Z.to_nat ((k0 + crossings (cycles_scanline (ppu g)) cs) / 228))
          ((k0 + crossings (cycles_scanline (ppu g)) cs) mod 228) /\
      (forall y x, 0 <= y < SCREEN_HEIGHT -> 0 <= x < SCREEN_WIDTH ->
         frame_buffer (ppu g') !! Z.to_nat (y * SCREEN_WIDTH + x)
         = if y <? k0 + crossings (cycles_scanline (ppu g)) cs
           then scanline_pixel (memory g0) y x
           else frame_buffer (ppu g0) !! Z.to_nat (y * SCREEN_WIDTH + x)).
Proof.
  induction cs as [|c cs IH]; intros g0 g k0 Hinv Hok Hv Hk0 Hsl Hfb.
  - exists [], g. cbn [crossings]. change (sum []) with 0.
    rewrite !Z.add_0_r, app_nil_r.
    split; [reflexivity|]. split; [exact Hinv|]. split; [exact Hsl|].
    split; [lia|]. split; [reflexivity|exact Hfb].
  - cbn [PPU_run crossings]. change (sum (c :: cs)) with (c + sum cs).
    destruct (Z_lt_ge_dec (cycles_scanline (ppu g) + c) 1232) as [Hlt|Hge].
    + replace (1232 <=? cycles_scanline (ppu g) + c) with false by lia.
      rewrite (bind_ok _ _ _ _ _ (PPU_step_below g c Hlt)).
      destruct (IH g0 _ k0 (ppu_inv_add_cycles g c Hinv) Hok Hv Hk0 Hsl Hfb)
        as (t & g' & Hr & Hi & Hsl' & Hcy' & Ht & Hfb').
      rewrite (bind_ok _ _ _ _ _ Hr). unfold ret.
      cbn [cycles_scanline ppu upd_ppu set_cycles_scanline] in Hsl', Hcy', Ht, Hfb'.
      exists t, g'. split; [reflexivity|]. split; [exact Hi|].
      split; [exact Hsl'|]. split; [lia|]. split; [exact Ht|exact Hfb'].
    + replace (1232 <=? cycles_scanline (ppu g) + c) with true by lia.
      destruct (PPU_step_cross g c Hinv)
        as (g1 & Hs & Hi1 & Hsl1 & Hcy1 & _ & _ & Hv1 & Hc1 & Hout & _ & Hcol); [lia|].
      cbv zeta in *.
      rewrite (bind_ok _ _ _ _ _ Hs).
      pose proof (Z.mod_pos_bound k0 228 ltac:(lia)) as Hm.
      pose proof (Z.mod_le k0 228 Hk0 ltac:(lia)) as Hle.
      destruct (frame_count_step k0 Hk0) as (Hmod & Hdiv).
      destruct (IH g0 g1 (k0 + 1) Hi1 (Hc1 Hok) (vcount_only_trans _ _ _ Hv Hv1))
        as (t & g' & Hr & Hi & Hsl' & Hcy' & Ht & Hfb').
      { lia. }
      { rewrite Hsl1, Hsl. symmetry. exact Hmod. }
      { intros y x Hy Hx.
        destruct (Z.eq_dec y (current_scanline (ppu g))) as [->|Hne].
        - destruct (Hcol ltac:(unfold SCREEN_HEIGHT in *; lia) Hok x Hx)
            as (col & Hp & Hf).
          rewrite Hf, <- Hp, (vcount_only_scanline_pixel _ _ _ x Hv).
          replace (current_scanline (ppu g) <? k0 + 1) with true by lia.
          reflexivity.
        - rewrite Hout.
          + rewrite (Hfb y x Hy Hx).
            assert (y <> k0).
            { intros ->. apply Hne. rewrite Hsl. symmetry. apply Z.mod_small.
              unfold SCREEN_HEIGHT in *. lia. }
            replace (y <? k0 + 1) with (y <? k0) by lia. reflexivity.
          + rewrite Z2Nat.id by (unfold SCREEN_WIDTH in *; lia).
            unfold SCREEN_WIDTH in *. lia. }
      rewrite (bind_ok _ _ _ _ _ Hr). unfold ret.
      rewrite Hcy1 in Hsl', Hcy', Ht, Hfb'.
      replace (k0 + 1 + crossings (cycles_scanline (ppu g) + c - 1232) cs)
        with (k0 + (1 + crossings (cycles_scanline (ppu g) + c - 1232) cs))
        in Hsl', Ht, Hfb' by lia.
      eexists _, g'. split; [reflexivity|]. split; [exact Hi|].
      split; [exact Hsl'|]. split; [lia|]. split; [|exact Hfb'].
      rewrite <- Ht, app_assoc. f_equal.
      rewrite Hsl, rendered_after_step by lia.
      rewrite <- Hmod, <- Hdiv. reflexivity.
Qed.

End ScanlineFrames.

(** C9 ([PPU.step], lines 443-460).  From any state that satisfies the
    video invariant (buffers of their constructed sizes, scanline index in
    0..227) with a sound colour cache, one [step] call with any cycle
    count never raises and keeps the invariant.  While the accumulator
    stays below 1232 it changes neither the scanline index nor the frame
    buffer.  Otherwise it subtracts 1232, draws the current scanline into
    its row of the frame buffer exactly when it is visible (below 160),
    leaves every other row as it was, and advances the index modulo 228.
    Hence, from the reset state (scanline 0, accumulator 0), after any
    sequence of calls with [k] threshold crossings the scanline index is
    [k mod 228], the accumulator is the cycle total less [1232 * k] ([k]
    is the cycle total divided by 1232 when no call adds more than 1232
    cycles), the scanlines rendered are [k / 228] whole passes over
    0..159 followed by the visible lines below the current index (each
    visible line once per frame), and the frame buffer holds the drawn
    colours in exactly the visible rows below [k]. *)
Theorem scanline_clock_renders_once_per_frame (g : Flames.GBA) :
  Flames.ppu_inv g -> Flames.cache_ok (Flames.ppu g) ->
  (forall c, exists t g',
     Flames.PPU_step c g = Ok (t, g') /\ Flames.ppu_inv g' /\
     Flames.cache_ok (Flames.ppu g') /\
     0 <= Flames.current_scanline (Flames.ppu g') <= 227 /\
     (Flames.cycles_scanline (Flames.ppu g) + c < 1232 ->
      t = [] /\
      Flames.current_scanline (Flames.ppu g') = Flames.current_scanline (Flames.ppu g) /\
      Flames.cycles_scanline (Flames.ppu g') = Flames.cycles_scanline (Flames.ppu g) + c /\
      Flames.frame_buffer (Flames.ppu g') = Flames.frame_buffer (Flames.ppu g)) /\
     (1232 <= Flames.cycles_scanline (Flames.ppu g) + c ->
      t = (if Flames.current_scanline (Flames.ppu g) <? 160
           then [Flames.current_scanline (Flames.ppu g)] else []) /\
      Flames.current_scanline (Flames.ppu g')
      = (Flames.current_scanline (Flames.ppu g) + 1) mod 228 /\
      Flames.cycles_scanline (Flames.ppu g')
      = Flames.cycles_scanline (Flames.ppu g) + c - 1232 /\
      (forall y x, 0 <= y < 160 -> 0 <= x < 240 ->
         Flames.frame_buffer (Flames.ppu g') !! Z.to_nat (y * 240 + x)
         = if y =? Flames.current_scanline (Flames.ppu g)
           then Flames.scanline_pixel (Flames.memory g) y x
           else Flames.frame_buffer (Flames.ppu g) !! Z.to_nat (y * 240 + x)))) /\
  (Flames.current_scanline (Flames.ppu g) = 0 ->
   Flames.cycles_scanline (Flames.ppu g) = 0 ->
   forall cs, exists t g',
     Flames.PPU_run cs g = Ok (t, g') /\ Flames.ppu_inv g' /\
     0 <= Flames.current_scanline (Flames.ppu g') <= 227 /\
     Flames.current_scanline (Flames.ppu g') = Flames.crossings 0 cs mod 228 /\
     Flames.cycles_scanline (Flames.ppu g')
     = Flames.sum cs - 1232 * Flames.crossings 0 cs /\
     (Forall (fun c => 0 <= c <= 1232) cs ->
      Flames.crossings 0 cs = Flames.sum cs / 1232) /\
     t = Flames.rendered_after (Z.to_nat (Flames.crossings 0 cs / 228))
           (Flames.crossings 0 cs mod 228) /\
     (forall y, 0 <= y < 160 ->
        count_occ Z.eq_dec t y
        = (Z.to_nat (Flames.crossings 0 cs / 228)
           + (if (y <? Flames.crossings 0 cs mod 228)%Z then 1 else 0))%nat) /\
     (forall y x, 0 <= y < 160 -> 0 <= x < 240 ->
        Flames.frame_buffer (Flames.ppu g') !! Z.to_nat (y * 240 + x)
        = if y <? Flames.crossings 0 cs
          then Flames.scanline_pixel (Flames.memory g) y x
          else Flames.frame_buffer (Flames.ppu g) !! Z.to_nat (y * 240 + x))).
Proof.
  intros Hinv Hok. split.
  - intros c.
    destruct (Z_lt_ge_dec (Flames.cycles_scanline (Flames.ppu g) + c) 1232) as [Hlt|Hge].
    + eexists _, _. split; [apply PPU_step_below; exact Hlt|].
      split; [apply ppu_inv_add_cycles; exact Hinv|].
      split; [exact Hok|].
      split; [destruct Hinv as (_ & _ & H); exact H|].
      split; [intros _; repeat split | lia].
    + destruct (PPU_step_cross g c Hinv)
        as (g1 & Hs & Hi1 & Hsl & Hcy & _ & _ & _ & Hc1 & Hout & _ & Hcol); [lia|].
      cbv zeta in *.
      eexists _, g1. split; [exact Hs|]. split; [exact Hi1|].
      split; [exact (Hc1 Hok)|].
      split; [destruct Hi1 as (_ & _ & H); exact H|].
      split; [lia|]. intros _.
      split; [reflexivity|]. split; [exact Hsl|]. split; [exact Hcy|].
      intros y x Hy Hx.
      destruct (Z.eqb_spec y (Flames.current_scanline (Flames.ppu g))) as [->|Hne].
      * destruct (Hcol ltac:(unfold Flames.SCREEN_HEIGHT; lia) Hok x Hx)
          as (col & Hp & Hf).
        rewrite Hp. exact Hf.
      * apply Hout. rewrite Z2Nat.id by lia.
        unfold Flames.SCREEN_HEIGHT, Flames.SCREEN_WIDTH. lia.
  - intros H0 Ha cs.
    destruct (PPU_run_frames cs g g 0 Hinv Hok (vcount_only_refl _) ltac:(lia))
      as (t & g' & Hr & Hi & Hsl & Hcy & Ht & Hfb).
    { rewrite H0. reflexivity. }
    { intros y x Hy Hx. replace (y <? 0) with false by lia. reflexivity. }
    rewrite Ha in Hsl, Hcy, Ht, Hfb. rewrite Z.add_0_l in Hsl, Hcy, Ht.
    change (Flames.rendered_after (Z.to_nat (0 / 228)) (0 mod 228)) with (@nil Z) in Ht.
    cbn [app] in Ht.
    exists t, g'. split; [exact Hr|]. split; [exact Hi|].
    split; [destruct Hi as (_ & _ & H); exact H|].
    split; [exact Hsl|]. split; [exact Hcy|].
    split; [intros Hall; rewrite (crossings_bounded cs 0) by (first [lia | exact Hall]);
            reflexivity|].
    split; [exact Ht|].
    split.
    + intros y Hy. rewrite Ht. apply rendered_after_count; [|exact Hy].
      pose proof (Z.mod_pos_bound (Flames.crossings 0 cs) 228). lia.
    + intros y x Hy Hx. exact (Hfb y x Hy Hx).
Qed.


Section WhitePixel.
Import Flames.

Lemma mem_wf_init : mem_wf Memory_init.
Proof.
  unfold mem_wf, Memory_init. cbn [bios ewram iwram io_regs palette_ram vram oam].
  rewrite !len_zeros by (vm_compute; discriminate). auto 10.
Qed.

Lemma ppu_inv_fields : ppu_inv GBA_fields.
Proof.
  split; [exact mem_wf_init|]. split; [|cbn; lia].
  unfold ppu_wf, GBA_fields, PPU_init. cbn [ppu frame_buffer].
  unfold len. rewrite length_replicate. unfold SCREEN_WIDTH, SCREEN_HEIGHT. lia.
Qed.

Lemma get_region_vram0 (g : GBA) :
  _get_memory_region_and_offset
    (if Z.land VRAM_START 1 =? 0 then VRAM_START else Z.land VRAM_START (Z.lnot 1)) g
  = Ok ((Vram, 0), g).
Proof. reflexivity. Qed.

(** The halfword store of Scenario C: it changes the first two bytes of
    VRAM and nothing else. *)
Lemma write_halfword_vram0 (g : GBA) (v : Z) :
  len (vram (memory g)) = VRAM_SIZE ->
  write_halfword VRAM_START v g
  = Ok (tt, upd_memory
              (set_region_bytes Vram
                 (<[1%nat := byte.of_Z (Z.land (Z.shiftr (Z.land v 0xFFFF) 8) 0xFF)]>
                    (<[0%nat := byte.of_Z (Z.land (Z.land v 0xFFFF) 0xFF)]>
                       (vram (memory g))))) g).
Proof.
  intros Hlen. unfold VRAM_SIZE in Hlen.
  unfold write_halfword. unfold bind at 1. rewrite get_region_vram0.
  cbv beta iota. change (is_rom_like Vram) with false. cbv beta iota.
  unfold to_ppu, bind, gets, ret. cbv beta iota.
  change (bool_decide (Vram = Io_regs)) with false. cbn [andb].
  unfold region_get at 1. cbn [region_bytes].
  replace (len (vram (memory g)) <=? 0 + 1) with false by lia.
  erewrite region_store_ok; [|reflexivity|lia|apply land_FF_range].
  cbv beta iota.
  erewrite region_store_ok;
    [|reflexivity|cbn; rewrite len_insert; lia|apply land_FF_range].
  destruct g as [m c p k]; destruct m; reflexivity.
Qed.

Lemma white_setup_after_store (g : GBA) :
  ppu_inv g -> cache_ok (ppu g) ->
  (exists d, dispcnt_of (memory g) = Some d /\
             Z.land d 0x7 = 3 /\ Z.land (Z.shiftr d 7) 1 = 0) ->
  exists g1, write_halfword VRAM_START 0x7FFF g = Ok (tt, g1) /\
             white_setup g1 /\
             current_scanline (ppu g1) = current_scanline (ppu g) /\
             cycles_scanline (ppu g1) = cycles_scanline (ppu g).
Proof.
  intros (Hmem & Hwf & Hy) Hcache Hd.
  pose proof Hmem as (W1 & W2 & W3 & W4 & W5 & W6 & W7).
  eexists. split; [apply write_halfword_vram0; exact W6|].
  split; [|split; reflexivity].
  unfold white_setup. split; [|split; [exact Hcache|split; [exact Hd|]]].
  - split; [|split; [exact Hwf|exact Hy]].
    unfold mem_wf. cbn [memory upd_memory set_region_bytes bios ewram iwram io_regs
      palette_ram vram oam]. rewrite !len_insert. auto 10.
  - unfold mode3_pixel. cbn [memory upd_memory set_region_bytes vram].
    change (Z.to_nat (0 * SCREEN_WIDTH * 2 + 2 * 0)) with 0%nat.
    change (Z.to_nat (0 * SCREEN_WIDTH * 2 + 2 * 0 + 1)) with 1%nat.
    unfold VRAM_SIZE, len in W6.
    rewrite list_lookup_insert_ne by lia.
    rewrite list_lookup_insert_eq by lia.
    rewrite list_lookup_insert_eq by (rewrite length_insert; lia).
    reflexivity.
Qed.

Lemma tk_color_white : tk_color 0x7FFF = "#ffffff"%string.
Proof. reflexivity. Qed.

(** One [step] call keeps the Scenario C set-up, keeps a white pixel 0 and
    makes pixel 0 white when it renders scanline 0. *)
Lemma PPU_step_white (g : GBA) (c : Z) :
  white_setup g ->
  exists t g',
    PPU_step c g = Ok (t, g') /\ white_setup g' /\
    (frame_buffer (ppu g) !! 0%nat = Some "#ffffff"%string ->
     frame_buffer (ppu g') !! 0%nat = Some "#ffffff"%string) /\
    (current_scanline (ppu g) = 0 -> t <> [] ->
     frame_buffer (ppu g') !! 0%nat = Some "#ffffff"%string) /\
    (t = [] -> current_scanline (ppu g) = 0 -> current_scanline (ppu g') = 0).
Proof.
  intros (Hinv & Hcache & (d & Hd & H3 & H7) & Hpix).
  destruct (Z_lt_ge_dec (cycles_scanline (ppu g) + c) 1232) as [Hlt|Hge].
  - eexists _, _. split; [apply PPU_step_below; exact Hlt|].
    split; [|split; [auto|split; [congruence|auto]]].
    unfold white_setup. split; [exact Hinv|]. split; [exact Hcache|].
    split; [exists d; auto|exact Hpix].
  - destruct (PPU_step_cross g c Hinv) as
      (g1 & Hs & Hi1 & Hsl & Hcy & Hc1 & Hk1 & Hv & Hcache1 & Hout & Hrender & _); [lia|].
    cbv zeta in *.
    assert (Hy0 : current_scanline (ppu g) = 0 ->
                  frame_buffer (ppu g1) !! 0%nat = Some "#ffffff"%string).
    { intros Hz. rewrite Hz in Hrender.
      destruct (Hrender ltac:(unfold SCREEN_HEIGHT; lia) d Hd H3 H7 Hcache 0)
        as (p & Hp & Hfb); [unfold SCREEN_WIDTH; lia|].
      rewrite Hpix in Hp. injection Hp as <-.
      change (Z.to_nat (0 * SCREEN_WIDTH + 0)) with 0%nat in Hfb.
      rewrite Hfb, tk_color_white. reflexivity. }
    eexists _, g1. split; [exact Hs|]. split; [|split; [|split]].
    + unfold white_setup. split; [exact Hi1|]. split; [exact (Hcache1 Hcache)|].
      split.
      * exists d. rewrite (vcount_only_dispcnt _ _ Hv). auto.
      * rewrite (vcount_only_mode3_pixel _ _ 0 0 Hv). exact Hpix.
    + intros Hw.
      destruct (Z.eq_dec (current_scanline (ppu g)) 0) as [Hz|Hnz]; [exact (Hy0 Hz)|].
      rewrite Hout; [exact Hw|].
      destruct Hinv as (_ & _ & Hrange). unfold SCREEN_WIDTH, SCREEN_HEIGHT.
      change (Z.of_nat 0) with 0. lia.
    + intros Hz _. exact (Hy0 Hz).
    + intros Ht Hz. rewrite Hz in Ht. discriminate Ht.
Qed.

(** Any sequence of [step] calls from the Scenario C set-up: once scanline
    0 has been rendered, pixel 0 is white and stays white. *)
Lemma PPU_run_white (cs : list Z) :
  forall g, white_setup g ->
    exists t g',
      PPU_run cs g = Ok (t, g') /\ white_setup g' /\
      (frame_buffer (ppu g) !! 0%nat = Some "#ffffff"%string ->
       frame_buffer (ppu g') !! 0%nat = Some "#ffffff"%string) /\
      (current_scanline (ppu g) = 0 -> t <> [] ->
       frame_buffer (ppu g') !! 0%nat = Some "#ffffff"%string).
Proof.
  induction cs as [|c cs IH]; intros g Hw.
  - exists [], g. split; [reflexivity|]. split; [exact Hw|]. split; [auto|].
    intros _ H. contradiction.
  - destruct (PPU_step_white g c Hw) as (t1 & g1 & Hs & Hw1 & Hkeep1 & Hzero1 & Hstay1).
    destruct (IH g1 Hw1) as (t2 & g2 & Hr & Hw2 & Hkeep2 & Hzero2).
    cbn [PPU_run]. unfold bind. rewrite Hs, Hr. unfold ret.
    exists (t1 ++ t2), g2. split; [reflexivity|]. split; [exact Hw2|].
    split; [auto|].
    intros Hz Hne. destruct t1 as [|a t1'].
    + cbn [app] in Hne. apply Hzero2; [apply Hstay1; auto|exact Hne].
    + apply Hkeep2, Hzero1; [exact Hz|discriminate].
Qed.

(** [n] calls of [step(1232)] with a non-negative accumulator: every call
    reaches the threshold, so the scanline index advances by [n]. *)
Lemma PPU_run_all_cross (n : nat) :
  forall g, ppu_inv g -> 0 <= cycles_scanline (ppu g) ->
    exists t g',
      PPU_run (replicate n 1232) g = Ok (t, g') /\
      current_scanline (ppu g')
      = (current_scanline (ppu g) + Z.of_nat n) mod 228 /\
      (current_scanline (ppu g) = 0 -> (0 < n)%nat -> t <> []).
Proof.
  induction n as [|n IH]; intros g Hinv Hacc.
  - exists [], g. split; [reflexivity|]. split.
    + rewrite Z.add_0_r. symmetry. apply Z.mod_small.
      destruct Hinv as (_ & _ & H). lia.
    + intros _ H. lia.
  - destruct (PPU_step_cross g 1232 Hinv) as (g1 & Hs & Hi1 & Hsl & Hcy & _); [lia|].
    cbv zeta in *.
    destruct (IH g1 Hi1) as (t2 & g2 & Hr & Hsl2 & _); [lia|].
    cbn [replicate PPU_run]. unfold bind. rewrite Hs, Hr. unfold ret.
    eexists _, g2. split; [reflexivity|]. split.
    + rewrite Hsl2, Hsl, Z.add_mod_idemp_l by lia. f_equal. lia.
    + intros Hz _. rewrite Hz. discriminate.
Qed.

End WhitePixel.

(** C7 ([PPU.render_scanline], [PPU.step], [Memory.write_halfword]).  On a
    machine in the reset video state (scanline 0, accumulator 0) whose
    display control selects mode 3 with forced blank clear, storing the
    halfword 0x7FFF at the start of VRAM succeeds, and then one full frame
    of [step] calls (228 calls of 1232 cycles) succeeds, returns the
    scanline index to 0 and leaves [frame_buffer[0]] equal to "#ffffff",
    the text of the 8-bit channels (255,255,255).  More generally pixel 0
    is white after any sequence of [step] calls that has rendered at least
    one scanline. *)
Theorem mode3_white_pixel_after_frame (g0 : Flames.GBA) :
  Flames.ppu_inv g0 -> Flames.cache_ok (Flames.ppu g0) ->
  Flames.current_scanline (Flames.ppu g0) = 0 ->
  Flames.cycles_scanline (Flames.ppu g0) = 0 ->
  (exists d, Flames.dispcnt_of (Flames.memory g0) = Some d /\
             Z.land d 0x7 = 3 /\ Z.land (Z.shiftr d 7) 1 = 0) ->
  exists g,
    Flames.write_halfword Flames.VRAM_START 0x7FFF g0 = Ok (tt, g) /\
    (exists t g',
       Flames.PPU_run (replicate 228 1232) g = Ok (t, g') /\
       Flames.current_scanline (Flames.ppu g') = 0 /\
       Flames.frame_buffer (Flames.ppu g') !! 0%nat = Some "#ffffff"%string) /\
    (forall cs, exists t g',
       Flames.PPU_run cs g = Ok (t, g') /\
       (t <> [] -> Flames.frame_buffer (Flames.ppu g') !! 0%nat = Some "#ffffff"%string)) /\
    "#ffffff"%string = String "#" (fmt_02x 255 +:+ fmt_02x 255 +:+ fmt_02x 255).
Proof.
  intros Hinv Hcache Hz Hacc Hd.
  destruct (white_setup_after_store g0 Hinv Hcache Hd) as (g & Hw & Hsetup & Hsl & Hcy).
  exists g. split; [exact Hw|].
  rewrite Hz in Hsl. rewrite Hacc in Hcy.
  split; [|split; [|reflexivity]].
  - destruct (PPU_run_white (replicate 228 1232) g Hsetup) as (t & g' & Hr & _ & _ & Hwhite).
    destruct (PPU_run_all_cross 228 g) as (t' & g'' & Hr' & Hsl' & Hne);
      [destruct Hsetup as (H & _); exact H | lia |].
    rewrite Hr in Hr'. injection Hr' as <- <-.
    exists t, g'. split; [exact Hr|]. split.
    + rewrite Hsl', Hsl. reflexivity.
    + apply Hwhite; [exact Hsl|]. apply Hne; [exact Hsl|lia].
  - intros cs.
    destruct (PPU_run_white cs g Hsetup) as (t & g' & Hr & _ & _ & Hwhite).
    exists t, g'. split; [exact Hr|]. intros Hne. exact (Hwhite Hsl Hne).
Qed.

Lemma ppu_inv_mode3 : Flames.ppu_inv Flames.GBA_mode3.
Proof.
  destruct ppu_inv_fields as ((W1 & W2 & W3 & W4 & W5 & W6 & W7) & Hp & Hy).
  split; [|split; [exact Hp|exact Hy]].
  unfold Flames.mem_wf, Flames.GBA_mode3.
  cbn [Flames.memory Flames.upd_memory Flames.set_region_bytes Flames.bios
       Flames.ewram Flames.iwram Flames.io_regs Flames.palette_ram Flames.vram
       Flames.oam].
  rewrite len_insert, len_zeros by (vm_compute; discriminate).
  repeat split; assumption.
Qed.

Lemma cache_ok_empty (g : Flames.GBA) :
  Flames.color_cache (Flames.ppu g) = ∅ -> Flames.cache_ok (Flames.ppu g).
Proof. intros H k c Hl. rewrite H, lookup_empty in Hl. discriminate. Qed.

Lemma mode3_white_pixel_after_frame_witness :
  Flames.ppu_inv Flames.GBA_mode3 /\
  Flames.cache_ok (Flames.ppu Flames.GBA_mode3) /\
  Flames.current_scanline (Flames.ppu Flames.GBA_mode3) = 0 /\
  Flames.cycles_scanline (Flames.ppu Flames.GBA_mode3) = 0 /\
  (exists d, Flames.dispcnt_of (Flames.memory Flames.GBA_mode3) = Some d /\
             Z.land d 0x7 = 3 /\ Z.land (Z.shiftr d 7) 1 = 0) /\
  exists g,
    Flames.write_halfword Flames.VRAM_START 0x7FFF Flames.GBA_mode3 = Ok (tt, g) /\
    (exists t g',
       Flames.PPU_run (replicate 228 1232) g = Ok (t, g') /\
       Flames.current_scanline (Flames.ppu g') = 0 /\
       Flames.frame_buffer (Flames.ppu g') !! 0%nat = Some "#ffffff"%string).
Proof.
  assert (Hd : exists d, Flames.dispcnt_of (Flames.memory Flames.GBA_mode3) = Some d /\
                         Z.land d 0x7 = 3 /\ Z.land (Z.shiftr d 7) 1 = 0).
  { exists 3. split; [reflexivity|]. split; reflexivity. }
  split; [exact ppu_inv_mode3|].
  split; [apply cache_ok_empty; reflexivity|].
  split; [reflexivity|]. split; [reflexivity|]. split; [exact Hd|].
  destruct (mode3_white_pixel_after_frame Flames.GBA_mode3 ppu_inv_mode3
              (cache_ok_empty Flames.GBA_mode3 eq_refl) eq_refl eq_refl Hd)
    as (g & Hw & Hframe & _).
  exists g. split; [exact Hw|exact Hframe].
Defined.

Lemma scanline_clock_renders_once_per_frame_witness :
  exists t g',
    Flames.PPU_run [1232; 600; 632; 1232] Flames.GBA_mode3 = Ok (t, g') /\ Flames.ppu_inv g' /\
    0 <= Flames.current_scanline (Flames.ppu g') <= 227 /\
    Flames.current_scanline (Flames.ppu g')
    = Flames.crossings 0 [1232; 600; 632; 1232] mod 228 /\
    Flames.cycles_scanline (Flames.ppu g')
    = Flames.sum [1232; 600; 632; 1232]
      - 1232 * Flames.crossings 0 [1232; 600; 632; 1232] /\
    (Forall (fun c => 0 <= c <= 1232) [1232; 600; 632; 1232] ->
     Flames.crossings 0 [1232; 600; 632; 1232]
     = Flames.sum [1232; 600; 632; 1232] / 1232) /\
    t = Flames.rendered_after
          (Z.to_nat (Flames.crossings 0 [1232; 600; 632; 1232] / 228))
          (Flames.crossings 0 [1232; 600; 632; 1232] mod 228) /\
    (forall y, 0 <= y < 160 ->
       count_occ Z.eq_dec t y
       = (Z.to_nat (Flames.crossings 0 [1232; 600; 632; 1232] / 228)%Z
          + (if (y <? Flames.crossings 0 [1232; 600; 632; 1232] mod 228)%Z
             then 1 else 0))%nat) /\
    (forall y x, 0 <= y < 160 -> 0 <= x < 240 ->
       Flames.frame_buffer (Flames.ppu g') !! Z.to_nat (y * 240 + x)
       = if y <? Flames.crossings 0 [1232; 600; 632; 1232]
         then Flames.scanline_pixel (Flames.memory Flames.GBA_mode3) y x
         else Flames.frame_buffer (Flames.ppu Flames.GBA_mode3)
                !! Z.to_nat (y * 240 + x)).
Proof.
  exact (proj2 (scanline_clock_renders_once_per_frame Flames.GBA_mode3 ppu_inv_mode3
                  (cache_ok_empty Flames.GBA_mode3 eq_refl))
           eq_refl eq_refl [1232; 600; 632; 1232]).
Defined.

(** * Further properties of the modelled code *)

(** ** [0.py], first bus: stores *)

Section FirstBusStores.
Import MemoryManager.

Lemma set_warnings_nil_id (m : t) : set_warnings (warnings m ++ []) m = m.
Proof. rewrite app_nil_r. destruct m; reflexivity. Qed.

(** [map_address] is decided by the address and the cartridge length; it
    records a warning exactly when the result is "invalid". *)
Lemma mm_map_address_by_romlen (a n : Z) :
  exists r off ws,
    0 <= off /\
    (r <> invalid /\ ws = [] \/
     r = invalid /\ off = 0 /\ ws = [Unmapped (Z.land a 0xFFFFFFFF)]) /\
    forall m, len (m_rom m) = n ->
      map_address a m = Ok ((r, off), set_warnings (warnings m ++ ws) m).
Proof.
  set (a' := Z.land a 0xFFFFFFFF).
  assert (Hrun : forall r off ws (m : t),
    len (m_rom m) = n ->
    (let addr := a' in
     if (0x00000000 <=? addr) && (addr <? 0x00004000) then Some (bios, addr)
     else if (0x02000000 <=? addr) && (addr <? 0x02040000) then Some (ewram, addr - 0x02000000)
     else if (0x03000000 <=? addr) && (addr <? 0x03008000) then Some (iwram, addr - 0x03000000)
     else if (0x04000000 <=? addr) && (addr <? 0x04000400) then Some (io_regs, addr - 0x04000000)
     else if (0x05000000 <=? addr) && (addr <? 0x05000400) then Some (palette, addr - 0x05000000)
     else if (0x06000000 <=? addr) && (addr <? 0x06018000) then Some (vram, addr - 0x06000000)
     else if (0x07000000 <=? addr) && (addr <? 0x07000400) then Some (oam, addr - 0x07000000)
     else if (0x08000000 <=? addr) && (addr <? 0x08000000 + n) then Some (rom, addr - 0x08000000)
     else if (0x0E000000 <=? addr) && (addr <? 0x0E010000) then Some (sram, addr - 0x0E000000)
     else None) = (if decide (ws = []) then Some (r, off) else None) ->
    (ws = [] \/ (ws = [Unmapped a'] /\ r = invalid /\ off = 0)) ->
    map_address a m = Ok ((r, off), set_warnings (warnings m ++ ws) m)).
  { intros r off ws m Hm Hsel Hws. unfold map_address. cbv [bind gets ret warn modify].
    rewrite Hm. fold a'. cbv zeta in Hsel.
    repeat match goal with
           | |- context [if ?c then _ else _] => destruct c eqn:?
           end;
      destruct Hws as [->|(-> & -> & ->)]; cbn in Hsel; try discriminate;
      try (injection Hsel as <- <-; rewrite set_warnings_nil_id; reflexivity).
    reflexivity. }
  cbv zeta in Hrun.
  repeat match type of Hrun with
         | context [if ?c then _ else _] =>
             match c with
             | decide _ => fail 1
             | _ => destruct c eqn:?
             end
         end;
    first
      [ eexists _, _, []; split; [|split];
        [ | | intros m Hm; apply (Hrun _ _ [] m Hm); [reflexivity|left; reflexivity] ];
        [ lia | left; split; [discriminate|reflexivity] ]
      | exists invalid, 0, [Unmapped a']; split; [lia|split];
        [ right; repeat split
        | intros m Hm; apply (Hrun _ _ _ m Hm); [reflexivity|right; repeat split] ] ].
Qed.

Lemma mm_region_of_set_region (m : t) r b :
  r <> invalid -> region_of r (set_region r b m) = Some b.
Proof. destruct r; intros H; try reflexivity. contradiction. Qed.

Lemma mm_rom_set_region (m : t) r b :
  r <> rom -> m_rom (set_region r b m) = m_rom m.
Proof. destruct r; intros H; try reflexivity. contradiction. Qed.

Lemma mm_warnings_set_region (m : t) r b :
  warnings (set_region r b m) = warnings m.
Proof. destruct r; reflexivity. Qed.

Lemma mm_region_of_meta (m : t) r a :
  region_of r (set_last_write_addr a m) = region_of r m /\
  region_of r (set_last_read_addr a m) = region_of r m.
Proof. destruct r; split; reflexivity. Qed.

Lemma mm_map_address_no_warning (a : Z) (m : t) r off :
  map_address a m = Ok ((r, off), m) ->
  0 <= off /\
  forall m', len (m_rom m') = len (m_rom m) -> map_address a m' = Ok ((r, off), m').
Proof.
  intros H.
  destruct (mm_map_address_by_romlen a (len (m_rom m))) as (r' & off' & ws & Hoff & _ & Hall).
  rewrite (Hall m eq_refl) in H. injection H as -> -> Hm.
  apply (f_equal warnings) in Hm. cbn [warnings set_warnings] in Hm.
  rewrite <- (app_nil_r (warnings m)) in Hm at 2. apply app_inv_head in Hm. subst ws.
  split; [exact Hoff|]. intros m' Hlen. rewrite (Hall m' Hlen).
  rewrite set_warnings_nil_id. reflexivity.
Qed.

End FirstBusStores.

(** X1 ([MemoryManager.write_byte] / [read_byte], [0.py] lines 125-179).
    When the bus maps an address to a region other than the boot code and
    the cartridge, at an offset inside that region's buffer, storing a
    byte and reading it back returns the value masked to 8 bits; neither
    call raises and no warning is recorded. *)
Theorem first_bus_byte_round_trip (m : MemoryManager.t) (a v : Z)
        (r : MemoryManager.Region) (off : Z) (mem : list byte) :
  MemoryManager.map_address a m = Ok ((r, off), m) ->
  r <> MemoryManager.invalid -> r <> MemoryManager.rom -> r <> MemoryManager.bios ->
  MemoryManager.region_of r m = Some mem -> off < len mem ->
  exists m1 m2,
    MemoryManager.write_byte a v m = Ok (tt, m1) /\
    MemoryManager.read_byte a m1 = Ok (Z.land v 0xFF, m2) /\
    MemoryManager.warnings m2 = MemoryManager.warnings m.
Proof.
  intros Hmap Hinv Hrom Hbios Hreg Hlt.
  destruct (mm_map_address_no_warning a m r off Hmap) as (Hoff & Hall).
  pose proof (land_FF_range v) as Hv.
  unfold MemoryManager.write_byte. unfold bind at 1. unfold modify at 1. cbv beta iota.
  unfold bind at 1. rewrite (Hall (MemoryManager.set_last_write_addr a m) eq_refl).
  cbv beta iota.
  destruct (decide (r = MemoryManager.invalid)); [contradiction|].
  destruct (decide (r = MemoryManager.rom)); [contradiction|].
  destruct (decide (r = MemoryManager.bios)); [contradiction|].
  unfold bind at 1, MemoryManager.getattr.
  rewrite (proj1 (mm_region_of_meta m r a)), Hreg. cbv beta iota.
  replace (off <? len mem) with true by lia.
  unfold bind, lift, modify. rewrite setitem_in_range by lia.
  eexists _, _. split; [reflexivity|].
  unfold MemoryManager.read_byte. unfold bind at 1. unfold modify at 1. cbv beta iota.
  unfold bind at 1. rewrite Hall.
  2:{ cbn [MemoryManager.m_rom MemoryManager.set_last_read_addr].
      rewrite mm_rom_set_region by exact Hrom. reflexivity. }
  cbv beta iota.
  destruct (decide (r = MemoryManager.invalid)); [contradiction|].
  unfold bind at 1, MemoryManager.getattr.
  rewrite (proj2 (mm_region_of_meta _ r a)), mm_region_of_set_region by exact Hinv.
  cbv beta iota. rewrite len_insert.
  replace (off <? len mem) with true by lia.
  unfold lift.
  rewrite (getitem_lookup _ off (byte.of_Z (Z.land v 0xFF)));
    [| lia | apply list_lookup_insert_eq; unfold len in Hlt; lia ].
  rewrite byte.unsigned_of_Z. unfold byte.wrap. rewrite Z.mod_small by lia.
  split; [reflexivity|].
  cbn [MemoryManager.warnings MemoryManager.set_last_read_addr].
  rewrite mm_warnings_set_region. reflexivity.
Qed.

Lemma first_bus_byte_round_trip_witness :
  exists m1 m2,
    MemoryManager.write_byte 0x03000010 0x1AB MemoryManager.init = Ok (tt, m1) /\
    MemoryManager.read_byte 0x03000010 m1 = Ok (Z.land 0x1AB 0xFF, m2) /\
    MemoryManager.warnings m2 = MemoryManager.warnings MemoryManager.init.
Proof.
  apply (first_bus_byte_round_trip MemoryManager.init 0x03000010 0x1AB
           MemoryManager.iwram 0x10 (zeros (32 * 1024)));
    [reflexivity | discriminate | discriminate | discriminate | reflexivity |].
  rewrite len_zeros; lia.
Defined.

(** X2 ([MemoryManager.write_byte], [0.py] lines 162-179).  A store to an
    address the bus maps to the boot code or to the cartridge is dropped:
    the call returns normally, records one warning naming the address, and
    every buffer is what it was. *)
Theorem first_bus_protected_store_dropped (m : MemoryManager.t) (a v : Z)
        (r : MemoryManager.Region) (off : Z) :
  MemoryManager.map_address a m = Ok ((r, off), m) ->
  r = MemoryManager.rom \/ r = MemoryManager.bios ->
  MemoryManager.write_byte a v m
  = Ok (tt, MemoryManager.with_meta (MemoryManager.last_read_addr m) a
              (MemoryManager.warnings m
                 ++ [if decide (r = MemoryManager.rom)
                     then MemoryManager.WriteRom a else MemoryManager.WriteBios a])
              m).
Proof.
  intros Hmap Hr.
  destruct (mm_map_address_no_warning a m r off Hmap) as (Hoff & Hall).
  unfold MemoryManager.write_byte. unfold bind at 1. unfold modify at 1. cbv beta iota.
  unfold bind at 1. rewrite (Hall (MemoryManager.set_last_write_addr a m) eq_refl).
  cbv beta iota.
  destruct Hr as [->| ->]; reflexivity.
Qed.

Lemma first_bus_protected_store_dropped_witness :
  MemoryManager.write_byte 0x00000100 0xFF MemoryManager.init
  = Ok (tt, MemoryManager.with_meta 0 0x00000100 [MemoryManager.WriteBios 0x00000100]
              MemoryManager.init).
Proof.
  apply (first_bus_protected_store_dropped MemoryManager.init 0x100 0xFF
           MemoryManager.bios 0x100); [reflexivity | right; reflexivity].
Defined.

Section FirstBusTotal.
Import MemoryManager.

Lemma mm_write_byte_total (a v : Z) (m : t) :
  exists m', write_byte a v m = Ok (tt, m').
Proof.
  destruct (mm_map_address_by_romlen a (len (m_rom m))) as (r & off & ws & Hoff & _ & Hall).
  pose proof (land_FF_range v) as Hv.
  unfold write_byte. unfold bind at 1. unfold modify at 1. cbv beta iota.
  unfold bind at 1. rewrite (Hall (set_last_write_addr a m) eq_refl). cbv beta iota.
  destruct (decide (r = invalid)); [eexists; reflexivity|].
  destruct (decide (r = rom)); [eexists; reflexivity|].
  destruct (decide (r = bios)); [eexists; reflexivity|].
  unfold bind at 1, getattr.
  destruct (region_of r _) as [mem|] eqn:Hreg; [|destruct r; discriminate || contradiction].
  cbv beta iota. destruct (off <? len mem) eqn:Hlt; [|eexists; reflexivity].
  unfold bind, lift, modify. rewrite setitem_in_range by lia.
  eexists; reflexivity.
Qed.

Lemma mm_read_byte_total (a : Z) (m : t) :
  exists x m', read_byte a m = Ok (x, m') /\ 0 <= x < 256.
Proof.
  destruct (mm_read_byte_frame a m) as (x & ws & Hx & Hall).
  specialize (Hall (last_read_addr m) (last_write_addr m) (warnings m)).
  rewrite with_meta_id in Hall. eauto.
Qed.

Lemma mm_write_halfword_total (a v : Z) (m : t) :
  exists m', write_halfword a v m = Ok (tt, m').
Proof.
  unfold write_halfword. unfold bind at 1. unfold modify at 1. cbv beta iota.
  unfold bind at 1.
  destruct (Z.land a 1 =? 0); unfold ret, warn, bind, modify; cbv beta iota.
  - destruct (mm_write_byte_total a (Z.land (Z.land v 65535) 255) (set_last_write_addr a m))
      as (m1 & H1). rewrite H1.
    apply mm_write_byte_total.
  - match goal with
    | |- context [write_byte ?x ?y ?s] =>
        destruct (mm_write_byte_total x y s) as (m1 & H1); rewrite H1
    end.
    apply mm_write_byte_total.
Qed.

Lemma mm_write_word_total (a v : Z) (m : t) :
  exists m', write_word a v m = Ok (tt, m').
Proof.
  unfold write_word. unfold bind at 1. unfold modify at 1. cbv beta iota.
  unfold bind at 1.
  destruct (Z.land a 3 =? 0); unfold ret, warn, bind, modify; cbv beta iota;
    repeat match goal with
           | |- context [match write_byte ?x ?y ?s with _ => _ end] =>
               destruct (mm_write_byte_total x y s) as (? & ->)
           end;
    apply mm_write_byte_total.
Qed.

Lemma lor_byte_shift_range (lo hi k : Z) :
  0 <= k -> 0 <= lo < 2 ^ k -> 0 <= hi < 256 ->
  0 <= Z.lor (Z.shiftl hi k) lo < 2 ^ (k + 8).
Proof.
  intros Hk Hlo Hhi. rewrite Z.lor_comm, Z.shiftl_mul_pow2 by lia.
  rewrite lor_disjoint_add by lia. rewrite Z.pow_add_r by lia. nia.
Qed.

End FirstBusTotal.

(** X3 ([MemoryManager.read_byte] ... [write_word], [0.py] lines
    125-199).  On the first bus no read and no write raises, for any
    address, any value and any state of the buffers; a read returns a value
    of its width. *)
Theorem first_bus_never_raises (m : MemoryManager.t) (a v : Z) :
  (exists m', MemoryManager.write_byte a v m = Ok (tt, m')) /\
  (exists m', MemoryManager.write_halfword a v m = Ok (tt, m')) /\
  (exists m', MemoryManager.write_word a v m = Ok (tt, m')) /\
  (exists x m', MemoryManager.read_byte a m = Ok (x, m') /\ 0 <= x < 2 ^ 8) /\
  (exists x m', MemoryManager.read_halfword a m = Ok (x, m') /\ 0 <= x < 2 ^ 16) /\
  (exists x m', MemoryManager.read_word a m = Ok (x, m') /\ 0 <= x < 2 ^ 32).
Proof.
  split; [apply mm_write_byte_total|].
  split; [apply mm_write_halfword_total|].
  split; [apply mm_write_word_total|].
  split; [apply mm_read_byte_total|].
  split.
  - unfold MemoryManager.read_halfword. unfold bind at 1. unfold modify at 1.
    cbv beta iota. unfold bind at 1.
    destruct (Z.land a 1 =? 0);
      unfold ret, MemoryManager.warn, bind, modify; cbv beta iota;
      repeat match goal with
             | |- context [match MemoryManager.read_byte ?x ?s with _ => _ end] =>
                 let H := fresh "H" in
                 destruct (mm_read_byte_total x s) as (? & ? & H & ?); rewrite H
             end;
      eexists _, _; (split; [reflexivity|]);
      apply (lor_byte_shift_range _ _ 8); lia.
  - destruct (Z.eq_dec (a mod 4) 0) as [Hal|Hmis].
    + unfold MemoryManager.read_word. unfold bind at 1. unfold modify at 1.
      cbv beta iota. rewrite land_3_mod, Hal. change (0 =? 0) with true.
      cbv beta iota. unfold bind, ret.
      repeat match goal with
             | |- context [match MemoryManager.read_byte ?x ?s with _ => _ end] =>
                 let H := fresh "H" in
                 destruct (mm_read_byte_total x s) as (? & ? & H & ?); rewrite H
             end.
      eexists _, _. split; [reflexivity|].
      rewrite le_word_value_rev, le_word_value by assumption. lia.
    + destruct (mm_read_byte_frame (Z.land a (Z.lnot 3)) m) as (b0 & w0 & R0 & H0).
      destruct (mm_read_byte_frame (Z.land a (Z.lnot 3) + 1) m) as (b1 & w1 & R1 & H1).
      destruct (mm_read_byte_frame (Z.land a (Z.lnot 3) + 2) m) as (b2 & w2 & R2 & H2).
      destruct (mm_read_byte_frame (Z.land a (Z.lnot 3) + 3) m) as (b3 & w3 & R3 & H3).
      unfold MemoryManager.read_word, bind, modify. cbv beta iota.
      rewrite land_3_mod. destruct (a mod 4 =? 0) eqn:E; [lia|].
      unfold MemoryManager.warn, modify. cbv beta iota.
      change (MemoryManager.set_warnings
                (MemoryManager.warnings (MemoryManager.set_last_read_addr a m)
                   ++ [MemoryManager.UnalignedWordRead a])
                (MemoryManager.set_last_read_addr a m))
        with (MemoryManager.with_meta a (MemoryManager.last_write_addr m)
                (MemoryManager.warnings m ++ [MemoryManager.UnalignedWordRead a]) m).
      rewrite H0; cbv beta iota; rewrite H1; cbv beta iota;
      rewrite H2; cbv beta iota; rewrite H3; cbv beta iota. unfold ret.
      eexists _, _. split; [reflexivity|].
      change 0xFFFFFFFF with (Z.ones 32). rewrite Z.land_ones by lia.
      apply Z.mod_pos_bound. lia.
Qed.

(** X4 ([MemoryManager.read_byte], [map_address], [0.py] lines 101-134).
    A byte read above the save RAM and outside the loaded cartridge finds
    no region: it returns the open-bus value, bits 24-31 of the address
    as given, and records one "unmapped" warning for the address masked to
    32 bits. *)
Theorem first_bus_unmapped_read_open_bus (m : MemoryManager.t) (a : Z) :
  0x0E010000 <= Z.land a 0xFFFFFFFF ->
  0x08000000 + len (MemoryManager.m_rom m) <= Z.land a 0xFFFFFFFF ->
  MemoryManager.read_byte a m
  = Ok (Z.land (Z.shiftr a 24) 0xFF,
        MemoryManager.with_meta a (MemoryManager.last_write_addr m)
          (MemoryManager.warnings m ++ [MemoryManager.Unmapped (Z.land a 0xFFFFFFFF)]) m).
Proof.
  intros H1 H2.
  unfold MemoryManager.read_byte, MemoryManager.map_address.
  cbv [bind gets ret modify MemoryManager.warn].
  cbn [MemoryManager.m_rom MemoryManager.set_last_read_addr].
  repeat match goal with
         | |- context [if ?c then _ else _] =>
             match c with
             | decide _ => fail 1
             | _ => destruct c eqn:?; try lia
             end
         end.
  destruct (decide (MemoryManager.invalid = MemoryManager.invalid)); [|contradiction].
  reflexivity.
Qed.

Lemma first_bus_unmapped_read_open_bus_witness :
  MemoryManager.read_byte 0x12345678 MemoryManager.init
  = Ok (Z.land (Z.shiftr 0x12345678 24) 0xFF,
        MemoryManager.with_meta 0x12345678
          (MemoryManager.last_write_addr MemoryManager.init)
          (MemoryManager.warnings MemoryManager.init
             ++ [MemoryManager.Unmapped (Z.land 0x12345678 0xFFFFFFFF)])
          MemoryManager.init).
Proof.
  apply (first_bus_unmapped_read_open_bus MemoryManager.init 0x12345678);
    vm_compute; discriminate.
Defined.

(** ** [flamesgbav2.py]: the [Memory] bus *)

Section FlamesBus.
Import Flames.

Lemma get_region_above_map (a : Z) (g : GBA) :
  above_map (memory g) a ->
  _get_memory_region_and_offset a g
  = Ok ((Dummy_unmapped, 0),
        match dummy_unmapped (memory g) with
        | None => upd_memory (set_dummy_unmapped (Some (zeros 4))) g
        | Some _ => g
        end).
Proof.
  intros (H1 & H2). unfold GAMEPAK_ROM_START in H2.
  pose proof (len_nonneg (gamepak_rom (memory g))).
  unfold _get_memory_region_and_offset.
  cbv [bind gets ret modify BIOS_START BIOS_SIZE EWRAM_START EWRAM_SIZE IWRAM_START
       IWRAM_SIZE IO_REG_START IO_REG_SIZE PALETTE_RAM_START PALETTE_RAM_SIZE
       VRAM_START VRAM_SIZE OAM_START OAM_SIZE GAMEPAK_ROM_START].
  repeat match goal with
         | |- context [if ?c then _ else _] => destruct c eqn:?; try lia
         end.
  all: reflexivity.
Qed.

Lemma get_region_ewram (a : Z) (g : GBA) :
  in_ewram_window a ->
  _get_memory_region_and_offset a g
  = Ok ((Ewram, (Z.land a 0xFFFFFFFF - EWRAM_START) mod EWRAM_SIZE), g).
Proof.
  intros H. unfold in_ewram_window, EWRAM_START in H.
  unfold _get_memory_region_and_offset.
  cbv [bind gets ret modify BIOS_START BIOS_SIZE EWRAM_START EWRAM_SIZE].
  repeat match goal with
         | |- context [if ?c then _ else _] => destruct c eqn:?; try lia
         end.
  reflexivity.
Qed.

Lemma get_region_bios (a : Z) (g : GBA) :
  Z.land a 0xFFFFFFFF < BIOS_START + BIOS_SIZE ->
  _get_memory_region_and_offset a g = Ok ((Bios, Z.land a 0xFFFFFFFF), g).
Proof.
  intros H. unfold _get_memory_region_and_offset. cbv [bind gets ret].
  replace (Z.land a 4294967295 <? BIOS_START + BIOS_SIZE) with true by lia.
  reflexivity.
Qed.

Lemma get_region_rom (a : Z) (g : GBA) :
  GAMEPAK_ROM_START <= Z.land a 0xFFFFFFFF
  < GAMEPAK_ROM_START + len (gamepak_rom (memory g)) ->
  _get_memory_region_and_offset a g
  = Ok ((Gamepak_rom, Z.land a 0xFFFFFFFF - GAMEPAK_ROM_START), g).
Proof.
  intros H. unfold GAMEPAK_ROM_START in H.
  unfold _get_memory_region_and_offset.
  cbv [bind gets ret modify BIOS_START BIOS_SIZE EWRAM_START EWRAM_SIZE IWRAM_START
       IWRAM_SIZE IO_REG_START IO_REG_SIZE PALETTE_RAM_START PALETTE_RAM_SIZE
       VRAM_START VRAM_SIZE OAM_START OAM_SIZE GAMEPAK_ROM_START].
  repeat match goal with
         | |- context [if ?c then _ else _] => destruct c eqn:?; try lia
         end.
  reflexivity.
Qed.

End FlamesBus.

(** X5 ([Memory.read_word], [flamesgbav2.py] lines 353-360).  This bus
    answers a misaligned word read with the aligned word itself: the two
    low address bits are ignored, the value is not rotated.  The read
    never raises, returns a 32-bit value and changes nothing except that
    the region lookup may create the absent [sram] or [dummy_unmapped]
    buffer. *)
Theorem flames_word_read_ignores_low_bits (g : Flames.GBA) (a : Z) :
  Flames.read_word a g = Flames.read_word (Z.land a (Z.lnot 3)) g /\
  exists v g1,
    Flames.read_word a g = Ok (v, g1) /\ Flames.lazy_alloc g g1 /\ 0 <= v < 2 ^ 32.
Proof.
  split; [apply flames_read_word_masks_only|apply flames_read_word_total].
Qed.

(** X6 ([Memory.load_bios], [flamesgbav2.py] lines 302-306).  An image
    longer than 16 KiB is refused with [ValueError]; an image that fits is
    copied over the start of the boot region and the rest of the region
    stays. *)
Theorem flames_load_bios_guard (g : Flames.GBA) (data : list byte) :
  len (Flames.bios (Flames.memory g)) = Flames.BIOS_SIZE ->
  Flames.load_bios data g
  = if Flames.BIOS_SIZE <? len data then Raise ValueError
    else Ok (tt, Flames.upd_memory
                   (Flames.set_region_bytes Flames.Bios
                      (data ++ drop (length data) (Flames.bios (Flames.memory g)))) g).
Proof.
  intros Hlen. pose proof (len_nonneg data) as Hn.
  unfold Flames.load_bios.
  destruct (Flames.BIOS_SIZE <? len data) eqn:E; [reflexivity|].
  unfold bind, gets, modify. rewrite setslice_in_range by lia.
  change (Z.to_nat 0) with 0%nat. rewrite take_0.
  unfold len. rewrite Nat2Z.id. reflexivity.
Qed.

Lemma flames_load_bios_guard_witness :
  Flames.load_bios Flames.dummy_bios Flames.GBA_fields
  = if Flames.BIOS_SIZE <? len Flames.dummy_bios then Raise ValueError
    else Ok (tt, Flames.upd_memory
                   (Flames.set_region_bytes Flames.Bios
                      (Flames.dummy_bios
                         ++ drop (length Flames.dummy_bios)
                              (Flames.bios (Flames.memory Flames.GBA_fields))))
                   Flames.GBA_fields).
Proof.
  apply (flames_load_bios_guard Flames.GBA_fields Flames.dummy_bios).
  apply len_zeros. vm_compute; discriminate.
Defined.

(** X7 ([Memory.write_byte], [flamesgbav2.py] lines 362-371).  A byte
    store to the boot region or into the loaded cartridge returns without
    any effect at all: no byte changes and nothing is recorded. *)
Theorem flames_store_to_rom_ignored (g : Flames.GBA) (a v : Z) :
  Z.land a 0xFFFFFFFF < Flames.BIOS_START + Flames.BIOS_SIZE \/
  Flames.GAMEPAK_ROM_START <= Z.land a 0xFFFFFFFF
  < Flames.GAMEPAK_ROM_START + len (Flames.gamepak_rom (Flames.memory g)) ->
  Flames.write_byte a v g = Ok (tt, g).
Proof.
  intros [H|H]; unfold Flames.write_byte, bind.
  - rewrite (get_region_bios a g H). reflexivity.
  - rewrite (get_region_rom a g H). reflexivity.
Qed.

Lemma flames_store_to_rom_ignored_witness :
  Flames.write_byte 0x00000004 0xAA Flames.GBA_fields = Ok (tt, Flames.GBA_fields).
Proof.
  apply (flames_store_to_rom_ignored Flames.GBA_fields 4 0xAA).
  left. vm_compute. reflexivity.
Defined.

(** X8 ([Memory._get_memory_region_and_offset], [write_byte],
    [read_byte], lines 312-371).  Addresses above the save RAM and outside
    the cartridge all resolve to byte 0 of one shared scratch buffer: a
    byte stored at one such address is what a byte read of any other such
    address returns. *)
Theorem flames_unmapped_addresses_share_scratch (g : Flames.GBA) (a1 a2 v : Z) :
  Flames.scratch_ok (Flames.memory g) ->
  Flames.above_map (Flames.memory g) a1 ->
  Flames.above_map (Flames.memory g) a2 ->
  exists g1,
    Flames.write_byte a1 v g = Ok (tt, g1) /\
    Flames.read_byte a2 g1 = Ok (Z.land v 0xFF, g1).
Proof.
  intros Hs Ha1 Ha2. pose proof (land_FF_range v) as Hv.
  assert (Hstore : forall g0 b, Flames.dummy_unmapped (Flames.memory g0) = Some b ->
            len b = 4 ->
            Flames.gamepak_rom (Flames.memory g0) = Flames.gamepak_rom (Flames.memory g) ->
            Flames._get_memory_region_and_offset a1 g = Ok ((Flames.Dummy_unmapped, 0), g0) ->
            exists g1,
              Flames.write_byte a1 v g = Ok (tt, g1) /\
              Flames.read_byte a2 g1 = Ok (Z.land v 0xFF, g1)).
  { intros g0 b Hb Hlen Hrom Hget.
    unfold Flames.write_byte. unfold bind at 1. rewrite Hget. cbv beta iota.
    change (Flames.is_rom_like Flames.Dummy_unmapped) with false. cbv beta iota.
    unfold Flames.to_ppu, bind, gets, ret. cbv beta iota.
    change (bool_decide (Flames.Dummy_unmapped = Flames.Io_regs)) with false.
    cbn [andb]. unfold Flames.region_get at 1. cbn [Flames.region_bytes]. rewrite Hb.
    replace (len b <=? 0) with false by lia.
    erewrite region_store_ok; [|cbn [Flames.region_bytes]; exact Hb|lia|exact Hv].
    eexists. split; [reflexivity|].
    unfold Flames.read_byte. unfold bind at 1.
    rewrite get_region_above_map.
    2:{ destruct Ha2 as (H1 & H2). split; [exact H1|].
        cbn [Flames.memory Flames.upd_memory Flames.set_region_bytes
             Flames.set_dummy_unmapped Flames.gamepak_rom].
        rewrite Hrom. exact H2. }
    cbn [Flames.memory Flames.upd_memory Flames.set_region_bytes
         Flames.set_dummy_unmapped Flames.dummy_unmapped].
    cbv beta iota.
    change (bool_decide (Flames.Dummy_unmapped = Flames.Io_regs)) with false.
    cbn [andb]. unfold bind, Flames.region_get.
    cbn [Flames.memory Flames.upd_memory Flames.region_bytes Flames.set_region_bytes
         Flames.set_dummy_unmapped Flames.dummy_unmapped].
    rewrite len_insert. replace (len b <=? 0) with false by lia.
    unfold lift.
    rewrite (getitem_lookup _ 0 (byte.of_Z (Z.land v 0xFF)));
      [| lia | apply list_lookup_insert_eq; unfold len in Hlen; lia ].
    rewrite byte.unsigned_of_Z. unfold byte.wrap. rewrite Z.mod_small by lia.
    reflexivity. }
  pose proof (get_region_above_map a1 g Ha1) as Hget.
  unfold Flames.scratch_ok in Hs.
  destruct (Flames.dummy_unmapped (Flames.memory g)) as [b|] eqn:Hd.
  - apply (Hstore g b Hd Hs eq_refl Hget).
  - apply (Hstore (Flames.upd_memory (Flames.set_dummy_unmapped (Some (zeros 4))) g)
             (zeros 4) eq_refl (len_zeros 4 ltac:(lia)) eq_refl Hget).
Qed.

Lemma flames_unmapped_addresses_share_scratch_witness :
  exists g1,
    Flames.write_byte 0x10000000 0x5A Flames.GBA_fields = Ok (tt, g1) /\
    Flames.read_byte 0xFFFFFFFF g1 = Ok (Z.land 0x5A 0xFF, g1).
Proof.
  apply (flames_unmapped_addresses_share_scratch Flames.GBA_fields 0x10000000 0xFFFFFFFF 0x5A).
  - exact I.
  - split; vm_compute; discriminate.
  - split; vm_compute; discriminate.
Defined.

(** X9 ([Memory._get_memory_region_and_offset], [write_byte],
    [read_byte]).  The work-RAM window is folded onto the 256 KiB buffer:
    a byte stored at one address of the window is read back, masked to 8
    bits, at every address of the window that differs by a multiple of
    0x40000 (the address itself included). *)
Theorem flames_ewram_mirrors (g : Flames.GBA) (a1 a2 v : Z) :
  len (Flames.ewram (Flames.memory g)) = Flames.EWRAM_SIZE ->
  Flames.in_ewram_window a1 -> Flames.in_ewram_window a2 ->
  (Z.land a1 0xFFFFFFFF - Z.land a2 0xFFFFFFFF) mod Flames.EWRAM_SIZE = 0 ->
  exists g1,
    Flames.write_byte a1 v g = Ok (tt, g1) /\
    Flames.read_byte a2 g1 = Ok (Z.land v 0xFF, g1).
Proof.
  intros Hlen Ha1 Ha2 Hmod. pose proof (land_FF_range v) as Hv.
  unfold Flames.EWRAM_SIZE in *.
  assert (Hne : a2 <> 0x04000130).
  { intros ->. destruct Ha2 as (_ & H). vm_compute in H. discriminate H. }
  set (off := (Z.land a1 0xFFFFFFFF - Flames.EWRAM_START) mod 262144).
  assert (Hoff : 0 <= off < 262144) by (apply Z.mod_pos_bound; lia).
  assert (Hoff2 : (Z.land a2 0xFFFFFFFF - Flames.EWRAM_START) mod 262144 = off).
  { subst off. unfold Flames.EWRAM_START.
    symmetry.
    replace (Z.land a1 4294967295 - 33554432)
      with ((Z.land a2 4294967295 - 33554432) + (Z.land a1 4294967295 - Z.land a2 4294967295)) by lia.
    rewrite Z.add_mod, Hmod, Z.add_0_r, Z.mod_mod by lia. reflexivity. }
  unfold Flames.write_byte. unfold bind at 1. rewrite (get_region_ewram a1 g Ha1).
  cbv beta iota. change (Flames.is_rom_like Flames.Ewram) with false. cbv beta iota.
  unfold Flames.to_ppu, bind, gets, ret. cbv beta iota.
  change (bool_decide (Flames.Ewram = Flames.Io_regs)) with false.
  cbn [andb]. unfold Flames.region_get at 1. cbn [Flames.region_bytes].
  fold off. unfold Flames.EWRAM_SIZE. fold off.
  replace (len (Flames.ewram (Flames.memory g)) <=? off) with false by lia.
  erewrite region_store_ok; [|reflexivity|lia|exact Hv].
  eexists. split; [reflexivity|].
  unfold Flames.read_byte. unfold bind at 1. rewrite (get_region_ewram a2 _ Ha2).
  cbv beta iota. unfold Flames.EWRAM_SIZE. rewrite Hoff2.
  change (bool_decide (Flames.Ewram = Flames.Io_regs)) with false.
  cbn [andb]. unfold bind, Flames.region_get.
  cbn [Flames.memory Flames.upd_memory Flames.region_bytes Flames.set_region_bytes
       Flames.ewram].
  rewrite len_insert.
  replace (len (Flames.ewram (Flames.memory g)) <=? off) with false by lia.
  unfold lift.
  rewrite (getitem_lookup _ off (byte.of_Z (Z.land v 0xFF)));
    [| lia | apply list_lookup_insert_eq; unfold len in Hlen; lia ].
  rewrite byte.unsigned_of_Z. unfold byte.wrap. rewrite Z.mod_small by lia.
  reflexivity.
Qed.

Lemma flames_ewram_mirrors_witness :
  exists g1,
    Flames.write_byte 0x02000010 0x77 Flames.GBA_fields = Ok (tt, g1) /\
    Flames.read_byte 0x02040010 g1 = Ok (Z.land 0x77 0xFF, g1).
Proof.
  apply (flames_ewram_mirrors Flames.GBA_fields 0x02000010 0x02040010 0x77).
  - apply len_zeros. vm_compute; discriminate.
  - split; [vm_compute; discriminate | vm_compute; reflexivity].
  - split; [vm_compute; discriminate | vm_compute; reflexivity].
  - reflexivity.
Defined.
(** ** [flamesgbav2.py]: register cells *)

Section Cells.
Import Flames.

Lemma land_F_range (v : Z) : 0 <= Z.land v 0xF < 16.
Proof.
  change 0xF with (Z.ones 4). rewrite Z.land_ones by lia.
  apply Z.mod_pos_bound. lia.
Qed.

Lemma reg_cell_inj (mode r r' : Z) :
  0 <= r < 16 -> 0 <= r' < 16 -> reg_cell mode r = reg_cell mode r' -> r = r'.
Proof.
  intros Hr Hr'. unfold reg_cell, MODE_FIQ.
  destruct (in_r13_r14_banks mode) eqn:Eb.
  - assert (mode <> 17) by (intros ->; discriminate Eb).
    repeat match goal with
           | |- context [if ?c then _ else _] => destruct c eqn:?
           end; intros Heq; inversion Heq; lia.
  - repeat match goal with
           | |- context [if ?c then _ else _] => destruct c eqn:?
           end; intros Heq; inversion Heq; lia.
Qed.

Lemma cell_get_cpu_wf (c : ARM7TDMI) (r : Z) :
  cpu_wf c -> 0 <= r < 16 -> exists x, reg_value c r = Some x.
Proof.
  intros (HR & (lf & Hlf & Hlenf) & Hb) Hr. unfold reg_value, reg_cell.
  assert (HS : forall i, (i < 16)%nat -> exists x, cell_get (Shared i) c = Some x).
  { intros i Hi. cbn [cell_get]. apply lookup_lt_is_Some_2. lia. }
  destruct (r <? 8) eqn:E8; [apply HS; lia|].
  destruct ((Z.land (CPSR c) 31 =? MODE_FIQ) && ((8 <=? r) && (r <=? 14))) eqn:Ef.
  - cbn [cell_get]. rewrite Hlf. apply lookup_lt_is_Some_2. lia.
  - destruct ((r =? 13) && in_r13_r14_banks (Z.land (CPSR c) 31)) eqn:E13.
    + destruct (Hb (Z.land (CPSR c) 31)) as (l & Hl & Hlen); [lia|].
      cbn [cell_get]. rewrite Hl. apply lookup_lt_is_Some_2. lia.
    + destruct ((r =? 14) && in_r13_r14_banks (Z.land (CPSR c) 31)) eqn:E14.
      * destruct (Hb (Z.land (CPSR c) 31)) as (l & Hl & Hlen); [lia|].
        cbn [cell_get]. rewrite Hl. apply lookup_lt_is_Some_2. lia.
      * apply HS. lia.
Qed.

Lemma list_getitem_lookup {A} (l : list A) (i : Z) (x : A) :
  0 <= i -> l !! Z.to_nat i = Some x -> list_getitem l i = Ok x.
Proof.
  intros Hi Hx.
  assert (0 <= i < len l).
  { apply lookup_lt_Some in Hx. unfold len. lia. }
  destruct (list_getitem_in_range l i) as (y & Hy & Hg); [assumption|].
  congruence.
Qed.

(** [get_reg] reads the cell. *)
Lemma get_reg_cell (g : GBA) (r : Z) :
  cpu_wf (cpu g) -> 0 <= r < 16 ->
  exists x, reg_value (cpu g) r = Some x /\ get_reg r g = Ok (x, g).
Proof.
  intros Hwf Hr. destruct (cell_get_cpu_wf _ r Hwf Hr) as (x & Hx).
  exists x. split; [exact Hx|].
  unfold reg_value, reg_cell in Hx.
  unfold get_reg, bind, gets. cbv beta iota.
  repeat match goal with
         | |- context [if ?c then _ else _] => destruct c eqn:?
         end; cbn [cell_get] in Hx.
  - unfold R_get, bind, gets, lift. rewrite (list_getitem_lookup _ _ x); [reflexivity|lia|exact Hx].
  - unfold banked_get, bind, gets, lift, dict_getitem.
    destruct (R_banked (cpu g) !! MODE_FIQ) as [l|]; [|discriminate].
    rewrite (list_getitem_lookup _ _ x); [reflexivity|lia|exact Hx].
  - unfold banked_get, bind, gets, lift, dict_getitem.
    destruct (R_banked (cpu g) !! Z.land (CPSR (cpu g)) 31) as [l|]; [|discriminate].
    rewrite (list_getitem_lookup _ _ x); [reflexivity|lia|exact Hx].
  - unfold banked_get, bind, gets, lift, dict_getitem.
    destruct (R_banked (cpu g) !! Z.land (CPSR (cpu g)) 31) as [l|]; [|discriminate].
    rewrite (list_getitem_lookup _ _ x); [reflexivity|lia|exact Hx].
  - unfold R_get, bind, gets, lift. rewrite (list_getitem_lookup _ _ x); [reflexivity|lia|exact Hx].
Qed.

Lemma array_setitem_lookup (l : list Z) (i v x : Z) :
  0 <= i -> l !! Z.to_nat i = Some x -> 0 <= v < 2 ^ 32 ->
  array_setitem l i v = Ok (<[Z.to_nat i := v]> l).
Proof.
  intros Hi Hx Hv. apply array_setitem_in_range; [|exact Hv].
  apply lookup_lt_Some in Hx. unfold len. lia.
Qed.

(** [set_reg] writes the cell. *)
Lemma set_reg_cell (g : GBA) (r v : Z) :
  cpu_wf (cpu g) -> 0 <= r < 16 ->
  set_reg r v g
  = Ok (tt, upd_cpu (cell_set (reg_cell (Z.land (CPSR (cpu g)) 0x1F) r)
                       (Z.land v 0xFFFFFFFF)) g).
Proof.
  intros Hwf Hr. destruct (cell_get_cpu_wf _ r Hwf Hr) as (x & Hx).
  pose proof (mask32_range v) as Hv.
  unfold reg_value in Hx. unfold reg_cell in *.
  unfold set_reg, bind, gets. cbv beta iota zeta.
  repeat match goal with
         | |- context [if ?c then _ else _] => destruct c eqn:?
         end; cbn [cell_get cell_set] in *.
  - unfold R_set, bind, gets, lift, modify.
    rewrite (array_setitem_lookup _ _ _ x); [reflexivity|lia|exact Hx|exact Hv].
  - unfold banked_set, bind, gets, lift, modify, dict_getitem.
    destruct (R_banked (cpu g) !! MODE_FIQ) as [l|] eqn:El; [|discriminate].
    rewrite (array_setitem_lookup _ _ _ x); [|lia|exact Hx|exact Hv].
    unfold upd_cpu; cbn [cell_set]; rewrite El; reflexivity.
  - unfold banked_set, bind, gets, lift, modify, dict_getitem.
    destruct (R_banked (cpu g) !! Z.land (CPSR (cpu g)) 31) as [l|] eqn:El; [|discriminate].
    rewrite (array_setitem_lookup _ _ _ x); [|lia|exact Hx|exact Hv].
    unfold upd_cpu; cbn [cell_set]; rewrite El; reflexivity.
  - unfold banked_set, bind, gets, lift, modify, dict_getitem.
    destruct (R_banked (cpu g) !! Z.land (CPSR (cpu g)) 31) as [l|] eqn:El; [|discriminate].
    rewrite (array_setitem_lookup _ _ _ x); [|lia|exact Hx|exact Hv].
    unfold upd_cpu; cbn [cell_set]; rewrite El; reflexivity.
  - unfold R_set, bind, gets, lift, modify.
    rewrite (array_setitem_lookup _ _ _ x); [reflexivity|lia|exact Hx|exact Hv].
Qed.

Lemma cell_get_set_same (x : Cell) (v : Z) (c : ARM7TDMI) :
  is_Some (cell_get x c) -> cell_get x (cell_set x v c) = Some v.
Proof.
  intros [y Hy]. destruct x as [i|m i]; cbn [cell_get cell_set] in *.
  - cbn [R set_R]. apply list_lookup_insert_eq. apply lookup_lt_Some in Hy. exact Hy.
  - destruct (R_banked c !! m) as [l|] eqn:El; [|discriminate].
    cbn [R_banked set_R_banked]. rewrite lookup_insert_eq.
    apply list_lookup_insert_eq. apply lookup_lt_Some in Hy. exact Hy.
Qed.

Lemma cell_get_set_other (x y : Cell) (v : Z) (c : ARM7TDMI) :
  x <> y -> cell_get y (cell_set x v c) = cell_get y c.
Proof.
  intros Hne. destruct x as [i|m i], y as [j|n j]; cbn [cell_get cell_set].
  - cbn [R set_R]. apply list_lookup_insert_ne. congruence.
  - reflexivity.
  - destruct (R_banked c !! m); reflexivity.
  - destruct (R_banked c !! m) as [l|] eqn:El; [|reflexivity].
    cbn [R_banked set_R_banked].
    destruct (decide (m = n)) as [->|Hmn].
    + rewrite lookup_insert_eq, El. apply list_lookup_insert_ne. congruence.
    + rewrite lookup_insert_ne by exact Hmn. reflexivity.
Qed.

Lemma cell_set_fields (x : Cell) (v : Z) (c : ARM7TDMI) :
  CPSR (cell_set x v c) = CPSR c /\ SPSR (cell_set x v c) = SPSR c /\
  cycles (cell_set x v c) = cycles c.
Proof.
  destruct x as [i|m i]; cbn [cell_set]; [repeat split|].
  destruct (R_banked c !! m); repeat split.
Qed.

Lemma cpu_wf_cell_set (x : Cell) (v : Z) (c : ARM7TDMI) :
  cpu_wf c -> cpu_wf (cell_set x v c).
Proof.
  intros Hwf. destruct x as [i|m i]; cbn [cell_set].
  - apply cpu_wf_insert_R. exact Hwf.
  - destruct (R_banked c !! m) as [l|] eqn:El; [|exact Hwf].
    apply cpu_wf_insert_bank; assumption.
Qed.

End Cells.

(** X10 ([ARM7TDMI.get_reg], [set_reg], [flamesgbav2.py] lines 79-106).
    A register written with [set_reg] reads back with [get_reg] as
    the value masked to 32 bits, in every mode and for every register
    index 0..15; the write keeps the register arrays well formed and does
    not change what [get_reg] returns for any other index in that mode. *)
Theorem register_write_then_read (g : Flames.GBA) (r v : Z) :
  Flames.cpu_wf (Flames.cpu g) -> 0 <= r < 16 ->
  exists g',
    Flames.set_reg r v g = Ok (tt, g') /\
    Flames.cpu_wf (Flames.cpu g') /\
    Flames.get_reg r g' = Ok (Z.land v 0xFFFFFFFF, g') /\
    (forall r' x, 0 <= r' < 16 -> r' <> r ->
       Flames.get_reg r' g = Ok (x, g) -> Flames.get_reg r' g' = Ok (x, g')).
Proof.
  intros Hwf Hr. eexists. split; [apply set_reg_cell; assumption|].
  set (m := Z.land (Flames.CPSR (Flames.cpu g)) 31).
  set (g' := Flames.upd_cpu _ g).
  assert (Hwf' : Flames.cpu_wf (Flames.cpu g')) by (apply cpu_wf_cell_set; exact Hwf).
  assert (Hm : Z.land (Flames.CPSR (Flames.cpu g')) 31 = m).
  { unfold g'. cbn [Flames.cpu Flames.upd_cpu].
    destruct (cell_set_fields (Flames.reg_cell m r) (Z.land v 4294967295) (Flames.cpu g)) as (-> & _).
    reflexivity. }
  split; [exact Hwf'|]. split.
  - destruct (get_reg_cell g' r Hwf' Hr) as (x & Hx & Hg). rewrite Hg.
    unfold Flames.reg_value in Hx. rewrite Hm in Hx.
    unfold g' in Hx at 1. cbn [Flames.cpu Flames.upd_cpu] in Hx.
    rewrite cell_get_set_same in Hx; [congruence|].
    destruct (cell_get_cpu_wf _ r Hwf Hr) as (y & Hy). exists y. exact Hy.
  - intros r' x Hr' Hne Hget.
    destruct (get_reg_cell g r' Hwf Hr') as (y & Hy & Hg).
    destruct (get_reg_cell g' r' Hwf' Hr') as (y' & Hy' & Hg').
    rewrite Hg'. rewrite Hg in Hget.
    assert (y = x) as <- by congruence.
    unfold Flames.reg_value in Hy, Hy'. rewrite Hm in Hy'. fold m in Hy.
    unfold g' in Hy'. cbn [Flames.cpu Flames.upd_cpu] in Hy'.
    rewrite cell_get_set_other in Hy'; [congruence|].
    intros Heq. apply Hne. symmetry. exact (reg_cell_inj m r r' Hr Hr' Heq).
Qed.

Lemma register_write_then_read_witness :
  exists g',
    Flames.set_reg 14 0x1FFFFFFFF (Flames.upd_cpu (Flames.set_CPSR 0x11) Flames.GBA_fields)
    = Ok (tt, g') /\
    Flames.cpu_wf (Flames.cpu g') /\
    Flames.get_reg 14 g' = Ok (Z.land 0x1FFFFFFFF 0xFFFFFFFF, g') /\
    (forall r' x, 0 <= r' < 16 -> r' <> 14 ->
       Flames.get_reg r' (Flames.upd_cpu (Flames.set_CPSR 0x11) Flames.GBA_fields)
       = Ok (x, Flames.upd_cpu (Flames.set_CPSR 0x11) Flames.GBA_fields) ->
       Flames.get_reg r' g' = Ok (x, g')).
Proof.
  apply (register_write_then_read _ 14 0x1FFFFFFFF (cpu_wf_fields 0x11)). lia.
Defined.

(** ** [flamesgbav2.py]: what an instruction can do *)

Section CpuSafe.
Import Flames.

Lemma mem_lazy_trans (m1 m2 m3 : Memory) :
  mem_lazy m1 m2 -> mem_lazy m2 m3 -> mem_lazy m1 m3.
Proof.
  intros (A1 & A2 & A3 & A4 & A5 & A6 & A7 & A8 & A9 & A10 & A11 & A12)
         (B1 & B2 & B3 & B4 & B5 & B6 & B7 & B8 & B9 & B10 & B11 & B12).
  unfold mem_lazy. repeat (split; [congruence|]). split.
  - destruct A11 as [E|[E1 E2]], B11 as [F|[F1 F2]];
      [left; congruence | right; split; congruence
      | right; split; congruence | congruence].
  - destruct A12 as [E|[E1 E2]], B12 as [F|[F1 F2]];
      [left; congruence | right; split; congruence
      | right; split; congruence | congruence].
Qed.

Lemma cpu_only_refl (g : GBA) : cpu_only g g.
Proof. unfold cpu_only. auto using mem_lazy_refl. Qed.

Lemma cpu_effect_refl (g : GBA) : cpu_wf (cpu g) -> cpu_effect g g.
Proof. intros H. unfold cpu_effect. auto using cpu_only_refl. Qed.

Lemma cpu_effect_trans (g1 g2 g3 : GBA) :
  cpu_effect g1 g2 -> cpu_effect g2 g3 -> cpu_effect g1 g3.
Proof.
  intros (_ & (P1 & K1 & M1) & S1 & C1 & F1) (W & (P2 & K2 & M2) & S2 & C2 & F2).
  split; [exact W|]. split; [|repeat split; congruence].
  split; [congruence|]. split; [congruence|]. exact (mem_lazy_trans _ _ _ M1 M2).
Qed.

Lemma cpu_effect_lazy (g g1 : GBA) :
  cpu_wf (cpu g) -> lazy_alloc g g1 -> cpu_effect g g1.
Proof.
  intros Hwf (Hc & Hp & Hk & Hm). unfold cpu_effect, cpu_only.
  rewrite Hc. auto 10.
Qed.

(** A change of the processor object alone. *)
Lemma cpu_effect_upd (g : GBA) (f : ARM7TDMI -> ARM7TDMI) :
  cpu_wf (f (cpu g)) -> SPSR (f (cpu g)) = SPSR (cpu g) ->
  cycles (f (cpu g)) = cycles (cpu g) ->
  Z.land (CPSR (f (cpu g))) (Z.lnot 0x20) = Z.land (CPSR (cpu g)) (Z.lnot 0x20) ->
  cpu_effect g (upd_cpu f g).
Proof.
  intros Hwf HS HC HF. unfold cpu_effect. cbn [cpu upd_cpu].
  split; [exact Hwf|]. split; [|auto].
  split; [reflexivity|]. split; [reflexivity|apply mem_lazy_refl].
Qed.

Lemma cpu_keeps_refl (g : GBA) : cpu_wf (cpu g) -> cpu_keeps g g.
Proof. intros H. split; [apply cpu_effect_refl; exact H|reflexivity]. Qed.

Lemma cpu_keeps_trans (g1 g2 g3 : GBA) :
  cpu_keeps g1 g2 -> cpu_keeps g2 g3 -> cpu_keeps g1 g3.
Proof.
  intros (E1 & C1) (E2 & C2). split; [exact (cpu_effect_trans _ _ _ E1 E2)|congruence].
Qed.

Lemma cpu_keeps_lazy (g g1 : GBA) :
  cpu_wf (cpu g) -> lazy_alloc g g1 -> cpu_keeps g g1.
Proof.
  intros Hwf Hl. split; [exact (cpu_effect_lazy _ _ Hwf Hl)|].
  destruct Hl as (-> & _). reflexivity.
Qed.

Lemma cpu_keeps_upd (g : GBA) (f : ARM7TDMI -> ARM7TDMI) :
  cpu_wf (f (cpu g)) -> SPSR (f (cpu g)) = SPSR (cpu g) ->
  cycles (f (cpu g)) = cycles (cpu g) -> CPSR (f (cpu g)) = CPSR (cpu g) ->
  cpu_keeps g (upd_cpu f g).
Proof.
  intros Hwf HS HC HF. split; [|exact HF].
  apply cpu_effect_upd; [exact Hwf|exact HS|exact HC|]. rewrite HF. reflexivity.
Qed.

Lemma flames_read_byte_total (a : Z) (g : GBA) :
  exists v g1, read_byte a g = Ok (v, g1) /\ lazy_alloc g g1.
Proof.
  destruct (get_region_total a g) as (r & off & g1 & b & Hget & Hoff & Hlazy & Hb & _).
  unfold read_byte, bind. rewrite Hget. cbv beta iota.
  destruct (bool_decide (r = Io_regs) && (a =? 67109168)).
  - unfold gets at 1. destruct (has_keypad (memory g1)); eexists _, g1; split;
      first [reflexivity | exact Hlazy].
  - unfold region_get. rewrite Hb.
    destruct (len b <=? off) eqn:Hlen.
    + exists 0xFF, g1. split; [reflexivity|exact Hlazy].
    + destruct (getitem_in_range b off) as (x & Hx & Rx); [lia|].
      unfold lift. rewrite Hx. exists x, g1. split; [reflexivity|exact Hlazy].
Qed.

Lemma flames_read_halfword_total (a : Z) (g : GBA) :
  exists v g1, read_halfword a g = Ok (v, g1) /\ lazy_alloc g g1.
Proof.
  unfold read_halfword.
  set (addr := if Z.land a 1 =? 0 then a else Z.land a (Z.lnot 1)).
  destruct (get_region_total addr g) as (r & off & g1 & b & Hget & Hoff & Hlazy & Hb & _).
  unfold bind. rewrite Hget. cbv beta iota.
  unfold region_get. rewrite Hb.
  destruct (len b <=? off + 1) eqn:Hlen.
  - exists 0xFFFF, g1. split; [reflexivity|exact Hlazy].
  - destruct (getitem_in_range b off) as (b0 & H0 & R0); [lia|].
    destruct (getitem_in_range b (off + 1)) as (b1 & H1 & R1); [lia|].
    unfold lift. rewrite H0, H1. unfold ret.
    eexists _, g1. split; [reflexivity|exact Hlazy].
Qed.

Lemma bind_assoc3 {S A} (c1 : M S A) (c2 : M S unit) (c3 : A -> M S unit)
      (k : M S unit) (s : S) :
  bind (let* a := c1 in c2 ;; c3 a) (fun _ => k) s
  = (let* a := c1 in c2 ;; c3 a ;; k) s.
Proof.
  unfold bind. destruct (c1 s) as [[a s1]|e]; [|reflexivity].
  destruct (c2 s1) as [[[] s2]|e]; [|reflexivity].
  destruct (c3 a s2) as [[[] s3]|e]; reflexivity.
Qed.

(** The test that guards [arm_bx_blx] in [execute_arm] (line 171) cannot
    succeed: the mask clears bits 12-15 and the pattern has them set. *)
Lemma bx_pattern_never_matches (opcode : Z) :
  (Z.land opcode 0x0FBF0FFF =? 0x012FFF10) = false.
Proof.
  apply Z.eqb_neq. intros H.
  apply (f_equal (fun x => Z.testbit x 12)) in H.
  rewrite Z.land_spec in H. cbn in H. rewrite andb_false_r in H. discriminate H.
Qed.

End CpuSafe.

(** *** Composition of the primitives, for any relation that contains
    [cpu_keeps] and is transitive *)

Section Effects.
Import Flames.
Variable E : GBA -> GBA -> Prop.
Hypothesis E_trans : forall g1 g2 g3, E g1 g2 -> E g2 g3 -> E g1 g3.
Hypothesis E_wf : forall g s, E g s -> cpu_wf (cpu s).
Hypothesis E_keeps : forall g s, cpu_keeps g s -> E g s.

Lemma safe_ret {A} (a : A) : safe_with E (ret a).
Proof.
  intros g Hwf. exists a, g. split; [reflexivity|].
  apply E_keeps, cpu_keeps_refl. exact Hwf.
Qed.

Lemma safe_gets {A} (f : GBA -> A) : safe_with E (gets f).
Proof.
  intros g Hwf. exists (f g), g. split; [reflexivity|].
  apply E_keeps, cpu_keeps_refl. exact Hwf.
Qed.

Lemma safe_bind {A B} (c : M GBA A) (k : A -> M GBA B) :
  safe_with E c -> (forall a, safe_with E (k a)) -> safe_with E (bind c k).
Proof.
  intros Hc Hk g Hwf. destruct (Hc g Hwf) as (a & s & Hr & He).
  destruct (Hk a s) as (b & s' & Hr' & He'); [exact (E_wf _ _ He)|].
  exists b, s'. rewrite (bind_ok _ _ _ _ _ Hr). split; [exact Hr'|].
  exact (E_trans _ _ _ He He').
Qed.

Lemma safe_get_reg (r : Z) : 0 <= r < 16 -> safe_with E (get_reg r).
Proof.
  intros Hr g Hwf. destruct (get_reg_cell g r Hwf Hr) as (x & _ & Hg).
  exists x, g. split; [exact Hg|apply E_keeps, cpu_keeps_refl; exact Hwf].
Qed.

Lemma safe_set_reg (r v : Z) : 0 <= r < 16 -> safe_with E (set_reg r v).
Proof.
  intros Hr g Hwf. eexists tt, _. split; [apply set_reg_cell; assumption|].
  destruct (cell_set_fields (reg_cell (Z.land (CPSR (cpu g)) 31) r)
              (Z.land v 4294967295) (cpu g)) as (H1 & H2 & H3).
  apply E_keeps, cpu_keeps_upd; [apply cpu_wf_cell_set; exact Hwf|assumption..].
Qed.

Lemma safe_get_pc : safe_with E get_pc.
Proof.
  intros g Hwf. destruct (R_get_ok g 15) as (x & _ & Hg).
  { destruct Hwf as (HR & _). unfold len. lia. }
  exists x, g. split; [exact Hg|apply E_keeps, cpu_keeps_refl; exact Hwf].
Qed.

Lemma safe_set_pc (v : Z) : safe_with E (set_pc v).
Proof.
  intros g Hwf. eexists tt, _. unfold set_pc. split.
  - apply R_set_ok; [|apply mask32_range].
    destruct Hwf as (HR & _). unfold len. lia.
  - apply E_keeps, cpu_keeps_upd; [apply cpu_wf_insert_R; exact Hwf|reflexivity..].
Qed.

Lemma safe_read_byte (a : Z) : safe_with E (read_byte a).
Proof.
  intros g Hwf. destruct (flames_read_byte_total a g) as (v & g1 & Hr & Hl).
  exists v, g1. split; [exact Hr|exact (E_keeps _ _ (cpu_keeps_lazy _ _ Hwf Hl))].
Qed.

Lemma safe_read_halfword (a : Z) : safe_with E (read_halfword a).
Proof.
  intros g Hwf. destruct (flames_read_halfword_total a g) as (v & g1 & Hr & Hl).
  exists v, g1. split; [exact Hr|exact (E_keeps _ _ (cpu_keeps_lazy _ _ Hwf Hl))].
Qed.

Lemma safe_read_word (a : Z) : safe_with E (read_word a).
Proof.
  intros g Hwf. destruct (flames_read_word_total a g) as (v & g1 & Hr & Hl & _).
  exists v, g1. split; [exact Hr|exact (E_keeps _ _ (cpu_keeps_lazy _ _ Hwf Hl))].
Qed.

Ltac safe_step :=
  first
    [ apply safe_ret
    | apply safe_gets
    | apply safe_get_pc
    | apply safe_set_pc
    | apply safe_read_byte
    | apply safe_read_halfword
    | apply safe_read_word
    | apply safe_get_reg; first [apply land_F_range | lia]
    | apply safe_set_reg; first [apply land_F_range | lia]
    | apply safe_bind; [|intros ?]
    | match goal with
      | |- safe_with _ (if ?c then _ else _) => destruct c
      end ].

Lemma safe_arm_data_processing (op : Z) : safe_with E (arm_data_processing op).
Proof. unfold arm_data_processing. repeat safe_step. Qed.

Lemma safe_arm_load_store (op : Z) : safe_with E (arm_load_store op).
Proof. unfold arm_load_store. cbv zeta. repeat safe_step. Qed.

Lemma safe_arm_branch (op : Z) : safe_with E (arm_branch op).
Proof. unfold arm_branch. cbv zeta. repeat safe_step. Qed.

Lemma safe_arm_swi (op : Z) : safe_with E (arm_swi op).
Proof. unfold arm_swi. cbv zeta. repeat safe_step. Qed.

Lemma safe_execute_arm (op : Z) : safe_with E (execute_arm op).
Proof.
  unfold execute_arm, arm_multiply, arm_swp, arm_load_store_multiple. cbv zeta.
  rewrite bx_pattern_never_matches.
  repeat first
    [ apply safe_arm_data_processing | apply safe_arm_load_store
    | apply safe_arm_branch | apply safe_arm_swi
    | safe_step ].
Qed.

(** The ARM-state path of [step], before the cycle is counted. *)
Lemma safe_arm_fetch_execute (pc : Z) :
  safe_with E (let* opcode := read_word pc in
               set_pc (pc + 4) ;; execute_arm opcode).
Proof. repeat first [apply safe_execute_arm | safe_step]. Qed.

(** The branches and the exchange of [execute_thumb], given the one
    primitive that changes CPSR. *)
Lemma safe_execute_thumb (op : Z) :
  (forall b, safe_with E (set_thumb_mode b)) ->
  safe_with E (execute_thumb op).
Proof.
  intros Ht. unfold execute_thumb. cbv zeta.
  repeat first [apply Ht | safe_step].
Qed.

End Effects.

Section StepTotal.
Import Flames.

Lemma safe_set_thumb_mode (b : bool) : safe_with cpu_effect (set_thumb_mode b).
Proof.
  intros g Hwf. eexists tt, _. split; [reflexivity|].
  apply cpu_effect_upd.
  - destruct b; exact Hwf.
  - destruct b; reflexivity.
  - destruct b; reflexivity.
  - destruct b; cbn [CPSR set_CPSR]; apply Z.bits_inj'; intros i Hi;
      rewrite !Z.land_spec, ?Z.lor_spec;
      destruct (Z.eq_dec i 5) as [->|Hne];
      try (rewrite !Z.lnot_spec by lia);
      try (change (Z.testbit 32 5) with true; cbn; rewrite ?andb_false_r; reflexivity);
      replace (Z.testbit (Z.shiftl 1 5) i) with false;
      try (rewrite ?orb_false_r, ?andb_true_r; cbn; rewrite ?andb_true_r; reflexivity);
      symmetry; rewrite Z.shiftl_spec by lia;
      (destruct (Z.lt_ge_cases i 5);
       [apply Z.testbit_neg_r; lia
       | change 1 with (Z.ones 1); apply Z.ones_spec_high; lia]).
Qed.

Lemma cpu_effect_wf (g s : GBA) : cpu_effect g s -> cpu_wf (cpu s).
Proof. intros (H & _). exact H. Qed.

Lemma cpu_keeps_wf (g s : GBA) : cpu_keeps g s -> cpu_wf (cpu s).
Proof. intros ((H & _) & _). exact H. Qed.

Lemma cpu_keeps_effect (g s : GBA) : cpu_keeps g s -> cpu_effect g s.
Proof. intros (H & _). exact H. Qed.

(** Everything [step] does before it counts the cycle. *)
Lemma safe_step_body :
  safe_with cpu_effect
    (let* pc := get_pc in
     let* c := gets cpu in
     if negb (get_flag_T c =? 0) then
       let* opcode := read_halfword pc in
       set_pc (pc + 2) ;; execute_thumb opcode
     else
       let* opcode := read_word pc in
       set_pc (pc + 4) ;; execute_arm opcode).
Proof.
  apply (safe_bind _ cpu_effect_trans cpu_effect_wf);
    [apply (safe_get_pc _ cpu_keeps_effect)|intros pc].
  apply (safe_bind _ cpu_effect_trans cpu_effect_wf);
    [apply (safe_gets _ cpu_keeps_effect)|intros c].
  destruct (negb (get_flag_T c =? 0)).
  - apply (safe_bind _ cpu_effect_trans cpu_effect_wf);
      [apply (safe_read_halfword _ cpu_keeps_effect)|intros op].
    apply (safe_bind _ cpu_effect_trans cpu_effect_wf);
      [apply (safe_set_pc _ cpu_keeps_effect)|intros _].
    apply (safe_execute_thumb _ cpu_effect_trans cpu_effect_wf cpu_keeps_effect).
    exact safe_set_thumb_mode.
  - apply (safe_arm_fetch_execute _ cpu_effect_trans cpu_effect_wf cpu_keeps_effect).
Qed.

Lemma step_as_body_then_tick (g : GBA) :
  step g
  = bind (let* pc := get_pc in
          let* c := gets cpu in
          if negb (get_flag_T c =? 0) then
            let* opcode := read_halfword pc in
            set_pc (pc + 2) ;; execute_thumb opcode
          else
            let* opcode := read_word pc in
            set_pc (pc + 4) ;; execute_arm opcode) (fun _ => tick) g.
Proof.
  unfold step, bind.
  destruct (get_pc g) as [[pc s]|e]; [|reflexivity].
  cbv beta iota. unfold gets. cbv beta iota.
  destruct (negb (get_flag_T (cpu s) =? 0)).
  - destruct (read_halfword pc s) as [[op s1]|e]; [|reflexivity].
    destruct (set_pc (pc + 2) s1) as [[[] s2]|e]; [|reflexivity].
    destruct (execute_thumb op s2) as [[[] s3]|e]; reflexivity.
  - destruct (read_word pc s) as [[op s1]|e]; [|reflexivity].
    destruct (set_pc (pc + 4) s1) as [[[] s2]|e]; [|reflexivity].
    destruct (execute_arm op s2) as [[[] s3]|e]; reflexivity.
Qed.

(** [step] from well-formed registers. *)
Lemma step_total (g : GBA) :
  cpu_wf (cpu g) ->
  exists s,
    step g = Ok (tt, upd_cpu (fun c => set_cycles (cycles c + 1) c) s) /\
    cpu_effect g s.
Proof.
  intros Hwf. rewrite step_as_body_then_tick.
  destruct (safe_step_body g Hwf) as (a & s & Hr & He).
  exists s. rewrite (bind_ok _ _ _ _ _ Hr). split; [reflexivity|exact He].
Qed.

(** [step] in ARM state. *)
Lemma step_arm_state (g : GBA) :
  cpu_wf (cpu g) -> get_flag_T (cpu g) = 0 ->
  exists s,
    step g = Ok (tt, upd_cpu (fun c => set_cycles (cycles c + 1) c) s) /\
    cpu_keeps g s.
Proof.
  intros Hwf HT.
  destruct (R_get_ok g 15) as (pc & _ & Hpc).
  { destruct Hwf as (HR & _). unfold len. lia. }
  destruct (safe_arm_fetch_execute _ cpu_keeps_trans cpu_keeps_wf (fun _ _ H => H) pc g Hwf)
    as (a & s & Hr & He).
  exists s. split; [|exact He].
  unfold step. fold get_pc in Hpc. rewrite (bind_ok _ _ _ _ _ Hpc).
  unfold bind at 1. unfold gets at 1. cbv beta iota.
  rewrite HT. change (negb (0 =? 0)) with false. cbv beta iota.
  rewrite <- bind_assoc3. rewrite (bind_ok _ _ _ _ _ Hr). reflexivity.
Qed.

End StepTotal.


(** X11 ([ARM7TDMI.step], [execute_arm], [execute_thumb], [flamesgbav2.py] lines 145-275).
    From well-formed register arrays, [step] never raises, whatever
    the opcode fetched (unimplemented and unrecognised encodings
    included): it adds exactly 1 to the cycle counter, keeps the register
    arrays well formed, changes CPSR in the T bit at most (so never the
    mode or the condition flags), leaves SPSR alone and writes nothing to
    memory, the video unit or the keypad (at most an absent [sram] or
    [dummy_unmapped] buffer is created by a region lookup). *)
Theorem step_never_raises_nor_stores (g : Flames.GBA) :
  Flames.cpu_wf (Flames.cpu g) ->
  exists s,
    Flames.step g = Ok (tt, s) /\
    Flames.cpu_wf (Flames.cpu s) /\
    Flames.cycles (Flames.cpu s) = Flames.cycles (Flames.cpu g) + 1 /\
    Flames.SPSR (Flames.cpu s) = Flames.SPSR (Flames.cpu g) /\
    Z.land (Flames.CPSR (Flames.cpu s)) (Z.lnot 0x20)
    = Z.land (Flames.CPSR (Flames.cpu g)) (Z.lnot 0x20) /\
    Flames.ppu s = Flames.ppu g /\ Flames.keypad s = Flames.keypad g /\
    Flames.mem_lazy (Flames.memory g) (Flames.memory s).
Proof.
  intros Hwf. destruct (step_total g Hwf) as (s & Hs & He).
  destruct He as (W & (P & K & Mm) & S & C & F).
  eexists. split; [exact Hs|]. cbn [Flames.cpu Flames.upd_cpu Flames.ppu Flames.keypad
    Flames.memory Flames.cycles Flames.set_cycles Flames.SPSR Flames.CPSR].
  split; [exact W|]. split; [lia|]. auto.
Qed.

Lemma step_never_raises_nor_stores_witness :
  exists s,
    Flames.step (Flames.upd_cpu (Flames.set_CPSR 0x1F) Flames.GBA_fields) = Ok (tt, s) /\
    Flames.cpu_wf (Flames.cpu s) /\
    Flames.cycles (Flames.cpu s)
    = Flames.cycles (Flames.cpu (Flames.upd_cpu (Flames.set_CPSR 0x1F) Flames.GBA_fields)) + 1 /\
    Flames.SPSR (Flames.cpu s)
    = Flames.SPSR (Flames.cpu (Flames.upd_cpu (Flames.set_CPSR 0x1F) Flames.GBA_fields)) /\
    Z.land (Flames.CPSR (Flames.cpu s)) (Z.lnot 0x20)
    = Z.land (Flames.CPSR (Flames.cpu (Flames.upd_cpu (Flames.set_CPSR 0x1F) Flames.GBA_fields)))
        (Z.lnot 0x20) /\
    Flames.ppu s = Flames.ppu (Flames.upd_cpu (Flames.set_CPSR 0x1F) Flames.GBA_fields) /\
    Flames.keypad s = Flames.keypad (Flames.upd_cpu (Flames.set_CPSR 0x1F) Flames.GBA_fields) /\
    Flames.mem_lazy (Flames.memory (Flames.upd_cpu (Flames.set_CPSR 0x1F) Flames.GBA_fields))
      (Flames.memory s).
Proof.
  apply (step_never_raises_nor_stores _ (cpu_wf_fields 0x1F)).
Defined.

(** ** [flamesgbav2.py]: runs of the processor *)

Section ArmRuns.
Import Flames.

Lemma step_arm_keeps (g : GBA) :
  cpu_wf (cpu g) -> get_flag_T (cpu g) = 0 ->
  exists s,
    step g = Ok (tt, s) /\ cpu_wf (cpu s) /\
    CPSR (cpu s) = CPSR (cpu g) /\ SPSR (cpu s) = SPSR (cpu g) /\
    cycles (cpu s) = cycles (cpu g) + 1 /\ cpu_only g s.
Proof.
  intros Hwf HT. destruct (step_arm_state g Hwf HT) as (s & Hs & He).
  destruct He as ((W & O & S & C & _) & F).
  eexists. split; [exact Hs|].
  cbn [cpu upd_cpu CPSR SPSR cycles set_cycles].
  split; [exact W|]. split; [exact F|]. split; [exact S|]. split; [lia|exact O].
Qed.

Lemma cpu_only_trans (g1 g2 g3 : GBA) :
  cpu_only g1 g2 -> cpu_only g2 g3 -> cpu_only g1 g3.
Proof.
  intros (P1 & K1 & M1) (P2 & K2 & M2).
  split; [congruence|]. split; [congruence|]. exact (mem_lazy_trans _ _ _ M1 M2).
Qed.

Lemma get_flag_T_CPSR (c c' : ARM7TDMI) :
  CPSR c' = CPSR c -> get_flag_T c' = get_flag_T c.
Proof. intros H. unfold get_flag_T. rewrite H. reflexivity. Qed.

Lemma flag_is_bit (x : Z) : Z.land x 1 = 0 \/ Z.land x 1 = 1.
Proof.
  change (Z.land x 1) with (Z.land x (Z.ones 1)). rewrite Z.land_ones by lia.
  pose proof (Z.mod_pos_bound x (2 ^ 1) ltac:(lia)). lia.
Qed.

End ArmRuns.

(** X12 ([ARM7TDMI.step], [execute_arm], [flamesgbav2.py] lines 145-194).
    In ARM state the processor stays in ARM state for ever: any
    number of [step] calls from well-formed registers with the T flag
    clear returns without raising and leaves CPSR exactly as it was (mode,
    interrupt masks, condition flags and T flag), whatever the memory
    holds.  The pattern test that guards the branch-and-exchange handler
    in [execute_arm] can never succeed, so Thumb state is not reachable
    from reset.  The run adds [n] to the cycle counter and writes nothing
    outside the processor. *)
Theorem arm_state_is_never_left (n : nat) (g : Flames.GBA) :
  Flames.cpu_wf (Flames.cpu g) -> Flames.get_flag_T (Flames.cpu g) = 0 ->
  exists s,
    Flames.steps n g = Ok (tt, s) /\
    Flames.cpu_wf (Flames.cpu s) /\
    Flames.CPSR (Flames.cpu s) = Flames.CPSR (Flames.cpu g) /\
    Flames.SPSR (Flames.cpu s) = Flames.SPSR (Flames.cpu g) /\
    Flames.cycles (Flames.cpu s) = Flames.cycles (Flames.cpu g) + Z.of_nat n /\
    Flames.cpu_only g s.
Proof.
  revert g. induction n as [|n IH]; intros g Hwf HT.
  - exists g. split; [reflexivity|]. split; [exact Hwf|].
    split; [reflexivity|]. split; [reflexivity|]. split; [lia|apply cpu_only_refl].
  - destruct (step_arm_keeps g Hwf HT) as (s1 & Hs1 & W1 & F1 & S1 & C1 & O1).
    destruct (IH s1 W1) as (s & Hs & W & F & S & C & O).
    { rewrite (get_flag_T_CPSR _ _ F1). exact HT. }
    exists s. cbn [Flames.steps]. rewrite (bind_ok _ _ _ _ _ Hs1).
    split; [exact Hs|]. split; [exact W|]. split; [congruence|].
    split; [congruence|]. split; [lia|exact (cpu_only_trans _ _ _ O1 O)].
Qed.

Lemma arm_state_is_never_left_witness :
  exists s,
    Flames.steps 3 (Flames.upd_cpu (Flames.set_CPSR 0xDF) Flames.GBA_fields) = Ok (tt, s) /\
    Flames.cpu_wf (Flames.cpu s) /\
    Flames.CPSR (Flames.cpu s)
    = Flames.CPSR (Flames.cpu (Flames.upd_cpu (Flames.set_CPSR 0xDF) Flames.GBA_fields)) /\
    Flames.SPSR (Flames.cpu s)
    = Flames.SPSR (Flames.cpu (Flames.upd_cpu (Flames.set_CPSR 0xDF) Flames.GBA_fields)) /\
    Flames.cycles (Flames.cpu s)
    = Flames.cycles (Flames.cpu (Flames.upd_cpu (Flames.set_CPSR 0xDF) Flames.GBA_fields))
      + Z.of_nat 3 /\
    Flames.cpu_only (Flames.upd_cpu (Flames.set_CPSR 0xDF) Flames.GBA_fields) s.
Proof.
  apply (arm_state_is_never_left 3 _ (cpu_wf_fields 0xDF)). reflexivity.
Defined.

(** X13 ([ARM7TDMI.check_cond], [flamesgbav2.py] lines 126-143).
    The condition table is closed under negation: each odd
    condition code is the negation of the even code before it (NE of EQ,
    CC of CS, PL of MI, VC of VS, LS of HI, LT of GE, LE of GT, NV of AL),
    whatever CPSR holds. *)
Theorem check_cond_odd_negates_even (c : Flames.ARM7TDMI) (k : Z) :
  0 <= k <= 7 ->
  Flames.check_cond c (2 * k + 1) = negb (Flames.check_cond c (2 * k)).
Proof.
  intros Hk.
  assert (k = 0 \/ k = 1 \/ k = 2 \/ k = 3 \/ k = 4 \/ k = 5 \/ k = 6 \/ k = 7)
    as Hc by lia.
  unfold Flames.check_cond, Flames.get_flag_N, Flames.get_flag_Z,
    Flames.get_flag_C, Flames.get_flag_V.
  destruct (flag_is_bit (Z.shiftr (Flames.CPSR c) 31)) as [-> | ->],
           (flag_is_bit (Z.shiftr (Flames.CPSR c) 30)) as [-> | ->],
           (flag_is_bit (Z.shiftr (Flames.CPSR c) 29)) as [-> | ->],
           (flag_is_bit (Z.shiftr (Flames.CPSR c) 28)) as [-> | ->];
    destruct Hc as [ -> | [ -> | [ -> | [ -> | [ -> | [ -> | [ -> | -> ] ] ] ] ] ] ];
    reflexivity.
Qed.

Lemma check_cond_odd_negates_even_witness :
  Flames.check_cond (Flames.set_CPSR 0x4000001F Flames.ARM7TDMI_fields) (2 * 4 + 1)
  = negb (Flames.check_cond (Flames.set_CPSR 0x4000001F Flames.ARM7TDMI_fields) (2 * 4)).
Proof.
  apply (check_cond_odd_negates_even _ 4). lia.
Defined.

(** X14 ([ARM7TDMI.reset], [flamesgbav2.py] lines 69-77).
    [reset] never raises, from any state, and is idempotent: it
    zeroes R0-R15 and every cell of every bank, sets CPSR to 0xDF (System
    mode, IRQ and FIQ masked, ARM state, flags clear), and a second
    [reset] changes nothing.  It does not touch SPSR, the cycle counter,
    memory, the video unit or the keypad. *)
Theorem reset_is_idempotent (g : Flames.GBA) :
  exists s,
    Flames.reset g = Ok (tt, s) /\
    Flames.reset s = Ok (tt, s) /\
    Flames.R (Flames.cpu s) = replicate 16 0 /\
    Flames.CPSR (Flames.cpu s) = 0xDF /\
    (forall mode l, Flames.R_banked (Flames.cpu g) !! mode = Some l ->
       Flames.R_banked (Flames.cpu s) !! mode = Some (replicate (length l) 0)) /\
    Flames.SPSR (Flames.cpu s) = Flames.SPSR (Flames.cpu g) /\
    Flames.cycles (Flames.cpu s) = Flames.cycles (Flames.cpu g) /\
    Flames.memory s = Flames.memory g /\ Flames.ppu s = Flames.ppu g /\
    Flames.keypad s = Flames.keypad g.
Proof.
  assert (Hres : forall g0,
            Flames.reset g0
            = Ok (tt, Flames.mkGBA (Flames.memory g0)
                    (Flames.mkCPU (replicate 16 0)
                       ((fun regs : list Z => replicate (length regs) 0)
                          <$> Flames.R_banked (Flames.cpu g0))
                       0xDF (Flames.SPSR (Flames.cpu g0)) (Flames.cycles (Flames.cpu g0)))
                    (Flames.ppu g0) (Flames.keypad g0)))
    by (intros g0; reflexivity).
  eexists. split; [apply Hres|]. split.
  - rewrite Hres.
    cbn [Flames.cpu Flames.memory Flames.ppu Flames.keypad Flames.R_banked
         Flames.SPSR Flames.cycles].
    rewrite <- map_fmap_compose.
    rewrite (map_fmap_ext _ (fun regs : list Z => replicate (length regs) 0)
               (Flames.R_banked (Flames.cpu g))); [reflexivity|].
    intros i x _. unfold compose. rewrite length_replicate. reflexivity.
  - split; [reflexivity|]. split; [reflexivity|]. split.
    + intros mode l Hl. cbn [Flames.cpu Flames.R_banked].
      rewrite lookup_fmap, Hl. reflexivity.
    + repeat split.
Qed.

(** X15 ([ARM7TDMI.ror], [flamesgbav2.py] lines 277-280).
    [ror] is a rotation: for a positive width and a value that
    fits in it, the call returns a value that fits in the width whose bit
    [i] is bit [(i + shift) mod bits] of the argument, for any shift
    count (negative or beyond the width included). *)
Theorem ror_rotates_right (val shift bits : Z) :
  0 < bits -> 0 <= val < 2 ^ bits ->
  exists r,
    Flames.ror val shift bits = inr r /\ 0 <= r < 2 ^ bits /\
    forall i, 0 <= i < bits ->
      Z.testbit r i = Z.testbit val ((i + shift) mod bits).
Proof.
  intros Hb Hv. unfold Flames.ror.
  replace (bits <? 0) with false by lia. replace (bits =? 0) with false by lia.
  eexists. split; [reflexivity|].
  replace (Z.shiftl 1 bits - 1) with (Z.ones bits)
    by (unfold Z.ones; lia).
  pose proof (Z.mod_pos_bound shift bits Hb) as Hs.
  split; [rewrite Z.land_ones by lia; apply Z.mod_pos_bound; lia|].
  intros i Hi.
  rewrite Z.land_spec, Z.ones_spec_low, andb_true_r by lia.
  rewrite Z.lor_spec, Z.shiftr_spec, Z.shiftl_spec by lia.
  rewrite <- (Z.add_mod_idemp_r i shift bits) by lia.
  destruct (Z.lt_ge_cases (i + shift mod bits) bits) as [Hlt|Hge].
  - rewrite (Z.mod_small (i + shift mod bits)) by lia.
    rewrite (Z.testbit_neg_r val (i - (bits - shift mod bits))) by lia.
    apply orb_false_r.
  - rewrite (testbit_small val bits (i + shift mod bits)) by lia.
    cbn [orb]. f_equal.
    apply Z.mod_unique with 1; lia.
Qed.

Lemma ror_rotates_right_witness :
  exists r,
    Flames.ror 0x80000001 4 32 = inr r /\ 0 <= r < 2 ^ 32 /\
    forall i, 0 <= i < 32 ->
      Z.testbit r i = Z.testbit 0x80000001 ((i + 4) mod 32).
Proof.
  apply (ror_rotates_right 0x80000001 4 32); lia.
Defined.

(** ** [flamesgbav2.py]: branches and the placeholder boot code *)

Section Branch.
Import Flames.

Lemma reg_cell_15 (m : Z) : reg_cell m 15 = Shared 15.
Proof. unfold reg_cell. cbn. rewrite andb_false_r. reflexivity. Qed.

Lemma cell_get_set_cycles (x : Cell) (n : Z) (c : ARM7TDMI) :
  cell_get x (set_cycles n c) = cell_get x c.
Proof. destruct x; reflexivity. Qed.

Lemma set_pc_cell (g : GBA) (v : Z) :
  cpu_wf (cpu g) ->
  set_pc v g = Ok (tt, upd_cpu (cell_set (Shared 15) (Z.land v 0xFFFFFFFF)) g).
Proof.
  intros (HR & _). unfold set_pc.
  rewrite R_set_ok; [reflexivity| |apply mask32_range]. unfold len. lia.
Qed.

Lemma get_pc_lookup (g : GBA) (x : Z) :
  R (cpu g) !! 15%nat = Some x -> get_pc g = Ok (x, g).
Proof.
  intros Hx. unfold get_pc, R_get, bind, gets, lift.
  rewrite (list_getitem_lookup _ 15 x); [reflexivity|lia|exact Hx].
Qed.

Lemma get_reg_value (g : GBA) (r x : Z) :
  cpu_wf (cpu g) -> 0 <= r < 16 ->
  reg_value (cpu g) r = Some x -> get_reg r g = Ok (x, g).
Proof.
  intros Hwf Hr Hx. destruct (get_reg_cell g r Hwf Hr) as (y & Hy & Hg).
  congruence.
Qed.

Lemma get_reg_value_inv (g : GBA) (r x : Z) :
  cpu_wf (cpu g) -> 0 <= r < 16 ->
  get_reg r g = Ok (x, g) -> reg_value (cpu g) r = Some x.
Proof.
  intros Hwf Hr Hx. destruct (get_reg_cell g r Hwf Hr) as (y & Hy & Hg).
  congruence.
Qed.

(** Bit 23 of a 24-bit field. *)
Lemma bit23_test (imm : Z) :
  0 <= imm < 2 ^ 24 ->
  (Z.land imm 0x00800000 =? 0) = (imm <? 0x00800000).
Proof.
  intros Hi.
  assert (Hb : Z.land imm 0x00800000 = if Z.testbit imm 23 then 0x00800000 else 0).
  { apply Z.bits_inj'. intros i Hi0. rewrite Z.land_spec.
    change 0x00800000 with (2 ^ 23). rewrite Z.pow2_bits_eqb by lia.
    destruct (Z.eqb_spec 23 i) as [<-|Hne].
    - destruct (Z.testbit imm 23); [rewrite Z.pow2_bits_true by lia; reflexivity|].
      rewrite Z.bits_0. reflexivity.
    - rewrite andb_false_r. destruct (Z.testbit imm 23);
        [rewrite Z.pow2_bits_false by lia; reflexivity|rewrite Z.bits_0; reflexivity]. }
  rewrite Hb. destruct (Z.testbit imm 23) eqn:Et.
  - change (8388608 =? 0) with false. symmetry. apply Z.ltb_ge.
    destruct (Z.lt_ge_cases imm 8388608) as [Hlt|Hge]; [|exact Hge].
    rewrite (testbit_small imm 23 23) in Et by lia. discriminate.
  - change (0 =? 0) with true. symmetry. apply Z.ltb_lt.
    destruct (Z.lt_ge_cases imm 8388608) as [Hlt|Hge]; [exact Hlt|].
    exfalso. apply Z.testbit_false in Et; [|lia].
    change (2 ^ 23) with 8388608 in Et.
    assert (imm / 8388608 = 1).
    { apply Z.le_antisymm.
      - apply Z.lt_succ_r. apply Z.div_lt_upper_bound; lia.
      - apply Z.div_le_lower_bound; lia. }
    rewrite H in Et. discriminate Et.
Qed.

Lemma land_24_range (v : Z) : 0 <= Z.land v 0x00FFFFFF < 2 ^ 24.
Proof.
  change 0x00FFFFFF with (Z.ones 24). rewrite Z.land_ones by lia.
  apply Z.mod_pos_bound. lia.
Qed.

(** The target [arm_branch] computes, as arithmetic modulo 2^32. *)
Lemma branch_target (cur opcode : Z) :
  Z.land
    (cur + Z.shiftl
             (if Z.land (Z.land opcode 0x00FFFFFF) 0x00800000 =? 0
              then Z.land opcode 0x00FFFFFF
              else Z.lor (Z.land opcode 0x00FFFFFF) 0xFF000000) 2) 0xFFFFFFFF
  = (cur + 4 * branch_displacement opcode) mod 2 ^ 32.
Proof.
  pose proof (land_24_range opcode) as Hi.
  unfold branch_displacement. cbv zeta.
  rewrite bit23_test by exact Hi. rewrite land_ones32, Z.shiftl_mul_pow2 by lia.
  destruct (Z.land opcode 16777215 <? 8388608).
  - f_equal. lia.
  - change 0xFF000000 with (255 * 2 ^ 24).
    rewrite lor_disjoint_add by lia.
    replace (cur + (Z.land opcode 16777215 + 255 * 2 ^ 24) * 2 ^ 2)
      with (cur + 4 * (Z.land opcode 16777215 - 16777216) + 4 * 2 ^ 32) by lia.
    apply Z_mod_plus_full.
Qed.

Lemma execute_arm_is_branch (g : GBA) (opcode : Z) :
  check_cond (cpu g) (Z.land (Z.shiftr opcode 28) 0xF) = true ->
  Z.land (Z.shiftr opcode 25) 0x7 = 5 ->
  execute_arm opcode g = arm_branch opcode g.
Proof.
  intros Hc Ht. unfold execute_arm. cbv zeta.
  unfold bind at 1. unfold gets at 1. cbv beta iota.
  rewrite Hc, Ht. reflexivity.
Qed.

End Branch.

(** X16 ([ARM7TDMI.step], [arm_branch], [flamesgbav2.py] lines 145-159 and 224-232).
    An ARM branch executed by [step] (condition true, bits 27-25 =
    101) sets the program counter to the address of the instruction plus
    4 plus four times the signed 24-bit displacement, modulo 2^32; with
    the link bit set, R14 of the current mode receives the address of the
    branch instruction itself (modulo 2^32).  Every other register among
    R0-R14 reads as before. *)
Theorem arm_branch_target_and_link (g g1 : Flames.GBA) (pc opcode : Z) :
  Flames.cpu_wf (Flames.cpu g) ->
  Flames.R (Flames.cpu g) !! 15%nat = Some pc ->
  Flames.get_flag_T (Flames.cpu g) = 0 ->
  Flames.read_word pc g = Ok (opcode, g1) ->
  Flames.check_cond (Flames.cpu g) (Z.land (Z.shiftr opcode 28) 0xF) = true ->
  Z.land (Z.shiftr opcode 25) 0x7 = 5 ->
  exists s,
    Flames.step g = Ok (tt, s) /\
    Flames.get_pc s
    = Ok ((pc + 4 + 4 * Flames.branch_displacement opcode) mod 2 ^ 32, s) /\
    (Z.land (Z.shiftr opcode 24) 1 <> 0 ->
     Flames.get_reg 14 s = Ok (pc mod 2 ^ 32, s)) /\
    (forall r x, 0 <= r < 15 ->
       (Z.land (Z.shiftr opcode 24) 1 <> 0 -> r <> 14) ->
       Flames.get_reg r g = Ok (x, g) -> Flames.get_reg r s = Ok (x, s)).
Proof.
  intros Hwf Hpc HT Hrd Hcond Htype.
  destruct (flames_read_word_total pc g) as (op' & g1' & Hrd' & Hlazy & _).
  rewrite Hrd in Hrd'. injection Hrd' as <- <-.
  destruct Hlazy as (Hcpu & _).
  set (m := Z.land (Flames.CPSR (Flames.cpu g)) 31).
  set (cur := Z.land (pc + 4) 0xFFFFFFFF).
  set (tgt := (pc + 4 + 4 * Flames.branch_displacement opcode) mod 2 ^ 32).
  set (c0 := Flames.cpu g) in *.
  set (c1 := Flames.cell_set (Flames.Shared 15) cur c0).
  set (c2 := if Z.land (Z.shiftr opcode 24) 1 =? 0 then c1
             else Flames.cell_set (Flames.reg_cell m 14) (Z.land (cur - 4) 0xFFFFFFFF) c1).
  set (c3 := Flames.cell_set (Flames.Shared 15) tgt c2).
  set (c4 := Flames.set_cycles (Flames.cycles c3 + 1) c3).
  assert (W1 : Flames.cpu_wf c1) by (apply cpu_wf_cell_set; exact Hwf).
  assert (W2 : Flames.cpu_wf c2).
  { unfold c2. destruct (Z.land (Z.shiftr opcode 24) 1 =? 0);
      [exact W1|apply cpu_wf_cell_set; exact W1]. }
  assert (W3 : Flames.cpu_wf c3) by (apply cpu_wf_cell_set; exact W2).
  assert (P1 : Flames.CPSR c1 = Flames.CPSR c0)
    by (apply (cell_set_fields (Flames.Shared 15) cur c0)).
  assert (P2 : Flames.CPSR c2 = Flames.CPSR c0).
  { unfold c2. destruct (Z.land (Z.shiftr opcode 24) 1 =? 0); [exact P1|].
    rewrite <- P1. apply (cell_set_fields (Flames.reg_cell m 14)). }
  assert (P3 : Flames.CPSR c3 = Flames.CPSR c0)
    by (rewrite <- P2; apply (cell_set_fields (Flames.Shared 15) tgt c2)).
  assert (Hstep : Flames.step g
                  = Ok (tt, Flames.mkGBA (Flames.memory g1) c4 (Flames.ppu g1)
                              (Flames.keypad g1))).
  { unfold Flames.step.
    rewrite (bind_ok _ _ _ _ _ (get_pc_lookup g pc Hpc)).
    unfold bind at 1. unfold gets at 1. cbv beta iota.
    fold c0. rewrite HT. change (negb (0 =? 0)) with false. cbv beta iota.
    rewrite (bind_ok _ _ _ _ _ Hrd).
    assert (Hwf1 : Flames.cpu_wf (Flames.cpu g1)) by (rewrite Hcpu; exact Hwf).
    rewrite (bind_ok _ _ _ _ _ (set_pc_cell g1 (pc + 4) Hwf1)).
    fold cur.
    set (g2 := Flames.upd_cpu (Flames.cell_set (Flames.Shared 15) cur) g1).
    assert (Hc2 : Flames.cpu g2 = c1) by (unfold g2, c1; cbn; rewrite Hcpu; reflexivity).
    assert (Hex : Flames.execute_arm opcode g2
                  = Ok (tt, Flames.mkGBA (Flames.memory g1) c3 (Flames.ppu g1)
                              (Flames.keypad g1))).
    { rewrite execute_arm_is_branch;
        [|rewrite Hc2, (check_cond_CPSR c0 c1 _ P1); exact Hcond|exact Htype].
      unfold Flames.arm_branch. cbv zeta.
      assert (Hcur : Flames.R (Flames.cpu g2) !! 15%nat = Some cur).
      { rewrite Hc2. apply (cell_get_set_same (Flames.Shared 15) cur c0).
        exists pc. exact Hpc. }
      rewrite (bind_ok _ _ _ _ _ (get_pc_lookup g2 cur Hcur)).
      assert (Hlink :
                (if Z.land (Z.shiftr opcode 24) 1 =? 0 then ret tt
                 else Flames.set_reg 14 (cur - 4)) g2
                = Ok (tt, Flames.mkGBA (Flames.memory g1) c2 (Flames.ppu g1)
                            (Flames.keypad g1))).
      { unfold c2. destruct (Z.land (Z.shiftr opcode 24) 1 =? 0).
        - unfold ret, g2, Flames.upd_cpu. rewrite Hcpu. reflexivity.
        - rewrite set_reg_cell; [|rewrite Hc2; exact W1|lia].
          rewrite Hc2, P1. fold c0 m. unfold Flames.upd_cpu.
          rewrite Hc2. reflexivity. }
      rewrite (bind_ok _ _ _ _ _ Hlink).
      rewrite set_pc_cell by exact W2.
      unfold Flames.upd_cpu. cbn [Flames.cpu Flames.memory Flames.ppu Flames.keypad].
      unfold c3, tgt. rewrite branch_target. unfold cur.
      rewrite land_ones32, Z.add_mod_idemp_l by lia. reflexivity. }
    rewrite (bind_ok _ _ _ _ _ Hex). reflexivity. }
  eexists. split; [exact Hstep|].
  set (s := Flames.mkGBA (Flames.memory g1) c4 (Flames.ppu g1) (Flames.keypad g1)).
  assert (W4 : Flames.cpu_wf (Flames.cpu s)) by exact W3.
  assert (Hm : Z.land (Flames.CPSR (Flames.cpu s)) 31 = m)
    by (cbn [Flames.cpu s]; unfold c4; cbn [Flames.CPSR Flames.set_cycles];
        rewrite P3; reflexivity).
  assert (Hval : forall r, Flames.reg_value (Flames.cpu s) r
                           = Flames.cell_get (Flames.reg_cell m r) c3).
  { intros r. unfold Flames.reg_value. rewrite Hm. cbn [Flames.cpu s]. unfold c4.
    apply cell_get_set_cycles. }
  assert (H15 : forall c, is_Some (Flames.cell_get (Flames.Shared 15) c) <->
                          (15 < length (Flames.R c))%nat)
    by (intros c; apply lookup_lt_is_Some).
  split; [|split].
  - apply get_pc_lookup. cbn [Flames.cpu s]. unfold c4. cbn [Flames.R Flames.set_cycles].
    apply (cell_get_set_same (Flames.Shared 15) tgt c2).
    apply H15. destruct W2 as (HR & _). lia.
  - intros Hl. apply get_reg_value; [exact W4|lia|]. rewrite Hval.
    assert (Hne : Flames.Shared 15 <> Flames.reg_cell m 14).
    { rewrite <- (reg_cell_15 m). intros Heq.
      apply reg_cell_inj in Heq; lia. }
    unfold c3. rewrite cell_get_set_other by exact Hne.
    unfold c2. replace (Z.land (Z.shiftr opcode 24) 1 =? 0) with false by lia.
    rewrite cell_get_set_same.
    + f_equal. unfold cur. rewrite !land_ones32.
      rewrite Zminus_mod_idemp_l. f_equal. lia.
    + unfold c1. rewrite cell_get_set_other by exact Hne.
      destruct (cell_get_cpu_wf c0 14 Hwf ltac:(lia)) as (y & Hy).
      exists y. exact Hy.
  - intros r x Hr Hnl Hget.
    apply get_reg_value; [exact W4|lia|]. rewrite Hval.
    apply get_reg_value_inv in Hget; [|exact Hwf|lia].
    unfold Flames.reg_value in Hget. fold c0 m in Hget. rewrite <- Hget.
    assert (Hne : Flames.Shared 15 <> Flames.reg_cell m r).
    { rewrite <- (reg_cell_15 m). intros Heq.
      apply reg_cell_inj in Heq; lia. }
    unfold c3. rewrite cell_get_set_other by exact Hne.
    unfold c2. destruct (Z.land (Z.shiftr opcode 24) 1 =? 0) eqn:El.
    + unfold c1. apply cell_get_set_other. exact Hne.
    + rewrite cell_get_set_other.
      * unfold c1. apply cell_get_set_other. exact Hne.
      * intros Heq. apply reg_cell_inj in Heq; [|lia|lia].
        apply (Hnl ltac:(lia)). congruence.
Qed.

Lemma arm_branch_target_and_link_witness :
  exists s,
    Flames.step
      (Flames.upd_memory
         (Flames.set_region_bytes Flames.Bios
            ([Byte.x02; Byte.x00; Byte.x00; Byte.xeb] ++ zeros (Flames.BIOS_SIZE - 4)))
         (Flames.upd_cpu (Flames.set_CPSR 0xDF) Flames.GBA_fields))
    = Ok (tt, s) /\
    Flames.get_pc s
    = Ok ((0 + 4 + 4 * Flames.branch_displacement 0xEB000002) mod 2 ^ 32, s) /\
    (Z.land (Z.shiftr 0xEB000002 24) 1 <> 0 ->
     Flames.get_reg 14 s = Ok (0 mod 2 ^ 32, s)) /\
    (forall r x, 0 <= r < 15 ->
       (Z.land (Z.shiftr 0xEB000002 24) 1 <> 0 -> r <> 14) ->
       Flames.get_reg r
         (Flames.upd_memory
            (Flames.set_region_bytes Flames.Bios
               ([Byte.x02; Byte.x00; Byte.x00; Byte.xeb] ++ zeros (Flames.BIOS_SIZE - 4)))
            (Flames.upd_cpu (Flames.set_CPSR 0xDF) Flames.GBA_fields))
       = Ok (x, Flames.upd_memory
                  (Flames.set_region_bytes Flames.Bios
                     ([Byte.x02; Byte.x00; Byte.x00; Byte.xeb] ++ zeros (Flames.BIOS_SIZE - 4)))
                  (Flames.upd_cpu (Flames.set_CPSR 0xDF) Flames.GBA_fields)) ->
       Flames.get_reg r s = Ok (x, s)).
Proof.
  apply (arm_branch_target_and_link
           (Flames.upd_memory
              (Flames.set_region_bytes Flames.Bios
                 ([Byte.x02; Byte.x00; Byte.x00; Byte.xeb] ++ zeros (Flames.BIOS_SIZE - 4)))
              (Flames.upd_cpu (Flames.set_CPSR 0xDF) Flames.GBA_fields))
           (Flames.upd_memory
              (Flames.set_region_bytes Flames.Bios
                 ([Byte.x02; Byte.x00; Byte.x00; Byte.xeb] ++ zeros (Flames.BIOS_SIZE - 4)))
              (Flames.upd_cpu (Flames.set_CPSR 0xDF) Flames.GBA_fields))
           0 0xEB000002 (cpu_wf_fields 0xDF));
    reflexivity.
Defined.

(** ** [flamesgbav2.py]: the placeholder boot code *)

Section BootCode.
Import Flames.

Lemma mjoin_replicate_lookup {A} (n : nat) (l : list A) (i : nat) :
  (0 < length l)%nat -> (i < n * length l)%nat ->
  mjoin (replicate n l) !! i = l !! (i mod length l)%nat.
Proof.
  intros Hl. revert i. induction n as [|n IH]; intros i Hi; [lia|].
  change (mjoin (replicate (Datatypes.S n) l)) with (l ++ mjoin (replicate n l)).
  destruct (Nat.lt_ge_cases i (length l)) as [Hlt|Hge].
  - rewrite lookup_app_l by exact Hlt. rewrite Nat.mod_small by exact Hlt. reflexivity.
  - rewrite lookup_app_r by exact Hge. rewrite IH by lia.
    f_equal. replace i with ((i - length l) + 1 * length l)%nat at 2 by lia.
    rewrite Nat.Div0.mod_add. reflexivity.
Qed.

Lemma len_dummy_bios : len dummy_bios = BIOS_SIZE.
Proof.
  unfold dummy_bios, len.
  assert (H : forall n, length (mjoin (replicate n [Byte.x00; Byte.x00; Byte.xa0; Byte.xe1]))
                        = (4 * n)%nat).
  { induction n as [|n IH]; [reflexivity|].
    change (mjoin (replicate (Datatypes.S n) [Byte.x00; Byte.x00; Byte.xa0; Byte.xe1]))
      with ([Byte.x00; Byte.x00; Byte.xa0; Byte.xe1]
              ++ mjoin (replicate n [Byte.x00; Byte.x00; Byte.xa0; Byte.xe1])).
    rewrite length_app, IH. cbn [length]. lia. }
  rewrite H. reflexivity.
Qed.

Lemma dummy_bios_lookup (i : Z) :
  0 <= i < BIOS_SIZE ->
  dummy_bios !! Z.to_nat i
  = [Byte.x00; Byte.x00; Byte.xa0; Byte.xe1] !! Z.to_nat (i mod 4).
Proof.
  intros Hi. unfold dummy_bios, BIOS_SIZE in *.
  rewrite mjoin_replicate_lookup; [|cbn; lia|cbn [length]].
  - f_equal. cbn [length]. rewrite Z2Nat.inj_mod by lia. reflexivity.
  - change (Z.to_nat (16384 / 4)) with 4096%nat. lia.
Qed.

(** Every aligned word of the placeholder boot code is [MOV R0, R0]. *)
Lemma read_word_dummy_bios (g : GBA) (pc : Z) :
  bios (memory g) = dummy_bios ->
  0 <= pc -> pc mod 4 = 0 -> pc + 4 <= BIOS_SIZE ->
  read_word pc g = Ok (0xE1A00000, g).
Proof.
  intros Hb H0 Hal Hle. unfold BIOS_SIZE in Hle.
  unfold read_word. rewrite land_3_mod, Hal. change (0 =? 0) with true. cbv iota.
  assert (Hm : Z.land pc 0xFFFFFFFF = pc)
    by (rewrite land_ones32; apply Z.mod_small; lia).
  rewrite (bind_ok _ _ _ _ _ (get_region_bios pc g ltac:(rewrite Hm; unfold BIOS_START, BIOS_SIZE; lia))).
  rewrite Hm. unfold bind, region_get. cbn [region_bytes]. rewrite Hb.
  rewrite len_dummy_bios. unfold BIOS_SIZE.
  replace (16384 <=? pc + 3) with false by lia.
  assert (Hj : forall j b, 0 <= j < 4 ->
             [Byte.x00; Byte.x00; Byte.xa0; Byte.xe1] !! Z.to_nat j = Some b ->
             getitem dummy_bios (pc + j) = Ok (byte.unsigned b)).
  { intros j b Hj Hbj. apply getitem_lookup; [lia|].
    rewrite dummy_bios_lookup by (unfold BIOS_SIZE; lia).
    replace ((pc + j) mod 4) with j; [exact Hbj|].
    apply Z.mod_unique with (pc / 4); [lia|].
    pose proof (Z.div_mod pc 4 ltac:(lia)). lia. }
  unfold lift.
  replace pc with (pc + 0) at 1 by lia.
  rewrite (Hj 0 Byte.x00), (Hj 1 Byte.x00), (Hj 2 Byte.xa0), (Hj 3 Byte.xe1)
    by (first [lia | reflexivity]).
  reflexivity.
Qed.

Lemma execute_arm_nop (g : GBA) : execute_arm 0xE1A00000 g = Ok (tt, g).
Proof. reflexivity. Qed.

(** One step over a [MOV R0, R0] of the boot code. *)
Lemma step_over_nop (g : GBA) (pc : Z) :
  cpu_wf (cpu g) -> bios (memory g) = dummy_bios ->
  get_flag_T (cpu g) = 0 -> R (cpu g) !! 15%nat = Some pc ->
  0 <= pc -> pc mod 4 = 0 -> pc + 4 <= BIOS_SIZE ->
  step g
  = Ok (tt, upd_cpu (fun c => set_cycles (cycles c + 1)
                                (set_R (<[15%nat := pc + 4]> (R c)) c)) g).
Proof.
  intros Hwf Hb HT Hpc H0 Hal Hle. unfold BIOS_SIZE in Hle.
  unfold step.
  rewrite (bind_ok _ _ _ _ _ (get_pc_lookup g pc Hpc)).
  unfold bind at 1. unfold gets at 1. cbv beta iota.
  rewrite HT. change (negb (0 =? 0)) with false. cbv beta iota.
  rewrite (bind_ok _ _ _ _ _ (read_word_dummy_bios g pc Hb H0 Hal Hle)).
  rewrite (bind_ok _ _ _ _ _ (set_pc_cell g (pc + 4) Hwf)).
  rewrite (bind_ok _ _ _ _ _ (execute_arm_nop _)).
  rewrite land_ones32, Z.mod_small by lia. reflexivity.
Qed.

(** A run of [n] steps that stays inside the boot code. *)
Lemma steps_over_nops (n : nat) :
  forall (g : GBA) (pc : Z),
    cpu_wf (cpu g) -> bios (memory g) = dummy_bios ->
    get_flag_T (cpu g) = 0 -> R (cpu g) !! 15%nat = Some pc ->
    0 <= pc -> pc mod 4 = 0 -> pc + 4 * Z.of_nat n <= BIOS_SIZE ->
    steps n g
    = Ok (tt, upd_cpu (fun c => set_cycles (cycles c + Z.of_nat n)
                                  (set_R (<[15%nat := pc + 4 * Z.of_nat n]> (R c)) c)) g).
Proof.
  induction n as [|n IH]; intros g pc Hwf Hb HT Hpc H0 Hal Hle.
  - cbn [steps]. unfold ret. do 2 f_equal.
    destruct g as [m [r b cp sp cy] p k].
    unfold upd_cpu, set_cycles, set_R.
    cbn [cpu memory ppu keypad R R_banked CPSR SPSR cycles] in *.
    change (Z.of_nat 0) with 0. rewrite Z.mul_0_r, !Z.add_0_r.
    rewrite list_insert_id by exact Hpc. reflexivity.
  - cbn [steps].
    rewrite (bind_ok _ _ _ _ _ (step_over_nop g pc Hwf Hb HT Hpc H0 Hal ltac:(lia))).
    rewrite (IH _ (pc + 4)).
    + do 2 f_equal. unfold upd_cpu, set_cycles, set_R.
      cbn [cpu memory ppu keypad R R_banked CPSR SPSR cycles].
      rewrite list_insert_insert_eq.
      replace (pc + 4 + 4 * Z.of_nat n) with (pc + 4 * Z.of_nat (Datatypes.S n)) by lia.
      replace (cycles (cpu g) + 1 + Z.of_nat n)
        with (cycles (cpu g) + Z.of_nat (Datatypes.S n)) by lia.
      reflexivity.
    + apply (cpu_wf_insert_R (cpu g) 15 (pc + 4)) in Hwf. exact Hwf.
    + exact Hb.
    + exact HT.
    + cbn [cpu upd_cpu R set_cycles set_R].
      apply list_lookup_insert_eq. destruct Hwf as (HR & _). lia.
    + lia.
    + rewrite <- Z.add_mod_idemp_l, Hal by lia. reflexivity.
    + lia.
Qed.

(** The processor [ARM7TDMI.__init__] builds over a fresh [Memory]. *)
Lemma ARM7TDMI_init_state :
  exists g0,
    ARM7TDMI_init GBA_fields = Ok (tt, g0) /\
    bios (memory g0) = dummy_bios /\
    cpu g0 = set_CPSR 0xDF ARM7TDMI_fields /\
    ppu g0 = PPU_init /\ keypad g0 = Keypad_init.
Proof.
  unfold ARM7TDMI_init.
  assert (Hload : load_bios dummy_bios GBA_fields
                  = Ok (tt, upd_memory (set_region_bytes Bios dummy_bios) GBA_fields)).
  { pose proof (len_zeros BIOS_SIZE ltac:(unfold BIOS_SIZE; lia)) as Hz.
    unfold load_bios. rewrite len_dummy_bios.
    change (BIOS_SIZE <? BIOS_SIZE) with false. cbv iota.
    unfold bind, gets, modify.
    change (bios (memory GBA_fields)) with (zeros BIOS_SIZE).
    rewrite setslice_in_range; [|unfold BIOS_SIZE; lia|rewrite Hz; lia].
    change (Z.to_nat 0) with 0%nat. rewrite take_0. cbn [app].
    rewrite drop_ge, app_nil_r; [reflexivity|].
    unfold len in Hz. lia. }
  eexists. split.
  - rewrite (bind_ok _ _ _ _ _ Hload). reflexivity.
  - repeat split.
Qed.

End BootCode.

(** X17 ([Memory.__init__], [ARM7TDMI.__init__], [step], [flamesgbav2.py]
    lines 287-297, 43-67 and 145-202).  A processor constructed over a
    fresh [Memory], [ARM7TDMI(Memory())], walks through the placeholder
    boot code its constructor loads: the constructor returns without
    raising and, for every [n] up to 4096, the first [n] calls of [step]
    return without raising, execute [n] times [MOV R0, R0] and leave the
    program counter at [4 * n], the cycle counter at [n], every other
    register zero, CPSR at 0xDF and memory as the constructor left it. *)
Theorem boot_code_is_a_run_of_nops (n : nat) :
  (n <= 4096)%nat ->
  exists g0,
    Flames.ARM7TDMI_init Flames.GBA_fields = Ok (tt, g0) /\
    Flames.steps n g0
    = Ok (tt, Flames.upd_cpu
                (fun c => Flames.set_cycles (Z.of_nat n)
                            (Flames.set_R (<[15%nat := 4 * Z.of_nat n]> (replicate 16 0)) c))
                g0) /\
    Flames.CPSR (Flames.cpu g0) = 0xDF.
Proof.
  intros Hn. destruct ARM7TDMI_init_state as (g0 & Hinit & Hb & Hc & _).
  exists g0. split; [exact Hinit|]. split; [|rewrite Hc; reflexivity].
  rewrite (steps_over_nops n g0 0).
  - do 2 f_equal. unfold Flames.upd_cpu. rewrite Hc. reflexivity.
  - rewrite Hc. apply (cpu_wf_fields 0xDF).
  - exact Hb.
  - rewrite Hc. reflexivity.
  - rewrite Hc. reflexivity.
  - lia.
  - reflexivity.
  - unfold Flames.BIOS_SIZE. lia.
Qed.

Lemma boot_code_is_a_run_of_nops_witness :
  exists g0,
    Flames.ARM7TDMI_init Flames.GBA_fields = Ok (tt, g0) /\
    Flames.steps 3 g0
    = Ok (tt, Flames.upd_cpu
                (fun c => Flames.set_cycles (Z.of_nat 3)
                            (Flames.set_R (<[15%nat := 4 * Z.of_nat 3]> (replicate 16 0)) c))
                g0) /\
    Flames.CPSR (Flames.cpu g0) = 0xDF.
Proof.
  apply (boot_code_is_a_run_of_nops 3). lia.
Defined.

(** ** [flamesgbav2.py]: the emulation loop *)

Section EmulationLoop.
Import Flames.

Lemma mem_lazy_mem_wf (m m1 : Memory) : mem_lazy m m1 -> mem_wf m -> mem_wf m1.
Proof.
  intros (A1 & A2 & A3 & A4 & A5 & A6 & A7 & A8 & _)
         (W1 & W2 & W3 & W4 & W5 & W6 & W7).
  unfold mem_wf. rewrite A1, A2, A3, A5, A6, A7, A8. auto 10.
Qed.

Lemma machine_inv_fields (p : Z) : machine_inv (upd_cpu (set_CPSR p) GBA_fields).
Proof.
  split; [apply cpu_wf_fields|]. split; [exact ppu_inv_fields|]. cbn. lia.
Qed.

(** One pass of the loop: the processor step costs one cycle and the
    video clock moves by one cycle, modulo the length of a frame. *)
Lemma emulation_iteration_clock (g : GBA) :
  machine_inv g ->
  exists s,
    emulation_iteration g = Ok (1, s) /\ machine_inv s /\
    cycles (cpu s) = cycles (cpu g) + 1 /\
    video_clock (ppu s) = (video_clock (ppu g) + 1) mod (228 * 1232) /\
    keypad s = keypad g.
Proof.
  intros (Hwf & (Hmem & Hpw & Hy) & Hacc).
  destruct (step_total g Hwf) as (s1 & Hstep & He).
  destruct He as (W1 & (P1 & K1 & M1) & _ & C1 & _).
  set (s2 := upd_cpu (fun c => set_cycles (cycles c + 1) c) s1) in *.
  assert (Hinv2 : ppu_inv s2).
  { split; [exact (mem_lazy_mem_wf _ _ M1 Hmem)|].
    unfold s2. cbn [ppu upd_cpu]. rewrite P1. split; [exact Hpw|exact Hy]. }
  assert (Hp2 : ppu s2 = ppu g) by exact P1.
  assert (Hc2 : cycles (cpu s2) = cycles (cpu g) + 1)
    by (unfold s2; cbn [cpu upd_cpu cycles set_cycles]; lia).
  assert (Hiter : forall t s, PPU_step 1 s2 = Ok (t, s) ->
                              emulation_iteration g = Ok (1, s)).
  { intros t s Hp. unfold emulation_iteration.
    unfold bind at 1. unfold gets at 1. cbv beta iota.
    rewrite (bind_ok _ _ _ _ _ Hstep).
    unfold bind at 1. unfold gets at 1. cbv beta iota.
    rewrite Hc2.
    replace (cycles (cpu g) + 1 - cycles (cpu g)) with 1 by lia.
    rewrite (bind_ok _ _ _ _ _ Hp). reflexivity. }
  assert (Hw2 : cpu_wf (cpu s2)) by exact W1.
  destruct (Z_lt_ge_dec (cycles_scanline (ppu s2) + 1) 1232) as [Hlt|Hge].
  - eexists. split; [exact (Hiter _ _ (PPU_step_below s2 1 Hlt))|].
    rewrite Hp2 in Hlt.
    split; [|split; [exact Hc2|split; [|exact K1]]].
    + split; [exact Hw2|]. split; [exact Hinv2|].
      cbn [ppu upd_ppu cycles_scanline set_cycles_scanline]. rewrite Hp2. lia.
    + unfold video_clock.
      cbn [ppu upd_ppu cycles_scanline current_scanline set_cycles_scanline].
      rewrite Hp2. rewrite Z.mod_small by lia. lia.
  - destruct (PPU_step_cross s2 1 Hinv2 ltac:(lia))
      as (s & Hs & Hinv & Hsl & Hcs & Hcpu & Hk & _).
    rewrite Hp2 in Hge, Hsl, Hcs.
    exists s. split; [exact (Hiter _ _ Hs)|].
    split; [|split; [rewrite Hcpu; exact Hc2|split; [|rewrite Hk; exact K1]]].
    + split; [rewrite Hcpu; exact Hw2|]. split; [exact Hinv|lia].
    + unfold video_clock. rewrite Hsl, Hcs.
      destruct (Z.eq_dec (current_scanline (ppu g)) 227) as [E|E].
      * rewrite E. replace (cycles_scanline (ppu g)) with 1231 by lia. reflexivity.
      * rewrite (Z.mod_small (current_scanline (ppu g) + 1)) by lia.
        rewrite Z.mod_small by lia. lia.
Qed.

(** The loop from a running total. *)
Lemma emulation_while_run (fuel : nat) :
  forall (total : Z) (g : GBA),
    machine_inv g -> 0 <= total <= CYCLES_PER_FRAME ->
    CYCLES_PER_FRAME - total <= Z.of_nat fuel ->
    exists s,
      emulation_while fuel total g = Ok (Some CYCLES_PER_FRAME, s) /\
      machine_inv s /\
      cycles (cpu s) = cycles (cpu g) + (CYCLES_PER_FRAME - total) /\
      video_clock (ppu s)
      = (video_clock (ppu g) + (CYCLES_PER_FRAME - total)) mod (228 * 1232) /\
      keypad s = keypad g.
Proof.
  change CYCLES_PER_FRAME with 279620.
  assert (Hclock : forall g, machine_inv g ->
            0 <= video_clock (ppu g) < 228 * 1232).
  { intros g (_ & (_ & _ & Hy) & Hacc). unfold video_clock. lia. }
  induction fuel as [|fuel IH]; intros total g Hinv Ht Hf.
  - assert (total = 279620) as -> by lia.
    exists g. split; [reflexivity|]. split; [exact Hinv|]. split; [lia|].
    split; [|reflexivity].
    rewrite Z.sub_diag, Z.add_0_r, Z.mod_small by (apply Hclock; exact Hinv).
    reflexivity.
  - destruct (Z.eq_dec total 279620) as [->|Hne].
    + exists g. split; [reflexivity|]. split; [exact Hinv|]. split; [lia|].
      split; [|reflexivity].
      rewrite Z.sub_diag, Z.add_0_r, Z.mod_small by (apply Hclock; exact Hinv).
      reflexivity.
    + destruct (emulation_iteration_clock g Hinv) as (s1 & Hit & Hinv1 & Hc1 & Hv1 & Hk1).
      destruct (IH (total + 1) s1 Hinv1 ltac:(lia) ltac:(lia))
        as (s & Hrun & Hinvs & Hcs & Hvs & Hks).
      exists s. split.
      * cbn [emulation_while]. change CYCLES_PER_FRAME with 279620.
        replace (total <? 279620) with true by lia.
        rewrite (bind_ok _ _ _ _ _ Hit). exact Hrun.
      * split; [exact Hinvs|]. split; [lia|]. split; [|congruence].
        rewrite Hvs, Hv1, Z.add_mod_idemp_l by lia. f_equal. lia.
Qed.

End EmulationLoop.

(** X18 ([GBAEmulator.emulation_loop], [flamesgbav2.py] lines 655-668).
    The [while] loop of [emulation_loop] always terminates and
    never raises: from a machine with well-formed registers, buffers of
    their constructed sizes, the scanline index in 0..227 and the cycle
    accumulator in 0..1231, it runs exactly [CYCLES_PER_FRAME] = 279620
    passes, each a processor step of one cycle followed by a video step
    of one cycle.  The video clock advances by 279620 cycles modulo the
    280896 cycles of a video frame, so a pass that starts at scanline 0
    stops at scanline 226 with 1188 cycles accumulated, short of the end
    of the frame. *)
Theorem emulation_loop_runs_cycles_per_frame (g : Flames.GBA) (fuel : nat) :
  Flames.machine_inv g -> Flames.CYCLES_PER_FRAME <= Z.of_nat fuel ->
  exists s,
    Flames.emulation_while fuel 0 g = Ok (Some 279620, s) /\
    Flames.machine_inv s /\
    Flames.cycles (Flames.cpu s) = Flames.cycles (Flames.cpu g) + 279620 /\
    Flames.video_clock (Flames.ppu s)
    = (Flames.video_clock (Flames.ppu g) + 279620) mod (228 * 1232) /\
    (Flames.current_scanline (Flames.ppu g) = 0 ->
     Flames.cycles_scanline (Flames.ppu g) = 0 ->
     Flames.current_scanline (Flames.ppu s) = 226 /\
     Flames.cycles_scanline (Flames.ppu s) = 1188).
Proof.
  intros Hinv Hf.
  destruct (emulation_while_run fuel 0 g Hinv) as (s & Hrun & Hinvs & Hc & Hv & _).
  { change Flames.CYCLES_PER_FRAME with 279620. lia. }
  { lia. }
  change Flames.CYCLES_PER_FRAME with 279620 in *.
  exists s. split; [exact Hrun|]. split; [exact Hinvs|].
  split; [lia|]. split; [rewrite Hv; f_equal|].
  intros H0 H1. unfold Flames.video_clock in Hv. rewrite H0, H1 in Hv.
  change ((0 * 1232 + 0 + (279620 - 0)) mod (228 * 1232)) with 279620 in Hv.
  destruct Hinvs as (_ & (_ & _ & Hy) & Hacc). lia.
Qed.

Lemma emulation_loop_runs_cycles_per_frame_witness :
  exists s,
    Flames.emulation_while (Z.to_nat 279620) 0
      (Flames.upd_cpu (Flames.set_CPSR 0xDF) Flames.GBA_fields)
    = Ok (Some 279620, s) /\
    Flames.machine_inv s /\
    Flames.cycles (Flames.cpu s)
    = Flames.cycles (Flames.cpu (Flames.upd_cpu (Flames.set_CPSR 0xDF) Flames.GBA_fields))
      + 279620 /\
    Flames.video_clock (Flames.ppu s)
    = (Flames.video_clock (Flames.ppu (Flames.upd_cpu (Flames.set_CPSR 0xDF) Flames.GBA_fields))
       + 279620) mod (228 * 1232) /\
    (Flames.current_scanline (Flames.ppu (Flames.upd_cpu (Flames.set_CPSR 0xDF) Flames.GBA_fields)) = 0 ->
     Flames.cycles_scanline (Flames.ppu (Flames.upd_cpu (Flames.set_CPSR 0xDF) Flames.GBA_fields)) = 0 ->
     Flames.current_scanline (Flames.ppu s) = 226 /\
     Flames.cycles_scanline (Flames.ppu s) = 1188).
Proof.
  apply (emulation_loop_runs_cycles_per_frame _ (Z.to_nat 279620) (machine_inv_fields 0xDF)).
  change Flames.CYCLES_PER_FRAME with 279620. lia.
Defined.

(** X19 ([PPU.render_scanline], [flamesgbav2.py] lines 462-488).
    In mode 3 without forced blank, [render_scanline] of a visible
    line never raises and draws exactly that line: every pixel [x] of row
    [y] becomes the 8-bit-per-channel text of the 16-bit value at VRAM
    offset [(y * 240 + x) * 2], and no cell of another row, no byte of
    memory and no counter changes.  (The magenta out-of-range fill of the
    source is never reached for a visible line.) *)
Theorem mode3_scanline_is_the_bitmap_row (g : Flames.GBA) (y d : Z) :
  Flames.mem_wf (Flames.memory g) -> Flames.ppu_wf (Flames.ppu g) ->
  Flames.cache_ok (Flames.ppu g) ->
  0 <= y < Flames.SCREEN_HEIGHT ->
  Flames.dispcnt_of (Flames.memory g) = Some d ->
  Z.land d 0x7 = 3 -> Z.land (Z.shiftr d 7) 1 = 0 ->
  exists s,
    Flames.render_scanline y g = Ok (tt, s) /\
    Flames.row_frame g y s /\
    forall x, 0 <= x < Flames.SCREEN_WIDTH ->
      exists p, Flames.mode3_pixel (Flames.memory g) y x = Some p /\
                Flames.frame_buffer (Flames.ppu s)
                  !! Z.to_nat (y * Flames.SCREEN_WIDTH + x)
                = Some (Flames.tk_color p).
Proof.
  intros Hmem Hwf Hok Hy Hd H3 Hb.
  destruct (render_scanline_row g y Hmem Hwf Hy) as (s & Hr & Hrow & Hpix).
  exists s. split; [exact Hr|]. split; [exact Hrow|].
  exact (Hpix d Hd H3 Hb Hok).
Qed.

Lemma mode3_scanline_is_the_bitmap_row_witness :
  exists s,
    Flames.render_scanline 5 Flames.GBA_mode3 = Ok (tt, s) /\
    Flames.row_frame Flames.GBA_mode3 5 s /\
    forall x, 0 <= x < Flames.SCREEN_WIDTH ->
      exists p, Flames.mode3_pixel (Flames.memory Flames.GBA_mode3) 5 x = Some p /\
                Flames.frame_buffer (Flames.ppu s)
                  !! Z.to_nat (5 * Flames.SCREEN_WIDTH + x)
                = Some (Flames.tk_color p).
Proof.
  destruct ppu_inv_mode3 as (Hm & Hp & _).
  apply (mode3_scanline_is_the_bitmap_row Flames.GBA_mode3 5 3 Hm Hp
           (cache_ok_empty Flames.GBA_mode3 eq_refl));
    [unfold Flames.SCREEN_HEIGHT; lia | reflexivity | reflexivity | reflexivity].
Defined.

(** X20 ([PPU.render_scanline], [flamesgbav2.py] lines 489-514).
    In mode 4 without forced blank, [render_scanline] of a visible
    line never raises and draws exactly that line: pixel [x] of row [y]
    becomes the colour text of the palette entry selected by the byte at
    VRAM offset [page + y * 240 + x], where [page] is 0xA000 when bit 4
    of the display-control register is set and 0 otherwise.  (The green
    and blue out-of-range fills of the source are never reached for a
    visible line.) *)
Theorem mode4_scanline_is_the_paletted_row (g : Flames.GBA) (y d : Z) :
  Flames.mem_wf (Flames.memory g) -> Flames.ppu_wf (Flames.ppu g) ->
  Flames.cache_ok (Flames.ppu g) ->
  0 <= y < Flames.SCREEN_HEIGHT ->
  Flames.dispcnt_of (Flames.memory g) = Some d ->
  Z.land d 0x7 = 4 -> Z.land (Z.shiftr d 7) 1 = 0 ->
  exists s,
    Flames.render_scanline y g = Ok (tt, s) /\
    Flames.row_frame g y s /\
    forall x, 0 <= x < Flames.SCREEN_WIDTH ->
      exists p,
        Flames.mode4_pixel (Flames.memory g)
          (if Z.land (Z.shiftr d 4) 1 =? 0 then 0 else 0xA000) y x = Some p /\
        Flames.frame_buffer (Flames.ppu s)
          !! Z.to_nat (y * Flames.SCREEN_WIDTH + x)
        = Some (Flames.tk_color p).
Proof.
  intros Hmem Hwf Hok Hy Hd H4 Hb.
  destruct (read_dispcnt g Hmem) as (d' & Hd' & Hrd).
  rewrite Hd in Hd'. injection Hd' as <-.
  unfold Flames.render_scanline. rewrite (bind_ok _ _ _ _ _ Hrd). cbv zeta.
  rewrite H4, Hb. change (4 =? 3) with false. change (4 =? 4) with true.
  change (negb (0 =? 0)) with false. cbv iota.
  destruct (mode4_loop_pixels g y
              (if negb (Z.land (Z.shiftr d 4) 1 =? 0) then 0xA000 else 0)
              Hmem Hwf Hy) as (base & s & Hloop & Hrow & Hpix).
  { destruct (negb _); lia. }
  rewrite (bind_ok _ _ _ _ _ Hloop). unfold ret.
  exists s. split; [reflexivity|]. split; [exact Hrow|].
  intros x Hx. destruct (Hpix Hok x Hx) as (p & Hp & Hfb).
  exists p. split; [|exact Hfb].
  destruct (Z.land (Z.shiftr d 4) 1 =? 0); exact Hp.
Qed.

Lemma mode4_scanline_is_the_paletted_row_witness :
  exists s,
    Flames.render_scanline 5
      (Flames.upd_memory
         (Flames.set_region_bytes Flames.Io_regs
            (<[0%nat := Byte.x04]> (zeros Flames.IO_REG_SIZE))) Flames.GBA_fields)
    = Ok (tt, s) /\
    Flames.row_frame
      (Flames.upd_memory
         (Flames.set_region_bytes Flames.Io_regs
            (<[0%nat := Byte.x04]> (zeros Flames.IO_REG_SIZE))) Flames.GBA_fields) 5 s /\
    forall x, 0 <= x < Flames.SCREEN_WIDTH ->
      exists p,
        Flames.mode4_pixel
          (Flames.memory
             (Flames.upd_memory
                (Flames.set_region_bytes Flames.Io_regs
                   (<[0%nat := Byte.x04]> (zeros Flames.IO_REG_SIZE))) Flames.GBA_fields))
          (if Z.land (Z.shiftr 4 4) 1 =? 0 then 0 else 0xA000) 5 x = Some p /\
        Flames.frame_buffer (Flames.ppu s)
          !! Z.to_nat (5 * Flames.SCREEN_WIDTH + x)
        = Some (Flames.tk_color p).
Proof.
  destruct ppu_inv_fields as ((W1 & W2 & W3 & W4 & W5 & W6 & W7) & Hp & _).
  apply (mode4_scanline_is_the_paletted_row _ 5 4).
  - unfold Flames.mem_wf.
    cbn [Flames.memory Flames.upd_memory Flames.set_region_bytes Flames.bios
         Flames.ewram Flames.iwram Flames.io_regs Flames.palette_ram Flames.vram
         Flames.oam].
    rewrite len_insert, len_zeros by (vm_compute; discriminate).
    repeat split; assumption.
  - exact Hp.
  - intros k c Hl. discriminate Hl.
  - unfold Flames.SCREEN_HEIGHT; lia.
  - reflexivity.
  - reflexivity.
  - reflexivity.
Defined.

(** X21 ([PPU.render_scanline], [flamesgbav2.py] lines 462-517).
    With the forced-blank bit (bit 7 of the display-control
    register) set in mode 3 or 4, [render_scanline] paints the whole
    visible line [#000000]; in every other mode (0, 1, 2, 5, 6, 7) it
    paints the whole line [#111111], forced blank or not.  Neither case
    raises or touches another row. *)
Theorem blank_and_unsupported_modes_fill_the_row (g : Flames.GBA) (y d : Z) :
  Flames.mem_wf (Flames.memory g) -> Flames.ppu_wf (Flames.ppu g) ->
  0 <= y < Flames.SCREEN_HEIGHT ->
  Flames.dispcnt_of (Flames.memory g) = Some d ->
  Z.land (Z.shiftr d 7) 1 <> 0 \/ (Z.land d 0x7 <> 3 /\ Z.land d 0x7 <> 4) ->
  exists s,
    Flames.render_scanline y g = Ok (tt, s) /\
    Flames.row_frame g y s /\
    forall x, 0 <= x < Flames.SCREEN_WIDTH ->
      Flames.frame_buffer (Flames.ppu s) !! Z.to_nat (y * Flames.SCREEN_WIDTH + x)
      = Some (if (Z.land d 0x7 =? 3) || (Z.land d 0x7 =? 4)
              then "#000000"%string else "#111111"%string).
Proof.
  intros Hmem Hwf Hy Hd Hcase.
  destruct (read_dispcnt g Hmem) as (d' & Hd' & Hrd).
  rewrite Hd in Hd'. injection Hd' as <-.
  unfold Flames.render_scanline. rewrite (bind_ok _ _ _ _ _ Hrd). cbv zeta.
  destruct (Z.land d 7 =? 3) eqn:E3; [|destruct (Z.land d 7 =? 4) eqn:E4]; cbn [orb].
  - replace (Z.land (Z.shiftr d 7) 1 =? 0) with false by lia. cbn [negb].
    apply fill_line_pixels; assumption.
  - replace (Z.land (Z.shiftr d 7) 1 =? 0) with false by lia. cbn [negb].
    apply fill_line_pixels; assumption.
  - apply fill_line_pixels; assumption.
Qed.

Lemma blank_and_unsupported_modes_fill_the_row_witness :
  exists s,
    Flames.render_scanline 5 Flames.GBA_fields = Ok (tt, s) /\
    Flames.row_frame Flames.GBA_fields 5 s /\
    forall x, 0 <= x < Flames.SCREEN_WIDTH ->
      Flames.frame_buffer (Flames.ppu s) !! Z.to_nat (5 * Flames.SCREEN_WIDTH + x)
      = Some (if (Z.land 0 0x7 =? 3) || (Z.land 0 0x7 =? 4)
              then "#000000"%string else "#111111"%string).
Proof.
  destruct ppu_inv_fields as (Hm & Hp & _).
  apply (blank_and_unsupported_modes_fill_the_row Flames.GBA_fields 5 0 Hm Hp);
    [unfold Flames.SCREEN_HEIGHT; lia | reflexivity | right; split; discriminate].
Defined.

(** ** [flamesgbav2.py]: stores through the bus *)

Section FlamesStores.
Import Flames.

Lemma store_frame_refl (g : GBA) : store_frame g g.
Proof. unfold store_frame. repeat (split; [reflexivity|]). intros r b H. eauto. Qed.

Lemma store_frame_trans (g1 g2 g3 : GBA) :
  store_frame g1 g2 -> store_frame g2 g3 -> store_frame g1 g3.
Proof.
  intros (A1 & A2 & A3 & A4 & A5 & A6 & A7 & A8) (B1 & B2 & B3 & B4 & B5 & B6 & B7 & B8).
  unfold store_frame. repeat (split; [congruence|]).
  intros r b Hb. destruct (A8 r b Hb) as (b' & Hb' & Hl').
  destruct (B8 r b' Hb') as (b'' & Hb'' & Hl''). exists b''. split; [exact Hb''|lia].
Qed.

Lemma store_frame_lazy (g g1 : GBA) : lazy_alloc g g1 -> store_frame g g1.
Proof.
  intros (Hc & Hp & Hk & (A1 & A2 & A3 & A4 & A5 & A6 & A7 & A8 & A9 & A10 & A11 & A12)).
  unfold store_frame. repeat (split; [assumption|]).
  intros r b Hb. destruct r; cbn [region_bytes] in *;
    try (eexists; split; [|reflexivity]; congruence).
  - destruct A11 as [E|[E _]]; [|congruence].
    rewrite E. eauto.
  - destruct A12 as [E|[E _]]; [|congruence].
    rewrite E. eauto.
Qed.

Lemma store_frame_mem_wf (g s : GBA) :
  store_frame g s -> mem_wf (memory g) -> mem_wf (memory s).
Proof.
  intros (_ & _ & _ & _ & _ & _ & _ & H) (W1 & W2 & W3 & W4 & W5 & W6 & W7).
  unfold mem_wf.
  destruct (H Bios _ eq_refl) as (b1 & E1 & L1).
  destruct (H Ewram _ eq_refl) as (b2 & E2 & L2).
  destruct (H Iwram _ eq_refl) as (b3 & E3 & L3).
  destruct (H Io_regs _ eq_refl) as (b4 & E4 & L4).
  destruct (H Palette_ram _ eq_refl) as (b5 & E5 & L5).
  destruct (H Vram _ eq_refl) as (b6 & E6 & L6).
  destruct (H Oam _ eq_refl) as (b7 & E7 & L7).
  cbn [region_bytes] in *.
  injection E1 as <-. injection E2 as <-. injection E3 as <-. injection E4 as <-.
  injection E5 as <-. injection E6 as <-. injection E7 as <-.
  repeat split; congruence.
Qed.

Lemma region_bytes_set_same (r : Region) (b : list byte) (m : Memory) :
  region_bytes r (set_region_bytes r b m) = Some b.
Proof. destruct r; reflexivity. Qed.

Lemma region_bytes_set_other (r r' : Region) (b : list byte) (m : Memory) :
  r <> r' -> region_bytes r' (set_region_bytes r b m) = region_bytes r' m.
Proof. intros H. destruct r, r'; try reflexivity; contradiction. Qed.

(** One byte stored into a buffer that is neither the boot code nor the
    cartridge. *)
Lemma region_store_frame (g : GBA) (r : Region) (b : list byte) (i v : Z) :
  is_rom_like r = false ->
  region_bytes r (memory g) = Some b -> 0 <= i < len b -> 0 <= v < 256 ->
  exists s, region_store r i v g = Ok (tt, s) /\ store_frame g s.
Proof.
  intros Hr Hb Hi Hv. rewrite (region_store_ok g r b i v Hb Hi Hv).
  eexists. split; [reflexivity|].
  unfold store_frame. cbn [cpu ppu keypad memory upd_memory].
  split; [reflexivity|]. split; [reflexivity|]. split; [reflexivity|].
  split; [destruct r; reflexivity|]. split; [destruct r; reflexivity|].
  split; [destruct r; try reflexivity; discriminate Hr|].
  split; [destruct r; try reflexivity; discriminate Hr|].
  intros r' b' Hb'. destruct (decide (r = r')) as [<-|Hne].
  - rewrite region_bytes_set_same. eexists. split; [reflexivity|].
    rewrite len_insert. congruence.
  - rewrite region_bytes_set_other by exact Hne. eauto.
Qed.

(** A byte store that follows other stores. *)
Lemma region_store_chain (g0 g : GBA) (r : Region) (n i v : Z) :
  is_rom_like r = false -> store_frame g0 g ->
  (exists b, region_bytes r (memory g) = Some b /\ len b = n) ->
  0 <= i < n -> 0 <= v < 256 ->
  exists s,
    region_store r i v g = Ok (tt, s) /\ store_frame g0 s /\
    store_frame g s /\
    exists b, region_bytes r (memory s) = Some b /\ len b = n.
Proof.
  intros Hr Hf (b & Hb & Hl) Hi Hv.
  destruct (region_store_frame g r b i v Hr Hb ltac:(lia) Hv) as (s & Hs & Hfs).
  exists s. split; [exact Hs|]. split; [exact (store_frame_trans _ _ _ Hf Hfs)|].
  split; [exact Hfs|].
  destruct Hfs as (_ & _ & _ & _ & _ & _ & _ & H).
  destruct (H r b Hb) as (b' & Hb' & Hl'). exists b'. split; [exact Hb'|lia].
Qed.

Lemma is_rom_like_io : is_rom_like Io_regs = false.
Proof. reflexivity. Qed.

Lemma write_register_halfword_frame (g0 g : GBA) (a v : Z) :
  store_frame g0 g -> len (io_regs (memory g)) = IO_REG_SIZE ->
  0 <= a - IO_REG_START <= 0x61 ->
  exists s,
    write_register_halfword a v g = Ok (tt, s) /\ store_frame g0 s /\
    store_frame g s.
Proof.
  intros Hf Hio Ha. unfold IO_REG_SIZE in Hio. unfold write_register_halfword. cbv zeta.
  destruct (region_store_chain g0 g Io_regs 1024 (a - IO_REG_START) (Z.land v 0xFF)
              is_rom_like_io Hf) as (s1 & H1 & F1 & G1 & B1);
    [eexists; split; [reflexivity|exact Hio] | lia | apply land_FF_range |].
  destruct (region_store_chain g0 s1 Io_regs 1024 (a - IO_REG_START + 1)
              (Z.land (Z.shiftr v 8) 0xFF) is_rom_like_io F1 B1)
    as (s2 & H2 & F2 & G2 & B2); [lia | apply land_FF_range |].
  exists s2. rewrite (bind_ok _ _ _ _ _ H1). split; [exact H2|].
  split; [exact F2|exact (store_frame_trans _ _ _ G1 G2)].
Qed.

(** The forwarding of a store to the register handler of the video
    unit. *)
Lemma forward_frame (g1 : GBA) (r : Region) (a : Z) (c : M GBA unit) :
  (bool_decide (r = Io_regs) && has_ppu (memory g1) && is_ppu_register a = true ->
   exists s, c g1 = Ok (tt, s) /\ store_frame g1 s) ->
  exists s2,
    (let* fwd := to_ppu r a in if fwd then c else ret tt) g1 = Ok (tt, s2) /\
    store_frame g1 s2.
Proof.
  intros Hc. unfold to_ppu, bind, gets, ret. cbv beta iota.
  destruct (bool_decide (r = Io_regs) && has_ppu (memory g1) && is_ppu_register a) eqn:E.
  - destruct (Hc eq_refl) as (s & Hs & Hf). exists s. rewrite Hs. auto.
  - exists g1. split; [reflexivity|apply store_frame_refl].
Qed.

Lemma bind_assoc_unit {S A} (c1 : M S A) (k1 : A -> M S unit) (c2 : M S unit) (s : S) :
  (let* a := c1 in k1 a ;; c2) s = ((let* a := c1 in k1 a) ;; c2) s.
Proof. unfold bind. destruct (c1 s) as [[a s1]|e]; reflexivity. Qed.

(** The bytes of a buffer after other stores. *)
Lemma store_frame_bytes (g1 s2 : GBA) (r : Region) (b : list byte) :
  store_frame g1 s2 -> region_bytes r (memory g1) = Some b ->
  exists b', region_bytes r (memory s2) = Some b' /\ len b' = len b.
Proof. intros (_ & _ & _ & _ & _ & _ & _ & H) Hb. exact (H r b Hb). Qed.

(** The skeleton the three store methods share: region lookup, the return
    for the boot code and the cartridge, the forwarding to the video unit,
    the bounds test and the final stores. *)
Lemma store_skeleton (g : GBA) (addr : Z) (fwd : M GBA unit)
      (lim : Z -> Z) (fin : Region -> Z -> M GBA unit) (n : Z) :
  (forall off, lim off = off + n) ->
  (forall g1, store_frame g g1 -> is_ppu_register addr = true ->
              exists s, fwd g1 = Ok (tt, s) /\ store_frame g1 s) ->
  (forall g1 s2 r b off,
     is_rom_like r = false -> store_frame g1 s2 ->
     region_bytes r (memory g1) = Some b -> 0 <= off -> off + n < len b ->
     exists s3, fin r off s2 = Ok (tt, s3) /\ store_frame g1 s3) ->
  exists s,
    (let* (mem_region, offset) := _get_memory_region_and_offset addr in
     if is_rom_like mem_region then ret tt
     else
       let* f := to_ppu mem_region addr in
       (if f then fwd else ret tt) ;;
       let* b := region_get mem_region in
       if len b <=? lim offset then ret tt
       else fin mem_region offset) g
    = Ok (tt, s) /\ store_frame g s.
Proof.
  intros Hlim Hfwd Hfin.
  destruct (get_region_total addr g) as (r & off & g1 & b & Hget & Hoff & Hlazy & Hb & _).
  pose proof (store_frame_lazy g g1 Hlazy) as F1.
  rewrite (bind_ok _ _ _ _ _ Hget).
  destruct (is_rom_like r) eqn:Hr; [exists g1; split; [reflexivity|exact F1]|].
  destruct (forward_frame g1 r addr fwd) as (s2 & Hs2 & F2).
  { intros E. apply Hfwd; [exact F1|]. apply andb_true_iff in E. apply E. }
  rewrite bind_assoc_unit. rewrite (bind_ok _ _ _ _ _ Hs2).
  destruct (store_frame_bytes g1 s2 r b F2 Hb) as (b2 & Hb2 & Hl2).
  unfold bind at 1. unfold region_get at 1. rewrite Hb2. cbv beta iota.
  rewrite Hlim.
  destruct (len b2 <=? off + n) eqn:Hle.
  - exists s2. split; [reflexivity|exact (store_frame_trans _ _ _ F1 F2)].
  - destruct (Hfin g1 s2 r b off Hr F2 Hb Hoff ltac:(lia)) as (s3 & Hs3 & F3).
    exists s3. split; [exact Hs3|exact (store_frame_trans _ _ _ F1 F3)].
Qed.

End FlamesStores.

(** X22 ([Memory.write_byte], [write_halfword], [write_word], [flamesgbav2.py] lines 362-401).
    No store through the [Memory] bus of [flamesgbav2.py] raises:
    with the fixed buffers of their constructed sizes, [write_byte],
    [write_halfword] and [write_word] return for every address and every
    value.  A store changes neither the boot code nor the cartridge, nor
    the length of any buffer, nor anything outside memory. *)
Theorem flames_stores_never_raise (g : Flames.GBA) (a v : Z) :
  Flames.mem_wf (Flames.memory g) ->
  (exists s, Flames.write_byte a v g = Ok (tt, s) /\ Flames.store_frame g s /\
             Flames.mem_wf (Flames.memory s)) /\
  (exists s, Flames.write_halfword a v g = Ok (tt, s) /\ Flames.store_frame g s /\
             Flames.mem_wf (Flames.memory s)) /\
  (exists s, Flames.write_word a v g = Ok (tt, s) /\ Flames.store_frame g s /\
             Flames.mem_wf (Flames.memory s)).
Proof.
  intros Hwf.
  assert (Hfin : forall s, Flames.store_frame g s -> Flames.mem_wf (Flames.memory s))
    by (intros s Hs; exact (store_frame_mem_wf g s Hs Hwf)).
  assert (Hio : forall g1, Flames.store_frame g g1 ->
                           len (Flames.io_regs (Flames.memory g1)) = Flames.IO_REG_SIZE).
  { intros g1 F. destruct (Hfin g1 F) as (_ & _ & _ & H & _). exact H. }
  split; [|split].
  - destruct (store_skeleton g a (Flames.write_register_byte a (Z.land v 0xFF))
                (fun off => off)
                (fun r off => Flames.region_store r off (Z.land v 0xFF)) 0)
      as (s & Hs & F).
    + intros off. lia.
    + intros g1 F1 Hreg. unfold Flames.write_register_byte. cbv zeta.
      unfold Flames.is_ppu_register in Hreg. cbv zeta in Hreg.
      destruct (region_store_chain g1 g1 Flames.Io_regs 1024 (a - Flames.IO_REG_START)
                  (Z.land v 0xFF) is_rom_like_io (store_frame_refl g1))
        as (s & Hs & Fs & _);
        [eexists; split; [reflexivity|exact (Hio g1 F1)] | lia | apply land_FF_range |].
      exists s. auto.
    + intros g1 s2 r b off Hr F2 Hb Hoff Hlt.
      destruct (region_store_chain g1 s2 r (len b) off (Z.land v 0xFF) Hr F2
                  (store_frame_bytes g1 s2 r b F2 Hb))
        as (s3 & Hs3 & F3 & _); [lia | apply land_FF_range |].
      exists s3. auto.
    + exists s. split; [exact Hs|]. split; [exact F|exact (Hfin s F)].
  - set (addr := if Z.land a 1 =? 0 then a else Z.land a (Z.lnot 1)).
    destruct (store_skeleton g addr
                (Flames.write_register_halfword addr (Z.land v 0xFFFF))
                (fun off => off + 1)
                (fun r off =>
                   Flames.region_store r off (Z.land (Z.land v 0xFFFF) 0xFF) ;;
                   Flames.region_store r (off + 1)
                     (Z.land (Z.shiftr (Z.land v 0xFFFF) 8) 0xFF)) 1)
      as (s & Hs & F).
    + intros off. reflexivity.
    + intros g1 F1 Hreg.
      unfold Flames.is_ppu_register in Hreg. cbv zeta in Hreg.
      destruct (write_register_halfword_frame g1 g1 addr (Z.land v 0xFFFF)
                  (store_frame_refl g1) (Hio g1 F1)) as (s & Hs & Fs & _); [lia|].
      exists s. auto.
    + intros g1 s2 r b off Hr F2 Hb Hoff Hlt.
      destruct (region_store_chain g1 s2 r (len b) off
                  (Z.land (Z.land v 0xFFFF) 0xFF) Hr F2
                  (store_frame_bytes g1 s2 r b F2 Hb))
        as (s3 & Hs3 & F3 & _ & B3); [lia | apply land_FF_range |].
      destruct (region_store_chain g1 s3 r (len b) (off + 1)
                  (Z.land (Z.shiftr (Z.land v 0xFFFF) 8) 0xFF) Hr F3 B3)
        as (s4 & Hs4 & F4 & _); [lia | apply land_FF_range |].
      exists s4. rewrite (bind_ok _ _ _ _ _ Hs3). auto.
    + exists s. split; [exact Hs|]. split; [exact F|exact (Hfin s F)].
  - set (addr := if Z.land a 3 =? 0 then a else Z.land a (Z.lnot 3)).
    destruct (store_skeleton g addr
                (Flames.write_register_word addr (Z.land v 0xFFFFFFFF))
                (fun off => off + 3)
                (fun r off =>
                   Flames.region_store r off (Z.land (Z.land v 0xFFFFFFFF) 0xFF) ;;
                   Flames.region_store r (off + 1)
                     (Z.land (Z.shiftr (Z.land v 0xFFFFFFFF) 8) 0xFF) ;;
                   Flames.region_store r (off + 2)
                     (Z.land (Z.shiftr (Z.land v 0xFFFFFFFF) 16) 0xFF) ;;
                   Flames.region_store r (off + 3)
                     (Z.land (Z.shiftr (Z.land v 0xFFFFFFFF) 24) 0xFF)) 3)
      as (s & Hs & F).
    + intros off. reflexivity.
    + intros g1 F1 Hreg.
      unfold Flames.is_ppu_register in Hreg. cbv zeta in Hreg.
      unfold Flames.write_register_word.
      destruct (write_register_halfword_frame g1 g1 addr
                  (Z.land (Z.land v 0xFFFFFFFF) 0xFFFF)
                  (store_frame_refl g1) (Hio g1 F1)) as (s1 & Hs1 & _ & F11); [lia|].
      destruct (write_register_halfword_frame g1 s1 (addr + 2)
                  (Z.land (Z.shiftr (Z.land v 0xFFFFFFFF) 16) 0xFFFF)
                  F11 (Hio s1 (store_frame_trans _ _ _ F1 F11)))
        as (s2 & Hs2 & F12 & _); [lia|].
      exists s2. rewrite (bind_ok _ _ _ _ _ Hs1). auto.
    + intros g1 s2 r b off Hr F2 Hb Hoff Hlt.
      destruct (region_store_chain g1 s2 r (len b) off
                  (Z.land (Z.land v 0xFFFFFFFF) 0xFF) Hr F2
                  (store_frame_bytes g1 s2 r b F2 Hb))
        as (s3 & Hs3 & F3 & _ & B3); [lia | apply land_FF_range |].
      destruct (region_store_chain g1 s3 r (len b) (off + 1)
                  (Z.land (Z.shiftr (Z.land v 0xFFFFFFFF) 8) 0xFF) Hr F3 B3)
        as (s4 & Hs4 & F4 & _ & B4); [lia | apply land_FF_range |].
      destruct (region_store_chain g1 s4 r (len b) (off + 2)
                  (Z.land (Z.shiftr (Z.land v 0xFFFFFFFF) 16) 0xFF) Hr F4 B4)
        as (s5 & Hs5 & F5 & _ & B5); [lia | apply land_FF_range |].
      destruct (region_store_chain g1 s5 r (len b) (off + 3)
                  (Z.land (Z.shiftr (Z.land v 0xFFFFFFFF) 24) 0xFF) Hr F5 B5)
        as (s6 & Hs6 & F6 & _); [lia | apply land_FF_range |].
      exists s6. rewrite (bind_ok _ _ _ _ _ Hs3), (bind_ok _ _ _ _ _ Hs4),
        (bind_ok _ _ _ _ _ Hs5). auto.
    + exists s. split; [exact Hs|]. split; [exact F|exact (Hfin s F)].
Qed.

Lemma flames_stores_never_raise_witness :
  (exists s, Flames.write_byte 0x04000006 0x1FF Flames.GBA_fields = Ok (tt, s) /\
             Flames.store_frame Flames.GBA_fields s /\ Flames.mem_wf (Flames.memory s)) /\
  (exists s, Flames.write_halfword 0x04000006 0x1FF Flames.GBA_fields = Ok (tt, s) /\
             Flames.store_frame Flames.GBA_fields s /\ Flames.mem_wf (Flames.memory s)) /\
  (exists s, Flames.write_word 0x04000006 0x1FF Flames.GBA_fields = Ok (tt, s) /\
             Flames.store_frame Flames.GBA_fields s /\ Flames.mem_wf (Flames.memory s)).
Proof.
  apply (flames_stores_never_raise Flames.GBA_fields 0x04000006 0x1FF mem_wf_init).
Defined.

(** ** [flamesgbav2.py]: key events *)

Section KeyEvents.
Import Flames.

Lemma key_map_bits (k : string) (bit : Z) :
  key_map !! k = Some bit -> 0 <= bit <= 9.
Proof.
  unfold key_map. intros H. apply elem_of_list_to_map_2 in H.
  repeat (apply elem_of_cons in H; destruct H as [H|H]; [injection H as -> ->; lia|]).
  apply elem_of_nil in H. contradiction.
Qed.

(** The two register bytes [update_keyinput_reg] stores. *)
Lemma update_keyinput_reg_ok (g : GBA) :
  len (io_regs (memory g)) = IO_REG_SIZE ->
  update_keyinput_reg g
  = Ok (tt, upd_memory
              (set_region_bytes Io_regs
                 (<[0x131%nat := byte.of_Z (Z.land (Z.shiftr (key_state (keypad g)) 8) 0xFF)]>
                    (<[0x130%nat := byte.of_Z (Z.land (key_state (keypad g)) 0xFF)]>
                       (io_regs (memory g))))) g).
Proof.
  intros Hlen. unfold IO_REG_SIZE in Hlen.
  unfold update_keyinput_reg, bind, gets. cbv beta iota.
  erewrite region_store_ok; [ | reflexivity | lia | apply land_FF_range ].
  cbv beta iota.
  erewrite region_store_ok;
    [ | reflexivity | cbn; rewrite len_insert; lia | apply land_FF_range ].
  reflexivity.
Qed.

(** The halfword a register pair holds after [update_keyinput_reg]. *)
Lemma keyinput_halfword (ks : Z) :
  Z.lor (byte.unsigned (byte.of_Z (Z.land ks 0xFF)))
        (Z.shiftl (byte.unsigned (byte.of_Z (Z.land (Z.shiftr ks 8) 0xFF))) 8)
  = Z.land ks 0xFFFF.
Proof.
  rewrite !byte.unsigned_of_Z. unfold byte.wrap.
  rewrite !Z.mod_small by (apply land_FF_range).
  apply Z.bits_inj'. intros i Hi.
  rewrite Z.lor_spec, Z.shiftl_spec, !Z.land_spec by lia.
  change 0xFF with (Z.ones 8). change 0xFFFF with (Z.ones 16).
  destruct (Z.lt_ge_cases i 8) as [H8|H8].
  - rewrite (Z.testbit_neg_r _ (i - 8)) by lia.
    rewrite (Z.ones_spec_low 8), (Z.ones_spec_low 16) by lia.
    rewrite orb_false_r. reflexivity.
  - rewrite Z.shiftr_spec by lia.
    rewrite (Z.ones_spec_high 8 i) by lia. rewrite andb_false_r. cbn [orb].
    replace (i - 8 + 8) with i by lia.
    destruct (Z.lt_ge_cases i 16) as [H16|H16].
    + rewrite (Z.ones_spec_low 8), (Z.ones_spec_low 16) by lia. reflexivity.
    + rewrite (Z.ones_spec_high 8), (Z.ones_spec_high 16) by lia. reflexivity.
Qed.

(** The halfword read of the input register after the latch has been
    mirrored. *)
Lemma read_keyinput_after_update (g s : GBA) :
  len (io_regs (memory g)) = IO_REG_SIZE ->
  update_keyinput_reg g = Ok (tt, s) ->
  read_halfword 0x04000130 s = Ok (Z.land (key_state (keypad g)) 0xFFFF, s) /\
  key_state (keypad s) = key_state (keypad g) /\
  len (io_regs (memory s)) = IO_REG_SIZE /\
  cpu s = cpu g /\ ppu s = ppu g.
Proof.
  intros Hlen Hu. rewrite (update_keyinput_reg_ok g Hlen) in Hu.
  injection Hu as <-. unfold IO_REG_SIZE in *.
  split; [|split; [reflexivity|split; [|split; reflexivity]]].
  - unfold read_halfword, bind. rewrite get_region_keyinput_hw.
    cbv beta iota. unfold region_get.
    cbn [memory upd_memory region_bytes set_region_bytes io_regs].
    rewrite !len_insert.
    replace (len (io_regs (memory g)) <=? 304 + 1) with false by lia.
    unfold lift.
    erewrite (getitem_lookup _ 304); [| lia |].
    2:{ change (Z.to_nat 304) with 304%nat.
        rewrite list_lookup_insert_ne by lia.
        apply list_lookup_insert_eq. unfold len in Hlen. lia. }
    erewrite (getitem_lookup _ (304 + 1)); [| lia |].
    2:{ change (Z.to_nat (304 + 1)) with 305%nat.
        apply list_lookup_insert_eq. rewrite length_insert.
        unfold len in Hlen. lia. }
    unfold ret. rewrite keyinput_halfword. reflexivity.
  - cbn [memory upd_memory set_region_bytes io_regs]. rewrite !len_insert. exact Hlen.
Qed.

(** [key_down] and [key_up] are a change of the latch followed by the
    mirroring. *)
Lemma key_down_as_update (g : GBA) (key_name : string) :
  key_down key_name g
  = update_keyinput_reg
      (match key_map !! lower key_name with
       | Some bit =>
           upd_keypad (fun k => mkKeypad (Z.land (key_state k) (Z.lnot (Z.shiftl 1 bit)))) g
       | None => g
       end).
Proof.
  unfold key_down. cbv zeta. destruct (key_map !! lower key_name); reflexivity.
Qed.

Lemma key_up_as_update (g : GBA) (key_name : string) :
  key_up key_name g
  = update_keyinput_reg
      (match key_map !! lower key_name with
       | Some bit =>
           upd_keypad (fun k => mkKeypad (Z.lor (key_state k) (Z.shiftl 1 bit))) g
       | None => g
       end).
Proof.
  unfold key_up. cbv zeta. destruct (key_map !! lower key_name); reflexivity.
Qed.

Lemma update_keyinput_reg_total (g : GBA) :
  len (io_regs (memory g)) = IO_REG_SIZE ->
  exists s, update_keyinput_reg g = Ok (tt, s).
Proof. intros H. rewrite (update_keyinput_reg_ok g H). eauto. Qed.

Lemma clear_bit_spec (ks bit i : Z) :
  0 <= bit -> 0 <= i ->
  Z.testbit (Z.land ks (Z.lnot (Z.shiftl 1 bit))) i
  = if i =? bit then false else Z.testbit ks i.
Proof.
  intros Hb Hi. rewrite Z.land_spec, Z.lnot_spec, Z.shiftl_spec by lia.
  destruct (i =? bit) eqn:E.
  - assert (i = bit) as -> by lia. rewrite Z.sub_diag. cbn. apply andb_false_r.
  - destruct (Z.lt_ge_cases i bit).
    + rewrite (Z.testbit_neg_r 1 (i - bit)) by lia. apply andb_true_r.
    + change 1 with (Z.ones 1). rewrite Z.ones_spec_high by lia. apply andb_true_r.
Qed.

Lemma set_bit_spec (ks bit i : Z) :
  0 <= bit -> 0 <= i ->
  Z.testbit (Z.lor ks (Z.shiftl 1 bit)) i
  = if i =? bit then true else Z.testbit ks i.
Proof.
  intros Hb Hi. rewrite Z.lor_spec, Z.shiftl_spec by lia.
  destruct (i =? bit) eqn:E.
  - assert (i = bit) as -> by lia. rewrite Z.sub_diag. cbn. apply orb_true_r.
  - destruct (Z.lt_ge_cases i bit).
    + rewrite (Z.testbit_neg_r 1 (i - bit)) by lia. apply orb_false_r.
    + change 1 with (Z.ones 1). rewrite Z.ones_spec_high by lia. apply orb_false_r.
Qed.

End KeyEvents.

(** X23 ([Keypad.key_down], [key_up], [update_keyinput_reg], [Memory.read_halfword], [flamesgbav2.py] lines 541-557 and 345-351).
    After any key event, pressed or released, known key name or
    not, the halfword read of the input register 0x04000130 returns the
    low 16 bits of the keypad latch: [key_down] and [key_up] never raise
    and always mirror the latch into the two register bytes.  A key name
    that is not in the key map leaves the latch as it was. *)
Theorem keyinput_register_mirrors_latch (g : Flames.GBA) (key_name : string) :
  len (Flames.io_regs (Flames.memory g)) = Flames.IO_REG_SIZE ->
  (exists s,
     Flames.key_down key_name g = Ok (tt, s) /\
     Flames.read_halfword 0x04000130 s
     = Ok (Z.land (Flames.key_state (Flames.keypad s)) 0xFFFF, s) /\
     (Flames.key_map !! lower key_name = None ->
      Flames.key_state (Flames.keypad s) = Flames.key_state (Flames.keypad g))) /\
  (exists s,
     Flames.key_up key_name g = Ok (tt, s) /\
     Flames.read_halfword 0x04000130 s
     = Ok (Z.land (Flames.key_state (Flames.keypad s)) 0xFFFF, s) /\
     (Flames.key_map !! lower key_name = None ->
      Flames.key_state (Flames.keypad s) = Flames.key_state (Flames.keypad g))).
Proof.
  intros Hlen. split.
  - rewrite key_down_as_update.
    set (g1 := match Flames.key_map !! lower key_name with Some _ => _ | None => _ end).
    assert (Hl1 : len (Flames.io_regs (Flames.memory g1)) = Flames.IO_REG_SIZE)
      by (unfold g1; destruct (Flames.key_map !! lower key_name); exact Hlen).
    destruct (update_keyinput_reg_total g1 Hl1) as (s & Hs).
    destruct (read_keyinput_after_update g1 s Hl1 Hs) as (Hr & Hk & _).
    exists s. split; [exact Hs|]. rewrite Hk. split; [exact Hr|].
    intros Hnone. unfold g1. rewrite Hnone. reflexivity.
  - rewrite key_up_as_update.
    set (g1 := match Flames.key_map !! lower key_name with Some _ => _ | None => _ end).
    assert (Hl1 : len (Flames.io_regs (Flames.memory g1)) = Flames.IO_REG_SIZE)
      by (unfold g1; destruct (Flames.key_map !! lower key_name); exact Hlen).
    destruct (update_keyinput_reg_total g1 Hl1) as (s & Hs).
    destruct (read_keyinput_after_update g1 s Hl1 Hs) as (Hr & Hk & _).
    exists s. split; [exact Hs|]. rewrite Hk. split; [exact Hr|].
    intros Hnone. unfold g1. rewrite Hnone. reflexivity.
Qed.

Lemma keyinput_register_mirrors_latch_witness :
  (exists s,
     Flames.key_down "Up" Flames.GBA_fields = Ok (tt, s) /\
     Flames.read_halfword 0x04000130 s
     = Ok (Z.land (Flames.key_state (Flames.keypad s)) 0xFFFF, s) /\
     (Flames.key_map !! lower "Up" = None ->
      Flames.key_state (Flames.keypad s)
      = Flames.key_state (Flames.keypad Flames.GBA_fields))) /\
  (exists s,
     Flames.key_up "Up" Flames.GBA_fields = Ok (tt, s) /\
     Flames.read_halfword 0x04000130 s
     = Ok (Z.land (Flames.key_state (Flames.keypad s)) 0xFFFF, s) /\
     (Flames.key_map !! lower "Up" = None ->
      Flames.key_state (Flames.keypad s)
      = Flames.key_state (Flames.keypad Flames.GBA_fields))).
Proof.
  apply (keyinput_register_mirrors_latch Flames.GBA_fields "Up").
  apply len_zeros. vm_compute; discriminate.
Defined.

(** X24 ([Keypad.key_down], [key_up], [flamesgbav2.py] lines 541-553).
    Pressing and then releasing a key of the key map clears and
    then sets exactly its bit of the latch: after [key_down] the bit is 0,
    after the following [key_up] it is 1, every other bit is as before at
    both moments, and the latch is back to its value before the press
    whenever the bit was set then (as it is for every key from the initial
    latch 0xFFFF).  Key names are matched without regard to case. *)
Theorem press_then_release_restores_latch
        (g : Flames.GBA) (key_name : string) (bit : Z) :
  len (Flames.io_regs (Flames.memory g)) = Flames.IO_REG_SIZE ->
  Flames.key_map !! lower key_name = Some bit ->
  exists s1 s2,
    Flames.key_down key_name g = Ok (tt, s1) /\
    Flames.key_up key_name s1 = Ok (tt, s2) /\
    Z.testbit (Flames.key_state (Flames.keypad s1)) bit = false /\
    Z.testbit (Flames.key_state (Flames.keypad s2)) bit = true /\
    (forall i, 0 <= i -> i <> bit ->
       Z.testbit (Flames.key_state (Flames.keypad s1)) i
       = Z.testbit (Flames.key_state (Flames.keypad g)) i /\
       Z.testbit (Flames.key_state (Flames.keypad s2)) i
       = Z.testbit (Flames.key_state (Flames.keypad g)) i) /\
    (Z.testbit (Flames.key_state (Flames.keypad g)) bit = true ->
     Flames.key_state (Flames.keypad s2) = Flames.key_state (Flames.keypad g)).
Proof.
  intros Hlen Hbit. pose proof (key_map_bits _ _ Hbit) as Hb.
  set (ks := Flames.key_state (Flames.keypad g)).
  set (g1 := Flames.upd_keypad
               (fun k => Flames.mkKeypad
                           (Z.land (Flames.key_state k) (Z.lnot (Z.shiftl 1 bit)))) g).
  destruct (update_keyinput_reg_total g1 Hlen) as (s1 & Hs1).
  destruct (read_keyinput_after_update g1 s1 Hlen Hs1) as (_ & Hk1 & Hl1 & _).
  set (g2 := Flames.upd_keypad
               (fun k => Flames.mkKeypad (Z.lor (Flames.key_state k) (Z.shiftl 1 bit))) s1).
  destruct (update_keyinput_reg_total g2 Hl1) as (s2 & Hs2).
  destruct (read_keyinput_after_update g2 s2 Hl1 Hs2) as (_ & Hk2 & _).
  assert (E1 : Flames.key_state (Flames.keypad s1) = Z.land ks (Z.lnot (Z.shiftl 1 bit)))
    by (rewrite Hk1; reflexivity).
  assert (E2 : Flames.key_state (Flames.keypad s2)
               = Z.lor (Z.land ks (Z.lnot (Z.shiftl 1 bit))) (Z.shiftl 1 bit))
    by (rewrite Hk2; unfold g2; cbn [Flames.keypad Flames.upd_keypad Flames.key_state];
        rewrite E1; reflexivity).
  exists s1, s2.
  split; [rewrite key_down_as_update, Hbit; exact Hs1|].
  split; [rewrite key_up_as_update, Hbit; exact Hs2|].
  rewrite E1, E2.
  split; [rewrite clear_bit_spec by lia; rewrite Z.eqb_refl; reflexivity|].
  split; [rewrite set_bit_spec by lia; rewrite Z.eqb_refl; reflexivity|].
  split.
  - intros i Hi Hne. rewrite set_bit_spec, !clear_bit_spec by lia.
    replace (i =? bit) with false by lia. auto.
  - intros Hset. apply Z.bits_inj'. intros i Hi.
    rewrite set_bit_spec, clear_bit_spec by lia.
    destruct (i =? bit) eqn:E; [|reflexivity].
    assert (i = bit) as -> by lia. symmetry. exact Hset.
Qed.

Lemma press_then_release_restores_latch_witness :
  exists s1 s2,
    Flames.key_down "Return" Flames.GBA_fields = Ok (tt, s1) /\
    Flames.key_up "Return" s1 = Ok (tt, s2) /\
    Z.testbit (Flames.key_state (Flames.keypad s1)) 3 = false /\
    Z.testbit (Flames.key_state (Flames.keypad s2)) 3 = true /\
    (forall i, 0 <= i -> i <> 3 ->
       Z.testbit (Flames.key_state (Flames.keypad s1)) i
       = Z.testbit (Flames.key_state (Flames.keypad Flames.GBA_fields)) i /\
       Z.testbit (Flames.key_state (Flames.keypad s2)) i
       = Z.testbit (Flames.key_state (Flames.keypad Flames.GBA_fields)) i) /\
    (Z.testbit (Flames.key_state (Flames.keypad Flames.GBA_fields)) 3 = true ->
     Flames.key_state (Flames.keypad s2)
     = Flames.key_state (Flames.keypad Flames.GBA_fields)).
Proof.
  apply (press_then_release_restores_latch Flames.GBA_fields "Return" 3).
  - apply len_zeros. vm_compute; discriminate.
  - reflexivity.
Defined.

(** ** [0.py], second bus: what holds of [read] and [write] *)

Section SecondBus.
Import MemoryManager2.

Lemma region_of_not_invalid (r : Region) (m : t) :
  r <> invalid -> exists b, region_of r m = Some b.
Proof. intros H. destruct r; cbn [region_of]; eauto. contradiction. Qed.

Lemma find_region_not_invalid (romlen a : Z) (r : Region) (off : Z) :
  find_region romlen a REGION_MAP = Some (r, off) -> r <> invalid.
Proof.
  unfold REGION_MAP. cbn [find_region].
  repeat match goal with
         | |- context [if ?c then _ else _] => destruct c
         end; intros [= <- <-]; discriminate.
Qed.

End SecondBus.

(** X25 ([MemoryManager.read], [write], [0.py] lines 456-475).
    On the second bus of [0.py], [write] followed by [read] at the
    same address and width returns the value written whenever the access
    lies inside a writable region and the value fits the width
    ([0 <= value < 256 ^ size]); neither call raises and no buffer other
    than the region's changes its length. *)
Theorem second_bus_round_trip_when_value_fits
        (m : MemoryManager2.t) (a v size : Z) (r : MemoryManager.Region)
        (off : Z) (mem : list byte) :
  MemoryManager2.find_region (len (MemoryManager2.m_rom m)) a MemoryManager2.REGION_MAP
  = Some (r, off) ->
  MemoryManager2.writable r ->
  MemoryManager2.region_of r m = Some mem ->
  off + size <= len mem -> 0 <= size -> 0 <= v < 256 ^ size ->
  exists m1,
    MemoryManager2.write a v size m = Ok (tt, m1) /\
    MemoryManager2.read a size m1 = Ok (v, m1) /\
    MemoryManager2.warnings m1 = MemoryManager2.warnings m.
Proof.
  intros Hf Hw Hreg Hb Hs Hv.
  destruct (mm2_write_read_roundtrip m a v size r off mem Hf Hw Hreg Hb Hs Hv)
    as (m1 & Hwr & Hrd & _).
  exists m1. split; [exact Hwr|]. split; [exact Hrd|].
  destruct Hw as (W1 & W2 & W3).
  rewrite (mm2_write_in_bounds m a v size r off mem Hf (conj W1 (conj W2 W3)) Hreg Hb)
    in Hwr.
  rewrite to_bytes_in_range in Hwr by assumption.
  injection Hwr as <-. destruct r; reflexivity.
Qed.

Lemma second_bus_round_trip_when_value_fits_witness :
  exists m1,
    MemoryManager2.write 0x03000010 0xCAFE 2 MemoryManager2.init = Ok (tt, m1) /\
    MemoryManager2.read 0x03000010 2 m1 = Ok (0xCAFE, m1) /\
    MemoryManager2.warnings m1 = MemoryManager2.warnings MemoryManager2.init.
Proof.
  apply (second_bus_round_trip_when_value_fits MemoryManager2.init 0x03000010 0xCAFE 2
           MemoryManager.iwram 0x10 (zeros (32 * 1024)));
    [ reflexivity | repeat split; discriminate | reflexivity
    | rewrite len_zeros by lia; lia | lia | lia ].
Defined.

(** X26 ([MemoryManager.write], [0.py] lines 466-475).
    On the second bus of [0.py], a [write] to the boot code, to the
    cartridge or to an unmapped address stores nothing and does not raise,
    whatever the value and the width (the value is never converted): every
    buffer is as before and the warning list grows by the illegal-write
    warning, preceded by the unmapped-access warning when the address is
    unmapped. *)
Theorem second_bus_illegal_write_is_dropped (m : MemoryManager2.t) (a v size : Z) :
  match MemoryManager2.find_region (len (MemoryManager2.m_rom m)) a
          MemoryManager2.REGION_MAP with
  | Some (r, _) => r = MemoryManager.bios \/ r = MemoryManager.rom
  | None => True
  end ->
  exists ws,
    MemoryManager2.write a v size m
    = Ok (tt, MemoryManager2.set_warnings (MemoryManager2.warnings m ++ ws) m) /\
    ws = match MemoryManager2.find_region (len (MemoryManager2.m_rom m)) a
                 MemoryManager2.REGION_MAP with
         | Some (r, _) => [MemoryManager2.IllegalWrite r a]
         | None => [MemoryManager2.Unmapped a;
                    MemoryManager2.IllegalWrite MemoryManager.invalid a]
         end.
Proof.
  intros H. unfold MemoryManager2.write, MemoryManager2.map_address, bind, gets.
  cbv beta iota.
  destruct (MemoryManager2.find_region (len (MemoryManager2.m_rom m)) a
              MemoryManager2.REGION_MAP) as [[r off]|] eqn:E.
  - eexists. split; [|reflexivity]. unfold ret.
    destruct H as [-> | ->]; reflexivity.
  - eexists. split; [|reflexivity].
    unfold MemoryManager2.warn, modify, ret. cbv beta iota.
    rewrite (bool_decide_eq_true_2 (MemoryManager.invalid = MemoryManager.invalid))
      by reflexivity.
    cbn [orb].
    destruct m as [b1 b2 b3 b4 b5 b6 b7 b8 b9 ws].
    unfold MemoryManager2.set_warnings.
    cbn [MemoryManager2.warnings MemoryManager2.m_bios MemoryManager2.m_ewram
         MemoryManager2.m_iwram MemoryManager2.m_io_regs MemoryManager2.m_palette
         MemoryManager2.m_vram MemoryManager2.m_oam MemoryManager2.m_sram
         MemoryManager2.m_rom].
    rewrite <- app_assoc. reflexivity.
Qed.

Lemma second_bus_illegal_write_is_dropped_witness :
  exists ws,
    MemoryManager2.write 0x00000010 0x12345 1 MemoryManager2.init
    = Ok (tt, MemoryManager2.set_warnings
                (MemoryManager2.warnings MemoryManager2.init ++ ws) MemoryManager2.init) /\
    ws = match MemoryManager2.find_region (len (MemoryManager2.m_rom MemoryManager2.init))
                 0x00000010 MemoryManager2.REGION_MAP with
         | Some (r, _) => [MemoryManager2.IllegalWrite r 0x00000010]
         | None => [MemoryManager2.Unmapped 0x00000010;
                    MemoryManager2.IllegalWrite MemoryManager.invalid 0x00000010]
         end.
Proof.
  apply (second_bus_illegal_write_is_dropped MemoryManager2.init 0x00000010 0x12345 1).
  left. reflexivity.
Defined.

(** X27 ([MemoryManager.read], [0.py] lines 456-464).
    On the second bus of [0.py], [read] never raises, for any
    address, any width (zero and negative included) and any buffer
    contents; it returns a non-negative value, changes no buffer, and
    adds at most one warning.  An unmapped address and an access that runs
    past the end of its region both read as 0. *)
Theorem second_bus_read_never_raises (m : MemoryManager2.t) (a size : Z) :
  exists v ws,
    MemoryManager2.read a size m
    = Ok (v, MemoryManager2.set_warnings (MemoryManager2.warnings m ++ ws) m) /\
    0 <= v /\ (length ws <= 1)%nat /\ (ws <> [] -> v = 0).
Proof.
  unfold MemoryManager2.read, MemoryManager2.map_address, bind, gets.
  cbv beta iota.
  assert (Hid : MemoryManager2.set_warnings (MemoryManager2.warnings m ++ []) m = m)
    by (rewrite app_nil_r; destruct m; reflexivity).
  destruct (MemoryManager2.find_region (len (MemoryManager2.m_rom m)) a
              MemoryManager2.REGION_MAP) as [[r off]|] eqn:E.
  - pose proof (find_region_not_invalid _ _ _ _ E) as Hr.
    destruct (region_of_not_invalid r m Hr) as (b & Hb).
    unfold ret. cbv beta iota.
    destruct (decide (r = MemoryManager.invalid)) as [->|_]; [contradiction|].
    unfold MemoryManager2.getattr. rewrite Hb.
    destruct (off + size <=? len b).
    + exists (from_bytes (getslice b off (off + size))), [].
      rewrite Hid. split; [reflexivity|].
      split; [|split; [cbn; lia|intros H; contradiction]].
      unfold from_bytes.
      pose proof (le_combine_bound (getslice b off (off + size))). lia.
    + exists 0, [MemoryManager2.OutOfBoundsRead r off].
      split; [reflexivity|]. split; [lia|]. split; [cbn; lia|reflexivity].
  - exists 0, [MemoryManager2.Unmapped a].
    split; [reflexivity|]. split; [lia|]. split; [cbn; lia|reflexivity].
Qed.

(** ** [0.py]: the stand-in processors *)

Section Stubs.

(** The program counter of the three-instruction test loop after [n]
    steps from the cartridge base. *)
Lemma stub_step (c : StubCPU.t) (r0 : Z) :
  StubCPU.registers c !! 0%nat = Some r0 ->
  StubCPU.step c
  = Ok (tt, StubCPU.mk (<[0%nat := r0 + 1]> (StubCPU.registers c))
              (if StubCPU.GAMEPAK_ROM_START + 12 <=? StubCPU.pc c + 4
               then StubCPU.GAMEPAK_ROM_START + 4 else StubCPU.pc c + 4)
              (StubCPU.CPSR c) (StubCPU.cycle_count c + 1)).
Proof.
  intros H0. pose proof (lookup_lt_Some _ _ _ H0) as Hlen.
  unfold StubCPU.step, bind, gets, lift, modify.
  rewrite (list_getitem_lookup _ 0 r0) by (first [lia | exact H0]).
  rewrite list_setitem_in_range by (unfold len; lia).
  cbn [StubCPU.pc StubCPU.set_registers StubCPU.set_pc_field StubCPU.set_cycle_count
       StubCPU.registers StubCPU.CPSR StubCPU.cycle_count].
  change (Z.to_nat 0) with 0%nat.
  destruct (StubCPU.GAMEPAK_ROM_START + 12 <=? StubCPU.pc c + 4); reflexivity.
Qed.

(** Where the loop is after [n] steps from the cartridge base. *)
Lemma loop_pc_next (n : nat) :
  let pc := if (n =? 0)%nat then 0x08000000
            else if Nat.odd n then 0x08000004 else 0x08000008 in
  (if 0x08000000 + 12 <=? pc + 4 then 0x08000000 + 4 else pc + 4)
  = (if Nat.odd (Datatypes.S n) then 0x08000004 else 0x08000008).
Proof.
  cbv zeta. rewrite Nat.odd_succ, <- Nat.negb_odd.
  destruct n as [|n]; [reflexivity|].
  change (Datatypes.S n =? 0)%nat with false. cbv iota.
  destruct (Nat.odd (Datatypes.S n)); reflexivity.
Qed.

End Stubs.

(** X28 ([ARM7TDMI.step] of the stand-in, [0.py] lines 19-38).
    The first stand-in processor of [0.py] runs the test loop for
    ever without raising: after [reset] and [n] calls of [step], register
    0 holds [n] (not reduced to 32 bits), the cycle counter has grown by
    [n], the other registers are zero, and the program counter is the
    cartridge base for [n = 0] and otherwise alternates between base + 4
    (odd [n]) and base + 8 (even [n]); it never reaches base + 12 and
    never returns to the base. *)
Theorem stub_cpu_counts_and_loops (c0 : StubCPU.t) (n : nat) :
  exists c,
    (StubCPU.reset ;; StubCPU.steps n) c0 = Ok (tt, c) /\
    StubCPU.registers c = <[0%nat := Z.of_nat n]> (replicate 16 0) /\
    StubCPU.cycle_count c = StubCPU.cycle_count c0 + Z.of_nat n /\
    StubCPU.pc c = (if (n =? 0)%nat then 0x08000000
                    else if Nat.odd n then 0x08000004 else 0x08000008) /\
    StubCPU.CPSR c = 0x1F.
Proof.
  assert (Hrun : forall k c,
            StubCPU.registers c = <[0%nat := Z.of_nat k]> (replicate 16 0) ->
            StubCPU.pc c = (if (k =? 0)%nat then 0x08000000
                            else if Nat.odd k then 0x08000004 else 0x08000008) ->
            StubCPU.CPSR c = 0x1F ->
            forall j, exists c',
              StubCPU.steps j c = Ok (tt, c') /\
              StubCPU.registers c' = <[0%nat := Z.of_nat (k + j)]> (replicate 16 0) /\
              StubCPU.cycle_count c' = StubCPU.cycle_count c + Z.of_nat j /\
              StubCPU.pc c' = (if (k + j =? 0)%nat then 0x08000000
                               else if Nat.odd (k + j) then 0x08000004 else 0x08000008) /\
              StubCPU.CPSR c' = 0x1F).
  { intros k c Hr Hp Hc j. revert k c Hr Hp Hc.
    induction j as [|j IH]; intros k c Hr Hp Hc.
    - exists c. rewrite Nat.add_0_r. split; [reflexivity|].
      split; [exact Hr|]. split; [lia|]. split; [exact Hp|exact Hc].
    - assert (H0 : StubCPU.registers c !! 0%nat = Some (Z.of_nat k))
        by (rewrite Hr; reflexivity).
      cbn [StubCPU.steps]. rewrite (bind_ok _ _ _ _ _ (stub_step c _ H0)).
      destruct (IH (Datatypes.S k)
                  (StubCPU.mk (<[0%nat := Z.of_nat k + 1]> (StubCPU.registers c))
                     (if StubCPU.GAMEPAK_ROM_START + 12 <=? StubCPU.pc c + 4
                      then StubCPU.GAMEPAK_ROM_START + 4 else StubCPU.pc c + 4)
                     (StubCPU.CPSR c) (StubCPU.cycle_count c + 1)))
        as (c' & Hs & Hr' & Hc' & Hp' & Hf').
      + cbn [StubCPU.registers]. rewrite Hr, list_insert_insert_eq.
        f_equal. lia.
      + cbn [StubCPU.pc]. rewrite Hp. unfold StubCPU.GAMEPAK_ROM_START.
        rewrite (loop_pc_next k). reflexivity.
      + exact Hc.
      + exists c'. replace (k + Datatypes.S j)%nat with (Datatypes.S k + j)%nat by lia.
        split; [exact Hs|]. split; [exact Hr'|].
        split; [cbn [StubCPU.cycle_count] in Hc'; lia|]. split; [exact Hp'|exact Hf']. }
  destruct (Hrun 0%nat
              (StubCPU.mk (replicate 16 0) StubCPU.GAMEPAK_ROM_START 0x1F
                 (StubCPU.cycle_count c0)) eq_refl eq_refl eq_refl n)
    as (c & Hs & Hr & Hc & Hp & Hf).
  exists c. split; [exact Hs|]. split; [exact Hr|]. split; [exact Hc|].
  split; [exact Hp|exact Hf].
Qed.

(** ** [flamesgbav2.py]: display status and colour conversion *)

Section Display.
Import Flames.





End Display.


(** X30 ([PPU.get_dispstat], [flamesgbav2.py] lines 434-441).
    [get_dispstat] never raises when the register block has its
    constructed size: it reports vertical blank in bit 0 exactly for the
    scanlines 160..227, never reports horizontal blank (bit 1 is always
    0), reports the scanline match in bit 2, copies bits 3-15 of the
    status register, and stores the scanline index (low byte) in the
    scanline register, changing no other byte. *)
Theorem get_dispstat_flags (g : Flames.GBA) :
  len (Flames.io_regs (Flames.memory g)) = Flames.IO_REG_SIZE ->
  exists lo hi v s,
    Flames.io_regs (Flames.memory g) !! 4%nat = Some lo /\
    Flames.io_regs (Flames.memory g) !! 5%nat = Some hi /\
    Flames.get_dispstat g = Ok (v, s) /\
    Z.testbit v 0
    = (160 <=? Flames.current_scanline (Flames.ppu g))
      && (Flames.current_scanline (Flames.ppu g) <? 228) /\
    Z.testbit v 1 = false /\
    Z.testbit v 2 = (Flames.current_scanline (Flames.ppu g) =? byte.unsigned hi) /\
    (forall i, 3 <= i < 8 -> Z.testbit v i = Z.testbit (byte.unsigned lo) i) /\
    (forall i, 8 <= i < 16 -> Z.testbit v i = Z.testbit (byte.unsigned hi) (i - 8)) /\
    s = Flames.upd_memory
          (Flames.set_region_bytes Flames.Io_regs
             (<[6%nat := byte.of_Z (Z.land (Flames.current_scanline (Flames.ppu g)) 0xFF)]>
                (Flames.io_regs (Flames.memory g)))) g.
Proof.
  intros Hlen. unfold Flames.IO_REG_SIZE in Hlen.
  destruct (io_get_ok g 5) as (hi & Hhi & Hghi); [lia|].
  destruct (io_get_ok g 4) as (lo & Hlo & Hglo); [lia|].
  exists lo, hi.
  pose proof (byte.unsigned_range lo) as Rlo.
  pose proof (byte.unsigned_range hi) as Rhi.
  set (y := Flames.current_scanline (Flames.ppu g)).
  set (vs := Z.lor (Z.shiftl (byte.unsigned hi) 8) (byte.unsigned lo)).
  assert (Hvs : forall i, 0 <= i ->
            Z.testbit vs i
            = if i <? 8 then Z.testbit (byte.unsigned lo) i
              else Z.testbit (byte.unsigned hi) (i - 8)).
  { intros i Hi. unfold vs. rewrite Z.lor_spec, Z.shiftl_spec by lia.
    destruct (i <? 8) eqn:E.
    - rewrite (Z.testbit_neg_r _ (i - 8)) by lia. reflexivity.
    - rewrite (testbit_small (byte.unsigned lo) 8 i) by lia. apply orb_false_r. }
  assert (Hlyc : Z.shiftr vs 8 = byte.unsigned hi).
  { apply Z.bits_inj'. intros i Hi. rewrite Z.shiftr_spec, Hvs by lia.
    replace (i + 8 <? 8) with false by lia. f_equal. lia. }
  eexists _, _. split; [exact Hlo|]. split; [exact Hhi|].
  split.
  { unfold Flames.get_dispstat. cbv zeta.
    change (Flames.DISPSTAT + 1) with 5. change Flames.DISPSTAT with 4.
    rewrite (bind_ok _ _ _ _ _ Hghi), (bind_ok _ _ _ _ _ Hglo).
    unfold bind, gets, lift, modify, ret. cbv beta iota.
    rewrite setitem_in_range by (first [unfold Flames.VCOUNT; lia | apply land_FF_range]).
    reflexivity. }
  fold y vs. rewrite Hlyc.
  set (stat1 := if (160 <=? y) && (y <? 228) then Z.lor 0 1 else 0).
  set (stat2 := if y =? byte.unsigned hi then Z.lor stat1 (Z.shiftl 1 2) else stat1).
  assert (Hstat : forall i, 0 <= i ->
            Z.testbit stat2 i
            = if i =? 0 then (160 <=? y) && (y <? 228)
              else if i =? 2 then y =? byte.unsigned hi else false).
  { intros i Hi. unfold stat2, stat1.
    change (Z.lor 0 1) with (2 ^ 0). change (Z.shiftl 1 2) with (2 ^ 2).
    destruct ((160 <=? y) && (y <? 228)), (y =? byte.unsigned hi);
      rewrite ?Z.lor_spec, ?Z.bits_0, ?Z.pow2_bits_eqb by lia;
      destruct (i =? 0) eqn:E0, (i =? 2) eqn:E2, (0 =? i) eqn:F0, (2 =? i) eqn:F2;
      try reflexivity; lia. }
  assert (Hmask : forall i, 0 <= i ->
            Z.testbit (Z.land vs 0xFFF8) i
            = if (3 <=? i) && (i <? 16) then Z.testbit vs i else false).
  { intros i Hi. rewrite Z.land_spec.
    destruct ((3 <=? i) && (i <? 16)) eqn:E.
    - replace (Z.testbit 0xFFF8 i) with true; [apply andb_true_r|].
      assert (i = 3 \/ i = 4 \/ i = 5 \/ i = 6 \/ i = 7 \/ i = 8 \/ i = 9 \/ i = 10
              \/ i = 11 \/ i = 12 \/ i = 13 \/ i = 14 \/ i = 15) as Hc by lia.
      repeat (destruct Hc as [-> | Hc]; [reflexivity|]). subst i. reflexivity.
    - replace (Z.testbit 0xFFF8 i) with false; [apply andb_false_r|].
      destruct (Z.lt_ge_cases i 3).
      + assert (i = 0 \/ i = 1 \/ i = 2) as [ -> | [ -> | -> ] ] by lia; reflexivity.
      + symmetry. apply (testbit_small 0xFFF8 16 i); lia. }
  repeat split.
  - rewrite Z.lor_spec, Hstat, Hmask by lia. cbn. apply orb_false_r.
  - rewrite Z.lor_spec, Hstat, Hmask by lia. reflexivity.
  - rewrite Z.lor_spec, Hstat, Hmask by lia. cbn. apply orb_false_r.
  - intros i Hi. rewrite Z.lor_spec, Hstat, Hmask, Hvs by lia.
    replace (i =? 0) with false by lia. replace (i =? 2) with false by lia.
    replace ((3 <=? i) && (i <? 16)) with true by lia.
    replace (i <? 8) with true by lia. reflexivity.
  - intros i Hi. rewrite Z.lor_spec, Hstat, Hmask, Hvs by lia.
    replace (i =? 0) with false by lia. replace (i =? 2) with false by lia.
    replace ((3 <=? i) && (i <? 16)) with true by lia.
    replace (i <? 8) with false by lia. reflexivity.
Qed.

Lemma get_dispstat_flags_witness :
  exists lo hi v s,
    Flames.io_regs (Flames.memory Flames.GBA_fields) !! 4%nat = Some lo /\
    Flames.io_regs (Flames.memory Flames.GBA_fields) !! 5%nat = Some hi /\
    Flames.get_dispstat Flames.GBA_fields = Ok (v, s) /\
    Z.testbit v 0
    = (160 <=? Flames.current_scanline (Flames.ppu Flames.GBA_fields))
      && (Flames.current_scanline (Flames.ppu Flames.GBA_fields) <? 228) /\
    Z.testbit v 1 = false /\
    Z.testbit v 2
    = (Flames.current_scanline (Flames.ppu Flames.GBA_fields) =? byte.unsigned hi) /\
    (forall i, 3 <= i < 8 -> Z.testbit v i = Z.testbit (byte.unsigned lo) i) /\
    (forall i, 8 <= i < 16 -> Z.testbit v i = Z.testbit (byte.unsigned hi) (i - 8)) /\
    s = Flames.upd_memory
          (Flames.set_region_bytes Flames.Io_regs
             (<[6%nat := byte.of_Z
                           (Z.land (Flames.current_scanline (Flames.ppu Flames.GBA_fields))
                              0xFF)]>
                (Flames.io_regs (Flames.memory Flames.GBA_fields)))) Flames.GBA_fields.
Proof.
  apply (get_dispstat_flags Flames.GBA_fields).
  apply len_zeros. vm_compute; discriminate.
Defined.
